(** * Report-example scripts: a shallow embedding and its properties

    The repository is a set of Python scripts that turn a pre-loaded pandas
    table [df] into PNG charts, .xlsx workbooks and a PDF report.  This file
    embeds the parts of the scripts the specification talks about:

    - the Python values, exceptions and the file-writing effect ([Py]);
    - the pandas operations the scripts call: column access, [sum],
      [groupby(...).agg('sum')], [sort_values], [iterrows] ([Pandas]);
    - the openpyxl worksheet object model and the styling helpers of
      sales_analysis_excel_report.py and styled_excel_analysis.py;
    - the five report scripts and the test harness.

    Modelling conventions.  A table is what [pd.read_csv] returns: its
    labels are distinct, and a table without rows comes from a file that
    has a header only, so that its columns are object columns.  Python
    numbers (int and float alike) are exact rationals extended with the two
    infinities and NaN.  Sums are exact here, where pandas adds an int64
    column with wrap-around and a float64 column with rounding: what is
    stated about a computed sum is stated for the columns whose additions
    pandas performs exactly ([exact_sum] below).  Standard output is not
    modelled.  Calls into matplotlib, reportlab and openpyxl are modelled
    by their effect on the objects and files the scripts observe and by
    the exceptions the scripts meet there; other validations internal to
    those libraries are not. *)

From Stdlib Require Import QArith Qcanon ZArith Ascii String List.
From stdpp Require Import base tactics option strings list numbers gmap sorting pretty.

Open Scope string_scope.
Open Scope list_scope.
Open Scope Z_scope.

(** * Python: exceptions, results, numbers *)
Module Py.

Inductive exn :=
| KeyError (key : string)
| IndexError
| ValueError
| TypeError
| NameError (name : string)
| AttributeError
| ZeroDivisionError
| FileNotFoundError (path : string).

Inductive result (A : Type) :=
| Ok (a : A)
| Raise (e : exn).
Arguments Ok {A} a.
Arguments Raise {A} e.

#[global] Instance result_ret : MRet result := fun A a => Ok a.
#[global] Instance result_bind : MBind result := fun A B k r =>
  match r with
  | Ok a => k a
  | Raise e => Raise e
  end.

Definition is_ok {A} (r : result A) : bool :=
  match r with Ok _ => true | Raise _ => false end.

(** A loop whose body may raise. *)
Fixpoint foldlM {A B} (f : A → B → result A) (a : A) (l : list B) : result A :=
  match l with
  | [] => Ok a
  | x :: l' => a' ← f a x; foldlM f a' l'
  end.

(** A Python number: an exact rational, an infinity, or NaN. *)
Inductive num :=
| Fin (q : Qc)
| PInf
| NInf
| NaN.

#[global] Instance num_eq_dec : EqDecision num.
Proof. solve_decision. Defined.

(** The sign of a number that is not NaN: -1, 0 or 1. *)
Definition sign (a : num) : Z :=
  match a with
  | Fin q => if decide (q < 0)%Qc then -1 else if decide (q = 0)%Qc then 0 else 1
  | PInf => 1
  | NInf => -1
  | NaN => 0
  end.

Definition signed_inf (s : Z) : num :=
  if decide (s = 0) then NaN else if decide (0 < s) then PInf else NInf.

(** Arithmetic as numpy performs it on float64: no operation raises, a
    division by zero gives an infinity or NaN.  (A zero carries no sign
    here.) *)
Definition num_add (a b : num) : num :=
  match a, b with
  | NaN, _ | _, NaN => NaN
  | Fin x, Fin y => Fin (x + y)
  | PInf, NInf | NInf, PInf => NaN
  | PInf, _ | _, PInf => PInf
  | NInf, _ | _, NInf => NInf
  end.

Definition num_neg (a : num) : num :=
  match a with
  | Fin x => Fin (- x)
  | PInf => NInf
  | NInf => PInf
  | NaN => NaN
  end.

Definition num_sub (a b : num) : num := num_add a (num_neg b).

Definition num_abs (a : num) : num :=
  match a with
  | Fin x => Fin (if decide (x < 0)%Qc then - x else x)
  | PInf | NInf => PInf
  | NaN => NaN
  end.

Definition num_mul (a b : num) : num :=
  match a, b with
  | NaN, _ | _, NaN => NaN
  | Fin x, Fin y => Fin (x * y)
  | _, _ => signed_inf (sign a * sign b)
  end.

Definition num_div (a b : num) : num :=
  match a, b with
  | NaN, _ | _, NaN => NaN
  | Fin x, Fin y =>
      if decide (y = 0)%Qc then signed_inf (sign a) else Fin (x / y)
  | Fin _, _ => Fin 0
  | _, Fin y => signed_inf (sign a * (if decide (y < 0)%Qc then -1 else 1))
  | _, _ => NaN
  end.

(** [a > b] and [a >= b]: false as soon as one side is NaN. *)
Definition num_ltb (a b : num) : bool :=
  match a, b with
  | NaN, _ | _, NaN => false
  | Fin x, Fin y => bool_decide (x < y)%Qc
  | NInf, (Fin _ | PInf) | Fin _, PInf => true
  | _, _ => false
  end.

Definition num_leb (a b : num) : bool :=
  match a, b with
  | NaN, _ | _, NaN => false
  | Fin x, Fin y => bool_decide (x ≤ y)%Qc
  | NInf, _ | _, PInf => true
  | _, _ => false
  end.

Definition num_gtb (a b : num) : bool := num_ltb b a.
Definition num_geb (a b : num) : bool := num_leb b a.

Definition of_nat (n : nat) : num := Fin (Qc_of_Z (Z.of_nat n)).
Definition of_int (z : Z) : num := Fin (Qc_of_Z z).

(** What a table cell or a worksheet cell can hold. *)
Inductive value :=
| VNum (x : num)
| VStr (s : string)
| VDate (t : Z)
| VNone.

#[global] Instance value_eq_dec : EqDecision value.
Proof. solve_decision. Defined.

(** [pd.isna]: NaN, None and NaT. *)
Definition isna (v : value) : bool :=
  match v with
  | VNum NaN | VNone => true
  | _ => false
  end.

(** [isinstance(v, (int, float))] *)
Definition is_number (v : value) : bool :=
  match v with
  | VNum _ => true
  | _ => false
  end.

(** Truth value of an object, as [if v:] tests it. *)
Definition truthy (v : value) : bool :=
  match v with
  | VNum (Fin q) => bool_decide (q ≠ 0%Qc)
  | VNum _ => true
  | VStr s => bool_decide (s ≠ EmptyString)
  | VDate _ => true
  | VNone => false
  end.

(** [needle in s] on strings. *)
Fixpoint contains (needle s : string) : bool :=
  String.prefix needle s ||
  match s with
  | EmptyString => false
  | String _ s' => contains needle s'
  end.

(** ** Files written by a script

    A run threads the list of files written so far, oldest first, and
    ends in a value or in an uncaught exception. *)
Inductive kind := PNG | XLSX | PDF.

Record file := File { file_name : string; file_kind : kind }.

#[global] Instance kind_eq_dec : EqDecision kind.
Proof. solve_decision. Defined.
#[global] Instance file_eq_dec : EqDecision file.
Proof. solve_decision. Defined.

Definition Run (A : Type) : Type := list file → list file * result A.

#[global] Instance run_ret : MRet Run := fun A a fs => (fs, Ok a).
#[global] Instance run_bind : MBind Run := fun A B k m fs =>
  match m fs with
  | (fs', Ok a) => k a fs'
  | (fs', Raise e) => (fs', Raise e)
  end.

Definition lift {A} (r : result A) : Run A := fun fs => (fs, r).

Definition raise {A} (e : exn) : Run A := lift (Raise e).

Definition write (name : string) (k : kind) : Run unit :=
  fun fs => (fs ++ [File name k], Ok ()).

(** Running a script from a directory in which nothing was written yet. *)
Definition written {A} (m : Run A) : list file := fst (m []).
Definition outcome {A} (m : Run A) : result A := snd (m []).
Definition completes {A} (m : Run A) : Prop := is_ok (outcome m) = true.

(** [str.lstrip(chars)] for a single character. *)
Fixpoint lstrip (c : ascii) (s : string) : string :=
  match s with
  | String a s' => if Ascii.eqb a c then lstrip c s' else s
  | EmptyString => s
  end.

(** [s[i:j]] for 0 <= i <= j: clipped at the end of the string. *)
Definition slice (s : string) (i j : nat) : string :=
  String.substring i (j - i) s.

(** The value of one digit in base 16, as [int(_, 16)] reads it. *)
Definition hex_digit (c : ascii) : option Z :=
  match String.index 0 (String c EmptyString) "0123456789abcdef" with
  | Some i => Some (Z.of_nat i)
  | None =>
      match String.index 0 (String c EmptyString) "0123456789ABCDEF" with
      | Some i => Some (Z.of_nat i)
      | None => None
      end
  end.

Fixpoint hex_digits (acc : Z) (s : string) : result Z :=
  match s with
  | EmptyString => Ok acc
  | String c s' =>
      match hex_digit c with
      | Some d => hex_digits (16 * acc + d) s'
      | None => Raise ValueError
      end
  end.

(** [int(s, 16)] on a string of hexadecimal digits; the empty string and
    any other character raise [ValueError].  (Python also accepts a sign,
    surrounding white space, a [0x] prefix and single underscores; such
    strings are outside the model and are not used below.) *)
Definition int16 (s : string) : result Z :=
  match s with
  | EmptyString => Raise ValueError
  | _ => hex_digits 0 s
  end.

End Py.

Export Py.

(** * Library behaviour kept as a parameter

    What the scripts obtain from pandas, Python and the [re] module and what
    cannot be read off their own text: how a cell is parsed as a date, how a
    number prints, how a number is formatted by a format specification, and
    which size the pattern [-(\d+[RSL]?)$] extracts from a SKU, and the date
    of the run as the scripts print it. *)
Record Library := {
  to_timestamp : value → option Z;
  str_of : value → string;
  format_num : string → num → string;
  extract_size : string → option string;
  today : string;
}.

(** [str(v)]: a string is its own text. *)
Definition py_str (L : Library) (v : value) : string :=
  match v with
  | VStr s => s
  | _ => str_of L v
  end.

(** [format(v, spec)] inside an f-string. *)
Definition py_format (L : Library) (spec : string) (v : value) : string :=
  match v with
  | VNum x => format_num L spec x
  | _ => py_str L v
  end.

(** * pandas: the operations the scripts call *)
Module Pandas.

(** A table: column labels and rows of cells, one cell per label. *)
Record DataFrame := Frame { columns : list string; rows : list (list value) }.

(** [len(df)] *)
Definition len (df : DataFrame) : nat := length (rows df).

Definition col_index (df : DataFrame) (name : string) : result nat :=
  match list_find (λ c, c = name) (columns df) with
  | Some (i, _) => Ok i
  | None => Raise (KeyError name)
  end.

(** [name in df.columns] *)
Definition has_column (df : DataFrame) (name : string) : bool :=
  bool_decide (name ∈ columns df).

Definition cell (r : list value) (i : nat) : value := default VNone (r !! i).

(** [df[name]]: [KeyError] when there is no such column. *)
Definition column (df : DataFrame) (name : string) : result (list value) :=
  i ← col_index df name;
  Ok ((λ r, cell r i) <$> rows df).

(** [row[name]] for a row handed out by [df.iterrows()]. *)
Definition row_get (df : DataFrame) (r : list value) (name : string) : result value :=
  i ← col_index df name;
  Ok (cell r i).

(** [df[name] = vals]: replaces the column, or appends it. *)
Definition set_column (df : DataFrame) (name : string) (vals : list value) : DataFrame :=
  match col_index df name with
  | Ok i => Frame (columns df) (zip_with (λ r v, <[i:=v]> r) (rows df) vals)
  | Raise _ => Frame (columns df ++ [name]) (zip_with (λ r v, r ++ [v]) (rows df) vals)
  end.

(** [df[names]] *)
Definition select (df : DataFrame) (names : list string) : result DataFrame :=
  idx ← mapM (col_index df) names;
  Ok (Frame names ((λ r, cell r <$> idx) <$> rows df)).

(** [df.columns = names] *)
Definition rename (df : DataFrame) (names : list string) : result DataFrame :=
  if decide (length names = length (columns df))
  then Ok (Frame names (rows df))
  else Raise ValueError.

(** [df.head(n)] *)
Definition head (n : nat) (df : DataFrame) : DataFrame :=
  Frame (columns df) (take n (rows df)).

(** A numeric column.  A cell that is not a number makes every
    arithmetic use of the column fail; the failure is placed at the first
    such use. *)
Definition as_num (v : value) : result num :=
  match v with
  | VNum x => Ok x
  | _ => Raise TypeError
  end.

Definition numeric (df : DataFrame) (name : string) : result (list num) :=
  c ← column df name;
  mapM as_num c.

(** [Series.sum()]: NaN cells are skipped, the empty sum is 0.  The cells
    are added exactly: this is the sum pandas returns when its additions
    neither wrap around (int64) nor round (float64). *)
Definition nan_add (acc x : num) : num :=
  match x with
  | NaN => acc
  | _ => num_add acc x
  end.

Definition nansum (l : list num) : num := foldl nan_add (Fin 0) l.

(** [a / b] on two sums of columns of a table derived from [df].  The
    columns of a table without rows are object columns, their sums are the
    Python int 0, and [0 / 0] raises; the sums of other columns are numpy
    numbers, whose division gives an infinity or NaN instead. *)
Definition sum_div (df : DataFrame) (a b : num) : result num :=
  if bool_decide (rows df = []) then Raise ZeroDivisionError else Ok (num_div a b).

(** [Series.count()] and [Series.mean()]: the mean of no value is NaN. *)
Definition count (l : list num) : nat := length (filter (λ x, x ≠ NaN) l).

Definition mean (l : list num) : num := num_div (nansum l) (of_nat (count l)).

(** [Series.idxmax()] on the default index: the first position of the
    largest value, NaN skipped; [ValueError] when there is none. *)
Fixpoint idxmax_from (i : nat) (best : option (nat * num)) (l : list num) : option (nat * num) :=
  match l with
  | [] => best
  | x :: l' =>
      let best' :=
        match x, best with
        | NaN, _ => best
        | _, None => Some (i, x)
        | _, Some (_, b) => if num_ltb b x then Some (i, x) else best
        end in
      idxmax_from (S i) best' l'
  end.

Definition idxmax (l : list num) : result nat :=
  match idxmax_from 0 None l with
  | Some (i, _) => Ok i
  | None => Raise ValueError
  end.

(** [s.iloc[i]] *)
Definition iloc {A} (l : list A) (i : nat) : result A :=
  match l !! i with
  | Some a => Ok a
  | None => Raise IndexError
  end.

(** [s.iloc[-1]] *)
Definition iloc_last {A} (l : list A) : result A :=
  match last l with
  | Some a => Ok a
  | None => Raise IndexError
  end.

(** [pd.to_datetime] on one cell: missing cells become NaT, a cell that
    does not parse raises. *)
Definition to_datetime (L : Library) (v : value) : result value :=
  match v with
  | VDate t => Ok (VDate t)
  | VNone | VNum NaN => Ok VNone
  | _ =>
      match to_timestamp L v with
      | Some t => Ok (VDate t)
      | None => Raise ValueError
      end
  end.

(** [df[name] = pd.to_datetime(df[name])] *)
Definition convert_dates (L : Library) (df : DataFrame) (name : string) : result DataFrame :=
  c ← column df name;
  d ← mapM (to_datetime L) c;
  Ok (set_column df name d).

(** ** [df.groupby(by).agg({m: 'sum', ...}).reset_index()]

    Rows whose key is missing are dropped; every measure is summed on its
    own in one pass over the rows; the groups come out in key order. *)
Section groupby.
Context `{Countable K}.
Variable key_of : value → option K.
Variable key_val : K → value.
Variable key_le : relation K.
Context `{∀ x y, Decision (key_le x y)}.

Definition group_step (acc : gmap K num) (kx : option K * num) : gmap K num :=
  match kx.1 with
  | Some k => <[k := nan_add (default (Fin 0) (acc !! k)) kx.2]> acc
  | None => acc
  end.

Definition group_sums (keys : list (option K)) (xs : list num) : gmap K num :=
  foldl group_step ∅ (zip keys xs).

Definition group_keys (keys : list (option K)) : list K :=
  merge_sort key_le (remove_dups (omap id keys)).

Definition groupby_sum (df : DataFrame) (key : string) (measures : list string)
  : result DataFrame :=
  kcol ← column df key;
  _ ← mapM (col_index df) measures;
  cols ← mapM (numeric df) measures;
  let keys := key_of <$> kcol in
  let sums := group_sums keys <$> cols in
  Ok (Frame (key :: measures)
        ((λ k, key_val k :: ((λ m : gmap K num, VNum (default (Fin 0) (m !! k))) <$> sums))
           <$> group_keys keys)).
End groupby.

Definition date_key (v : value) : option Z :=
  match v with VDate t => Some t | _ => None end.

Definition str_key (v : value) : option string :=
  match v with VStr s => Some s | _ => None end.

Definition str_le (a b : string) : Prop := String.leb a b = true.

#[global] Instance str_le_dec a b : Decision (str_le a b).
Proof. unfold str_le. apply _. Defined.

(** Grouping by a date column and by a column of labels. *)
Definition groupby_date := groupby_sum date_key VDate Z.le.
Definition groupby_label := groupby_sum str_key VStr str_le.

(** ** [df.sort_values(by, ascending=False)]

    Larger keys come first and NaN keys come last. *)
Definition before_desc (a b : num) : bool :=
  match a, b with
  | _, NaN => true
  | NaN, _ => false
  | _, _ => num_leb b a
  end.

Definition keyed_before (p q : num * list value) : Prop := before_desc p.1 q.1 = true.

#[global] Instance keyed_before_dec p q : Decision (keyed_before p q).
Proof. unfold keyed_before. apply _. Defined.

Definition sort_values_desc (df : DataFrame) (key : string) : result DataFrame :=
  keys ← numeric df key;
  Ok (Frame (columns df) ((merge_sort keyed_before (zip keys (rows df))).*2)).

End Pandas.

(** * openpyxl: cells, styles, worksheets *)
Module Openpyxl.

Record Font := { bold : bool; italic : bool; font_color : string; size : Z }.

Record Alignment := {
  horizontal : option string;
  vertical : option string;
  wrap_text : bool;
}.

Record PatternFill := { start_color : string; end_color : string; fill_type : string }.

Record Side := { side_style : string; side_color : string }.

Record Border := { left : Side; right : Side; top : Side; bottom : Side }.

Definition solid (color : string) : PatternFill :=
  {| start_color := color; end_color := color; fill_type := "solid" |}.

Definition thin_border (color : string) : Border :=
  let s := {| side_style := "thin"; side_color := color |} in
  {| left := s; right := s; top := s; bottom := s |}.

Record Cell := {
  value : value;
  fill : option PatternFill;
  font : option Font;
  alignment : option Alignment;
  border : option Border;
  number_format : string;
}.

(** A cell as [ws.cell(row, column)] creates it. *)
Definition blank : Cell :=
  {| value := VNone; fill := None; font := None; alignment := None;
     border := None; number_format := "General" |}.

Definition set_value (v : Py.value) (c : Cell) : Cell :=
  {| value := v; fill := fill c; font := font c; alignment := alignment c;
     border := border c; number_format := number_format c |}.
Definition set_fill (f : PatternFill) (c : Cell) : Cell :=
  {| value := value c; fill := Some f; font := font c; alignment := alignment c;
     border := border c; number_format := number_format c |}.
Definition set_font (f : Font) (c : Cell) : Cell :=
  {| value := value c; fill := fill c; font := Some f; alignment := alignment c;
     border := border c; number_format := number_format c |}.
Definition set_alignment (a : Alignment) (c : Cell) : Cell :=
  {| value := value c; fill := fill c; font := font c; alignment := Some a;
     border := border c; number_format := number_format c |}.
Definition set_border (b : Border) (c : Cell) : Cell :=
  {| value := value c; fill := fill c; font := font c; alignment := alignment c;
     border := Some b; number_format := number_format c |}.
Definition set_number_format (f : string) (c : Cell) : Cell :=
  {| value := value c; fill := fill c; font := font c; alignment := alignment c;
     border := border c; number_format := f |}.

(** [Reference(ws, min_col=c, min_row=r1, max_row=r2)] *)
Record Reference := { min_col : nat; min_row : nat; max_row_ref : nat }.

Inductive chart_kind := BarChart | LineChart.

Record Series := {
  data : Reference;
  solidFill : option string;
  line_solidFill : option string;
  line_width : option Z;
  tx : option string;
}.

Record Chart := {
  kind_of_chart : chart_kind;
  chart_title : string;
  y_axis_title : string;
  series : list Series;
  categories : option Reference;
  chart_width : Z;
  chart_height : Z;
  legend : bool;
}.

(** A worksheet.  Column dimensions are keyed by the column number, which
    stands for its letter ([get_column_letter]). *)
Record Worksheet := {
  title : string;
  cells : gmap (nat * nat) Cell;
  merged_cells : list (nat * nat * nat * nat);
  row_height : gmap nat Z;
  column_width : gmap nat Z;
  column_hidden : gset nat;
  charts : list (Chart * string);
}.

Definition new_sheet (title : string) : Worksheet :=
  {| title := title; cells := ∅; merged_cells := []; row_height := ∅;
     column_width := ∅; column_hidden := ∅; charts := [] |}.

Definition with_cells (ws : Worksheet) (m : gmap (nat * nat) Cell) : Worksheet :=
  {| title := title ws; cells := m; merged_cells := merged_cells ws;
     row_height := row_height ws; column_width := column_width ws;
     column_hidden := column_hidden ws; charts := charts ws |}.

Definition cell_at (ws : Worksheet) (r c : nat) : Cell :=
  default blank (cells ws !! (r, c)).

(** [ws.cell(row=r, column=c)] followed by an update of the cell; the
    cell is created when the sheet does not have it yet. *)
Definition update (r c : nat) (f : Cell → Cell) (ws : Worksheet) : Worksheet :=
  with_cells ws (<[(r, c) := f (cell_at ws r c)]> (cells ws)).

Definition touch (r c : nat) (ws : Worksheet) : Worksheet := update r c id ws.

(** [ws.cell(row=r, column=c, value=v)]: [None] leaves the value alone. *)
Definition cell_value (r c : nat) (v : Py.value) (ws : Worksheet) : Worksheet :=
  match v with
  | VNone => touch r c ws
  | _ => update r c (set_value v) ws
  end.

(** [ws.max_row] and [ws.max_column]: 1 on a sheet without cells. *)
Definition max_row (ws : Worksheet) : nat :=
  map_fold (λ (k : nat * nat) (_ : Cell) acc, Nat.max k.1 acc) 1%nat (cells ws).
Definition max_column (ws : Worksheet) : nat :=
  map_fold (λ (k : nat * nat) (_ : Cell) acc, Nat.max k.2 acc) 1%nat (cells ws).

(** [ws.merge_cells(start_row, start_column, end_row, end_column)]: the
    range is recorded and every cell of it but the top left one becomes
    an empty placeholder (whose style is not modelled). *)
Definition merge_cells (r1 c1 r2 c2 : nat) (ws : Worksheet) : Worksheet :=
  let range :=
    filter (λ rc, rc ≠ (r1, c1))
      (r ← seq r1 (S r2 - r1); (λ c, (r, c)) <$> seq c1 (S c2 - c1)) in
  let ws := foldl (λ ws rc, update rc.1 rc.2 (set_value VNone) ws) ws range in
  {| title := title ws; cells := cells ws;
     merged_cells := merged_cells ws ++ [(r1, c1, r2, c2)];
     row_height := row_height ws; column_width := column_width ws;
     column_hidden := column_hidden ws; charts := charts ws |}.

(** The cells that a merged range covers besides its first one: openpyxl
    keeps a read-only placeholder there ([MergedCell]); a statement that
    stores a value in one, or reads its [column_letter], stops with
    [AttributeError]. *)
Definition in_range (rg : nat * nat * nat * nat) (r c : nat) : bool :=
  let '(r1, c1, r2, c2) := rg in
  (r1 <=? r)%nat && (r <=? r2)%nat && (c1 <=? c)%nat && (c <=? c2)%nat.

Definition is_placeholder (ws : Worksheet) (r c : nat) : bool :=
  existsb (λ rg : nat * nat * nat * nat,
             in_range rg r c && negb (bool_decide ((r, c) = (rg.1.1.1, rg.1.1.2))))
    (merged_cells ws).

(** No cell of the rows [r1] to [r2] and the columns 1 to [c2] is such a
    placeholder. *)
Definition writable (ws : Worksheet) (r1 r2 c2 : nat) : Prop :=
  ∀ r c, (r1 ≤ r ≤ r2)%nat → (1 ≤ c ≤ c2)%nat → is_placeholder ws r c = false.

Definition set_row_height (r : nat) (h : Z) (ws : Worksheet) : Worksheet :=
  {| title := title ws; cells := cells ws; merged_cells := merged_cells ws;
     row_height := <[r := h]> (row_height ws); column_width := column_width ws;
     column_hidden := column_hidden ws; charts := charts ws |}.

Definition set_column_width (c : nat) (w : Z) (ws : Worksheet) : Worksheet :=
  {| title := title ws; cells := cells ws; merged_cells := merged_cells ws;
     row_height := row_height ws; column_width := <[c := w]> (column_width ws);
     column_hidden := column_hidden ws; charts := charts ws |}.

Definition hide_column (c : nat) (ws : Worksheet) : Worksheet :=
  {| title := title ws; cells := cells ws; merged_cells := merged_cells ws;
     row_height := row_height ws; column_width := column_width ws;
     column_hidden := {[c]} ∪ column_hidden ws; charts := charts ws |}.

(** [ws.add_chart(chart, anchor)] *)
Definition add_chart (ch : Chart) (anchor : string) (ws : Worksheet) : Worksheet :=
  {| title := title ws; cells := cells ws; merged_cells := merged_cells ws;
     row_height := row_height ws; column_width := column_width ws;
     column_hidden := column_hidden ws; charts := charts ws ++ [(ch, anchor)] |}.

(** [enumerate(l, start=n)] *)
Definition enumerate {A} (start : nat) (l : list A) : list (nat * A) :=
  zip (seq start (length l)) l.

(** ** The styling helpers

    Both workbook scripts carry the same helpers, over their own colour
    constants. *)
Record Theme := {
  header_fill : PatternFill;
  header_font : Font;
  header_alignment : Alignment;
  data_fill : PatternFill;
  data_font : Font;
  alt_fill : PatternFill;
  beige_border : Border;
}.

Section helpers.
Variable T : Theme.
Variable L : Library.

(** [style_cell(cell, is_header, is_alt_row, is_number, fmt)] *)
Definition style_cell (is_header is_alt_row is_number : bool) (fmt : option string)
    (cell : Cell) : Cell :=
  let cell :=
    if is_header then
      set_alignment (header_alignment T)
        (set_font (header_font T) (set_fill (header_fill T) cell))
    else
      set_alignment
        {| horizontal := Some (if is_number then "right" else "left");
           vertical := Some "center"; wrap_text := false |}
        (set_font (data_font T)
           (set_fill (if is_alt_row then alt_fill T else data_fill T) cell)) in
  let cell := set_border (beige_border T) cell in
  match fmt with
  | Some f => if bool_decide (f ≠ EmptyString) then set_number_format f cell else cell
  | None => cell
  end.

(** One column of [auto_fit_columns]: the longest printed value of the
    column, plus 2, clamped by [min_width] and then by [max_width]. *)
Definition measure (col_idx : nat) (acc : Worksheet * Z) (row_idx : nat) : Worksheet * Z :=
  let ws := touch row_idx col_idx acc.1 in
  let v := value (cell_at ws row_idx col_idx) in
  (ws, if truthy v then Z.max acc.2 (Z.of_nat (String.length (py_str L v))) else acc.2).

Definition fit_column (min_width max_width : Z) (ws : Worksheet) (col_idx : nat) : Worksheet :=
  let '(ws, max_length) := foldl (measure col_idx) (ws, 0) (seq 1 (max_row ws)) in
  let adjusted_width := Z.min (Z.max (max_length + 2) min_width) max_width in
  set_column_width col_idx adjusted_width ws.

(** [auto_fit_columns(ws, min_width, max_width)] *)
Definition auto_fit_columns (min_width max_width : Z) (ws : Worksheet) : Worksheet :=
  foldl (fit_column min_width max_width) ws (seq 1 (max_column ws)).
End helpers.

End Openpyxl.

(** * sales_analysis_excel_report.py *)
Module SalesReport.
Import Pandas Openpyxl.

Definition MAROON := "800000".
Definition BEIGE := "F5F5DC".
Definition LIGHT_MAROON := "A52A2A".
Definition DARK_MAROON := "4A0000".
Definition DARK_BEIGE := "D4C4A8".
Definition COMMENT_BG := "2F1515".

Definition theme : Theme := {|
  header_fill := solid DARK_MAROON;
  header_font := {| bold := true; italic := false; font_color := BEIGE; size := 12 |};
  header_alignment :=
    {| horizontal := Some "center"; vertical := Some "center"; wrap_text := true |};
  data_fill := solid MAROON;
  data_font := {| bold := false; italic := false; font_color := BEIGE; size := 10 |};
  alt_fill := solid LIGHT_MAROON;
  beige_border := thin_border DARK_BEIGE;
|}.

Definition data_font_bold : Font :=
  {| bold := true; italic := false; font_color := BEIGE; size := 10 |}.
Definition title_fill := solid MAROON.
Definition title_font : Font :=
  {| bold := true; italic := false; font_color := BEIGE; size := 18 |}.
Definition subtitle_font : Font :=
  {| bold := true; italic := false; font_color := BEIGE; size := 14 |}.
Definition comment_fill := solid COMMENT_BG.
Definition comment_font : Font :=
  {| bold := false; italic := true; font_color := BEIGE; size := 11 |}.

Definition dquote : string := String (ascii_of_nat 34) EmptyString.

Definition currency_format : string :=
  "_($* #,##0.00_);_($* (#,##0.00);_($* " +:+ dquote +:+ "-" +:+ dquote +:+ "??_);_(@_)".
Definition number_format := "#,##0".
Definition decimal_format := "#,##0.00".

Definition style_cell := Openpyxl.style_cell theme.

(** [fill_background(ws, rows, cols)] *)
Definition fill_background (rows cols : nat) (ws : Worksheet) : Worksheet :=
  foldl (λ ws row,
           foldl (λ ws col, update row col (set_fill (data_fill theme)) ws)
             ws (seq 1 (cols - 1)))
    ws (seq 1 (rows - 1)).

(** [add_title(ws, title, row, cols)] *)
Definition add_title (title : string) (row cols : nat) (ws : Worksheet) : Worksheet :=
  let ws := update row 1 (set_value (VStr title)) ws in
  let ws := update row 1 (set_fill title_fill) ws in
  let ws := update row 1 (set_font title_font) ws in
  let ws := merge_cells row 1 row cols ws in
  set_row_height row 30 ws.

(** [add_subtitle(ws, text, row, cols)] *)
Definition add_subtitle (text : string) (row cols : nat) (ws : Worksheet) : Worksheet :=
  let ws := update row 1 (set_value (VStr text)) ws in
  let ws := update row 1 (set_fill (data_fill theme)) ws in
  let ws := update row 1 (set_font subtitle_font) ws in
  merge_cells row 1 row cols ws.

(** [add_commentary(ws, text, start_row, cols)] *)
Definition add_commentary (text : string) (start_row cols : nat) (ws : Worksheet) : Worksheet :=
  let ws := update start_row 1 (set_value (VStr text)) ws in
  let ws := update start_row 1 (set_fill comment_fill) ws in
  let ws := update start_row 1 (set_font comment_font) ws in
  let ws :=
    update start_row 1
      (set_alignment {| horizontal := None; vertical := Some "top"; wrap_text := true |}) ws in
  let ws := merge_cells start_row 1 (start_row + 1) cols ws in
  let ws := set_row_height start_row 45 ws in
  set_row_height (start_row + 1) 30 ws.

(** [auto_fit_columns(ws, min_width=10, max_width=25)] *)
Definition auto_fit_columns (L : Library) (min_width max_width : Z) : Worksheet → Worksheet :=
  Openpyxl.auto_fit_columns L min_width max_width.

(** [create_bar_chart(title, y_title, data_ref, cats_ref, width=14, height=10)] *)
Definition create_bar_chart (title y_title : string) (data_ref cats_ref : Reference)
    (width height : Z) : Chart :=
  {| kind_of_chart := BarChart; chart_title := title; y_axis_title := y_title;
     series :=
       [ {| data := data_ref; solidFill := Some BEIGE; line_solidFill := None;
            line_width := None; tx := None |} ];
     categories := Some cats_ref; chart_width := width; chart_height := height;
     legend := false |}.

(** [create_line_chart(title, y_title, data_refs, cats_ref, series_names,
    width=14, height=10)] *)
Definition create_line_chart (title y_title : string) (data_refs : list Reference)
    (cats_ref : Reference) (series_names : option (list string)) (width height : Z) : Chart :=
  let colors := [BEIGE; "FFD700"; "CD853F"] in
  {| kind_of_chart := LineChart; chart_title := title; y_axis_title := y_title;
     series :=
       (λ ir : nat * Reference,
          {| data := ir.2; solidFill := None;
             line_solidFill := colors !! (ir.1 mod 3)%nat;
             line_width := Some 25000;
             tx := names ← series_names; names !! ir.1 |})
         <$> enumerate 0 data_refs;
     categories := Some cats_ref; chart_width := width; chart_height := height;
     legend := true |}.

(** The number format chosen for a numeric cell of a data table. *)
Definition format_for (col_name : string) : string :=
  if contains "Price" col_name || contains "Sales" col_name then currency_format
  else if contains "Units" col_name then number_format
  else decimal_format.

(** [isinstance(value, (int, float))] on a value that [df.iterrows()]
    handed out.  The rows of a table whose columns are all int64 columns
    hold numpy.int64 values, which are neither [int] nor [float]; the rows
    of any other table hold Python numbers and numpy.float64 values, which
    are.  A cell of this model does not tell 5 from 5.0, so that the kind
    of the table is an argument of the writer here, [int64_frame]. *)
Definition isinstance_number (int64_frame : bool) (v : Py.value) : bool :=
  if int64_frame then false else is_number v.

Section writer.
Variable int64_frame : bool.

(** The body of the inner loop of [write_data_table], on the cell it got
    from [ws.cell(row=row_idx, column=col_idx)]. *)
Definition write_data_cell_of (row_idx : nat) (col_name : string) (v : Py.value) (cell : Cell)
    : Cell :=
  if isna v then set_value (VStr EmptyString) cell
  else if isinstance_number int64_frame v then
    style_cell false (Nat.even row_idx) true (Some (format_for col_name)) (set_value v cell)
  else
    style_cell false (Nat.even row_idx) false None (set_value v cell).

Definition write_data_row_of (df : DataFrame) (columns : list string) (ws : Worksheet)
    (ir : nat * list Py.value) : result Worksheet :=
  foldlM (λ ws (ic : nat * string),
            v ← row_get df ir.2 ic.2;
            Ok (update ir.1 ic.1 (write_data_cell_of ir.1 ic.2 v) ws))
    ws (enumerate 1 columns).

(** [write_data_table(ws, df, start_row, columns=None)]: the sheet and the
    returned row number. *)
Definition write_data_table_of (ws : Worksheet) (df : DataFrame) (start_row : nat)
    (columns : option (list string)) : result (Worksheet * nat) :=
  let columns := default (Pandas.columns df) columns in
  let ws :=
    foldl (λ ws (ic : nat * string),
             update start_row ic.1 (style_cell true false false None)
               (cell_value start_row ic.1 (VStr ic.2) ws))
      ws (enumerate 1 columns) in
  ws ← foldlM (write_data_row_of df columns) ws (enumerate (start_row + 1) (rows df));
  Ok (ws, (start_row + len df + 1)%nat).
End writer.

(** The writer on a table with a column that is not an int64 column, as
    every table the report writes is: each has the texts of 'Size'. *)
Definition write_data_cell := write_data_cell_of false.
Definition write_data_row := write_data_row_of false.
Definition write_data_table := write_data_table_of false.

(** ** The report *)

(** [s[-3:]] *)
Definition last3 (s : string) : string :=
  String.substring (String.length s - 3) 3 s.

(** The [.str] accessor exists on columns of objects only. *)
Definition str_accessor (c : list Py.value) : result (list Py.value) :=
  if bool_decide (c ≠ []) &&
     (forallb is_number c || forallb (λ v, bool_decide (is_Some (date_key v))) c)
  then Raise AttributeError
  else Ok c.

(** [df['SKU'].str.extract(r'-(\d+[RSL]?)$')[0].fillna(df['SKU'].str[-3:])]
    on one cell. *)
Definition size_of (L : Library) (sku : Py.value) : Py.value :=
  match sku with
  | VStr s => VStr (default (last3 s) (extract_size L s))
  | _ => VNum NaN
  end.

Definition add_size (L : Library) (df : DataFrame) : result DataFrame :=
  sku ← column df "SKU";
  sku ← str_accessor sku;
  Ok (set_column df "Size" (size_of L <$> sku)).

Record Metrics := {
  total_7d_units : num; total_7d_sales : num; total_7d_net : num;
  total_30d_units : num; total_30d_sales : num; total_30d_net : num;
  total_90d_units : num; total_90d_sales : num; total_90d_net : num;
  avg_7d_price : num; avg_30d_price : num; avg_90d_price : num;
}.

Definition key_metrics (df : DataFrame) : result Metrics :=
  u7 ← numeric df "7D Units";
  s7 ← numeric df "7D Sales";
  n7 ← numeric df "7D Net Sales";
  u30 ← numeric df "30D Units";
  s30 ← numeric df "30D Sales";
  n30 ← numeric df "30D Net Sales";
  u90 ← numeric df "90D Units";
  s90 ← numeric df "90D Sales";
  n90 ← numeric df "90D Net Sales";
  p7 ← numeric df "7D Avg Price";
  p30 ← numeric df "30D Avg Price";
  p90 ← numeric df "90D Avg Price";
  Ok {| total_7d_units := nansum u7; total_7d_sales := nansum s7;
        total_7d_net := nansum n7;
        total_30d_units := nansum u30; total_30d_sales := nansum s30;
        total_30d_net := nansum n30;
        total_90d_units := nansum u90; total_90d_sales := nansum s90;
        total_90d_net := nansum n90;
        avg_7d_price := mean p7; avg_30d_price := mean p30; avg_90d_price := mean p90 |}.

(** [df.loc[df[units].idxmax(), 'Size'] if total > 0 else 'N/A'] *)
Definition top_seller (df : DataFrame) (units : string) (total : num) : result Py.value :=
  if num_gtb total (of_int 0) then
    u ← numeric df units;
    i ← idxmax u;
    sizes ← column df "Size";
    iloc sizes i
  else Ok (VStr "N/A").

(** [df[name].iloc[0] if name in df.columns else fallback] *)
Definition first_or (df : DataFrame) (name fallback : string) : result Py.value :=
  if has_column df name then
    c ← column df name;
    iloc c 0
  else Ok (VStr fallback).

(** The guarded ratios of the commentary. *)
Definition growth_7_to_30 (m : Metrics) : num :=
  if num_gtb (total_7d_units m) (of_int 0) then
    num_mul
      (num_sub
         (num_div
            (num_mul (num_div (total_30d_units m) (total_7d_units m)) (of_int 30))
            (of_int 7))
         (of_int 1))
      (of_int 100)
  else of_int 0.

Definition margin_pct (m : Metrics) : num :=
  if num_gtb (total_90d_sales m) (of_int 0) then
    num_mul (num_div (total_90d_net m) (total_90d_sales m)) (of_int 100)
  else of_int 0.

Definition weekly_rate (m : Metrics) : num :=
  if num_gtb (total_90d_sales m) (of_int 0) then
    num_div (total_90d_sales m) (of_int 13)
  else of_int 0.

Definition velocity_change (m : Metrics) : num :=
  if num_gtb (weekly_rate m) (of_int 0) then
    num_mul (num_sub (num_div (total_7d_sales m) (weekly_rate m)) (of_int 1)) (of_int 100)
  else of_int 0.

Definition ref (col r1 r2 : nat) : Reference :=
  {| min_col := col; min_row := r1; max_row_ref := r2 |}.

(** Sheet 1: Summary *)
Definition summary_sheet (L : Library) (df : DataFrame) (m : Metrics)
    (top_seller_7d top_seller_30d top_seller_90d category color : Py.value) : Worksheet :=
  let ws := new_sheet "Summary" in
  let ws := fill_background 55 12 ws in
  let ws := add_title "SALES ANALYSIS SUMMARY" 1 8 ws in
  let ws := cell_value 2 1 (VStr ("Generated: " +:+ today L)) ws in
  let ws :=
    update 2 1
      (set_font {| bold := false; italic := true; font_color := BEIGE; size := 10 |}) ws in
  let ws := add_subtitle (py_str L category +:+ " - " +:+ py_str L color) 4 8 ws in
  let metrics_row := 6%nat in
  let ws :=
    update metrics_row 1 (set_font data_font_bold)
      (cell_value metrics_row 1 (VStr "KEY METRICS") ws) in
  let headers := ["Period"; "Units Sold"; "Gross Sales"; "Net Sales"; "Avg Price"; "Top Size"] in
  let ws :=
    foldl (λ ws (ch : nat * string),
             update (metrics_row + 1) ch.1 (style_cell true false false None)
               (cell_value (metrics_row + 1) ch.1 (VStr ch.2) ws))
      ws (enumerate 1 headers) in
  let metrics_data :=
    [ [VStr "7 Days"; VNum (total_7d_units m); VNum (total_7d_sales m);
       VNum (total_7d_net m); VNum (avg_7d_price m); top_seller_7d];
      [VStr "30 Days"; VNum (total_30d_units m); VNum (total_30d_sales m);
       VNum (total_30d_net m); VNum (avg_30d_price m); top_seller_30d];
      [VStr "90 Days"; VNum (total_90d_units m); VNum (total_90d_sales m);
       VNum (total_90d_net m); VNum (avg_90d_price m); top_seller_90d] ] in
  let ws :=
    foldl (λ ws (rd : nat * list Py.value),
             foldl (λ ws (cv : nat * Py.value),
                      let is_num := bool_decide (cv.1 ∈ [2; 3; 4; 5]%nat) in
                      let fmt :=
                        if bool_decide (cv.1 ∈ [3; 4; 5]%nat) then Some currency_format
                        else if bool_decide (cv.1 = 2%nat) then Some number_format
                        else None in
                      update rd.1 cv.1 (style_cell false (Nat.even rd.1) is_num fmt)
                        (cell_value rd.1 cv.1 cv.2 ws))
               ws (enumerate 1 rd.2))
      ws (enumerate (metrics_row + 2) metrics_data) in
  let chart_row := 15%nat in
  let chart_data :=
    [ (VStr "7 Days", total_7d_units m, total_7d_sales m, total_7d_net m);
      (VStr "30 Days", total_30d_units m, total_30d_sales m, total_30d_net m);
      (VStr "90 Days", total_90d_units m, total_90d_sales m, total_90d_net m) ] in
  let ws :=
    foldl (λ ws (ip : nat * (Py.value * num * num * num)),
             let '(period, unit, sale, net) := ip.2 in
             cell_value (chart_row + ip.1) 13 (VNum net)
               (cell_value (chart_row + ip.1) 12 (VNum sale)
                  (cell_value (chart_row + ip.1) 11 (VNum unit)
                     (cell_value (chart_row + ip.1) 10 period ws))))
      ws (enumerate 0 chart_data) in
  let cats_ref := ref 10 chart_row (chart_row + 2) in
  let data_ref := ref 11 chart_row (chart_row + 2) in
  let ws :=
    add_chart (create_bar_chart "Total Units by Period" "Units" data_ref cats_ref 14 10)
      "A13" ws in
  let data_ref1 := ref 12 chart_row (chart_row + 2) in
  let data_ref2 := ref 13 chart_row (chart_row + 2) in
  let ws :=
    add_chart
      (create_line_chart "Sales Trend by Period" "Sales ($)" [data_ref1; data_ref2] cats_ref
         (Some ["Gross Sales"; "Net Sales"]) 14 10)
      "A28" ws in
  let ws := foldl (λ ws col, hide_column col ws) ws [10; 11; 12; 13]%nat in
  let ws :=
    add_commentary
      ("EXECUTIVE SUMMARY: This report analyzes " +:+ pretty (len df) +:+ " SKUs for "
       +:+ py_str L category +:+ " in " +:+ py_str L color +:+ ". "
       +:+ "Over the past 90 days, total sales reached $"
       +:+ format_num L ",.2f" (total_90d_sales m) +:+ " from "
       +:+ format_num L "," (total_90d_units m) +:+ " units. "
       +:+ "Size " +:+ py_str L top_seller_90d
       +:+ " is the best performer. The 7-day run rate suggests "
       +:+ (if num_gtb (total_7d_units m) (num_div (total_30d_units m) (of_int 4))
            then "strong momentum" else "steady performance")
       +:+ ". " +:+ "See individual period sheets for detailed breakdowns.")
      44 8 ws in
  auto_fit_columns L 10 25 ws.

(** The table of one period sheet: five columns of [df], sorted by the
    units of the period, largest first, under new labels. *)
Definition period_frame (df : DataFrame) (tag : string) : result DataFrame :=
  d ← select df ["Size"; tag +:+ " Units"; tag +:+ " Sales"; tag +:+ " Net Sales";
                 tag +:+ " Avg Price"];
  d ← sort_values_desc d (tag +:+ " Units");
  rename d ["Size"; "Units"; "Gross Sales"; "Net Sales"; "Avg Price"].

(** The hidden chart data: one row per row of [top], one cell per listed
    column. *)
Definition chart_cells (top : DataFrame) (chart_row : nat) (cols : list (nat * string))
    (ws : Worksheet) : result Worksheet :=
  foldlM (λ ws (ir : nat * list Py.value),
            foldlM (λ ws (cn : nat * string),
                      v ← row_get top ir.2 cn.2;
                      Ok (cell_value (chart_row + ir.1) cn.1 v ws))
              ws cols)
    ws (enumerate 0 (rows top)).

(** [d.iloc[0][name] if len(d) > 0 else fallback] *)
Definition best (d : DataFrame) (name : string) (fallback : Py.value) : result Py.value :=
  match rows d with
  | r :: _ => row_get d r name
  | [] => Ok fallback
  end.

(** Sheets 2 to 4, which differ in the period, the titles and the text of
    the commentary. *)
Definition period_sheet (L : Library) (df : DataFrame) (tag sheet_name heading : string)
    (commentary : Py.value → Py.value → string) : result Worksheet :=
  let ws := new_sheet sheet_name in
  let ws := fill_background 60 12 ws in
  let ws := add_title heading 1 7 ws in
  d ← period_frame df tag;
  wt ← write_data_table ws d 3 None;
  let ws := wt.1 in
  let table_end := wt.2 in
  let chart_row := 3%nat in
  let top_10 := head 10 d in
  ws ← chart_cells top_10 chart_row
         [(9, "Size"); (10, "Units"); (11, "Gross Sales"); (12, "Net Sales")]%nat ws;
  let last_row := (chart_row + Nat.min 10 (len top_10) - 1)%nat in
  let cats_ref := ref 9 chart_row last_row in
  let data_ref := ref 10 chart_row last_row in
  let ws :=
    add_chart (create_bar_chart "Units Sold by Size (Top 10)" "Units" data_ref cats_ref 14 10)
      ("A" +:+ pretty (table_end + 2)%nat) ws in
  let data_ref1 := ref 11 chart_row last_row in
  let data_ref2 := ref 12 chart_row last_row in
  let ws :=
    add_chart
      (create_line_chart "Gross vs Net Sales by Size" "Sales ($)" [data_ref1; data_ref2]
         cats_ref (Some ["Gross Sales"; "Net Sales"]) 14 10)
      ("A" +:+ pretty (table_end + 15)%nat) ws in
  let ws := foldl (λ ws col, hide_column col ws) ws [9; 10; 11; 12]%nat in
  best_size ← best d "Size" (VStr "N/A");
  best_units ← best d "Units" (VNum (of_int 0));
  let ws := add_commentary (commentary best_size best_units) (table_end + 28) 7 ws in
  Ok (auto_fit_columns L 10 25 ws).

Definition commentary_7d (L : Library) (m : Metrics) (best_size best_units : Py.value) : string :=
  "7-DAY INSIGHTS: Size " +:+ py_str L best_size +:+ " leads with "
  +:+ py_format L ".0f" best_units +:+ " units sold this week. "
  +:+ "Total weekly revenue is $" +:+ format_num L ",.2f" (total_7d_sales m)
  +:+ " with net sales of $" +:+ format_num L ",.2f" (total_7d_net m) +:+ ". "
  +:+ "The bar chart shows the distribution of sales across sizes, while the line chart "
  +:+ "highlights the margin between gross and net sales. Monitor sizes with low movement for potential markdown opportunities.".

Definition commentary_30d (L : Library) (m : Metrics) (best_size best_units : Py.value) : string :=
  "30-DAY INSIGHTS: Size " +:+ py_str L best_size +:+ " is the monthly leader with "
  +:+ py_format L ".0f" best_units +:+ " units. "
  +:+ "Monthly revenue reached $" +:+ format_num L ",.2f" (total_30d_sales m)
  +:+ ". Average selling price is $" +:+ format_num L ",.2f" (avg_30d_price m) +:+ ". "
  +:+ "Compare the sales distribution to identify consistent performers vs. one-time spikes. "
  +:+ "Sizes appearing in both 7D and 30D top performers indicate sustained demand.".

Definition commentary_90d (L : Library) (m : Metrics) (best_size best_units : Py.value) : string :=
  "90-DAY INSIGHTS: Quarterly analysis shows size " +:+ py_str L best_size
  +:+ " as the top seller with " +:+ py_format L ".0f" best_units +:+ " units. "
  +:+ "Total quarterly revenue is $" +:+ format_num L ",.2f" (total_90d_sales m)
  +:+ " with a net margin of " +:+ format_num L ".1f" (margin_pct m) +:+ "%. "
  +:+ "This long-term view reveals true demand patterns and should guide inventory planning. "
  +:+ "Consider increasing stock for top performers and reviewing slow movers.".

Definition sheet_7d (L : Library) (df : DataFrame) (m : Metrics) : result Worksheet :=
  period_sheet L df "7D" "7-Day Performance" "7-DAY PERFORMANCE ANALYSIS" (commentary_7d L m).
Definition sheet_30d (L : Library) (df : DataFrame) (m : Metrics) : result Worksheet :=
  period_sheet L df "30D" "30-Day Performance" "30-DAY PERFORMANCE ANALYSIS" (commentary_30d L m).
Definition sheet_90d (L : Library) (df : DataFrame) (m : Metrics) : result Worksheet :=
  period_sheet L df "90D" "90-Day Performance" "90-DAY PERFORMANCE ANALYSIS" (commentary_90d L m).

(** Sheet 5: Period Comparison *)
Definition comparison_sheet (L : Library) (df : DataFrame) (m : Metrics) : result Worksheet :=
  let ws := new_sheet "Period Comparison" in
  let ws := fill_background 60 15 ws in
  let ws := add_title "PERIOD COMPARISON ANALYSIS" 1 10 ws in
  d ← select df ["Size"; "7D Units"; "7D Sales"; "30D Units"; "30D Sales"; "90D Units";
                 "90D Sales"];
  d ← sort_values_desc d "90D Units";
  wt ← write_data_table ws d 3 None;
  let ws := wt.1 in
  let table_end := wt.2 in
  let chart_row := 3%nat in
  let top_sizes := head 8 d in
  ws ← chart_cells top_sizes chart_row
         [(11, "Size"); (12, "7D Units"); (13, "30D Units"); (14, "90D Units")]%nat ws;
  let last_row := (chart_row + Nat.min 8 (len top_sizes) - 1)%nat in
  let cats_ref := ref 11 chart_row last_row in
  let colors := [BEIGE; "FFD700"; "CD853F"] in
  let series_titles := ["7D"; "30D"; "90D"] in
  let chart :=
    {| kind_of_chart := BarChart; chart_title := "Units by Size Across Periods";
       y_axis_title := "Units";
       series :=
         (λ ic : nat * nat,
            {| data := ref ic.2 chart_row last_row; solidFill := colors !! ic.1;
               line_solidFill := None; line_width := None; tx := series_titles !! ic.1 |})
           <$> enumerate 0 [12; 13; 14]%nat;
       categories := Some cats_ref; chart_width := 15; chart_height := 10;
       legend := true |} in
  let ws := add_chart chart ("A" +:+ pretty (table_end + 2)%nat) ws in
  let period_chart_row := 35%nat in
  let ws := cell_value period_chart_row 11 (VStr "7 Days") ws in
  let ws := cell_value period_chart_row 12 (VNum (total_7d_sales m)) ws in
  let ws := cell_value (period_chart_row + 1) 11 (VStr "30 Days") ws in
  let ws := cell_value (period_chart_row + 1) 12 (VNum (total_30d_sales m)) ws in
  let ws := cell_value (period_chart_row + 2) 11 (VStr "90 Days") ws in
  let ws := cell_value (period_chart_row + 2) 12 (VNum (total_90d_sales m)) ws in
  let cats_ref2 := ref 11 period_chart_row (period_chart_row + 2) in
  let data_ref2 := ref 12 period_chart_row (period_chart_row + 2) in
  let line_chart :=
    {| kind_of_chart := LineChart; chart_title := "Sales Trend Across Periods";
       y_axis_title := "Sales ($)";
       series :=
         [ {| data := data_ref2; solidFill := None; line_solidFill := Some BEIGE;
              line_width := Some 30000; tx := None |} ];
       categories := Some cats_ref2; chart_width := 15; chart_height := 10;
       legend := true |} in
  let ws := add_chart line_chart ("A" +:+ pretty (table_end + 15)%nat) ws in
  let ws := foldl (λ ws col, hide_column col ws) ws [11; 12; 13; 14]%nat in
  let ws :=
    add_commentary
      ("TREND ANALYSIS: This view compares performance across all three time periods. "
       +:+ "Weekly sales rate from 90D average: $" +:+ format_num L ",.2f" (weekly_rate m)
       +:+ ". Recent 7D rate: $" +:+ format_num L ",.2f" (total_7d_sales m) +:+ ". "
       +:+ "This represents a " +:+ format_num L "+.1f" (velocity_change m)
       +:+ "% velocity change. "
       +:+ "The bar chart shows how individual sizes perform over time, while the line chart shows overall sales trajectory. "
       +:+ "Consistent performers across all periods are your core sellers.")
      (table_end + 28) 10 ws in
  Ok (auto_fit_columns L 10 25 ws).

(** The workbook, sheet by sheet, in the order of the script. *)
Record Workbook := {
  ws_summary : Worksheet;
  ws_7d : Worksheet;
  ws_30d : Worksheet;
  ws_90d : Worksheet;
  ws_compare : Worksheet;
}.

Definition report (L : Library) (df : DataFrame) : result Workbook :=
  df ← add_size L df;
  m ← key_metrics df;
  top_seller_7d ← top_seller df "7D Units" (total_7d_units m);
  top_seller_30d ← top_seller df "30D Units" (total_30d_units m);
  top_seller_90d ← top_seller df "90D Units" (total_90d_units m);
  product_name ← first_or df "Product Name" "Product";
  category ← first_or df "Category" "Category";
  color ← first_or df "Color" "Color";
  let s1 := summary_sheet L df m top_seller_7d top_seller_30d top_seller_90d category color in
  s2 ← sheet_7d L df m;
  s3 ← sheet_30d L df m;
  s4 ← sheet_90d L df m;
  s5 ← comparison_sheet L df m;
  Ok {| ws_summary := s1; ws_7d := s2; ws_30d := s3; ws_90d := s4; ws_compare := s5 |}.

Definition filename := "sales_analysis_report.xlsx".

(** The script: the workbook is built, then saved under a fixed name. *)
Definition main (L : Library) (df : DataFrame) : Run Workbook :=
  wb ← lift (report L df);
  _ ← write filename XLSX;
  mret wb.

End SalesReport.

(** * styled_excel_analysis.py *)
Module StyledAnalysis.
Import Pandas Openpyxl.

Definition MAROON := "800020".
Definition BEIGE := "F5F5DC".
Definition LIGHT_MAROON := "A52A2A".
Definition DARK_BEIGE := "D4C4A8".

Definition theme : Theme := {|
  header_fill := solid MAROON;
  header_font := {| bold := true; italic := false; font_color := BEIGE; size := 12 |};
  header_alignment :=
    {| horizontal := Some "center"; vertical := Some "center"; wrap_text := true |};
  data_fill := solid MAROON;
  data_font := {| bold := false; italic := false; font_color := BEIGE; size := 10 |};
  alt_fill := solid LIGHT_MAROON;
  beige_border := thin_border DARK_BEIGE;
|}.

Definition title_fill := solid MAROON.
Definition title_font : Font :=
  {| bold := true; italic := false; font_color := BEIGE; size := 16 |}.

Definition style_cell := Openpyxl.style_cell theme.

(** [add_title(ws, title, row, cols)] *)
Definition add_title (title : string) (row cols : nat) (ws : Worksheet) : Worksheet :=
  let ws := cell_value row 1 (VStr title) ws in
  let ws := update row 1 (set_fill title_fill) ws in
  let ws := update row 1 (set_font title_font) ws in
  merge_cells row 1 row cols ws.

(** One column of the loop of [auto_fit_columns]: [column_cells[0]] is the
    cell of row 1, whose [column_letter] is read first, and the
    placeholder of a merged range has none; the column is then measured
    and sized as in the sales report. *)
Definition fit_column (L : Library) (min_width max_width : Z) (ws : Worksheet) (col : nat)
    : result Worksheet :=
  if is_placeholder ws 1 col then Raise AttributeError
  else Ok (Openpyxl.fit_column L min_width max_width ws col).

(** [auto_fit_columns(ws, min_width=12, max_width=30)]: the loop runs over
    [ws.columns], which is empty on a sheet in which no cell was created
    and holds the columns 1 to [ws.max_column], each with its rows 1 to
    [ws.max_row], otherwise. *)
Definition auto_fit_columns (L : Library) (min_width max_width : Z) (ws : Worksheet)
    : result Worksheet :=
  if bool_decide (dom (cells ws) = ∅) then Ok ws
  else foldlM (fit_column L min_width max_width) ws (seq 1 (max_column ws)).

(** [df.select_dtypes(include=[np.number]).columns.tolist()]: the columns
    that hold numbers only (a table without rows has none). *)
Definition numeric_cols (df : DataFrame) : list string :=
  List.filter (λ name, match column df name with
                       | Ok c => bool_decide (c ≠ []) && forallb is_number c
                       | Raise _ => false
                       end) (columns df).

Definition filename := "styled_analysis_report.xlsx".

(** The script.  Without a numeric column [df[numeric_cols].describe()]
    refuses the table (line 161).  Otherwise the summary sheet is filled:
    its background, its title, merged over A1:H1 (line 192), and cells from
    row 2 on, which are not modelled; [auto_fit_columns(ws_summary)]
    (line 263) then meets the placeholder of the title at B1, so that the
    script stops there and never reaches [wb.save]. *)
Definition main (L : Library) (df : DataFrame) : Run unit :=
  _ ← (if bool_decide (numeric_cols df = []) then raise ValueError else mret ());
  let ws := new_sheet "Summary" in
  let ws :=
    foldl (λ ws row,
             foldl (λ ws col, update row col (set_fill (data_fill theme)) ws) ws (seq 1 9))
      ws (seq 1 39) in
  let ws := add_title "DATA ANALYSIS SUMMARY REPORT" 1 8 ws in
  _ ← lift (auto_fit_columns L 12 30 ws);
  write filename XLSX.

End StyledAnalysis.

(** * The scripts over daily sales *)
Module Daily.
Import Pandas.

(** [daily[name] = daily[a] / daily[b]], through [f] *)
Definition derive (name a b : string) (f : num → num → num) (daily : DataFrame)
    : result DataFrame :=
  x ← numeric daily a;
  y ← numeric daily b;
  Ok (set_column daily name (VNum <$> zip_with f x y)).

(** [daily['AOV'] = daily['Gross sales'] / daily['Orders']] *)
Definition with_aov : DataFrame → result DataFrame :=
  derive "AOV" "Gross sales" "Orders" num_div.

(** [df['Day'] = pd.to_datetime(df['Day'])], then the sums per day. *)
Definition daily_sums (L : Library) (measures : list string) (df : DataFrame)
    : result (DataFrame * DataFrame) :=
  df ← convert_dates L df "Day";
  daily ← groupby_date df "Day" measures;
  Ok (df, daily).

End Daily.

(** * charts_example.py *)
Module ChartsExample.
Import Pandas Daily.

Definition measures : list string :=
  ["Orders"; "Gross sales"; "Net sales"; "Gross profit"; "Discounts"].

(** Lines 44 to 55: [df] with its dates converted, and [daily]. *)
Definition prepare (L : Library) (df : DataFrame) : result (DataFrame * DataFrame) :=
  dd ← daily_sums L measures df;
  daily ← with_aov dd.2;
  daily ← derive "Discount_Rate" "Discounts" "Gross sales"
            (λ d g, num_mul (num_div (num_abs d) g) (of_int 100)) daily;
  Ok (dd.1, daily).

(** The script: six figures, each saved under its own name.  What the
    figures show is not modelled; the steps kept are those that read the
    tables. *)
Definition main (L : Library) (df : DataFrame) : Run unit :=
  dd ← lift (prepare L df);
  (* chart 1: fill_between refuses the object columns that the per-day
     table of a table without rows has (line 65); the average line is
     labelled at daily['Day'].iloc[-1] (line 80) *)
  _ ← (if bool_decide (rows df = []) then raise TypeError else mret ());
  let df := dd.1 in
  let daily := dd.2 in
  days ← lift (column daily "Day");
  _ ← lift (iloc_last days);
  _ ← write "chart_line_sales.png" PNG;
  (* chart 2: the peak is daily['Orders'].idxmax() *)
  orders ← lift (numeric daily "Orders");
  _ ← lift (idxmax orders);
  _ ← write "chart_bar_orders.png" PNG;
  (* chart 3 *)
  _ ← write "chart_dual_axis.png" PNG;
  (* chart 4: two pies, drawn with explode=(0.02, 0.02), one entry per wedge *)
  customer_data ← lift (groupby_label df "New or returning customer" ["Orders"; "Gross sales"]);
  _ ← (if decide (len customer_data = 2%nat) then mret () else raise ValueError);
  _ ← write "chart_pie_customers.png" PNG;
  (* chart 5 *)
  _ ← write "chart_comparison.png" PNG;
  (* chart 6 *)
  write "chart_heatmap.png" PNG.

End ChartsExample.

(** * excel_export_example.py *)
Module ExcelExport.
Import Pandas Daily.

Definition measures : list string :=
  ["Orders"; "Gross sales"; "Discounts"; "Net sales"; "Gross profit"; "Quantity ordered"].

(** Lines 63 to 77 *)
Definition prepare_daily (L : Library) (df : DataFrame) : result (DataFrame * DataFrame) :=
  dd ← daily_sums L measures df;
  daily ← with_aov dd.2;
  daily ← derive "Gross Margin %" "Gross profit" "Net sales" num_div daily;
  daily ← derive "Discount Rate %" "Discounts" "Gross sales"
            (λ d g, num_div (num_abs d) g) daily;
  Ok (dd.1, daily).

(** Lines 80 to 89 *)
Definition prepare_customers (df : DataFrame) : result DataFrame :=
  cs ← groupby_label df "New or returning customer"
         ["Orders"; "Gross sales"; "Net sales"; "Gross profit"];
  cs ← with_aov cs;
  orders ← numeric cs "Orders";
  cs ← derive "% of Orders" "Orders" "Orders" (λ o _, num_div o (nansum orders)) cs;
  gross ← numeric cs "Gross sales";
  derive "% of Revenue" "Gross sales" "Gross sales" (λ g _, num_div g (nansum gross)) cs.

(** The 'Average Order Value' entry of [kpis] (line 118):
    [daily['Gross sales'].sum() / daily['Orders'].sum()] *)
Definition kpi_aov (df daily : DataFrame) : result num :=
  gross ← numeric daily "Gross sales";
  orders ← numeric daily "Orders";
  sum_div df (nansum gross) (nansum orders).

Definition filename := "november_2025_report.xlsx".

(** The script.  Of its four sheets the steps that can stop it are kept:
    the division of line 118, and the conditional formatting of the range
    ['I2:I{len(daily)+1}'] (line 195), a range that openpyxl refuses when
    [daily] has no row. *)
Definition main (L : Library) (df : DataFrame) : Run unit :=
  dd ← lift (prepare_daily L df);
  customer_summary ← lift (prepare_customers dd.1);
  _ ← lift (kpi_aov df dd.2);
  _ ← (if decide (len dd.2 = 0%nat) then raise TypeError else mret ());
  write filename XLSX.

End ExcelExport.

(** * pdf_report_example.py: colour conversion *)
Module PdfReport.

Open Scope Qc_scope.

(** [int(hex_color[i:i+2], 16)/255] *)
Definition component (hex_color : string) (i : nat) : result Qc :=
  v ← int16 (slice hex_color i (i + 2)) ;
  Ok (Qc_of_Z v / Qc_of_Z 255).

(** [hex_to_rgb]: the generator is consumed from left to right, so the
    first pair that fails to parse decides the exception. *)
Definition hex_to_rgb (hex_color : string) : result (Qc * Qc * Qc) :=
  let hex_color := lstrip "#" hex_color in
  r ← component hex_color 0 ;
  g ← component hex_color 2 ;
  b ← component hex_color 4 ;
  Ok (r, g, b).

Import Pandas Daily.

Definition measures : list string :=
  ["Orders"; "Gross sales"; "Net sales"; "Gross profit"; "Discounts"; "Quantity ordered"].

Record Kpis := {
  total_orders : num;
  total_gross_sales : num;
  total_net_sales : num;
  total_gross_profit : num;
  avg_aov : num;
  gross_margin : num;
}.

(** Lines 43 to 63: [daily] and the KPIs, which are computed from
    [daily]. *)
Definition prepare (L : Library) (df : DataFrame) : result (DataFrame * Kpis) :=
  dd ← daily_sums L measures df;
  daily ← with_aov dd.2;
  orders ← numeric daily "Orders";
  gross ← numeric daily "Gross sales";
  net ← numeric daily "Net sales";
  profit ← numeric daily "Gross profit";
  let total_orders := nansum orders in
  let total_gross_sales := nansum gross in
  let total_net_sales := nansum net in
  let total_gross_profit := nansum profit in
  avg_aov ← sum_div df total_gross_sales total_orders;
  margin ← sum_div df total_gross_profit total_net_sales;
  Ok (daily,
      {| total_orders := total_orders;
         total_gross_sales := total_gross_sales;
         total_net_sales := total_net_sales;
         total_gross_profit := total_gross_profit;
         avg_aov := avg_aov;
         gross_margin := num_mul margin (of_int 100) |}).

(** The script: three figures are saved, then the document, which embeds
    them, is built.  The contents of the document are not modelled. *)
Definition main (L : Library) (df : DataFrame) : Run unit :=
  _ ← lift (prepare L df);
  _ ← write "chart_daily_sales.png" PNG;
  _ ← write "chart_daily_orders.png" PNG;
  _ ← write "chart_aov_trend.png" PNG;
  write "november_kpi_report.pdf" PDF.

End PdfReport.

(** * test_sales_report.py *)
Module TestSalesReport.
Import Pandas.

(** What a global name of the harness is bound to. *)
Inductive pyobj :=
| OStr (s : string)
| OFrame (df : DataFrame)
| OModule (name : string).

(** The interpreter and the CSV reader: [exec] runs a program text in a
    dictionary of globals, [read_csv] turns a file's text into a table. *)
Record Host := {
  read_csv : string → result DataFrame;
  exec : string → gmap string pyobj → Run unit;
}.

(** A path as the operating system resolves it against the working
    directory. *)
Definition resolve (cwd path : string) : string :=
  if String.prefix "/" path then path else cwd +:+ "/" +:+ path.

(** Reading a file of the disk, a map from absolute paths to texts. *)
Definition read_file (disk : gmap string string) (cwd path : string) : result string :=
  match disk !! resolve cwd path with
  | Some text => Ok text
  | None => Raise (FileNotFoundError path)
  end.

(** [csv_file]: the default, replaced by [sys.argv[1]] when
    [len(sys.argv) > 1]. *)
Definition csv_file (argv : list string) : string :=
  let csv_file := "sample_sales_data.csv" in
  if decide (1 < length argv)%nat then default csv_file (argv !! 1%nat) else csv_file.

(** The globals of the harness when it reaches [exec]. *)
Definition globals (argv : list string) (df : DataFrame) : gmap string pyobj :=
  <["df" := OFrame df]>
    (<["csv_file" := OStr (csv_file argv)]>
       (<["os" := OModule "os"]>
          (<["sys" := OModule "sys"]> {["pd" := OModule "pandas"]}))).

(** The harness, started from the script [here/test_sales_report.py]:
    the working directory becomes [here] before anything is read. *)
Definition main (H : Host) (here : string) (disk : gmap string string) (argv : list string)
    : Run unit :=
  let cwd := here in
  text ← lift (read_file disk cwd (csv_file argv));
  df ← lift (read_csv H text);
  source ← lift (read_file disk cwd "sales_analysis_excel_report.py");
  exec H source (globals argv df).

End TestSalesReport.

(** * The scripts, side by side *)
Module Scripts.
Import Pandas.

Inductive script :=
| ChartsExample
| PdfReportExample
| ExcelExportExample
| StyledExcelAnalysis
| SalesAnalysisExcelReport.

(** One run of a script on the pre-loaded table [df]. *)
Definition run (s : script) (L : Library) (df : DataFrame) : Run unit :=
  match s with
  | ChartsExample => ChartsExample.main L df
  | PdfReportExample => PdfReport.main L df
  | ExcelExportExample => ExcelExport.main L df
  | StyledExcelAnalysis => StyledAnalysis.main L df
  | SalesAnalysisExcelReport => _ ← SalesReport.main L df; mret ()
  end.

(** The file names that appear in the text of each script, in the order
    of the calls that write them. *)
Definition outputs (s : script) : list file :=
  match s with
  | ChartsExample =>
      [ File "chart_line_sales.png" PNG; File "chart_bar_orders.png" PNG;
        File "chart_dual_axis.png" PNG; File "chart_pie_customers.png" PNG;
        File "chart_comparison.png" PNG; File "chart_heatmap.png" PNG ]
  | PdfReportExample =>
      [ File "chart_daily_sales.png" PNG; File "chart_daily_orders.png" PNG;
        File "chart_aov_trend.png" PNG; File "november_kpi_report.pdf" PDF ]
  | ExcelExportExample => [ File "november_2025_report.xlsx" XLSX ]
  | StyledExcelAnalysis => [ File "styled_analysis_report.xlsx" XLSX ]
  | SalesAnalysisExcelReport => [ File "sales_analysis_report.xlsx" XLSX ]
  end.

(** The columns of the input table that a script reads by their
    labels. *)
Definition expected (s : script) : list string :=
  match s with
  | ChartsExample => "Day" :: ChartsExample.measures ++ ["New or returning customer"]
  | PdfReportExample => "Day" :: PdfReport.measures
  | ExcelExportExample => "Day" :: "New or returning customer" :: ExcelExport.measures
  | StyledExcelAnalysis => []
  | SalesAnalysisExcelReport =>
      [ "SKU"; "7D Units"; "7D Sales"; "7D Net Sales"; "7D Avg Price";
        "30D Units"; "30D Sales"; "30D Net Sales"; "30D Avg Price";
        "90D Units"; "90D Sales"; "90D Net Sales"; "90D Avg Price" ]
  end.

(** The files a script may have written when it first reads the column
    [c]: charts_example reads the customer column for its fourth figure,
    after three figures were saved; every other column is read before the
    first file is written. *)
Definition written_before (s : script) (c : string) : list file :=
  match s with
  | ChartsExample =>
      if decide (c = "New or returning customer") then take 3 (outputs ChartsExample) else []
  | _ => []
  end.

(** The three scripts that derive the per-day table, with the overall
    AOV where the script computes one. *)
Inductive daily_script := DailyCharts | DailyPdf | DailyExcel.

Record Prepared := { daily : DataFrame; aov_kpi : option num }.

Definition prepared (s : daily_script) (L : Library) (df : DataFrame) : result Prepared :=
  match s with
  | DailyCharts =>
      dd ← ChartsExample.prepare L df;
      Ok {| daily := dd.2; aov_kpi := None |}
  | DailyPdf =>
      dk ← PdfReport.prepare L df;
      Ok {| daily := dk.1; aov_kpi := Some (PdfReport.avg_aov dk.2) |}
  | DailyExcel =>
      dd ← ExcelExport.prepare_daily L df;
      a ← ExcelExport.kpi_aov df dd.2;
      Ok {| daily := dd.2; aov_kpi := Some a |}
  end.

End Scripts.

(** * Vocabulary of the properties *)
Module Vocabulary.
Import Pandas.

(** A run writes the files [l], in this order, and stops early only by an
    exception: whatever it wrote is then a prefix of [l]. *)
Definition emits {A} (m : Run A) (l : list file) : Prop :=
  ∀ fs, ∃ l', (m fs).1 = fs ++ l' ∧ l' `prefix_of` l ∧ (is_ok (m fs).2 = true → l' = l).

(** Every row of a table has one cell per column label. *)
Definition wf (df : DataFrame) : Prop :=
  Forall (λ r, length r = length (columns df)) (rows df).

(** The table with the column labels [cs] and one row per element of [ds],
    whose cell under [c] in the row of [d] is [F c d]. *)
Definition tabulate {D} (cs : list string) (ds : list D) (F : string → D → value)
    : DataFrame :=
  Frame cs ((λ d, (λ c, F c d) <$> cs) <$> ds).

(** The measures of the keyed values whose key is [k]. *)
Definition selected {K} `{EqDecision K} (k : K) (l : list (option K * num)) : list num :=
  (filter (λ kx, kx.1 = Some k) l).*2.

(** The day of an input row, as [pd.to_datetime] reads its 'Day' cell. *)
Definition day_of (L : Library) (df : DataFrame) (r : list value) : option Z :=
  match col_index df "Day" with
  | Ok i =>
      match to_datetime L (cell r i) with
      | Ok v => date_key v
      | Raise _ => None
      end
  | Raise _ => None
  end.

(** The number an input row holds under the label [c]. *)
Definition measure_of (df : DataFrame) (c : string) (r : list value) : num :=
  match col_index df c with
  | Ok i => match cell r i with VNum x => x | _ => NaN end
  | Raise _ => NaN
  end.

(** The sum of column [c] over the input rows of day [d], and over the
    input rows that have a day at all. *)
Definition day_sum (L : Library) (df : DataFrame) (c : string) (d : Z) : num :=
  nansum (measure_of df c <$> filter (λ r, day_of L df r = Some d) (rows df)).

Definition total (L : Library) (df : DataFrame) (c : string) : num :=
  nansum (measure_of df c <$> filter (λ r, is_Some (day_of L df r)) (rows df)).

(** The days of the input table, each once, in increasing order, and the
    cell of the per-day table under [c] in the row of day [d]. *)
Definition days_of (L : Library) (df : DataFrame) : list Z :=
  group_keys Z.le (day_of L df <$> rows df).

Definition per_day (L : Library) (df : DataFrame) (c : string) (d : Z) : value :=
  if decide (c = "Day") then VDate d else VNum (day_sum L df c d).

(** The measures the per-day table sums in every script, and the AOV of a
    day: its summed gross sales over its summed orders. *)
Definition claimed_measures : list string :=
  ["Orders"; "Gross sales"; "Net sales"; "Gross profit"; "Discounts"].

Definition aov_of (L : Library) (df : DataFrame) (d : Z) : num :=
  num_div (day_sum L df "Gross sales" d) (day_sum L df "Orders" d).

(** The rational a finite number stands for (0 for NaN), and the sum of a
    list of rationals. *)
Definition qval (x : num) : Qc :=
  match x with Fin q => q | _ => 0%Qc end.

Definition qsum (l : list Qc) : Qc := foldr Qcplus 0%Qc l.

(** No cell of column [c] is an infinity. *)
Definition finite_column (df : DataFrame) (c : string) : Prop :=
  Forall (λ r, measure_of df c r ≠ PInf ∧ measure_of df c r ≠ NInf) (rows df).

(** ** Sums that pandas computes exactly

    pandas adds the cells of an int64 column with wrap-around at [2^63]
    and the cells of a float64 column with rounding to 53 bits, in an
    order and with a compensation that depend on the operation
    ([Series.sum], [groupby(...).sum]).  All of these give the exact sum,
    which is what [nansum] computes, on numbers that are multiples of one
    power of two [2^-k], [k <= 1074], and whose absolute values add up to
    at most [2^53] such units: every sum of some of them is then a
    float64 number and, when they are whole numbers, an int64 number, so
    that no addition rounds or wraps, whatever the order; and a sum of
    sums of disjoint parts of such a list is exact as well.

    [units k x] is the absolute value of [x] in units of [2^-k] (0 for
    NaN, which a sum skips). *)
Definition units (k : nat) (x : num) : option Z :=
  match x with
  | Fin q =>
      let n := Z.abs (Qnum (this q)) * 2 ^ Z.of_nat k in
      let d := Zpos (Qden (this q)) in
      if decide (n mod d = 0) then Some (n / d) else None
  | NaN => Some 0
  | PInf | NInf => None
  end.

Definition exact_with (k : nat) (xs : list num) : bool :=
  bool_decide (k ≤ 1074)%nat &&
  match mapM (units k) xs with
  | Some us => bool_decide (foldr Z.add 0 us ≤ 2 ^ 53)
  | None => false
  end.

Definition exact_sum (xs : list num) : Prop := ∃ k, exact_with k xs = true.

(** The sums of column [c] of the table, and of any of its rows, are
    exact. *)
Definition exact_column (df : DataFrame) (c : string) : Prop :=
  exact_sum (measure_of df c <$> rows df).

(** ** Customer types

    The customer type of an input row, the types of the table, each once,
    in increasing order, the sum of column [c] over the rows of a type and
    the AOV of a type. *)
Definition label_of (df : DataFrame) (r : list value) : option string :=
  match col_index df "New or returning customer" with
  | Ok i => str_key (cell r i)
  | Raise _ => None
  end.

Definition labels (df : DataFrame) : list string :=
  group_keys str_le (label_of df <$> rows df).

Definition label_sum (df : DataFrame) (c : string) (l : string) : num :=
  nansum (measure_of df c <$> filter (λ r, label_of df r = Some l) (rows df)).

Definition customer_aov (df : DataFrame) (l : string) : num :=
  num_div (label_sum df "Gross sales" l) (label_sum df "Orders" l).

(** The cell of the customer table under [c] in the row of the label
    [l]. *)
Definition per_label (df : DataFrame) (c : string) (l : string) : value :=
  if decide (c = "New or returning customer") then VStr l else VNum (label_sum df c l).

(** ** Tables of the sales report

    The twelve columns of figures, and a table the report is made for:
    distinct labels, one cell per label in every row, at least one row, no
    control character in a text (openpyxl refuses them in a cell), a text
    in every cell of 'SKU' and a number or NaN in every cell of the
    columns of figures. *)
Definition figures : list string :=
  [ "7D Units"; "7D Sales"; "7D Net Sales"; "7D Avg Price";
    "30D Units"; "30D Sales"; "30D Net Sales"; "30D Avg Price";
    "90D Units"; "90D Sales"; "90D Net Sales"; "90D Avg Price" ].

Definition printable (v : value) : bool :=
  match v with
  | VStr s => forallb (λ c, 32 <=? nat_of_ascii c)%nat (list_ascii_of_string s)
  | _ => true
  end.

Definition is_text (v : value) : bool :=
  match v with VStr _ => true | _ => false end.

Definition sales_table (df : DataFrame) : bool :=
  bool_decide (NoDup (columns df)) &&
  forallb (λ r, length r =? length (columns df))%nat (rows df) &&
  bool_decide (rows df ≠ []) &&
  forallb (forallb printable) (rows df) &&
  match column df "SKU" with
  | Ok skus => forallb is_text skus
  | Raise _ => false
  end &&
  forallb (λ c, match column df c with
                | Ok cells => forallb is_number cells
                | Raise _ => false
                end) figures.

(** The CSV file the harness is asked to load: the first command-line
    argument when there is one, the sample file otherwise. *)
Definition chosen_csv (argv : list string) : string :=
  match argv with
  | _ :: path :: _ => path
  | _ => "sample_sales_data.csv"
  end.

(** ** Sample tables *)
Definition int (z : Z) : value := VNum (of_int z).

(** Three orders lines over two days, from new and returning customers. *)
Definition sample_daily : DataFrame :=
  Frame ["Day"; "New or returning customer"; "Orders"; "Gross sales"; "Discounts";
         "Net sales"; "Gross profit"; "Quantity ordered"]
    [ [VStr "20251127"; VStr "New"; int 2; int 90; int (-10); int 80; int 30; int 3];
      [VStr "20251127"; VStr "Returning"; int 1; int 60; int 0; int 60; int 20; int 1];
      [VStr "20251128"; VStr "New"; int 4; int 200; int (-20); int 180; int 70; int 5] ].

Definition sales_columns : list string :=
  ["SKU"; "Product Name"; "Category"; "Color";
   "7D Units"; "7D Sales"; "7D Net Sales"; "7D Avg Price";
   "30D Units"; "30D Sales"; "30D Net Sales"; "30D Avg Price";
   "90D Units"; "90D Sales"; "90D Net Sales"; "90D Avg Price"].

(** Two SKUs that sold nothing in the last seven days. *)
Definition sample_sales : DataFrame :=
  Frame sales_columns
    [ [VStr "TEE-BLK-32"; VStr "Tee"; VStr "Tops"; VStr "Black";
       int 0; int 0; int 0; int 0; int 3; int 30; int 27; int 10;
       int 9; int 90; int 81; int 10];
      [VStr "TEE-BLK-34"; VStr "Tee"; VStr "Tops"; VStr "Black";
       int 0; int 0; int 0; int 0; int 5; int 50; int 45; int 10;
       int 7; int 70; int 63; int 10] ].

(** The same SKUs, the first one without a figure for its 7-day units. *)
Definition sample_sales_gap : DataFrame :=
  Frame sales_columns
    [ [VStr "TEE-BLK-32"; VStr "Tee"; VStr "Tops"; VStr "Black";
       VNum NaN; int 0; int 0; int 0; int 3; int 30; int 27; int 10;
       int 9; int 90; int 81; int 10];
      [VStr "TEE-BLK-34"; VStr "Tee"; VStr "Tops"; VStr "Black";
       int 5; int 50; int 45; int 10; int 5; int 50; int 45; int 10;
       int 7; int 70; int 63; int 10] ].

(** One orders line whose day is missing. *)
Definition sample_undated : DataFrame :=
  Frame ["Day"; "New or returning customer"; "Orders"; "Gross sales"; "Discounts";
         "Net sales"; "Gross profit"; "Quantity ordered"]
    [ [VNum NaN; VStr "New"; int 2; int 90; int (-10); int 80; int 30; int 3] ].

(** A table of int64 columns only: units and orders of two days. *)
Definition sample_counts : DataFrame :=
  Frame ["Units"; "Orders"] [ [int 5; int 2]; [int 7; int 3] ].

(** The width [auto_fit_columns] computes from the longest value [m]. *)
Definition clamp (min_width max_width m : Z) : Z :=
  Z.min (Z.max (m + 2) min_width) max_width.

(** The size that the pattern [-(\d+[RSL]?)$] finds in a SKU of ASCII
    characters: the text after the last '-', when it is made of digits
    followed or not by one of R, S and L; a newline that ends the SKU is
    left aside. *)
Definition decimal_digit (c : ascii) : bool :=
  let n := nat_of_ascii c in (48 <=? n)%nat && (n <=? 57)%nat.

Fixpoint after_last (c : ascii) (s : string) : option string :=
  match s with
  | EmptyString => None
  | String a s' =>
      match after_last c s' with
      | Some t => Some t
      | None => if Ascii.eqb a c then Some s' else None
      end
  end.

Definition chomp (s : string) : string :=
  match reverse (list_ascii_of_string s) with
  | a :: rest => if Ascii.eqb a (ascii_of_nat 10) then string_of_list_ascii (reverse rest) else s
  | [] => s
  end.

Definition is_size (t : string) : bool :=
  let cs := list_ascii_of_string t in
  let ds :=
    match reverse cs with
    | a :: rest =>
        if bool_decide (a ∈ list_ascii_of_string "RSL") then reverse rest else cs
    | [] => cs
    end in
  bool_decide (ds ≠ []) && forallb decimal_digit ds.

Definition size_pattern (s : string) : option string :=
  t ← after_last "-" (chomp s);
  if is_size t then Some t else None.

(** A library used to run the scripts on examples: dates are the decimal
    digits of a cell read as a number of days, and nothing prints or
    formats in a way that matters. *)
Definition digits_value (s : string) : option Z :=
  foldl (λ acc c, a ← acc;
                  let n := nat_of_ascii c in
                  if decide (48 ≤ n ≤ 57)%nat then Some (10 * a + Z.of_nat (n - 48)) else None)
    (Some 0) (list_ascii_of_string s).

Definition plain : Library := {|
  to_timestamp := λ v, match v with VStr s => digits_value s | _ => None end;
  str_of := λ _, "nan";
  format_num := λ _ _, "0";
  extract_size := size_pattern;
  today := EmptyString;
|}.

End Vocabulary.

(** What the data-table writer leaves in a cell for a value: the empty
    string for a missing value, the value itself otherwise. *)
Definition shown (v : value) : value := if isna v then VStr EmptyString else v.

(** The cell under 'Units' in the i-th data row of a period sheet: the
    table starts at row 3 with its header, 'Units' is its second column. *)
Definition units_cell (ws : Openpyxl.Worksheet) (i : nat) : value :=
  Openpyxl.value (Openpyxl.cell_at ws (4 + i) 2).

(** The column labels of the table of a period sheet. *)
Definition period_columns : list string :=
  ["Size"; "Units"; "Gross Sales"; "Net Sales"; "Avg Price"].

(** [a >= b] on what two cells hold. *)
Definition cell_geb (a b : value) : bool :=
  match a, b with
  | VNum x, VNum y => num_geb x y
  | _, _ => false
  end.

(** Two cells, one above the other, in the order the period sheets keep:
    numbers do not increase downwards, and an empty cell is followed by
    empty cells only. *)
Definition in_order (a b : value) : Prop :=
  match a, b with
  | VNum x, VNum y => num_geb x y = true
  | VNum x, VStr s => x ≠ NaN ∧ s = EmptyString
  | VStr s, VStr t => s = EmptyString ∧ t = EmptyString
  | _, _ => False
  end.

(** What a cell shows apart from its value and its number format. *)
Definition style_of (c : Openpyxl.Cell) :=
  (Openpyxl.fill c, Openpyxl.font c, Openpyxl.alignment c, Openpyxl.border c).

(** An interpreter that knows one program, the sales report, and runs it on
    the table bound to [df]; and a CSV reader that knows one file. *)
Definition sample_host : TestSalesReport.Host := {|
  TestSalesReport.read_csv := λ text,
    if decide (text = "sku,units") then Ok Vocabulary.sample_sales else Raise ValueError;
  TestSalesReport.exec := λ source globals,
    match globals !! "df" with
    | Some (TestSalesReport.OFrame df) =>
        _ ← SalesReport.main Vocabulary.plain df; mret ()
    | _ => raise (NameError "df")
    end;
|}.

Definition sample_disk : gmap string string :=
  <["/repo/examples/march.csv" := "sku,units"]>
    {["/repo/examples/sales_analysis_excel_report.py" := "print('Analyzing sales data...')"]}.

(** * Vocabulary of the worksheet properties *)
Module Layout.
Import Openpyxl.

(** Everything a worksheet holds besides its cells. *)
Definition furniture (ws : Worksheet) :=
  (title ws, merged_cells ws, row_height ws, column_width ws, column_hidden ws, charts ws).

(** [n] is the largest coordinate [proj k] over the cells of [m], and 1 when
    there is none above 1: what [ws.max_row] and [ws.max_column] return. *)
Definition is_max_of (proj : nat * nat → nat) (m : gmap (nat * nat) Cell) (n : nat) : Prop :=
  (1 ≤ n)%nat ∧
  (∀ k, is_Some (m !! k) → (proj k ≤ n)%nat) ∧
  (n = 1%nat ∨ ∃ k, is_Some (m !! k) ∧ proj k = n).

(** The length [auto_fit_columns] counts for a value: its printed length,
    and nothing for a value that is false ([None], 0, the empty string). *)
Definition printed_length (L : Library) (v : Py.value) : Z :=
  if truthy v then Z.of_nat (String.length (py_str L v)) else 0.

(** The longest printed value of a column, over the rows of the sheet. *)
Definition longest (L : Library) (ws : Worksheet) (col : nat) : Z :=
  foldr Z.max 0
    ((λ r, printed_length L (value (cell_at ws r col))) <$> seq 1 (max_row ws)).

End Layout.

(** * Vocabulary of the table properties *)
Module Notions.
Import Pandas.

(** [x], at position [i], is the first largest number of [l], NaN apart:
    no number of [l] is above it and the numbers before it are below it. *)
Definition is_first_max (l : list num) (i : nat) (x : num) : Prop :=
  l !! i = Some x ∧ x ≠ NaN ∧
  ∀ j y, l !! j = Some y → y ≠ NaN →
         num_ltb x y = false ∧ ((j < i)%nat → num_ltb y x = true).

(** What [idxmax] has found after the numbers [pre]. *)
Definition best_of (pre : list num) (best : option (nat * num)) : Prop :=
  match best with
  | Some (i, x) => is_first_max pre i x
  | None => Forall (λ y, y = NaN) pre
  end.

(** The cell of a row under a label. *)
Definition row_value (df : DataFrame) (r : list value) (c : string) : value :=
  match col_index df c with
  | Ok i => cell r i
  | Raise _ => VNone
  end.

End Notions.

(** * Vocabulary of the report properties *)
Module ReportNotions.
Import Pandas Openpyxl.

(** What [ws.cell(row, column, value=v)] does to the cell. *)
Definition put (v : Py.value) (c : Cell) : Cell :=
  match v with
  | VNone => c
  | _ => set_value v c
  end.

(** The references of a chart: its categories and the data of its series. *)
Definition chart_refs (ch : Chart) : list Reference :=
  option_list (categories ch) ++ (data <$> series ch).

(** The values of the cells of row [R], columns 1 to [n], and of the [k]
    rows from [start] on. *)
Definition sheet_row (ws : Worksheet) (n R : nat) : list Py.value :=
  (λ j, value (cell_at ws R (1 + j))) <$> seq 0 n.

Definition sheet_rows (ws : Worksheet) (start k n : nat) : list (list Py.value) :=
  sheet_row ws n <$> seq start k.

(** The cells of the key metrics table of the summary sheet: row, column,
    column of the input table, aggregate, number format. *)
Definition summary_layout : list (nat * nat * string * (list num → num) * string) :=
  [ (8, 2, "7D Units", nansum, SalesReport.number_format);
    (8, 3, "7D Sales", nansum, SalesReport.currency_format);
    (8, 4, "7D Net Sales", nansum, SalesReport.currency_format);
    (8, 5, "7D Avg Price", mean, SalesReport.currency_format);
    (9, 2, "30D Units", nansum, SalesReport.number_format);
    (9, 3, "30D Sales", nansum, SalesReport.currency_format);
    (9, 4, "30D Net Sales", nansum, SalesReport.currency_format);
    (9, 5, "30D Avg Price", mean, SalesReport.currency_format);
    (10, 2, "90D Units", nansum, SalesReport.number_format);
    (10, 3, "90D Sales", nansum, SalesReport.currency_format);
    (10, 4, "90D Net Sales", nansum, SalesReport.currency_format);
    (10, 5, "90D Avg Price", mean, SalesReport.currency_format) ]%nat.

(** The sheets of the workbook, and the period sheets with their tags. *)
Definition sheets (wb : SalesReport.Workbook) : list Worksheet :=
  [ SalesReport.ws_summary wb; SalesReport.ws_7d wb; SalesReport.ws_30d wb;
    SalesReport.ws_90d wb; SalesReport.ws_compare wb ].

Definition period_sheets (wb : SalesReport.Workbook) : list (string * Worksheet) :=
  [ ("7D", SalesReport.ws_7d wb); ("30D", SalesReport.ws_30d wb);
    ("90D", SalesReport.ws_90d wb) ].

(** The hidden columns and the charts of a sheet. *)
Definition chart_part (ws : Worksheet) := (column_hidden ws, charts ws).

(** The kind of each chart of a sheet with the columns its references
    read, the categories first. *)
Definition chart_outline (ws : Worksheet) : list (chart_kind * list nat) :=
  (λ ch : Chart * string, (kind_of_chart ch.1, min_col <$> chart_refs ch.1)) <$> charts ws.

(** The columns of the comparison sheet. *)
Definition comparison_columns : list string :=
  ["Size"; "7D Units"; "7D Sales"; "30D Units"; "30D Sales"; "90D Units"; "90D Sales"].

(** The rows of the key metrics table of the summary sheet. *)
Definition metrics_rows (m : SalesReport.Metrics) (t7 t30 t90 : Py.value) : list (list Py.value) :=
  [ [VStr "7 Days"; VNum (SalesReport.total_7d_units m); VNum (SalesReport.total_7d_sales m);
     VNum (SalesReport.total_7d_net m); VNum (SalesReport.avg_7d_price m); t7];
    [VStr "30 Days"; VNum (SalesReport.total_30d_units m); VNum (SalesReport.total_30d_sales m);
     VNum (SalesReport.total_30d_net m); VNum (SalesReport.avg_30d_price m); t30];
    [VStr "90 Days"; VNum (SalesReport.total_90d_units m); VNum (SalesReport.total_90d_sales m);
     VNum (SalesReport.total_90d_net m); VNum (SalesReport.avg_90d_price m); t90] ].

(** The number format of a column of the key metrics table. *)
Definition metrics_format (c : nat) : option string :=
  if bool_decide (c ∈ [3; 4; 5]%nat) then Some SalesReport.currency_format
  else if bool_decide (c = 2%nat) then Some SalesReport.number_format
  else None.

(** The columns of the input table a period sheet shows. *)
Definition period_source (tag : string) : list string :=
  ["Size"; tag +:+ " Units"; tag +:+ " Sales"; tag +:+ " Net Sales"; tag +:+ " Avg Price"].

End ReportNotions.

(** * Vocabulary of the per-day properties *)
Module DailyNotions.
Import Pandas Vocabulary.

(** The rates of a day. *)
Definition margin_of (L : Library) (df : DataFrame) (d : Z) : num :=
  num_div (day_sum L df "Gross profit" d) (day_sum L df "Net sales" d).

Definition discount_of (L : Library) (df : DataFrame) (d : Z) : num :=
  num_div (num_abs (day_sum L df "Discounts" d)) (day_sum L df "Gross sales" d).

(** The sum of a column of the per-day table. *)
Definition days_total (L : Library) (df : DataFrame) (c : string) : num :=
  nansum (day_sum L df c <$> days_of L df).

(** A cell of a column of labels: a text, or nothing. *)
Definition is_label (v : Py.value) : Prop :=
  match v with
  | VStr _ => True
  | _ => isna v = true
  end.

(** The distinct labels of a column of labels. *)
Definition labels_of (cells : list Py.value) : list string :=
  remove_dups (omap str_key cells).

End DailyNotions.

(** * excel_export_example.py: the four sheets

    The values, number formats, fills, alignments and borders of the cells,
    the column widths, the charts and the hidden columns.  The fonts and
    the frozen panes of the sheets are not modelled, and of the conditional
    formatting only the range it is given. *)
Module ExcelSheets.
Import Pandas Openpyxl Daily.

(** ** [DataFrame.itertuples()]

    The rows as named tuples, [collections.namedtuple(..., rename=True)]
    over ['Index'] and the column labels: a field keeps its label when the
    label is an identifier (of ASCII characters), is not a keyword, does
    not start with an underscore and did not occur before, and is named by
    its position otherwise. *)
Definition is_letter (c : ascii) : bool :=
  let n := nat_of_ascii c in
  ((65 <=? n)%nat && (n <=? 90)%nat) || ((97 <=? n)%nat && (n <=? 122)%nat) || (n =? 95)%nat.

Definition is_digit (c : ascii) : bool :=
  let n := nat_of_ascii c in (48 <=? n)%nat && (n <=? 57)%nat.

Definition isidentifier (s : string) : bool :=
  match s with
  | EmptyString => false
  | String c s' =>
      is_letter c && forallb (λ a, is_letter a || is_digit a) (list_ascii_of_string s')
  end.

Definition keywords : list string :=
  [ "False"; "None"; "True"; "and"; "as"; "assert"; "async"; "await"; "break"; "class";
    "continue"; "def"; "del"; "elif"; "else"; "except"; "finally"; "for"; "from"; "global";
    "if"; "import"; "in"; "is"; "lambda"; "nonlocal"; "not"; "or"; "pass"; "raise";
    "return"; "try"; "while"; "with"; "yield" ].

Fixpoint rename_from (index : nat) (seen names : list string) : list string :=
  match names with
  | [] => []
  | name :: rest =>
      (if negb (isidentifier name) || bool_decide (name ∈ keywords)
          || String.prefix "_" name || bool_decide (name ∈ seen)
       then "_" +:+ pretty index else name)
      :: rename_from (S index) (name :: seen) rest
  end.

Definition fields (df : DataFrame) : list string :=
  rename_from 0 [] ("Index" :: columns df).

(** [getattr(row, name)] on the tuple of the row [t.2], whose index is
    its position [t.1]. *)
Definition getattr (df : DataFrame) (t : nat * list Py.value) (name : string)
    : result Py.value :=
  match fst <$> list_find (λ f, f = name) (fields df) with
  | Some 0%nat => Ok (VNum (of_nat t.1))
  | Some (S p) => Ok (cell t.2 p)
  | None => Raise AttributeError
  end.

(** ** Styles *)
Definition BRAND_PRIMARY := "822F23".

Definition header_fill := solid BRAND_PRIMARY.
Definition header_alignment : Alignment :=
  {| horizontal := Some "center"; vertical := Some "center"; wrap_text := true |}.
Definition number_alignment : Alignment :=
  {| horizontal := Some "right"; vertical := Some "center"; wrap_text := false |}.
Definition currency_format : string := SalesReport.currency_format.
Definition percent_format := "0.0%".
Definition number_format := "#,##0".
Definition thin := thin_border "D1D5DB".
Definition alt_fill := solid "F9FAFB".

Section sheets.
Variable L : Library.
(** [t.strftime(fmt)] on a date. *)
Variable date_text : string → Z → string.

(** [v.strftime(fmt)]: [NaT] refuses, and only dates have the method. *)
Definition strftime (fmt : string) (v : Py.value) : result Py.value :=
  match v with
  | VDate t => Ok (VStr (date_text fmt t))
  | VNone => Raise ValueError
  | _ => Raise AttributeError
  end.

(** The header loop of the second and third sheets. *)
Definition header_row (row : nat) (headers : list string) (ws : Worksheet) : Worksheet :=
  foldl (λ ws (ch : nat * string),
           let ws := cell_value row ch.1 (VStr ch.2) ws in
           let ws := update row ch.1 (set_fill header_fill) ws in
           let ws := update row ch.1 (set_alignment header_alignment) ws in
           update row ch.1 (set_border thin) ws)
    ws (enumerate 1 headers).

(** [ws.cell(row=row_idx, column=col, value=row.<field>).number_format = fmt] *)
Definition write_field (df : DataFrame) (t : nat * list Py.value) (row_idx : nat)
    (ws : Worksheet) (cf : nat * string * string) : result Worksheet :=
  v ← getattr df t cf.1.2;
  Ok (update row_idx cf.1.1 (set_number_format cf.2) (cell_value row_idx cf.1.1 v ws)).

(** *** Sheet 1: Executive Summary

    The list [kpis] of the per-day table [daily] of the input table [df]:
    its entries are computed in their order, the two quotients by a
    division of sums. *)
Definition kpis (df daily : DataFrame) : result (list (string * num * string)) :=
  orders ← numeric daily "Orders";
  gross ← numeric daily "Gross sales";
  net ← numeric daily "Net sales";
  profit ← numeric daily "Gross profit";
  aov ← sum_div df (nansum gross) (nansum orders);
  margin ← sum_div df (nansum profit) (nansum net);
  quantity ← numeric daily "Quantity ordered";
  Ok [ ("Total Orders", nansum orders, number_format);
       ("Gross Sales", nansum gross, currency_format);
       ("Net Sales", nansum net, currency_format);
       ("Gross Profit", nansum profit, currency_format);
       ("Average Order Value", aov, currency_format);
       ("Gross Margin", margin, percent_format);
       ("Total Items Sold", nansum quantity, number_format) ].

Definition summary_sheet (df daily : DataFrame) : result Worksheet :=
  let ws := new_sheet "Executive Summary" in
  let ws := update 1 1 (set_value (VStr "BUILT DIFFERENT - November 2025 Report")) ws in
  let ws := merge_cells 1 1 1 5 ws in
  let ws := update 2 1 (set_value (VStr ("Generated: " +:+ today L))) ws in
  kpis ← kpis df daily;
  let ws := update 4 1 (set_value (VStr "Key Performance Indicators")) ws in
  let ws :=
    foldl (λ ws (ik : nat * (string * num * string)),
             let ws := update ik.1 1 (set_value (VStr ik.2.1.1)) ws in
             let ws := update ik.1 2 (set_value (VNum ik.2.1.2)) ws in
             let ws := update ik.1 2 (set_number_format ik.2.2) ws in
             update ik.1 2 (set_alignment number_alignment) ws)
      ws (enumerate 5 kpis) in
  let ws := set_column_width 1 25 ws in
  Ok (set_column_width 2 18 ws).

(** *** Sheet 2: Daily Data *)
Definition daily_headers : list string :=
  ["Date"; "Orders"; "Gross Sales"; "Discounts"; "Net Sales"; "Gross Profit"; "Items Sold";
   "AOV"; "Gross Margin %"; "Discount Rate %"].

(** The statements that write the columns 2 to 10 of a row, in their
    order: column, field of the tuple, number format. *)
Definition daily_fields : list (nat * string * string) :=
  [ (2, "Orders", number_format); (3, "_3", currency_format);
    (4, "Discounts", currency_format); (5, "_5", currency_format);
    (6, "_6", currency_format); (7, "_7", number_format);
    (8, "AOV", currency_format); (9, "_9", percent_format);
    (10, "_10", percent_format) ]%nat.

Definition daily_row (daily : DataFrame) (ws : Worksheet) (it : nat * (nat * list Py.value))
    : result Worksheet :=
  let row_idx := it.1 in
  day ← getattr daily it.2 "Day";
  text ← strftime "%Y-%m-%d" day;
  let ws := cell_value row_idx 1 text ws in
  ws ← foldlM (write_field daily it.2 row_idx) ws daily_fields;
  Ok (foldl (λ ws col,
               let ws := update row_idx col (set_border thin) ws in
               if Nat.even row_idx then update row_idx col (set_fill alt_fill) ws else ws)
        ws (seq 1 10)).

Definition col_widths : list Z := [12; 10; 14; 14; 14; 14; 12; 12; 14; 14].

(** [ws.column_dimensions[chr(64 + i)].width = width]: [chr(64 + i)] is the
    letter of column [i] up to 26. *)
Definition set_widths (widths : list Z) (ws : Worksheet) : Worksheet :=
  foldl (λ ws (iw : nat * Z), set_column_width iw.1 iw.2 ws) ws (enumerate 1 widths).

(** [ws.conditional_formatting.add(f'I2:I{len(daily)+1}', ...)]: the
    range runs from row 2 down to row [len(daily) + 1], and openpyxl
    refuses a range that ends above its start. *)
Definition conditional_formatting_add (last_row : nat) (ws : Worksheet) : result Worksheet :=
  if decide (last_row < 2)%nat then Raise TypeError else Ok ws.

Definition daily_sheet (daily : DataFrame) : result Worksheet :=
  let ws := new_sheet "Daily Data" in
  let ws := header_row 1 daily_headers ws in
  ws ← foldlM (daily_row daily) ws (enumerate 2 (enumerate 0 (rows daily)));
  let ws := set_widths col_widths ws in
  conditional_formatting_add (len daily + 1) ws.

(** *** Sheet 3: Customer Analysis *)
Definition cust_headers : list string :=
  ["Customer Type"; "Orders"; "Gross Sales"; "Net Sales"; "Gross Profit"; "AOV";
   "% of Orders"; "% of Revenue"].

Definition customer_fields : list (nat * string * string) :=
  [ (2, "Orders", number_format); (3, "_3", currency_format);
    (4, "_4", currency_format); (5, "_5", currency_format);
    (6, "AOV", currency_format); (7, "_7", percent_format);
    (8, "_8", percent_format) ]%nat.

Definition customer_row (customer_summary : DataFrame) (ws : Worksheet)
    (it : nat * (nat * list Py.value)) : result Worksheet :=
  let row_idx := it.1 in
  v ← getattr customer_summary it.2 "_1";
  let ws := cell_value row_idx 1 v ws in
  ws ← foldlM (write_field customer_summary it.2 row_idx) ws customer_fields;
  Ok (foldl (λ ws col, update row_idx col (set_border thin) ws) ws (seq 1 8)).

Definition customer_sheet (customer_summary : DataFrame) : result Worksheet :=
  let ws := new_sheet "Customer Analysis" in
  let ws := update 1 1 (set_value (VStr "Customer Segment Analysis")) ws in
  let ws := header_row 3 cust_headers ws in
  ws ← foldlM (customer_row customer_summary) ws
         (enumerate 4 (enumerate 0 (rows customer_summary)));
  Ok (set_widths [18; 12; 14; 14; 14; 12; 12; 12] ws).

(** *** Sheet 4: Charts

    Of a chart the kind, the title, the title of the value axis, the
    references, the size and the anchor are kept, as for the charts of the
    sales report. *)
Definition chart_data_row (daily : DataFrame) (ws : Worksheet)
    (it : nat * (nat * list Py.value)) : result Worksheet :=
  let row_idx := it.1 in
  day ← getattr daily it.2 "Day";
  text ← strftime "%b %d" day;
  let ws := cell_value row_idx 1 text ws in
  orders ← getattr daily it.2 "Orders";
  let ws := cell_value row_idx 2 orders ws in
  gross ← getattr daily it.2 "_3";
  Ok (cell_value row_idx 3 gross ws).

Definition plain_series (r : Reference) : Series :=
  {| data := r; solidFill := None; line_solidFill := None; line_width := None; tx := None |}.

Definition charts_sheet (daily : DataFrame) : result Worksheet :=
  let ws := new_sheet "Charts" in
  ws ← foldlM (chart_data_row daily) ws (enumerate 1 (enumerate 0 (rows daily)));
  let data1 := {| min_col := 2; min_row := 1; max_row_ref := len daily |} in
  let cats1 := {| min_col := 1; min_row := 1; max_row_ref := len daily |} in
  let chart1 :=
    {| kind_of_chart := BarChart; chart_title := "Daily Orders"; y_axis_title := "Orders";
       series := [plain_series data1]; categories := Some cats1;
       chart_width := 18; chart_height := 10; legend := true |} in
  let ws := add_chart chart1 "E1" ws in
  let data2 := {| min_col := 3; min_row := 1; max_row_ref := len daily |} in
  let chart2 :=
    {| kind_of_chart := LineChart; chart_title := "Daily Gross Sales";
       y_axis_title := "Sales ($)";
       series := [plain_series data2]; categories := Some cats1;
       chart_width := 18; chart_height := 10; legend := true |} in
  let ws := add_chart chart2 "E22" ws in
  let ws := hide_column 1 ws in
  let ws := hide_column 2 ws in
  Ok (hide_column 3 ws).

(** *** The workbook *)
Record Book := {
  ws_summary : Worksheet;
  ws_daily : Worksheet;
  ws_customer : Worksheet;
  ws_charts : Worksheet;
}.

Definition workbook (df : DataFrame) : result Book :=
  dd ← ExcelExport.prepare_daily L df;
  customer_summary ← ExcelExport.prepare_customers dd.1;
  s1 ← summary_sheet df dd.2;
  s2 ← daily_sheet dd.2;
  s3 ← customer_sheet customer_summary;
  s4 ← charts_sheet dd.2;
  Ok {| ws_summary := s1; ws_daily := s2; ws_customer := s3; ws_charts := s4 |}.

End sheets.
End ExcelSheets.

(** * Vocabulary of the properties of these sheets *)
Module SheetNotions.
Import Pandas Openpyxl ExcelSheets Vocabulary Notions ReportNotions DailyNotions.

(** The columns of the 'Daily Data' sheet after the first: column of the
    sheet, column of the per-day table, number format. *)
Definition daily_layout : list (nat * string * string) :=
  [ (2, "Orders", number_format); (3, "Gross sales", currency_format);
    (4, "Discounts", currency_format); (5, "Net sales", currency_format);
    (6, "Gross profit", currency_format); (7, "Quantity ordered", number_format);
    (8, "AOV", currency_format); (9, "Gross Margin %", percent_format);
    (10, "Discount Rate %", percent_format) ]%nat.

(** The same for the 'Customer Analysis' sheet. *)
Definition customer_layout : list (nat * string * string) :=
  [ (2, "Orders", number_format); (3, "Gross sales", currency_format);
    (4, "Net sales", currency_format); (5, "Gross profit", currency_format);
    (6, "AOV", currency_format); (7, "% of Orders", percent_format);
    (8, "% of Revenue", percent_format) ]%nat.

(** The labels of the per-day table and of the customer table of the
    script. *)
Definition daily_columns : list string :=
  ["Day"; "Orders"; "Gross sales"; "Discounts"; "Net sales"; "Gross profit";
   "Quantity ordered"; "AOV"; "Gross Margin %"; "Discount Rate %"].

Definition customer_columns : list string :=
  ["New or returning customer"; "Orders"; "Gross sales"; "Net sales"; "Gross profit";
   "AOV"; "% of Orders"; "% of Revenue"].

(** What the statement that writes a column of a layout leaves of a cell
    of the row [r] of the table [df], and what the row loops of the two
    sheets leave of it. *)
Definition laid (layout : list (nat * string * string)) (df : DataFrame)
    (r : list Py.value) (C : nat) (old : Cell) : Cell :=
  match list_find (λ e : nat * string * string, e.1.1 = C) layout with
  | Some (_, (_, column, fmt)) => set_number_format fmt (put (row_value df r column) old)
  | None => old
  end.

(** What the loop over the columns of a data row of 'Daily Data' leaves of
    a cell. *)
Definition banded (row_idx : nat) (c : Cell) : Cell :=
  let c := set_border thin c in
  if Nat.even row_idx then set_fill alt_fill c else c.

Definition date_cell (date_text : string → Z → string) (fmt : string) (v : Py.value)
    : Py.value :=
  match v with
  | VDate d => VStr (date_text fmt d)
  | _ => VNone
  end.

Definition daily_cell (date_text : string → Z → string) (daily : DataFrame) (R : nat)
    (t : nat * list Py.value) (C : nat) (old : Cell) : Cell :=
  banded R (if decide (C = 1%nat) then put (date_cell date_text "%Y-%m-%d" (cell t.2 0)) old
            else laid daily_layout daily t.2 C old).

Definition customer_cell (cs : DataFrame) (R : nat) (t : nat * list Py.value) (C : nat)
    (old : Cell) : Cell :=
  set_border thin (if decide (C = 1%nat) then put (cell t.2 0) old
                   else laid customer_layout cs t.2 C old).

Definition chart_data_cell (date_text : string → Z → string) (daily : DataFrame)
    (t : nat * list Py.value) (C : nat) (old : Cell) : Cell :=
  match C with
  | 1%nat => put (date_cell date_text "%b %d" (cell t.2 0)) old
  | 2%nat => put (row_value daily t.2 "Orders") old
  | 3%nat => put (row_value daily t.2 "Gross sales") old
  | _ => old
  end.

(** The KPIs of the first sheet of the workbook, over the input table:
    label, value, number format. *)
Definition kpi_table (L : Library) (df : DataFrame) : list (string * num * string) :=
  [ ("Total Orders", days_total L df "Orders", number_format);
    ("Gross Sales", days_total L df "Gross sales", currency_format);
    ("Net Sales", days_total L df "Net sales", currency_format);
    ("Gross Profit", days_total L df "Gross profit", currency_format);
    ("Average Order Value",
     num_div (days_total L df "Gross sales") (days_total L df "Orders"), currency_format);
    ("Gross Margin",
     num_div (days_total L df "Gross profit") (days_total L df "Net sales"), percent_format);
    ("Total Items Sold", days_total L df "Quantity ordered", number_format) ].

(** A date printer to run the sheets on examples: the day number under
    its format. *)
Definition sample_date_text (fmt : string) (t : Z) : string := fmt +:+ " " +:+ pretty t.

Definition is_date (v : Py.value) : Prop :=
  match v with VDate _ => True | _ => False end.

End SheetNotions.

(** * Properties *)

(** ** Results and runs *)
Module PyFacts.
Import Vocabulary.
Lemma bind_Ok {A B} (r : result A) (k : A → result B) (b : B) :
  r ≫= k = Ok b → ∃ a, r = Ok a ∧ k a = Ok b.
Proof. destruct r as [a|e]; [|done]. intros H. by exists a. Qed.

Lemma is_ok_Ok {A} (r : result A) : is_ok r = true → ∃ a, r = Ok a.
Proof. destruct r as [a|e]; [by exists a|done]. Qed.

Lemma bind_Raise {A B} (r : result A) (k : A → result B) (e : exn) :
  r = Raise e → r ≫= k = Raise e.
Proof. by intros ->. Qed.

Lemma foldlM_app {A B} (f : A → B → result A) (a : A) (l k : list B) :
  foldlM f a (l ++ k) = a' ← foldlM f a l; foldlM f a' k.
Proof.
  revert a. induction l as [|x l IH]; intros a; [done|].
  simpl. destruct (f a x) as [a1|e]; [|done]. simpl. apply IH.
Qed.

Lemma mapM_Ok {A B} (f : A → result B) (l : list A) (k : list B) :
  mapM f l = Ok k → Forall2 (λ x y, f x = Ok y) l k.
Proof.
  revert k. induction l as [|x l IH]; intros k; simpl.
  - intros [= <-]. constructor.
  - intros H. apply bind_Ok in H as (y & Hy & H).
    apply bind_Ok in H as (k' & Hk' & H). injection H as <-.
    constructor; [done|]. by apply IH.
Qed.

Lemma mapM_Ok_fmap {A B} (f : A → result B) (g : A → B) (l : list A) :
  Forall (λ x, f x = Ok (g x)) l → mapM f l = Ok (g <$> l).
Proof.
  induction 1 as [|x l Hx _ IH]; [done|]. simpl. rewrite Hx. simpl. by rewrite IH.
Qed.

(** ** Files of a run *)
Lemma emits_lift {A} (r : result A) : emits (lift r) [].
Proof. intros fs. exists []. by rewrite app_nil_r. Qed.

Lemma emits_ret {A} (a : A) : emits (mret a) [].
Proof. intros fs. exists []. by rewrite app_nil_r. Qed.

Lemma emits_raise {A} (e : exn) : emits (raise e : Run A) [].
Proof. apply emits_lift. Qed.

Lemma emits_write name k : emits (write name k) [File name k].
Proof. intros fs. by exists [File name k]. Qed.

Lemma emits_bind {A B} (m : Run A) (f : A → Run B) l1 l2 :
  emits m l1 → (∀ a, emits (f a) l2) → emits (m ≫= f) (l1 ++ l2).
Proof.
  intros Hm Hf fs. unfold mbind, run_bind.
  destruct (Hm fs) as (l1' & E1 & P1 & O1).
  destruct (m fs) as [fs1 [a|e]]; simpl in *.
  - rewrite O1 in * by done. subst fs1.
    destruct (Hf a (fs ++ l1)) as (l2' & E2 & P2 & O2).
    exists (l1 ++ l2'). rewrite E2, (assoc_L (++)). split; [done|]. split.
    + by apply prefix_app.
    + intros Hok. by rewrite O2.
  - exists l1'. split; [done|]. split; [|done].
    by apply prefix_app_r.
Qed.

Lemma emits_written {A} (m : Run A) l : emits m l → written m `prefix_of` l.
Proof. intros H. destruct (H []) as (l' & E & P & _). unfold written. by rewrite E. Qed.

Lemma emits_completes {A} (m : Run A) l : emits m l → completes m → written m = l.
Proof.
  intros H Hc. destruct (H []) as (l' & E & _ & O).
  unfold written, completes, outcome in *. rewrite E. by rewrite O.
Qed.

Lemma lift_Raise_written {A B} (r : result A) (k : A → Run B) e :
  r = Raise e → outcome (lift r ≫= k) = Raise e ∧ written (lift r ≫= k) = [].
Proof. by intros ->. Qed.

Ltac emits_step :=
  lazymatch goal with
  | |- emits (mbind _ (lift _)) ?l =>
      apply (emits_bind _ _ [] l); [apply emits_lift | intros ?]
  | |- emits (mbind _ (write _ _)) (?f :: ?l) =>
      apply (emits_bind _ _ [f] l); [apply emits_write | intros ?]
  | |- emits (mbind _ (if _ then _ else _)) ?l =>
      apply (emits_bind _ _ [] l);
      [case_match; (apply emits_ret || apply emits_raise) | intros ?]
  | |- emits (write _ _) _ => apply emits_write
  | |- emits (mret _) _ => apply emits_ret
  end.
End PyFacts.

(** ** Tables *)
Module PandasFacts.
Import Pandas Vocabulary PyFacts.

Lemma col_index_Ok df c i : col_index df c = Ok i → columns df !! i = Some c.
Proof.
  unfold col_index. destruct (list_find _ _) as [[j x]|] eqn:E; [|done].
  intros [= <-]. apply list_find_Some in E as (E & -> & _). done.
Qed.

Lemma col_index_first df c i j :
  col_index df c = Ok i → columns df !! j = Some c → (i ≤ j)%nat.
Proof.
  unfold col_index. destruct (list_find _ _) as [[k x]|] eqn:E; [|done].
  intros [= <-] Hj. apply list_find_Some in E as (E & -> & Hmin).
  destruct (decide (k ≤ j)%nat); [done|]. exfalso. apply (Hmin j c); [done|lia|done].
Qed.

Lemma col_index_elem df c : c ∈ columns df ↔ ∃ i, col_index df c = Ok i.
Proof.
  split.
  - intros Hin. unfold col_index.
    destruct (list_find (λ x, x = c) (columns df)) as [[j x]|] eqn:E; [by eexists|].
    apply list_find_None in E. rewrite Forall_forall in E. by destruct (E c Hin).
  - intros [i Hi]. apply col_index_Ok in Hi. by eapply list_elem_of_lookup_2.
Qed.

Lemma col_index_missing df c : c ∉ columns df → col_index df c = Raise (KeyError c).
Proof.
  intros Hc. unfold col_index.
  destruct (list_find (λ x, x = c) (columns df)) as [[j x]|] eqn:E; [|done].
  apply list_find_Some in E as (E & -> & _). destruct Hc. by eapply list_elem_of_lookup_2.
Qed.

Lemma column_elem df c l : column df c = Ok l → c ∈ columns df.
Proof. intros (i & Hi & _)%bind_Ok. apply col_index_elem. eauto. Qed.

Lemma numeric_elem df c l : numeric df c = Ok l → c ∈ columns df.
Proof. intros (v & Hv & _)%bind_Ok. by eapply column_elem. Qed.

Lemma column_missing df c : c ∉ columns df → column df c = Raise (KeyError c).
Proof. intros H. unfold column. by rewrite col_index_missing. Qed.

Lemma numeric_missing df c : c ∉ columns df → numeric df c = Raise (KeyError c).
Proof. intros H. unfold numeric. by rewrite column_missing. Qed.

Lemma columns_set_column df name vals :
  columns (set_column df name vals) =
    if decide (name ∈ columns df) then columns df else columns df ++ [name].
Proof.
  unfold set_column. case_decide as Hin.
  - apply col_index_elem in Hin as [i Hi]. by rewrite Hi.
  - by rewrite col_index_missing.
Qed.

Lemma elem_of_columns_set_column df name vals c :
  c ∈ columns (set_column df name vals) ↔ c = name ∨ c ∈ columns df.
Proof.
  rewrite columns_set_column. case_decide.
  - split; [auto|]. intros [->|?]; done.
  - rewrite elem_of_app, list_elem_of_singleton. tauto.
Qed.
End PandasFacts.

Module GroupFacts.
Import Pandas Vocabulary PyFacts PandasFacts.

Section groupby.
Context `{Countable K}.
Variable key_of : Py.value → option K.
Variable key_val : K → Py.value.
Variable key_le : relation K.
Context `{∀ x y, Decision (key_le x y)}.

Lemma group_fold_lookup (l : list (option K * num)) (acc : gmap K num) (k : K) :
  foldl group_step acc l !! k =
    match acc !! k with
    | Some a => Some (foldl nan_add a (selected k l))
    | None =>
        if decide (Some k ∈ l.*1) then Some (foldl nan_add (Fin 0) (selected k l))
        else None
    end.
Proof.
  revert acc. induction l as [|[ko x] l IH]; intros acc.
  - simpl. by destruct (acc !! k).
  - cbn [foldl]. rewrite IH. unfold selected. rewrite filter_cons.
    cbn [fst snd fmap list_fmap]. destruct ko as [k'|]; unfold group_step; cbn [fst snd].
    + destruct (decide (k' = k)) as [->|Hne].
      * rewrite lookup_insert_eq. rewrite (decide_True (P := Some k = Some k)) by done. cbn [fmap list_fmap snd].
        destruct (acc !! k); cbn [default foldl]; [done|].
        destruct (decide (Some k ∈ Some k :: l.*1)) as [|Hin]; [done|].
        destruct Hin. apply elem_of_cons. by left.
      * rewrite lookup_insert_ne by done.
        rewrite (decide_False (P := Some k' = Some k)) by congruence.
        destruct (acc !! k); [done|].
        destruct (decide (Some k ∈ l.*1)) as [Ha|Ha],
          (decide (Some k ∈ Some k' :: l.*1)) as [Hb|Hb]; try done.
        -- destruct Hb. apply elem_of_cons. by right.
        -- apply elem_of_cons in Hb as [Hb|Hb]; [congruence|done].
    + rewrite (decide_False (P := None = Some k)) by done.
      destruct (acc !! k); [done|].
      destruct (decide (Some k ∈ l.*1)) as [Ha|Ha],
        (decide (Some k ∈ None :: l.*1)) as [Hb|Hb]; try done.
      -- destruct Hb. apply elem_of_cons. by right.
      -- apply elem_of_cons in Hb as [Hb|Hb]; [congruence|done].
Qed.

Lemma group_sums_lookup (keys : list (option K)) (xs : list num) (k : K) :
  length keys = length xs → Some k ∈ keys →
  group_sums keys xs !! k = Some (nansum (selected k (zip keys xs))).
Proof.
  intros Hlen Hin. unfold group_sums. rewrite group_fold_lookup, lookup_empty.
  rewrite fst_zip by lia. by rewrite decide_True.
Qed.

Lemma group_keys_NoDup keys : NoDup (group_keys key_le keys).
Proof.
  unfold group_keys. rewrite merge_sort_Permutation. apply NoDup_remove_dups.
Qed.

Lemma elem_of_group_keys keys k : k ∈ group_keys key_le keys ↔ Some k ∈ keys.
Proof.
  unfold group_keys. rewrite merge_sort_Permutation, elem_of_remove_dups.
  rewrite list_elem_of_omap. split.
  - intros (x & Hx & Hk). simpl in Hk. by subst.
  - intros Hk. by exists (Some k).
Qed.

Lemma selected_zip_fmap {A} (f : A → option K) (g : A → num) (l : list A) (k : K) :
  selected k (zip (f <$> l) (g <$> l)) = g <$> filter (λ a, f a = Some k) l.
Proof.
  unfold selected. induction l as [|a l IH]; [done|].
  rewrite !fmap_cons. change (zip (f a :: (f <$> l)) (g a :: (g <$> l)))
    with ((f a, g a) :: zip (f <$> l) (g <$> l)).
  rewrite !filter_cons. cbn [fst].
  destruct (decide (f a = Some k)); rewrite ?fmap_cons, IH; done.
Qed.
End groupby.

Lemma cell_fmap {A} (f : A → Py.value) (l : list A) i a :
  l !! i = Some a → cell (f <$> l) i = f a.
Proof. intros Hl. unfold cell. by rewrite list_lookup_fmap, Hl. Qed.

Lemma wf_tabulate {D} cs (ds : list D) F : wf (tabulate cs ds F).
Proof.
  unfold wf, tabulate. simpl. apply Forall_fmap, Forall_true. intros d. simpl.
  by rewrite length_fmap.
Qed.

Lemma column_tabulate {D} cs (ds : list D) F c :
  c ∈ cs → column (tabulate cs ds F) c = Ok (F c <$> ds).
Proof.
  intros Hc. assert (c ∈ columns (tabulate cs ds F)) as [i Hi]%col_index_elem by done.
  unfold column. rewrite Hi. simpl. f_equal. rewrite <- list_fmap_compose.
  apply list_fmap_ext. intros j d _. simpl. apply (cell_fmap (λ c0, F c0 d)).
  by apply col_index_Ok in Hi.
Qed.

Lemma mapM_as_num_fmap {A} (g : A → num) (l : list A) :
  mapM as_num ((λ a, VNum (g a)) <$> l) = Ok (g <$> l).
Proof.
  induction l as [|a l IH]; [done|].
  rewrite !fmap_cons.
  change (mapM as_num (VNum (g a) :: ((λ a, VNum (g a)) <$> l)))
    with (k ← mapM as_num ((λ a, VNum (g a)) <$> l); Ok (g a :: k)).
  by rewrite IH.
Qed.

Lemma numeric_tabulate {D} cs (ds : list D) F c (g : D → num) :
  c ∈ cs → (∀ d, F c d = VNum (g d)) → numeric (tabulate cs ds F) c = Ok (g <$> ds).
Proof.
  intros Hc HF. unfold numeric. rewrite column_tabulate by done. simpl.
  rewrite <- mapM_as_num_fmap. f_equal. apply list_fmap_ext. intros ? d _. apply HF.
Qed.

Lemma derive_tabulate {D} cs (ds : list D) F name a b f (ga gb : D → num) :
  a ∈ cs → b ∈ cs → name ∉ cs →
  (∀ d, F a d = VNum (ga d)) → (∀ d, F b d = VNum (gb d)) →
  Daily.derive name a b f (tabulate cs ds F) =
    Ok (tabulate (cs ++ [name]) ds
          (λ c d, if decide (c = name) then VNum (f (ga d) (gb d)) else F c d)).
Proof.
  intros Ha Hb Hn HFa HFb. unfold Daily.derive.
  rewrite (numeric_tabulate _ _ _ a ga), (numeric_tabulate _ _ _ b gb) by done. simpl.
  f_equal. unfold set_column. rewrite col_index_missing by done.
  unfold tabulate. simpl. f_equal.
  induction ds as [|d ds IH]; [done|]. simpl. f_equal; [|apply IH].
  rewrite fmap_app. simpl. rewrite decide_True by done. f_equal.
  apply Forall_fmap_ext_1, Forall_forall. intros c Hc.
  rewrite decide_False; [done|]. by intros ->.
Qed.

Section daily.
Variable L : Library.

Lemma convert_dates_spec df name df1 :
  convert_dates L df name = Ok df1 →
  ∃ i dl,
    col_index df name = Ok i ∧
    Forall2 (λ r v, to_datetime L (cell r i) = Ok v) (rows df) dl ∧
    df1 = Frame (columns df) (zip_with (λ r v, <[i:=v]> r) (rows df) dl).
Proof.
  unfold convert_dates. intros (c & Hc & H)%bind_Ok.
  apply bind_Ok in H as (dl & Hdl & H). injection H as <-.
  apply bind_Ok in Hc as (i & Hi & Hc). injection Hc as <-.
  exists i, dl. split; [done|]. split.
  - apply mapM_Ok in Hdl. by apply Forall2_fmap_l in Hdl.
  - unfold set_column. by rewrite Hi.
Qed.

Lemma to_datetime_None v : cell [] 0 = VNone → to_datetime L VNone = Ok v → v = VNone.
Proof. by intros _ [= <-]. Qed.

Lemma converted_cells i (rs : list (list Py.value)) dl :
  Forall2 (λ r v, to_datetime L (cell r i) = Ok v) rs dl →
  (λ r, cell r i) <$> zip_with (λ r v, <[i:=v]> r) rs dl = dl.
Proof.
  induction 1 as [|r v rs dl Hv _ IH]; [done|]. simpl. f_equal; [|done].
  unfold cell in *. destruct (decide (i < length r)%nat) as [Hlt|Hge].
  - by rewrite list_lookup_insert_eq.
  - rewrite list_insert_ge by lia. rewrite lookup_ge_None_2 in * by lia.
    simpl in *. by injection Hv.
Qed.

Lemma other_cells i j (rs : list (list Py.value)) dl :
  i ≠ j →
  (λ r, cell r j) <$> zip_with (λ r v, <[i:=v]> r) rs dl
  = (λ r, cell r j) <$> take (length dl) rs.
Proof.
  intros Hne. revert dl. induction rs as [|r rs IH]; intros [|v dl]; try done.
  simpl. f_equal; [|apply IH]. unfold cell. by rewrite list_lookup_insert_ne.
Qed.

Lemma converted_keys df i dl :
  col_index df "Day" = Ok i →
  Forall2 (λ r v, to_datetime L (cell r i) = Ok v) (rows df) dl →
  date_key <$> dl = day_of L df <$> rows df.
Proof.
  intros Hi. unfold day_of. rewrite Hi.
  induction 1 as [|r v rs dl Hv _ IH]; [done|]. simpl. rewrite Hv. by f_equal.
Qed.

Lemma numeric_measure_of df c xs :
  numeric df c = Ok xs → xs = measure_of df c <$> rows df.
Proof.
  unfold numeric, column, measure_of. intros (vs & Hvs & Hxs)%bind_Ok.
  apply bind_Ok in Hvs as (j & Hj & Hvs). injection Hvs as <-. rewrite Hj.
  apply mapM_Ok, Forall2_fmap_l in Hxs.
  induction Hxs as [|r x rs xs Hx _ IH]; [done|]. simpl. f_equal; [|done].
  unfold compose in Hx. destruct (cell r j); simpl in Hx; [|done..]. by injection Hx.
Qed.

Lemma numeric_converted df i dl c :
  col_index df "Day" = Ok i → c ≠ "Day" → length dl = length (rows df) →
  numeric (Frame (columns df) (zip_with (λ r v, <[i:=v]> r) (rows df) dl)) c
  = numeric df c.
Proof.
  intros Hi Hc Hlen. unfold numeric, column, col_index. simpl.
  fold (col_index df c). destruct (col_index df c) as [j|e] eqn:Hj; [|done]. simpl.
  rewrite other_cells.
  - by rewrite take_ge by lia.
  - intros ->. apply col_index_Ok in Hi, Hj. congruence.
Qed.

Lemma daily_sums_spec df ms df1 daily0 :
  "Day" ∉ ms → Daily.daily_sums L ms df = Ok (df1, daily0) →
  daily0 = tabulate ("Day" :: ms) (days_of L df) (per_day L df).
Proof.
  intros Hms. unfold Daily.daily_sums. intros (df1' & Hconv & H)%bind_Ok.
  apply bind_Ok in H as (daily & Hg & H). injection H as -> ->.
  apply convert_dates_spec in Hconv as (i & dl & Hi & HF & ->).
  pose proof (Forall2_length _ _ _ HF) as Hlen.
  unfold groupby_date, groupby_sum in Hg.
  apply bind_Ok in Hg as (kcol & Hk & Hg).
  apply bind_Ok in Hg as (? & _ & Hg).
  apply bind_Ok in Hg as (cols & Hcols & Hg). injection Hg as <-.
  assert (kcol = dl) as ->.
  { unfold column, col_index in Hk. simpl in Hk. fold (col_index df "Day") in Hk.
    rewrite Hi in Hk. simpl in Hk. injection Hk as <-. by apply converted_cells. }
  rewrite (converted_keys df i dl Hi HF).
  unfold tabulate, days_of. f_equal.
  apply Forall_fmap_ext_1, Forall_forall. intros k Hk'.
  apply elem_of_group_keys in Hk'.
  cbn [fmap list_fmap]. unfold per_day at 1. rewrite decide_True by done. f_equal.
  apply mapM_Ok in Hcols. clear Hk.
  induction Hcols as [|c xs ms cols Hc _ IH]; [done|].
  apply not_elem_of_cons in Hms as [Hne Hms].
  rewrite !fmap_cons. f_equal; [|by apply IH].
  rewrite numeric_converted in Hc by (done || lia).
  apply numeric_measure_of in Hc as ->.
  unfold per_day. rewrite decide_False by done. f_equal.
  rewrite group_sums_lookup; [|by rewrite !length_fmap|done].
  simpl. unfold day_sum. by rewrite selected_zip_fmap.
Qed.

Lemma days_of_NoDup df : NoDup (days_of L df).
Proof. apply group_keys_NoDup. Qed.

Lemma elem_of_days_of df d :
  d ∈ days_of L df ↔ ∃ r, r ∈ rows df ∧ day_of L df r = Some d.
Proof.
  unfold days_of. rewrite elem_of_group_keys, list_elem_of_fmap.
  split; intros (r & ? & ?); by exists r.
Qed.

Ltac in_list := compute_done.

Lemma per_day_measure df c d : c ≠ "Day" → per_day L df c d = VNum (day_sum L df c d).
Proof. intros Hc. unfold per_day. by rewrite decide_False. Qed.

Lemma prepared_tabulate s df p :
  Scripts.prepared s L df = Ok p →
  ∃ cs F,
    Scripts.daily p = tabulate cs (days_of L df) F ∧
    (∀ c, c ∈ "Day" :: claimed_measures → c ∈ cs ∧ ∀ d, F c d = per_day L df c d) ∧
    "AOV" ∈ cs ∧ (∀ d, F "AOV" d = VNum (aov_of L df d)) ∧
    ∀ a, Scripts.aov_kpi p = Some a →
         a = num_div (nansum (day_sum L df "Gross sales" <$> days_of L df))
               (nansum (day_sum L df "Orders" <$> days_of L df)).
Proof.
  destruct s; simpl.
  - intros ([df1 daily] & Hp & [= <-])%bind_Ok. simpl.
    unfold ChartsExample.prepare in Hp.
    apply bind_Ok in Hp as ([df1' d0] & Hd & Hp).
    apply daily_sums_spec in Hd as ->; [|in_list]. simpl in Hp.
    unfold Daily.with_aov in Hp.
    rewrite (derive_tabulate _ _ _ _ _ _ _ (day_sum L df "Gross sales")
               (day_sum L df "Orders")) in Hp;
      [|in_list|in_list|in_list|intros; by apply per_day_measure..].
    simpl in Hp.
    rewrite (derive_tabulate _ _ _ _ _ _ _ (day_sum L df "Discounts")
               (day_sum L df "Gross sales")) in Hp;
      [|in_list|in_list|in_list|intros; rewrite decide_False by done; by apply per_day_measure..].
    simpl in Hp. injection Hp as _ <-.
    eexists _, _. split; [done|]. split; [|split; [in_list|split; [|done]]].
    + apply Forall_forall. unfold claimed_measures.
      repeat apply Forall_cons_2; try apply Forall_nil_2;
        (split; [in_list|intros d; by rewrite !decide_False by done]).
    + intros d. rewrite decide_False by done. by rewrite decide_True.
  - intros ([daily k] & Hp & [= <-])%bind_Ok. simpl.
    unfold PdfReport.prepare in Hp.
    apply bind_Ok in Hp as ([df1' d0] & Hd & Hp).
    apply daily_sums_spec in Hd as ->; [|in_list]. simpl in Hp.
    unfold Daily.with_aov in Hp.
    rewrite (derive_tabulate _ _ _ _ _ _ _ (day_sum L df "Gross sales")
               (day_sum L df "Orders")) in Hp;
      [|in_list|in_list|in_list|intros; by apply per_day_measure..].
    simpl in Hp.
    rewrite (numeric_tabulate _ _ _ "Orders" (day_sum L df "Orders")),
      (numeric_tabulate _ _ _ "Gross sales" (day_sum L df "Gross sales")),
      (numeric_tabulate _ _ _ "Net sales" (day_sum L df "Net sales")),
      (numeric_tabulate _ _ _ "Gross profit" (day_sum L df "Gross profit")) in Hp;
      [|in_list || (intros; rewrite decide_False by done; by apply per_day_measure)..].
    simpl in Hp. unfold sum_div in Hp. destruct (bool_decide (rows df = [])); [done|].
    simpl in Hp. injection Hp as <- <-.
    eexists _, _. split; [done|]. split; [|split; [in_list|split]].
    + apply Forall_forall. unfold claimed_measures.
      repeat apply Forall_cons_2; try apply Forall_nil_2;
        (split; [in_list|intros d; by rewrite !decide_False by done]).
    + intros d. by rewrite decide_True.
    + by intros a [= <-].
  - intros ([df1 daily] & Hp & Hk)%bind_Ok.
    apply bind_Ok in Hk as (a & Ha & [= <-]). simpl in *.
    unfold ExcelExport.prepare_daily in Hp.
    apply bind_Ok in Hp as ([df1' d0] & Hd & Hp).
    apply daily_sums_spec in Hd as ->; [|in_list]. simpl in Hp.
    unfold Daily.with_aov in Hp.
    rewrite (derive_tabulate _ _ _ _ _ _ _ (day_sum L df "Gross sales")
               (day_sum L df "Orders")) in Hp;
      [|in_list|in_list|in_list|intros; by apply per_day_measure..].
    simpl in Hp.
    rewrite (derive_tabulate _ _ _ _ _ _ _ (day_sum L df "Gross profit")
               (day_sum L df "Net sales")) in Hp;
      [|in_list|in_list|in_list|intros; rewrite decide_False by done; by apply per_day_measure..].
    simpl in Hp.
    rewrite (derive_tabulate _ _ _ _ _ _ _ (day_sum L df "Discounts")
               (day_sum L df "Gross sales")) in Hp;
      [|in_list|in_list|in_list|intros; rewrite !decide_False by done; by apply per_day_measure..].
    simpl in Hp. injection Hp as _ <-.
    unfold ExcelExport.kpi_aov in Ha.
    rewrite (numeric_tabulate _ _ _ "Gross sales" (day_sum L df "Gross sales")),
      (numeric_tabulate _ _ _ "Orders" (day_sum L df "Orders")) in Ha;
      [|in_list || (intros; rewrite !decide_False by done; by apply per_day_measure)..].
    simpl in Ha. unfold sum_div in Ha. destruct (bool_decide (rows df = [])); [done|].
    injection Ha as <-.
    eexists _, _. split; [done|]. split; [|split; [in_list|split]].
    + apply Forall_forall. unfold claimed_measures.
      repeat apply Forall_cons_2; try apply Forall_nil_2;
        (split; [in_list|intros d; by rewrite !decide_False by done]).
    + intros d. rewrite !decide_False by done. by rewrite decide_True.
    + by intros a [= <-].
Qed.
End daily.
End GroupFacts.

Module SumFacts.
Import Pandas Vocabulary PyFacts PandasFacts.
Open Scope Qc_scope.

Lemma nansum_fold (a : Qc) (l : list num) :
  Forall (λ x, x ≠ PInf ∧ x ≠ NInf) l →
  foldl nan_add (Fin a) l = Fin (a + qsum (qval <$> l)).
Proof.
  revert a. induction l as [|x l IH]; intros a Hl.
  - simpl. by rewrite Qcplus_0_r.
  - apply Forall_cons in Hl as [[Hp Hn] Hl]. destruct x as [q| | |]; try done.
    + simpl. rewrite IH by done. f_equal. unfold fmap. ring.
    + simpl. rewrite IH by done. f_equal. unfold fmap. ring.
Qed.

Lemma nansum_finite (l : list num) :
  Forall (λ x, x ≠ PInf ∧ x ≠ NInf) l → nansum l = Fin (qsum (qval <$> l)).
Proof. intros Hl. unfold nansum. rewrite (nansum_fold 0) by done. f_equal. ring. Qed.

Lemma nansum_Fin {A} (g : A → Qc) (l : list A) :
  nansum ((λ a, Fin (g a)) <$> l) = Fin (qsum (g <$> l)).
Proof.
  rewrite nansum_finite.
  - by rewrite <- list_fmap_compose.
  - apply Forall_fmap, Forall_true. done.
Qed.

Lemma qsum_cons (x : Qc) (l : list Qc) : qsum (x :: l) = x + qsum l.
Proof. done. Qed.

Lemma exact_sum_finite (xs : list num) :
  exact_sum xs → Forall (λ x, x ≠ PInf ∧ x ≠ NInf) xs.
Proof.
  intros [k Hk]. unfold exact_with in Hk. apply andb_true_iff in Hk as [_ Hk].
  destruct (mapM (units k) xs) as [us|] eqn:E; [|done]. clear Hk.
  apply mapM_Some in E. induction E as [|x u xs us Hx _ IH]; constructor; [|done].
  by destruct x.
Qed.

Lemma exact_column_finite df c : exact_column df c → finite_column df c.
Proof.
  unfold exact_column, finite_column. intros Hx%exact_sum_finite.
  by apply Forall_fmap in Hx.
Qed.

Section regroup.
Context {K A : Type} `{EqDecision K}.
Variable key : A → option K.
Variable q : A → Qc.

Lemma qsum_same (ks : list K) (k0 : K) (x : Qc) (g : K → Qc) :
  k0 ∉ ks →
  qsum ((λ k, if decide (k0 = k) then x + g k else g k) <$> ks) = qsum (g <$> ks).
Proof.
  induction ks as [|k ks IH]; [done|]. intros [Hne Hks]%not_elem_of_cons.
  rewrite !fmap_cons, !qsum_cons. rewrite decide_False by done. by rewrite IH.
Qed.

Lemma qsum_bump (ks : list K) (k0 : K) (x : Qc) (g : K → Qc) :
  NoDup ks → k0 ∈ ks →
  qsum ((λ k, if decide (k0 = k) then x + g k else g k) <$> ks) = x + qsum (g <$> ks).
Proof.
  induction ks as [|k ks IH]; intros Hnd Hin.
  - by apply elem_of_nil in Hin.
  - apply NoDup_cons in Hnd as [Hk Hnd]. rewrite !fmap_cons, !qsum_cons.
    destruct (decide (k0 = k)) as [->|Hne].
    + rewrite qsum_same by done. by rewrite (assoc_L Qcplus).
    + apply elem_of_cons in Hin as [?|Hin]; [done|]. rewrite IH by done.
      rewrite !(assoc_L Qcplus). f_equal. apply (comm_L Qcplus).
Qed.

Lemma qsum_zero (ks : list K) : qsum ((λ _, 0) <$> ks) = 0.
Proof.
  induction ks as [|k ks IH]; [done|]. rewrite fmap_cons, qsum_cons, IH.
  apply Qcplus_0_l.
Qed.

Lemma regroup (l : list A) (ks : list K) :
  NoDup ks → (∀ a k, a ∈ l → key a = Some k → k ∈ ks) →
  qsum ((λ k, qsum (q <$> filter (λ a, key a = Some k) l)) <$> ks)
  = qsum (q <$> filter (λ a, is_Some (key a)) l).
Proof.
  intros Hnd. induction l as [|a l IH]; intros Hks.
  - apply qsum_zero.
  - rewrite filter_cons. destruct (key a) as [k0|] eqn:Hk.
    + rewrite decide_True by done. rewrite fmap_cons, qsum_cons, <- IH.
      * rewrite <- (qsum_bump ks k0) by (done || (apply (Hks a); [left|done])).
        f_equal. apply list_fmap_ext. intros _ k _.
        rewrite filter_cons. rewrite Hk.
        destruct (decide (k0 = k)) as [->|Hne].
        -- by rewrite decide_True.
        -- by rewrite decide_False by congruence.
      * intros a' k Ha'. apply Hks. by right.
    + rewrite decide_False by (by intros [??]). rewrite <- IH.
      * f_equal. apply list_fmap_ext. intros _ k _. rewrite filter_cons, Hk.
        by rewrite decide_False.
      * intros a' k Ha'. apply Hks. by right.
Qed.
End regroup.
End SumFacts.

Module DailyFacts.
Import Pandas Scripts Vocabulary PyFacts PandasFacts GroupFacts SumFacts.

Lemma day_sum_finite L df c d :
  finite_column df c →
  day_sum L df c d
  = Fin (qsum ((λ r, qval (measure_of df c r)) <$> filter (λ r, day_of L df r = Some d) (rows df))).
Proof.
  intros Hf. unfold day_sum. rewrite nansum_finite.
  - by rewrite <- list_fmap_compose.
  - apply Forall_fmap. apply Forall_forall. intros r Hr%list_elem_of_filter.
    unfold finite_column in Hf. rewrite Forall_forall in Hf. apply Hf, Hr.
Qed.

Lemma total_regroup L df c :
  finite_column df c → nansum (day_sum L df c <$> days_of L df) = total L df c.
Proof.
  intros Hf.
  rewrite (list_fmap_ext (day_sum L df c) _ _ (λ _ d _, day_sum_finite L df c d Hf)).
  rewrite (nansum_Fin (λ d, qsum ((λ r, qval (measure_of df c r)) <$>
                                    filter (λ r, day_of L df r = Some d) (rows df)))).
  rewrite (regroup (day_of L df) (λ r, qval (measure_of df c r))).
  - unfold total. rewrite nansum_finite.
    + by rewrite <- list_fmap_compose.
    + apply Forall_fmap. apply Forall_forall. intros r Hr%list_elem_of_filter.
      unfold finite_column in Hf. rewrite Forall_forall in Hf. apply Hf, Hr.
  - apply days_of_NoDup.
  - intros r d Hr Hd. apply elem_of_days_of. by exists r.
Qed.



(** The sample table has two days; the first one has 3 orders for 150 of
    gross sales, hence an AOV of 50, and the overall AOV is 350 / 7. *)
Example sample_days : days_of plain sample_daily = [20251127; 20251128].
Proof. by vm_compute. Qed.

Example sample_day_sum : day_sum plain sample_daily "Orders" 20251127 = of_int 3.
Proof. compute_done. Qed.

Example sample_aov : aov_of plain sample_daily 20251127 = of_int 50.
Proof. compute_done. Qed.

Example sample_avg_aov :
  match prepared DailyPdf plain sample_daily with
  | Ok p => aov_kpi p
  | Raise _ => None
  end = Some (of_int 50).
Proof. compute_done. Qed.

End DailyFacts.

Module ScriptFacts.
Import Pandas Scripts Vocabulary PyFacts PandasFacts GroupFacts.

Lemma run_emits s L df : emits (run s L df) (outputs s).
Proof.
  destruct s; simpl.
  - unfold ChartsExample.main. repeat emits_step.
  - unfold PdfReport.main. repeat emits_step.
  - unfold ExcelExport.main. repeat emits_step.
  - unfold StyledAnalysis.main. repeat emits_step.
  - unfold SalesReport.main.
    apply (emits_bind _ _ [File "sales_analysis_report.xlsx" XLSX] []); [|intros; apply emits_ret].
    repeat emits_step.
Qed.

Ltac bind_inv H :=
  repeat (let a := fresh "a" in let E := fresh "E" in apply bind_Ok in H as (a & E & H)).

Lemma daily_sums_columns L ms df df1 daily0 :
  Daily.daily_sums L ms df = Ok (df1, daily0) →
  columns df1 = columns df ∧ "Day" ∈ columns df ∧ ∀ c, c ∈ ms → c ∈ columns df.
Proof.
  unfold Daily.daily_sums. intros H. bind_inv H. injection H as <- <-.
  apply convert_dates_spec in E as (i & dl & Hi & _ & ->). simpl.
  split; [done|]. split; [apply col_index_elem; eauto|].
  unfold groupby_date, groupby_sum in E0. bind_inv E0.
  apply mapM_Ok in E1. intros c Hc.
  apply list_elem_of_lookup in Hc as [j Hj].
  destruct (Forall2_lookup_l _ _ _ _ _ E1 Hj) as (k & _ & Hk).
  apply col_index_elem. unfold col_index in *. simpl in Hk. eauto.
Qed.

Lemma charts_columns L df r :
  ChartsExample.prepare L df = Ok r →
  columns r.1 = columns df ∧ ∀ c, c ∈ "Day" :: ChartsExample.measures → c ∈ columns df.
Proof.
  unfold ChartsExample.prepare. intros H. bind_inv H. destruct a as [df1 d0].
  apply daily_sums_columns in E as (Hcols & Hd & Hm). injection H as <-.
  split; [done|]. intros c [->|Hc]%elem_of_cons; auto.
Qed.

Lemma charts_customers_missing L df :
  "New or returning customer" ∉ columns df →
  ∃ e, outcome (ChartsExample.main L df) = Raise e ∧
       written (ChartsExample.main L df) `prefix_of` take 3 (outputs ChartsExample).
Proof.
  intros Hn. unfold ChartsExample.main, outcome, written.
  unfold mbind, run_bind, lift, write, raise, mret, run_ret.
  destruct (ChartsExample.prepare L df) as [dd|e] eqn:Hp; cbn [fst snd].
  2:{ exists e. split; [done|apply prefix_nil]. }
  destruct (bool_decide (rows df = [])); cbn [fst snd].
  { exists TypeError. split; [done|apply prefix_nil]. }
  destruct (column dd.2 "Day") as [days|e]; cbn [fst snd].
  2:{ exists e. split; [done|apply prefix_nil]. }
  destruct (iloc_last days) as [d|e]; cbn [fst snd app].
  2:{ exists e. split; [done|apply prefix_nil]. }
  destruct (numeric dd.2 "Orders") as [orders|e]; cbn [fst snd app].
  2:{ exists e. split; [done|by apply prefix_cons, prefix_nil]. }
  destruct (idxmax orders) as [i|e]; cbn [fst snd app].
  2:{ exists e. split; [done|by apply prefix_cons, prefix_nil]. }
  destruct (groupby_label dd.1 "New or returning customer" ["Orders"; "Gross sales"])
    as [customers|e] eqn:Hg; cbn [fst snd app].
  2:{ by exists e. }
  exfalso. apply Hn. apply charts_columns in Hp as [<- _].
  unfold groupby_label, groupby_sum in Hg. apply bind_Ok in Hg as (kcol & Hk & _).
  by apply column_elem in Hk.
Qed.

Lemma pdf_columns L df r :
  PdfReport.prepare L df = Ok r → ∀ c, c ∈ expected PdfReportExample → c ∈ columns df.
Proof.
  unfold PdfReport.prepare. intros H.
  apply bind_Ok in H as ([df1 d0] & E & _).
  apply daily_sums_columns in E as (_ & Hd & Hm).
  intros c [->|Hc]%elem_of_cons; auto.
Qed.

Lemma excel_columns L df dd cs :
  ExcelExport.prepare_daily L df = Ok dd → ExcelExport.prepare_customers dd.1 = Ok cs →
  ∀ c, c ∈ expected ExcelExportExample → c ∈ columns df.
Proof.
  unfold ExcelExport.prepare_daily. intros H Hc.
  apply bind_Ok in H as ([df1 d0] & E & H). bind_inv H. injection H as <-. simpl in *.
  apply daily_sums_columns in E as (Hcols & Hd & Hm).
  unfold ExcelExport.prepare_customers, groupby_label, groupby_sum in Hc.
  apply bind_Ok in Hc as (? & Hc & _). apply bind_Ok in Hc as (? & Hc & _).
  apply column_elem in Hc. rewrite Hcols in Hc.
  intros c [->|[->|Hin]%elem_of_cons]%elem_of_cons; auto.
Qed.

Lemma sales_report_columns L df wb :
  SalesReport.report L df = Ok wb →
  ∀ c, c ∈ expected SalesAnalysisExcelReport → c ∈ columns df.
Proof.
  unfold SalesReport.report. intros H.
  apply bind_Ok in H as (df' & Hs & H). apply bind_Ok in H as (m & Hm & _).
  unfold SalesReport.add_size in Hs.
  apply bind_Ok in Hs as (sku & Hsku & Hs). apply bind_Ok in Hs as (sku' & _ & Hs).
  injection Hs as <-. apply column_elem in Hsku.
  unfold SalesReport.key_metrics in Hm. bind_inv Hm.
  repeat match goal with
         | E : numeric _ _ = Ok _ |- _ =>
             apply numeric_elem, elem_of_columns_set_column in E as [E|E]; [discriminate E|]
         end.
  intros c Hc. simpl in Hc. rewrite !elem_of_cons in Hc.
  repeat (destruct Hc as [->|Hc]; [done|]). by apply elem_of_nil in Hc.
Qed.

Lemma missing_column_raises s L df c :
  c ∈ expected s → c ∉ columns df →
  ∃ e, outcome (run s L df) = Raise e ∧
       written (run s L df) `prefix_of` written_before s c.
Proof.
  intros Hc Hn. destruct s; simpl.
  - assert (c ∈ "Day" :: ChartsExample.measures ∨ c = "New or returning customer")
      as [Hc'| ->].
    { revert Hc. unfold expected. rewrite !elem_of_cons, elem_of_app, list_elem_of_singleton.
      tauto. }
    + unfold ChartsExample.main.
      destruct (ChartsExample.prepare L df) as [r|e] eqn:E.
      * destruct Hn. by eapply charts_columns.
      * exists e. split; [done|apply prefix_nil].
    + rewrite decide_True by done. by apply charts_customers_missing.
  - unfold PdfReport.main.
    destruct (PdfReport.prepare L df) as [r|e] eqn:E; [|by exists e].
    destruct Hn. by eapply pdf_columns.
  - unfold ExcelExport.main.
    destruct (ExcelExport.prepare_daily L df) as [dd|e] eqn:E; [|by exists e].
    destruct (ExcelExport.prepare_customers dd.1) as [cs|e] eqn:E2.
    + destruct Hn. by eapply excel_columns.
    + exists e. unfold outcome, written, mbind, run_bind, lift. simpl. by rewrite E2.
  - by apply elem_of_nil in Hc.
  - unfold SalesReport.main.
    destruct (SalesReport.report L df) as [wb|e] eqn:E; [|by exists e].
    destruct Hn. by eapply sales_report_columns.
Qed.

(** C1 (amended): a run that completes has written exactly the files the
    script names, in the order of its calls: six PNG files for
    charts_example, three PNG files and then the PDF for
    pdf_report_example, one .xlsx file for each workbook script. *)
Theorem completed_run_writes_outputs (s : script) (L : Library) (df : DataFrame) :
  completes (run s L df) → written (run s L df) = outputs s.
Proof. apply emits_completes, run_emits. Qed.

Lemma completed_run_writes_outputs_witness :
  completes (run ChartsExample plain sample_daily) ∧
  written (run ChartsExample plain sample_daily) = outputs ChartsExample.
Proof.
  assert (H : completes (run ChartsExample plain sample_daily)) by (by vm_compute).
  split; [exact H|]. exact (completed_run_writes_outputs _ _ _ H).
Defined.

(** C1 as stated fails: charts_example writes six files in one run. *)
Lemma one_file_per_run_fails :
  ¬ (∀ (s : script) (L : Library) (df : DataFrame),
       length (written (run s L df)) = 1%nat).
Proof.
  intros H. specialize (H ChartsExample plain sample_daily).
  vm_compute in H. discriminate H.
Qed.

(** C6: the name of the i-th file a script writes is the same whatever
    the input table (and the library behind it). *)
Theorem output_names_fixed (s : script) (L1 L2 : Library) (df1 df2 : DataFrame)
    (i : nat) (f1 f2 : file) :
  written (run s L1 df1) !! i = Some f1 →
  written (run s L2 df2) !! i = Some f2 →
  f1 = f2.
Proof.
  intros H1 H2.
  pose proof (emits_written _ _ (run_emits s L1 df1)) as P1.
  pose proof (emits_written _ _ (run_emits s L2 df2)) as P2.
  apply (prefix_lookup_Some _ _ _ _ H1) in P1.
  apply (prefix_lookup_Some _ _ _ _ H2) in P2. congruence.
Qed.

Lemma output_names_fixed_witness :
  File "sales_analysis_report.xlsx" XLSX = File "sales_analysis_report.xlsx" XLSX.
Proof.
  apply (output_names_fixed SalesAnalysisExcelReport plain plain sample_sales
           sample_sales_gap 0); by vm_compute.
Defined.

Import SalesReport.

Lemma guarded_by_positive (t a : num) :
  num_gtb t (of_int 0) = false → (if num_gtb t (of_int 0) then a else of_int 0) = of_int 0.
Proof. by intros ->. Qed.

End ScriptFacts.

Module SortFacts.
Import Pandas Vocabulary PyFacts PandasFacts.

Lemma num_leb_total (a b : num) : a ≠ NaN → b ≠ NaN → num_leb a b = true ∨ num_leb b a = true.
Proof.
  destruct a as [x| | |], b as [y| | |]; simpl; intros ??; try done; auto.
  destruct (Qc_le_total x y) as [Hle|Hle]; [left|right]; by apply bool_decide_eq_true_2.
Qed.

Lemma before_desc_total (a b : num) : before_desc a b = true ∨ before_desc b a = true.
Proof.
  destruct (decide (b = NaN)) as [->|Hb]; [left; by destruct a|].
  destruct (decide (a = NaN)) as [->|Ha]; [right; by destruct b|].
  destruct (num_leb_total b a Hb Ha) as [H|H]; [left|right].
  - by destruct a, b.
  - by destruct a, b.
Qed.

#[global] Instance keyed_before_total : Total keyed_before.
Proof. intros p q. apply before_desc_total. Qed.

Lemma Sorted_adjacent {A} (R : relation A) (l : list A) (i : nat) (a b : A) :
  Sorted R l → l !! i = Some a → l !! S i = Some b → R a b.
Proof.
  intros Hs. revert i. induction Hs as [|x l Hs IH Hhd]; intros i Ha Hb; [done|].
  destruct i as [|i].
  - simpl in *. injection Ha as ->. destruct Hhd as [|y l' Hxy]; [done|].
    simpl in Hb. by injection Hb as ->.
  - simpl in *. by eapply IH.
Qed.

(** The rows of a table sorted by [sort_values_desc], with their keys. *)
Lemma sort_values_desc_spec df key d :
  sort_values_desc df key = Ok d →
  ∃ i sorted,
    col_index df key = Ok i ∧ columns d = columns df ∧ rows d = sorted.*2 ∧
    Sorted keyed_before sorted ∧ length sorted = len df ∧
    Forall (λ p : num * list Py.value, cell p.2 i = VNum p.1) sorted.
Proof.
  unfold sort_values_desc. intros (keys & Hk & [= <-])%bind_Ok.
  unfold numeric, column in Hk. apply bind_Ok in Hk as (vs & Hvs & Hk).
  apply bind_Ok in Hvs as (i & Hi & [= <-]).
  apply mapM_Ok, Forall2_fmap_l in Hk.
  exists i, (merge_sort keyed_before (zip keys (rows df))).
  split; [done|]. split; [done|]. split; [done|].
  split; [apply (Sorted_merge_sort _)|].
  pose proof (Forall2_length _ _ _ Hk) as Hlen.
  split.
  - rewrite merge_sort_Permutation. rewrite length_zip_with. unfold len. lia.
  - rewrite merge_sort_Permutation.
    clear Hlen. induction Hk as [|r k rs ks Hr _ IH]; [constructor|].
    simpl. constructor; [|done]. simpl. unfold compose in Hr.
    destruct (cell r i); simpl in Hr; try done. by injection Hr as ->.
Qed.
End SortFacts.

(** ** Worksheets *)
Module SheetFacts.
Import Pandas Openpyxl Vocabulary.

Lemma cell_at_update r c f ws r' c' :
  cell_at (update r c f ws) r' c' =
    if decide ((r, c) = (r', c')) then f (cell_at ws r c) else cell_at ws r' c'.
Proof.
  unfold cell_at, update. simpl. case_decide as E.
  - injection E as <- <-. by rewrite lookup_insert_eq.
  - by rewrite lookup_insert_ne.
Qed.

Lemma cell_at_touch r c ws r' c' : cell_at (touch r c ws) r' c' = cell_at ws r' c'.
Proof.
  unfold touch. rewrite cell_at_update. case_decide as E; [|done].
  by injection E as <- <-.
Qed.

Lemma column_width_update r c f ws : column_width (update r c f ws) = column_width ws.
Proof. done. Qed.

Section fit.
Variable L : Library.

Lemma measure_fold_width col l acc :
  column_width (foldl (measure L col) acc l).1 = column_width acc.1.
Proof.
  revert acc. induction l as [|x l IH]; intros acc; [done|].
  simpl. rewrite IH. done.
Qed.

Lemma measure_fold_cell col l acc r c :
  cell_at (foldl (measure L col) acc l).1 r c = cell_at acc.1 r c.
Proof.
  revert acc. induction l as [|x l IH]; intros acc; [done|].
  simpl. rewrite IH. simpl. apply cell_at_touch.
Qed.

Lemma fit_column_width min_width max_width ws col :
  ∃ m, column_width (fit_column L min_width max_width ws col)
       = <[col := clamp min_width max_width m]> (column_width ws).
Proof.
  unfold fit_column.
  pose proof (measure_fold_width col (seq 1 (max_row ws)) (ws, 0)) as Hw.
  destruct (foldl (measure L col) (ws, 0) (seq 1 (max_row ws))) as [ws' m].
  exists m. simpl in *. by rewrite Hw.
Qed.

Lemma fit_column_cell min_width max_width ws col r c :
  cell_at (fit_column L min_width max_width ws col) r c = cell_at ws r c.
Proof.
  unfold fit_column.
  pose proof (measure_fold_cell col (seq 1 (max_row ws)) (ws, 0) r c) as Hc.
  destruct (foldl (measure L col) (ws, 0) (seq 1 (max_row ws))) as [ws' m].
  done.
Qed.

Lemma fit_columns_width min_width max_width cols ws col :
  col ∈ cols →
  ∃ m, column_width (foldl (fit_column L min_width max_width) ws cols) !! col
       = Some (clamp min_width max_width m).
Proof.
  revert ws. induction cols as [|x cols IH] using rev_ind; intros ws Hin.
  - by apply elem_of_nil in Hin.
  - rewrite foldl_app. simpl.
    destruct (fit_column_width min_width max_width
                (foldl (fit_column L min_width max_width) ws cols) x) as [m Hm].
    rewrite Hm. destruct (decide (x = col)) as [->|Hne].
    + exists m. by rewrite lookup_insert_eq.
    + rewrite lookup_insert_ne by done. apply IH.
      apply elem_of_app in Hin as [?|Hin]; [done|].
      apply list_elem_of_singleton in Hin. congruence.
Qed.

Lemma auto_fit_columns_cell min_width max_width ws r c :
  cell_at (auto_fit_columns L min_width max_width ws) r c = cell_at ws r c.
Proof.
  unfold auto_fit_columns. generalize (seq 1 (max_column ws)) as cols.
  intros cols. revert ws. induction cols as [|x cols IH]; intros ws; [done|].
  simpl. rewrite IH. apply fit_column_cell.
Qed.
End fit.

Lemma clamp_bounds min_width max_width m :
  clamp min_width max_width m ≤ max_width ∧
  (min_width ≤ max_width → min_width ≤ clamp min_width max_width m).
Proof. unfold clamp. lia. Qed.

Lemma fit_clamped (L : Library) (ws : Worksheet) (min_width max_width : Z) (col : nat) :
  (1 ≤ col ≤ max_column ws)%nat →
  ∃ w, column_width (Openpyxl.auto_fit_columns L min_width max_width ws) !! col = Some w ∧
       w ≤ max_width ∧ (min_width ≤ max_width → min_width ≤ w).
Proof.
  intros Hcol. unfold Openpyxl.auto_fit_columns.
  destruct (fit_columns_width L min_width max_width (seq 1 (max_column ws)) ws col)
    as [m Hm].
  { apply elem_of_seq. lia. }
  exists (clamp min_width max_width m). split; [done|]. apply clamp_bounds.
Qed.

Lemma styled_fit_width (L : Library) (min_width max_width : Z) (cols : list nat)
    (ws ws' : Worksheet) (col : nat) :
  foldlM (StyledAnalysis.fit_column L min_width max_width) ws cols = Ok ws' → col ∈ cols →
  ∃ m, column_width ws' !! col = Some (clamp min_width max_width m).
Proof.
  revert ws'. induction cols as [|x cols IH] using rev_ind; intros ws' Hf Hin.
  - by apply elem_of_nil in Hin.
  - rewrite PyFacts.foldlM_app in Hf. apply PyFacts.bind_Ok in Hf as (w1 & H1 & Hx).
    cbn [foldlM] in Hx. apply PyFacts.bind_Ok in Hx as (w2 & Hx & [= <-]).
    unfold StyledAnalysis.fit_column in Hx.
    destruct (is_placeholder w1 1 x); [done|]. injection Hx as <-.
    destruct (fit_column_width L min_width max_width w1 x) as [m Hm]. rewrite Hm.
    destruct (decide (x = col)) as [->|Hne].
    + exists m. by rewrite lookup_insert_eq.
    + rewrite lookup_insert_ne by done. apply (IH w1 H1).
      apply elem_of_app in Hin as [?|Hin]; [done|].
      apply list_elem_of_singleton in Hin. congruence.
Qed.



End SheetFacts.

Module TableFacts.
Import Pandas Openpyxl SalesReport Vocabulary.

Lemma format_for_cases col_name :
  format_for col_name = currency_format ∨
  format_for col_name = SalesReport.number_format ∨
  format_for col_name = decimal_format.
Proof. unfold format_for. repeat case_match; auto. Qed.

Lemma format_for_proper col_name :
  format_for col_name ≠ "General" ∧ format_for col_name ≠ EmptyString.
Proof. destruct (format_for_cases col_name) as [-> | [-> | ->]]; by vm_compute. Qed.

(** C5 (amended): the data-table writer gives a cell a number format
    exactly when its value passes [isinstance(value, (int, float))] and is
    not NaN, which a number of a table of int64 columns only does not, and
    every other number does; a NaN cell is emptied and receives no style;
    any other cell receives the fill of its row, the data font, the
    border, and an alignment to the right when its value passes the test
    and to the left otherwise. *)
Theorem write_data_cell_style (int64_frame : bool) (row_idx : nat) (col_name : string)
    (v : Py.value) (cell : Cell) :
  let c := write_data_cell_of int64_frame row_idx col_name v cell in
  let number := isinstance_number int64_frame v in
  number = (if int64_frame then false else is_number v) ∧
  format_for col_name ≠ "General" ∧
  Openpyxl.number_format c =
    (if number && negb (isna v) then format_for col_name else Openpyxl.number_format cell) ∧
  (isna v = true → c = set_value (VStr EmptyString) cell) ∧
  (isna v = false →
   value c = v ∧
   fill c = Some (if Nat.even row_idx then alt_fill theme else data_fill theme) ∧
   font c = Some (data_font theme) ∧
   border c = Some (beige_border theme) ∧
   alignment c =
     Some {| horizontal := Some (if number then "right" else "left");
             vertical := Some "center"; wrap_text := false |}).
Proof.
  destruct (format_for_proper col_name) as [Hg He].
  unfold write_data_cell_of, isinstance_number, style_cell, Openpyxl.style_cell.
  rewrite (bool_decide_eq_true_2 _ He).
  split; [done|]. split; [done|].
  destruct int64_frame, v as [[q| | |]|s|t|]; simpl; repeat split; done.
Qed.

(** C5 as stated fails: the alignment depends on the value. *)
Lemma style_depends_on_value :
  ¬ (∀ (row_idx : nat) (col_name : string) (v1 v2 : Py.value) (cell : Cell),
       (Openpyxl.number_format (write_data_cell row_idx col_name v1 cell)
        ≠ Openpyxl.number_format cell
        ↔ is_number v1 && negb (isna v1) = true) ∧
       style_of (write_data_cell row_idx col_name v1 cell)
       = style_of (write_data_cell row_idx col_name v2 cell)).
Proof.
  intros H. destruct (H 4%nat "Units" (int 5) (VStr "M") blank) as [_ Hs].
  vm_compute in Hs. discriminate Hs.
Qed.
End TableFacts.

Module HarnessFacts.
Import Pandas TestSalesReport Vocabulary.

Lemma csv_file_chosen argv : csv_file argv = chosen_csv argv.
Proof. by destruct argv as [|a [|b l]]. Qed.

(** C7: the harness loads the CSV file named by its first command-line
    argument, or 'sample_sales_data.csv' when there is none, and executes
    the text of the report script in its own globals, in which [df] is
    bound to the loaded table. *)
Theorem harness_loads_then_executes (H : Host) (here : string)
    (disk : gmap string string) (argv : list string)
    (text source : string) (df : DataFrame) :
  read_file disk here (chosen_csv argv) = Ok text →
  read_csv H text = Ok df →
  read_file disk here "sales_analysis_excel_report.py" = Ok source →
  main H here disk argv = exec H source (globals argv df) ∧
  globals argv df !! "df" = Some (OFrame df).
Proof.
  intros Ht Hdf Hs. split; [|done].
  unfold main. rewrite csv_file_chosen, Ht. simpl.
  unfold mbind, run_bind, lift. rewrite Hdf, Hs. done.
Qed.

Lemma harness_loads_then_executes_witness :
  main sample_host "/repo/examples" sample_disk ["test_sales_report.py"; "march.csv"]
  = exec sample_host "print('Analyzing sales data...')"
      (globals ["test_sales_report.py"; "march.csv"] sample_sales) ∧
  globals ["test_sales_report.py"; "march.csv"] sample_sales !! "df"
  = Some (OFrame sample_sales).
Proof.
  apply (harness_loads_then_executes sample_host "/repo/examples" sample_disk
           ["test_sales_report.py"; "march.csv"] "sku,units"); by vm_compute.
Defined.
End HarnessFacts.

Module PeriodFacts.
Import Pandas Openpyxl SalesReport Vocabulary PyFacts PandasFacts SheetFacts SortFacts.

Lemma foldlM_inv {A B} (P : A → Prop) (f : A → B → result A) (l : list B) (a a' : A) :
  (∀ a x a', x ∈ l → P a → f a x = Ok a' → P a') → P a → foldlM f a l = Ok a' → P a'.
Proof.
  revert a. induction l as [|x l IH]; intros a Hf Ha.
  - by intros [= <-].
  - simpl. intros (a1 & H1 & H2)%bind_Ok. eapply IH; [| |done].
    + intros a0 y a0' Hy. apply Hf. by right.
    + eapply Hf; [by left|done..].
Qed.

Lemma foldl_inv {A B} (P : A → Prop) (f : A → B → A) (l : list B) (a : A) :
  (∀ a x, x ∈ l → P a → P (f a x)) → P a → P (foldl f a l).
Proof.
  revert a. induction l as [|x l IH]; intros a Hf Ha; [done|].
  simpl. apply IH.
  - intros a0 y Hy. apply Hf. by right.
  - apply Hf; [by left|done].
Qed.

Lemma cell_at_update_ne r c f ws R C :
  (r, c) ≠ (R, C) → cell_at (update r c f ws) R C = cell_at ws R C.
Proof. intros Hne. rewrite cell_at_update. by rewrite decide_False. Qed.

Lemma cell_at_cell_value_ne r c v ws R C :
  (r, c) ≠ (R, C) → cell_at (cell_value r c v ws) R C = cell_at ws R C.
Proof.
  intros Hne. unfold cell_value, touch. destruct v; by apply cell_at_update_ne.
Qed.

Lemma chart_cells_other top chart_row cols ws ws' R C :
  chart_cells top chart_row cols ws = Ok ws' → C ∉ cols.*1 →
  cell_at ws' R C = cell_at ws R C.
Proof.
  intros H HC. unfold chart_cells in H.
  apply (foldlM_inv (λ w, cell_at w R C = cell_at ws R C) _ _ _ _) in H; [done| |done].
  intros w ir w' _ Hw Hrow.
  apply (foldlM_inv (λ w, cell_at w R C = cell_at ws R C) _ _ _ _) in Hrow; [done| |done].
  intros w1 cn w2 Hcn Hw1 Hcell. apply bind_Ok in Hcell as (v & _ & [= <-]).
  rewrite cell_at_cell_value_ne; [done|]. intros [= _ <-].
  apply HC. by apply list_elem_of_fmap_2.
Qed.

Lemma merge_cells_above r1 c1 r2 c2 ws R C :
  (R < r1)%nat → cell_at (merge_cells r1 c1 r2 c2 ws) R C = cell_at ws R C.
Proof.
  intros HR. unfold merge_cells.
  change (cell_at ?w R C) with (default blank (cells w !! (R, C))) at 1. simpl.
  fold (cell_at (foldl (λ ws rc, update rc.1 rc.2 (set_value VNone) ws) ws
    (filter (λ rc, rc ≠ (r1, c1))
       (r ← seq r1 (S r2 - r1); (λ c, (r, c)) <$> seq c1 (S c2 - c1)))) R C).
  apply (foldl_inv (λ w, cell_at w R C = cell_at ws R C)); [|done].
  intros w [r c] Hrc Hw. simpl. rewrite cell_at_update_ne; [done|].
  intros [= -> ->]. apply list_elem_of_filter in Hrc as [_ Hrc].
  apply list_elem_of_bind in Hrc as (r & Hin & Hr).
  apply list_elem_of_fmap in Hin as (c' & [= -> ->] & _).
  apply elem_of_seq in Hr. lia.
Qed.

Lemma add_commentary_above text start_row cols ws R C :
  (R < start_row)%nat → cell_at (add_commentary text start_row cols ws) R C = cell_at ws R C.
Proof.
  intros HR. unfold add_commentary.
  change (cell_at (set_row_height ?a ?b ?w) R C) with (cell_at w R C).
  change (cell_at (set_row_height ?a ?b ?w) R C) with (cell_at w R C).
  rewrite merge_cells_above by done.
  rewrite !cell_at_update_ne; [done|intros [= -> _]; lia..].
Qed.

Lemma value_write_data_cell_of int64_frame row_idx col_name v c :
  value (write_data_cell_of int64_frame row_idx col_name v c) = shown v.
Proof.
  unfold write_data_cell_of, shown, style_cell, Openpyxl.style_cell.
  destruct (isna v); [done|]. destruct (isinstance_number int64_frame v); simpl; [|done].
  by case_match.
Qed.

Lemma value_write_data_cell row_idx col_name v c :
  value (write_data_cell row_idx col_name v c) = shown v.
Proof. apply value_write_data_cell_of. Qed.

Lemma write_data_row_units rows0 ws R r :
  ∃ ws', write_data_row (Frame period_columns rows0) period_columns ws (R, r) = Ok ws' ∧
         value (cell_at ws' R 2) = shown (cell r 1) ∧
         ∀ R' C, R' ≠ R → cell_at ws' R' C = cell_at ws R' C.
Proof.
  eexists. split; [reflexivity|]. split.
  - cbn [fst snd]. rewrite !cell_at_update_ne by (intros [=]).
    rewrite cell_at_update, decide_True by done. apply value_write_data_cell.
  - intros R' C HR. cbn [fst snd]. rewrite !cell_at_update_ne; [done|intros [=]; done..].
Qed.

Lemma write_rows_units rows0 (rs : list (list Py.value)) ws start :
  ∃ ws', foldlM (write_data_row (Frame period_columns rows0) period_columns) ws
           (enumerate start rs) = Ok ws' ∧
         (∀ i r, rs !! i = Some r → value (cell_at ws' (start + i) 2) = shown (cell r 1)) ∧
         ∀ R C, (R < start)%nat → cell_at ws' R C = cell_at ws R C.
Proof.
  revert ws start. induction rs as [|r rs IH]; intros ws start.
  - exists ws. by repeat split.
  - destruct (write_data_row_units rows0 ws start r) as (ws1 & H1 & Hv & Ho).
    destruct (IH ws1 (S start)) as (ws' & H' & Hv' & Ho').
    exists ws'. split; [|split].
    + unfold enumerate in *. cbn [length seq zip_with foldlM]. rewrite H1. exact H'.
    + intros [|i] r' Hr'.
      * simpl in Hr'. injection Hr' as <-. rewrite Nat.add_0_r, Ho' by lia. done.
      * simpl in Hr'. replace (start + S i)%nat with (S start + i)%nat by lia.
        by apply Hv'.
    + intros R C HR. rewrite Ho' by lia. apply Ho. lia.
Qed.

Lemma period_frame_spec df tag d :
  tag ∈ ["7D"; "30D"; "90D"] → period_frame df tag = Ok d →
  ∃ sorted,
    d = Frame period_columns (sorted.*2) ∧ Sorted keyed_before sorted ∧
    length sorted = len df ∧
    Forall (λ p : num * list Py.value, cell p.2 1 = VNum p.1) sorted.
Proof.
  intros Htag H. unfold period_frame in H.
  apply bind_Ok in H as (d1 & Hsel & H). apply bind_Ok in H as (d2 & Hsort & H).
  unfold select in Hsel. apply bind_Ok in Hsel as (idx & _ & [= <-]).
  apply sort_values_desc_spec in Hsort as (i & sorted & Hi & Hcols & Hrows & Hs & Hlen & HF).
  unfold rename in H. rewrite Hcols in H. simpl in H. injection H as <-.
  exists sorted. rewrite Hrows. split; [done|]. split; [done|].
  split; [by rewrite Hlen; unfold len; simpl; rewrite length_fmap|].
  assert (i = 1%nat) as ->; [|done].
  rewrite !elem_of_cons in Htag. destruct Htag as [->|[->|[->|Hn]]].
  - vm_compute in Hi. by injection Hi.
  - vm_compute in Hi. by injection Hi.
  - vm_compute in Hi. by injection Hi.
  - by apply elem_of_nil in Hn.
Qed.

Lemma period_sheet_units L df tag sheet_name heading commentary ws :
  tag ∈ ["7D"; "30D"; "90D"] →
  period_sheet L df tag sheet_name heading commentary = Ok ws →
  ∃ sorted : list (num * list Py.value),
    Sorted keyed_before sorted ∧ length sorted = len df ∧
    ∀ i p, sorted !! i = Some p → units_cell ws i = shown (VNum p.1).
Proof.
  intros Htag H. unfold period_sheet in H.
  apply bind_Ok in H as (d & Hd & H).
  apply period_frame_spec in Hd as (sorted & -> & Hs & Hlen & HF); [|done].
  exists sorted. split; [done|]. split; [done|].
  apply bind_Ok in H as ([ws1 table_end] & Hwt & H).
  apply bind_Ok in H as (ws2 & Hcc & H).
  apply bind_Ok in H as (best_size & _ & H). apply bind_Ok in H as (best_units & _ & H).
  injection H as <-.
  unfold write_data_table, write_data_table_of in Hwt. cbn [default columns rows] in Hwt.
  change (write_data_row_of false) with write_data_row in Hwt.
  match type of Hwt with
  | context [foldlM _ ?w0 (enumerate ?st ?rs)] =>
      destruct (write_rows_units (sorted.*2) rs w0 st) as (w1 & Hw1 & Hv & _)
  end.
  rewrite Hw1 in Hwt. simpl in Hwt. injection Hwt as <- <-.
  intros i p Hp. unfold units_cell.
  rewrite (auto_fit_columns_cell L).
  rewrite add_commentary_above.
  2:{ apply lookup_lt_Some in Hp. unfold len. simpl. rewrite length_fmap. lia. }
  cbn [fst snd foldl].
  change (cell_at (hide_column ?c ?w) ?R ?C) with (cell_at w R C).
  change (cell_at (hide_column ?c ?w) ?R ?C) with (cell_at w R C).
  change (cell_at (hide_column ?c ?w) ?R ?C) with (cell_at w R C).
  change (cell_at (hide_column ?c ?w) ?R ?C) with (cell_at w R C).
  change (cell_at (add_chart ?c ?a ?w) ?R ?C) with (cell_at w R C).
  change (cell_at (add_chart ?c ?a ?w) ?R ?C) with (cell_at w R C).
  rewrite (chart_cells_other _ _ _ _ _ _ _ Hcc) by compute_done.
  change (4 + i)%nat with (3 + 1 + i)%nat. cbn [fst].
  rewrite (Hv i p.2) by (by rewrite list_lookup_fmap, Hp).
  rewrite Forall_forall in HF. rewrite (HF p); [done|].
  by eapply list_elem_of_lookup_2.
Qed.

Lemma shown_in_order (x y : num) : before_desc x y = true → in_order (shown (VNum x)) (shown (VNum y)).
Proof.
  unfold shown, in_order, num_geb.
  destruct x as [a| | |], y as [b| | |]; simpl; try done.
Qed.

Lemma period_sheet_in_order (L : Library) (df : DataFrame) (tag sheet_name heading : string)
    (commentary : Py.value → Py.value → string) (ws : Worksheet) (i : nat) :
  tag ∈ ["7D"; "30D"; "90D"] →
  period_sheet L df tag sheet_name heading commentary = Ok ws → (S i < len df)%nat →
  in_order (units_cell ws i) (units_cell ws (S i)).
Proof.
  intros Htag Hws Hi.
  apply period_sheet_units in Hws as (sorted & Hs & Hlen & Hu); [|done].
  destruct (lookup_lt_is_Some_2 sorted i) as [p Hp]; [lia|].
  destruct (lookup_lt_is_Some_2 sorted (S i)) as [q Hq]; [lia|].
  rewrite (Hu i p Hp), (Hu (S i) q Hq).
  apply shown_in_order. exact (Sorted_adjacent _ _ _ _ _ Hs Hp Hq).
Qed.

Lemma len_add_size L df df' : add_size L df = Ok df' → len df' = len df.
Proof.
  unfold add_size. intros (sku & Hsku & H)%bind_Ok.
  apply bind_Ok in H as (sku' & Hs & [= <-]).
  assert (sku' = sku) as ->.
  { unfold str_accessor in Hs. case_match; [done|]. by injection Hs. }
  apply bind_Ok in Hsku as (j & _ & [= <-]).
  unfold set_column, len. case_match; simpl;
    rewrite length_zip_with, !length_fmap; lia.
Qed.

(** C10 (amended): in the three period sheets of the report the data rows
    that have a figure for the units are written in non-increasing order
    of the units, and the rows without one are written after them, with
    an empty cell. *)
Theorem period_rows_in_order (L : Library) (df : DataFrame) (wb : Workbook)
    (ws : Worksheet) (i : nat) :
  report L df = Ok wb → ws ∈ [ws_7d wb; ws_30d wb; ws_90d wb] → (S i < len df)%nat →
  in_order (units_cell ws i) (units_cell ws (S i)).
Proof.
  intros H Hws Hi. unfold report in H.
  apply bind_Ok in H as (df' & Hsize & H). apply bind_Ok in H as (m & _ & H).
  do 6 (apply bind_Ok in H as (? & _ & H)).
  apply bind_Ok in H as (s2 & H2 & H). apply bind_Ok in H as (s3 & H3 & H).
  apply bind_Ok in H as (s4 & H4 & H). apply bind_Ok in H as (s5 & _ & H).
  injection H as <-. simpl in Hws.
  rewrite <- (len_add_size _ _ _ Hsize) in Hi.
  rewrite !elem_of_cons in Hws. destruct Hws as [->|[->|[->|Hn]]].
  - eapply period_sheet_in_order; [|exact H2|done]. compute_done.
  - eapply period_sheet_in_order; [|exact H3|done]. compute_done.
  - eapply period_sheet_in_order; [|exact H4|done]. compute_done.
  - by apply elem_of_nil in Hn.
Qed.

Lemma period_rows_in_order_witness :
  ∃ wb, report plain sample_sales = Ok wb ∧
        in_order (units_cell (ws_90d wb) 0) (units_cell (ws_90d wb) 1).
Proof.
  destruct (is_ok_Ok (report plain sample_sales)) as [wb E]; [by vm_compute|].
  exists wb. split; [exact E|].
  apply (period_rows_in_order plain sample_sales wb (ws_90d wb) 0 E).
  - apply elem_of_cons. right. apply elem_of_cons. right. apply elem_of_cons. by left.
  - by vm_compute.
Defined.

(** C10 as stated fails: a row without a figure for its units is written
    below the others with an empty cell, which is not a value the units
    above it are greater than or equal to. *)
Lemma missing_units_are_not_compared :
  ¬ (∀ (L : Library) (df : DataFrame) (wb : Workbook) (i : nat),
       report L df = Ok wb → (S i < len df)%nat →
       cell_geb (units_cell (ws_7d wb) i) (units_cell (ws_7d wb) (S i)) = true).
Proof.
  intros H.
  assert (Hc : match report plain sample_sales_gap with
               | Ok wb => cell_geb (units_cell (ws_7d wb) 0) (units_cell (ws_7d wb) 1)
               | Raise _ => true
               end = false) by (by vm_compute).
  destruct (report plain sample_sales_gap) as [wb|e] eqn:E; [|done].
  rewrite (H plain sample_sales_gap wb 0%nat E) in Hc; [done|by vm_compute].
Qed.
End PeriodFacts.

(** ** Colours *)
Module PdfReportFacts.
Import PdfReport.
Open Scope Qc_scope.

Lemma hex_digit_range c d : hex_digit c = Some d → (0 ≤ d ≤ 15)%Z.
Proof.
  destruct c as [[] [] [] [] [] [] [] []]; vm_compute; (discriminate || intros [= <-]);
    split; discriminate.
Qed.

Lemma hex_digit_not_hash c d : hex_digit c = Some d → Ascii.eqb c "#" = false.
Proof.
  destruct (Ascii.eqb c "#") eqn:E; [|done].
  apply Ascii.eqb_eq in E. subst c. vm_compute. done.
Qed.

Lemma unit_interval (v : Z) :
  (0 ≤ v ≤ 255)%Z → 0 ≤ Qc_of_Z v / Qc_of_Z 255 ∧ Qc_of_Z v / Qc_of_Z 255 ≤ 1.
Proof.
  intros [Hlo Hhi].
  assert (H255 : 0 < / Qc_of_Z 255).
  { apply Qcinv_pos. rewrite <- Z2Qc_inj_0. by apply (proj1 (Z2Qc_inj_lt 0 255)). }
  assert (Hnz : Qc_of_Z 255 ≠ 0).
  { rewrite <- Z2Qc_inj_0. intros ?%Z2Qc_inj. done. }
  unfold Qcdiv. split.
  - apply Qcmult_nonneg_nonneg; [|by apply Qclt_le_weak].
    rewrite <- Z2Qc_inj_0. by apply (proj1 (Z2Qc_inj_le 0 v)).
  - rewrite <- (Qcmult_inv_r (Qc_of_Z 255)) by done.
    apply Qcmult_le_mono_nonneg_r; [by apply Qclt_le_weak|].
    by apply (proj1 (Z2Qc_inj_le v 255)).
Qed.

Lemma component_pair (s : string) (i : nat) c1 c2 d1 d2 :
  slice s i (i + 2) = String c1 (String c2 EmptyString) →
  hex_digit c1 = Some d1 → hex_digit c2 = Some d2 →
  component s i = Ok (Qc_of_Z (16 * d1 + d2) / Qc_of_Z 255).
Proof.
  intros Hs H1 H2. unfold component. rewrite Hs. simpl.
  rewrite H1, H2. simpl. by replace (16 * (16 * 0 + d1) + d2)%Z with (16 * d1 + d2)%Z by lia.
Qed.

(** C9: on '#RRGGBB' and on 'RRGGBB' with six hexadecimal digits,
    [hex_to_rgb] returns the three digit pairs, each read as an integer
    and divided by 255, and every component lies in the interval [0, 1]. *)
Theorem hex_to_rgb_pairs (c1 c2 c3 c4 c5 c6 : ascii) (d1 d2 d3 d4 d5 d6 : Z) :
  hex_digit c1 = Some d1 → hex_digit c2 = Some d2 →
  hex_digit c3 = Some d3 → hex_digit c4 = Some d4 →
  hex_digit c5 = Some d5 → hex_digit c6 = Some d6 →
  let body :=
    String c1 (String c2 (String c3 (String c4 (String c5 (String c6 EmptyString))))) in
  let r := Qc_of_Z (16 * d1 + d2) / Qc_of_Z 255 in
  let g := Qc_of_Z (16 * d3 + d4) / Qc_of_Z 255 in
  let b := Qc_of_Z (16 * d5 + d6) / Qc_of_Z 255 in
  hex_to_rgb (String "#" body) = Ok (r, g, b) ∧
  hex_to_rgb body = Ok (r, g, b) ∧
  (0 ≤ r ∧ r ≤ 1) ∧ (0 ≤ g ∧ g ≤ 1) ∧ (0 ≤ b ∧ b ≤ 1).
Proof.
  intros H1 H2 H3 H4 H5 H6 body r g b.
  assert (Hbody : hex_to_rgb body = Ok (r, g, b)).
  { unfold hex_to_rgb, body. cbn [lstrip].
    rewrite (hex_digit_not_hash c1 d1 H1).
    rewrite (component_pair _ 0 c1 c2 d1 d2), (component_pair _ 2 c3 c4 d3 d4),
      (component_pair _ 4 c5 c6 d5 d6); done. }
  split; [|split; [done|]].
  - unfold hex_to_rgb in *. cbn [lstrip] in *. by rewrite Ascii.eqb_refl.
  - pose proof (hex_digit_range _ _ H1). pose proof (hex_digit_range _ _ H2).
    pose proof (hex_digit_range _ _ H3). pose proof (hex_digit_range _ _ H4).
    pose proof (hex_digit_range _ _ H5). pose proof (hex_digit_range _ _ H6).
    repeat split; apply unit_interval; lia.
Qed.

(** The brand colour '#822F23' of the script. *)
Lemma hex_to_rgb_pairs_witness :
  hex_to_rgb "#822F23" =
    Ok (Qc_of_Z 130 / Qc_of_Z 255, Qc_of_Z 47 / Qc_of_Z 255, Qc_of_Z 35 / Qc_of_Z 255).
Proof.
  exact (proj1 (hex_to_rgb_pairs "8" "2" "2" "F" "2" "3" 8 2 2 15 2 3
                  eq_refl eq_refl eq_refl eq_refl eq_refl eq_refl)).
Defined.

End PdfReportFacts.

Module HelperFacts.
Import Pandas Openpyxl SalesReport Vocabulary Layout PyFacts SheetFacts PeriodFacts.

Lemma foldl_bind_list {A B C} (f : A → C → A) (g : B → list C) (a : A) (l : list B) :
  foldl f a (l ≫= g) = foldl (λ a x, foldl f a (g x)) a l.
Proof.
  revert a. induction l as [|x l IH]; intros a; [done|].
  cbn [mbind list_bind]. change (foldl f a (g x ++ (l ≫= g)) = foldl (λ a x, foldl f a (g x)) (foldl f a (g x)) l).
  by rewrite foldl_app, IH.
Qed.

Lemma foldl_ext_all {A B} (f g : A → B → A) (a : A) (l : list B) :
  (∀ a x, f a x = g a x) → foldl f a l = foldl g a l.
Proof.
  intros Hfg. revert a. induction l as [|x l IH]; intros a; [done|].
  simpl. by rewrite Hfg, IH.
Qed.

Lemma cell_at_updates (f : Cell → Cell) (keys : list (nat * nat)) ws r c :
  NoDup keys →
  cell_at (foldl (λ ws k, update k.1 k.2 f ws) ws keys) r c
  = if decide ((r, c) ∈ keys) then f (cell_at ws r c) else cell_at ws r c.
Proof.
  intros Hnd. revert ws. induction Hnd as [|k ks Hk Hnd IH]; intros ws.
  - cbn [foldl]. rewrite decide_False; [done|]. apply not_elem_of_nil.
  - cbn [foldl]. rewrite IH. destruct k as [r0 c0]. cbn [fst snd].
    rewrite cell_at_update.
    destruct (decide ((r0, c0) = (r, c))) as [E|E].
    + injection E as -> ->. rewrite decide_False by done.
      rewrite decide_True; [done|]. by left.
    + destruct (decide ((r, c) ∈ ks)) as [Hin|Hin].
      * rewrite decide_True; [done|]. by right.
      * rewrite decide_False; [done|]. intros [?|?]%elem_of_cons; [congruence|done].
Qed.

Lemma furniture_updates (f : Cell → Cell) (keys : list (nat * nat)) ws :
  furniture (foldl (λ ws k, update k.1 k.2 f ws) ws keys) = furniture ws.
Proof. revert ws. induction keys as [|k ks IH]; intros ws; [done|]. simpl. by rewrite IH. Qed.

(** The cells of the rows [r1..] and the columns [c1..], row by row. *)
Lemma NoDup_block r1 n c1 m :
  NoDup (r ← seq r1 n; (λ c, (r, c)) <$> seq c1 m).
Proof.
  apply NoDup_bind.
  - intros x1 x2 [r c] _ _ (? & [= -> _] & _)%list_elem_of_fmap (? & [= -> _] & _)%list_elem_of_fmap.
    done.
  - intros r _. apply NoDup_fmap_2; [|apply NoDup_seq]. by intros ?? [=].
  - apply NoDup_seq.
Qed.

Lemma elem_of_block r1 n c1 m r c :
  (r, c) ∈ (r ← seq r1 n; (λ c, (r, c)) <$> seq c1 m)
  ↔ (r1 ≤ r < r1 + n)%nat ∧ (c1 ≤ c < c1 + m)%nat.
Proof.
  rewrite list_elem_of_bind. split.
  - intros (r' & (c' & [= -> ->] & Hc)%list_elem_of_fmap & Hr).
    apply elem_of_seq in Hc, Hr. done.
  - intros [Hr Hc]. exists r. split; [|by apply elem_of_seq].
    apply list_elem_of_fmap. exists c. split; [done|]. by apply elem_of_seq.
Qed.

Lemma fill_background_flat rows cols ws :
  fill_background rows cols ws
  = foldl (λ ws k, update k.1 k.2 (set_fill (data_fill theme)) ws) ws
      (r ← seq 1 (rows - 1); (λ c, (r, c)) <$> seq 1 (cols - 1)).
Proof.
  unfold fill_background. rewrite foldl_bind_list.
  apply foldl_ext_all. intros w r. by rewrite foldl_fmap.
Qed.

Lemma cell_at_merge_cells r1 c1 r2 c2 ws r c :
  cell_at (merge_cells r1 c1 r2 c2 ws) r c
  = if decide (((r1 ≤ r ≤ r2)%nat ∧ (c1 ≤ c ≤ c2)%nat) ∧ (r, c) ≠ (r1, c1))
    then set_value VNone (cell_at ws r c) else cell_at ws r c.
Proof.
  unfold merge_cells.
  change (cell_at ?w r c) with (default blank (cells w !! (r, c))) at 1. cbn [cells].
  match goal with
  | |- default blank (cells ?w !! (r, c)) = _ => change (default blank (cells w !! (r, c))) with (cell_at w r c)
  end.
  rewrite (cell_at_updates (set_value VNone)).
  2:{ apply NoDup_filter, NoDup_block. }
  apply decide_ext. rewrite list_elem_of_filter, elem_of_block. split.
  - intros [Hne [Hr Hc]]. split; [split; lia|done].
  - intros [[Hr Hc] Hne]. split; [done|]. split; lia.
Qed.

Lemma merge_cells_rest r1 c1 r2 c2 ws :
  merged_cells (merge_cells r1 c1 r2 c2 ws) = merged_cells ws ++ [(r1, c1, r2, c2)] ∧
  row_height (merge_cells r1 c1 r2 c2 ws) = row_height ws ∧
  column_width (merge_cells r1 c1 r2 c2 ws) = column_width ws ∧
  column_hidden (merge_cells r1 c1 r2 c2 ws) = column_hidden ws ∧
  charts (merge_cells r1 c1 r2 c2 ws) = charts ws ∧
  title (merge_cells r1 c1 r2 c2 ws) = title ws.
Proof.
  unfold merge_cells. cbn [title merged_cells row_height column_width column_hidden charts].
  match goal with
  | |- context [foldl ?f ws ?l] =>
      pose proof (furniture_updates (set_value VNone) l ws) as Hf;
      change (foldl (λ ws k, update k.1 k.2 (set_value VNone) ws) ws l) with (foldl f ws l) in Hf;
      generalize dependent (foldl f ws l)
  end.
  intros w Hf. unfold furniture in Hf. by injection Hf as -> -> -> -> -> ->.
Qed.

(** ** [max_row] and [max_column] *)
Lemma map_fold_max (proj : nat * nat → nat) (m : gmap (nat * nat) Cell) :
  is_max_of proj m (map_fold (λ (k : nat * nat) (_ : Cell) acc, Nat.max (proj k) acc) 1%nat m).
Proof.
  apply (map_fold_weak_ind (λ n m, is_max_of proj m n)).
  - split; [done|]. split; [|by left]. intros k [x Hx]. by rewrite lookup_empty in Hx.
  - intros i x m' n Hi (H1 & Hub & Hex). split; [lia|]. split.
    + intros k [->|[_ Hk]]%lookup_insert_is_Some; [lia|]. specialize (Hub k Hk). lia.
    + destruct (decide (proj i ≤ n)%nat) as [Hle|Hgt].
      * rewrite Nat.max_r by done. destruct Hex as [->|(k & Hk & <-)]; [by left|].
        right. exists k. split; [|done]. apply lookup_insert_is_Some.
        destruct (decide (i = k)); [by left|by right].
      * right. exists i. split; [|lia]. apply lookup_insert_is_Some. by left.
Qed.

Lemma is_max_of_unique proj m n1 n2 : is_max_of proj m n1 → is_max_of proj m n2 → n1 = n2.
Proof.
  intros (H1 & Hub1 & Hex1) (H2 & Hub2 & Hex2).
  assert (n1 ≤ n2)%nat.
  { destruct Hex1 as [->|(k & Hk & <-)]; [done|]. by apply Hub2. }
  assert (n2 ≤ n1)%nat.
  { destruct Hex2 as [->|(k & Hk & <-)]; [done|]. by apply Hub1. }
  lia.
Qed.

Lemma is_max_of_insert proj m n k x :
  is_max_of proj m n → is_max_of proj (<[k:=x]> m) (Nat.max (proj k) n).
Proof.
  intros (H1 & Hub & Hex). split; [lia|]. split.
  - intros k' [->|[_ Hk]]%lookup_insert_is_Some; [lia|]. specialize (Hub k' Hk). lia.
  - destruct (decide (proj k ≤ n)%nat) as [Hle|Hgt].
    + rewrite Nat.max_r by done. destruct Hex as [->|(k' & Hk & <-)]; [by left|].
      right. exists k'. split; [|done]. apply lookup_insert_is_Some.
      destruct (decide (k = k')); [by left|by right].
    + right. exists k. split; [|lia]. apply lookup_insert_is_Some. by left.
Qed.

Lemma max_row_update r c f ws : max_row (update r c f ws) = Nat.max r (max_row ws).
Proof.
  apply (is_max_of_unique fst (cells (update r c f ws))); [apply map_fold_max|].
  apply (is_max_of_insert fst _ _ (r, c)), map_fold_max.
Qed.

Lemma max_column_update r c f ws : max_column (update r c f ws) = Nat.max c (max_column ws).
Proof.
  apply (is_max_of_unique snd (cells (update r c f ws))); [apply map_fold_max|].
  apply (is_max_of_insert snd _ _ (r, c)), map_fold_max.
Qed.

Lemma max_row_ge ws : (1 ≤ max_row ws)%nat.
Proof. apply (map_fold_max fst). Qed.

Lemma max_column_ge ws : (1 ≤ max_column ws)%nat.
Proof. apply (map_fold_max snd). Qed.

(** ** [auto_fit_columns] *)
Lemma foldr_max_acc (l : list Z) (m x : Z) :
  Z.max (foldr Z.max m l) x = foldr Z.max (Z.max x m) l.
Proof. induction l as [|y l IH]; simpl; [lia|]. rewrite <- IH. lia. Qed.

Section fit.
Variable L : Library.

(** What the inner loop of [auto_fit_columns] leaves: the sheet with the
    cells it looked at, and the longest printed value so far. *)
Lemma measure_fold col (rs : list nat) ws m :
  Forall (λ r, r ≤ max_row ws)%nat rs → (col ≤ max_column ws)%nat → 0 ≤ m →
  let res := foldl (measure L col) (ws, m) rs in
  furniture res.1 = furniture ws ∧
  max_row res.1 = max_row ws ∧ max_column res.1 = max_column ws ∧
  (∀ r c, cell_at res.1 r c = cell_at ws r c) ∧
  res.2 = foldr Z.max m ((λ r, printed_length L (value (cell_at ws r col))) <$> rs).
Proof.
  revert ws m. induction rs as [|r rs IH] using rev_ind; intros ws m Hrs Hcol Hm; [done|].
  apply Forall_app in Hrs as [Hrs Hr]. rewrite Forall_singleton in Hr.
  intros res. subst res. rewrite foldl_app. cbn [foldl].
  destruct (IH ws m Hrs Hcol Hm) as (Hf & Hmr & Hmc & Hcell & Hres).
  destruct (foldl (measure L col) (ws, m) rs) as [ws1 m1]. cbn [fst snd] in *.
  unfold measure. cbn [fst snd]. split; [done|]. split; [|split; [|split]].
  - unfold touch. rewrite max_row_update, Hmr. lia.
  - unfold touch. rewrite max_column_update, Hmc. lia.
  - intros r' c'. by rewrite cell_at_touch.
  - rewrite cell_at_touch, Hcell, Hres. rewrite fmap_app, foldr_app. cbn [fmap list_fmap foldr].
    set (v := value (cell_at ws r col)).
    replace (printed_length L v)
      with (if truthy v then Z.of_nat (String.length (py_str L v)) else 0) by done.
    destruct (truthy v).
    + apply foldr_max_acc.
    + by rewrite Z.max_r.
Qed.

Lemma fit_column_spec min_width max_width ws col :
  (col ≤ max_column ws)%nat →
  let ws' := fit_column L min_width max_width ws col in
  (title ws', merged_cells ws', row_height ws', column_hidden ws', charts ws')
  = (title ws, merged_cells ws, row_height ws, column_hidden ws, charts ws) ∧
  max_row ws' = max_row ws ∧ max_column ws' = max_column ws ∧
  (∀ r c, cell_at ws' r c = cell_at ws r c) ∧
  column_width ws' = <[col := clamp min_width max_width (longest L ws col)]> (column_width ws).
Proof.
  intros Hcol ws'. subst ws'. unfold fit_column.
  destruct (measure_fold col (seq 1 (max_row ws)) ws 0) as (Hf & Hmr & Hmc & Hcell & Hres);
    [|done|done|].
  { apply Forall_forall. intros r Hr%elem_of_seq. lia. }
  destruct (foldl (measure L col) (ws, 0) (seq 1 (max_row ws))) as [ws1 m1].
  cbn [fst snd] in *. unfold furniture in Hf. injection Hf as Ht Hm Hh Hw Hd Hc.
  unfold set_column_width. cbn [title merged_cells row_height column_hidden charts column_width].
  rewrite Ht, Hm, Hh, Hd, Hc, Hw, Hres. done.
Qed.

Lemma fit_columns_spec min_width max_width (cols : list nat) ws :
  Forall (λ col, col ≤ max_column ws)%nat cols → NoDup cols →
  let ws' := foldl (fit_column L min_width max_width) ws cols in
  (title ws', merged_cells ws', row_height ws', column_hidden ws', charts ws')
  = (title ws, merged_cells ws, row_height ws, column_hidden ws, charts ws) ∧
  max_row ws' = max_row ws ∧ max_column ws' = max_column ws ∧
  (∀ r c, cell_at ws' r c = cell_at ws r c) ∧
  ∀ col, column_width ws' !! col =
           if decide (col ∈ cols) then Some (clamp min_width max_width (longest L ws col))
           else column_width ws !! col.
Proof.
  induction cols as [|x cols IH] using rev_ind; intros Hcols Hnd ws'; subst ws'.
  - by cbn [foldl].
  - apply Forall_app in Hcols as [Hcols Hx]. rewrite Forall_singleton in Hx.
    apply NoDup_app in Hnd as (Hnd & Hdis & _).
    rewrite foldl_app. cbn [foldl].
    destruct (IH Hcols Hnd) as (Hf & Hmr & Hmc & Hcell & Hw).
    destruct (fit_column_spec min_width max_width
                (foldl (fit_column L min_width max_width) ws cols) x)
      as (Hf' & Hmr' & Hmc' & Hcell' & Hw'); [lia|].
    split; [by rewrite Hf'|]. split; [lia|]. split; [lia|]. split.
    + intros r c. by rewrite Hcell'.
    + intros col. rewrite Hw'. destruct (decide (col = x)) as [->|Hne].
      * rewrite lookup_insert_eq. rewrite decide_True by (apply elem_of_app; right; by left).
        do 2 f_equal. unfold longest. rewrite Hmr. f_equal.
        apply list_fmap_ext. intros _ r _. by rewrite Hcell.
      * rewrite lookup_insert_ne by done. rewrite Hw.
        apply decide_ext. rewrite elem_of_app, list_elem_of_singleton. tauto.
Qed.
End fit.

(** ** Styling one cell *)

(** X1: [style_cell] never changes the value of a cell; a second call
    decides the fill, the font, the alignment and the border alone; it
    replaces the number format only when it is given one, so that a call
    without [fmt] keeps the format of an earlier call; and repeating a call
    changes nothing. *)
Theorem style_cell_restyle (T : Theme) (h1 a1 n1 h2 a2 n2 : bool) (f1 f2 : option string)
    (c : Cell) :
  let c1 := Openpyxl.style_cell T h1 a1 n1 f1 c in
  let c2 := Openpyxl.style_cell T h2 a2 n2 f2 c1 in
  value c2 = value c ∧
  style_of c2 = style_of (Openpyxl.style_cell T h2 a2 n2 f2 c) ∧
  Openpyxl.number_format c2 =
    match f2 with
    | Some f => if bool_decide (f ≠ EmptyString) then f else Openpyxl.number_format c1
    | None => Openpyxl.number_format c1
    end ∧
  Openpyxl.style_cell T h2 a2 n2 f2 c2 = c2.
Proof.
  unfold Openpyxl.style_cell, style_of.
  destruct h1, h2, f1 as [f1|], f2 as [f2|]; cbn [negb];
    repeat (case_bool_decide); simpl; done.
Qed.

(** ** The helpers of the sales report *)
Lemma furniture_eq ws ws' :
  furniture ws' = furniture ws →
  title ws' = title ws ∧ merged_cells ws' = merged_cells ws ∧
  row_height ws' = row_height ws ∧ column_width ws' = column_width ws ∧
  column_hidden ws' = column_hidden ws ∧ charts ws' = charts ws.
Proof.
  destruct ws, ws'. unfold furniture. cbn. intros [= -> -> -> -> -> ->]. done.
Qed.

Lemma fill_background_spec (rows cols : nat) (ws : Worksheet) :
  (∀ r c, cell_at (fill_background rows cols ws) r c =
            if decide ((1 ≤ r < rows)%nat ∧ (1 ≤ c < cols)%nat)
            then set_fill (data_fill theme) (cell_at ws r c)
            else cell_at ws r c) ∧
  furniture (fill_background rows cols ws) = furniture ws.
Proof.
  rewrite fill_background_flat. split.
  - intros r c. rewrite cell_at_updates by apply NoDup_block.
    apply decide_ext. rewrite elem_of_block. lia.
  - apply furniture_updates.
Qed.

Lemma titled_block_spec (f : Cell → Cell) (r1 r2 cols : nat) (ws : Worksheet) :
  let ws' := merge_cells r1 1 r2 cols (update r1 1 f ws) in
  cell_at ws' r1 1 = f (cell_at ws r1 1) ∧
  (∀ r c, (r1 ≤ r ≤ r2)%nat → (1 ≤ c ≤ cols)%nat → (r, c) ≠ (r1, 1%nat) →
          value (cell_at ws' r c) = VNone) ∧
  (∀ r c, ¬ ((r1 ≤ r ≤ r2)%nat ∧ (1 ≤ c ≤ cols)%nat) → (r, c) ≠ (r1, 1%nat) →
          cell_at ws' r c = cell_at ws r c) ∧
  merged_cells ws' = merged_cells ws ++ [(r1, 1%nat, r2, cols)] ∧
  row_height ws' = row_height ws ∧ column_width ws' = column_width ws ∧
  column_hidden ws' = column_hidden ws ∧ charts ws' = charts ws ∧ title ws' = title ws.
Proof.
  intros ws'. subst ws'.
  destruct (merge_cells_rest r1 1 r2 cols (update r1 1 f ws)) as (Hm & Hrh & Hw & Hd & Hc & Ht).
  split; [|split; [|split]].
  - rewrite cell_at_merge_cells. rewrite decide_False by (intros [_ ?]; done).
    by rewrite cell_at_update, decide_True.
  - intros r c Hr Hc' Hne. rewrite cell_at_merge_cells. by rewrite decide_True.
  - intros r c Hrc Hne. rewrite cell_at_merge_cells.
    rewrite decide_False by (intros [? ?]; by apply Hrc).
    rewrite cell_at_update_ne; [done|]. intros [= <- <-]. done.
  - by rewrite Hm, Hrh, Hw, Hd, Hc, Ht.
Qed.

Lemma update_twice r c f g ws : update r c g (update r c f ws) = update r c (g ∘ f) ws.
Proof.
  unfold update, with_cells. cbn. f_equal.
  rewrite insert_insert_eq. f_equal. unfold cell_at. cbn. by rewrite lookup_insert_eq.
Qed.

Lemma add_title_spec (text : string) (row cols : nat) (ws : Worksheet) :
  let ws' := add_title text row cols ws in
  cell_at ws' row 1
  = set_font title_font (set_fill title_fill (set_value (VStr text) (cell_at ws row 1))) ∧
  (∀ c, (2 ≤ c ≤ cols)%nat → value (cell_at ws' row c) = VNone) ∧
  (∀ r c, ¬ (r = row ∧ (1 ≤ c ≤ cols)%nat) → (r, c) ≠ (row, 1%nat) →
          cell_at ws' r c = cell_at ws r c) ∧
  merged_cells ws' = merged_cells ws ++ [(row, 1%nat, row, cols)] ∧
  row_height ws' = <[row := 30]> (row_height ws) ∧
  column_width ws' = column_width ws ∧ column_hidden ws' = column_hidden ws ∧
  charts ws' = charts ws.
Proof.
  intros ws'. subst ws'. unfold add_title. rewrite !update_twice.
  match goal with
  | |- context [merge_cells row 1 row cols (update row 1 ?f ws)] =>
      destruct (titled_block_spec f row row cols ws) as (Ha & Hv & Hf & Hm & Hrh & Hw & Hd & Hc & _)
  end.
  cbn [set_row_height merged_cells row_height column_width column_hidden charts].
  change (cell_at (set_row_height ?a ?b ?w) ?r ?c) with (cell_at w r c).
  split; [exact Ha|]. split; [|split].
  - intros c Hc'. apply Hv; [lia|lia|]. intros [= ?]. lia.
  - intros r c Hrc Hne. apply Hf; [|done]. intros [? ?]. apply Hrc. split; [lia|done].
  - by rewrite Hm, Hrh, Hw, Hd, Hc.
Qed.

Lemma add_subtitle_spec (text : string) (row cols : nat) (ws : Worksheet) :
  let ws' := add_subtitle text row cols ws in
  cell_at ws' row 1
  = set_font subtitle_font
      (set_fill (data_fill theme) (set_value (VStr text) (cell_at ws row 1))) ∧
  (∀ c, (2 ≤ c ≤ cols)%nat → value (cell_at ws' row c) = VNone) ∧
  (∀ r c, ¬ (r = row ∧ (1 ≤ c ≤ cols)%nat) → (r, c) ≠ (row, 1%nat) →
          cell_at ws' r c = cell_at ws r c) ∧
  merged_cells ws' = merged_cells ws ++ [(row, 1%nat, row, cols)] ∧
  row_height ws' = row_height ws ∧
  column_width ws' = column_width ws ∧ column_hidden ws' = column_hidden ws ∧
  charts ws' = charts ws.
Proof.
  intros ws'. subst ws'. unfold add_subtitle. rewrite !update_twice.
  match goal with
  | |- context [merge_cells row 1 row cols (update row 1 ?f ws)] =>
      destruct (titled_block_spec f row row cols ws) as (Ha & Hv & Hf & Hm & Hrh & Hw & Hd & Hc & _)
  end.
  split; [exact Ha|]. split; [|split].
  - intros c Hc'. apply Hv; [lia|lia|]. intros [= ?]. lia.
  - intros r c Hrc Hne. apply Hf; [|done]. intros [? ?]. apply Hrc. split; [lia|done].
  - by rewrite Hm, Hrh, Hw, Hd, Hc.
Qed.

Lemma add_commentary_spec (text : string) (start_row cols : nat) (ws : Worksheet) :
  let ws' := add_commentary text start_row cols ws in
  cell_at ws' start_row 1
  = set_alignment {| horizontal := None; vertical := Some "top"; wrap_text := true |}
      (set_font comment_font
         (set_fill comment_fill (set_value (VStr text) (cell_at ws start_row 1)))) ∧
  (∀ r c, (start_row ≤ r ≤ start_row + 1)%nat → (1 ≤ c ≤ cols)%nat →
          (r, c) ≠ (start_row, 1%nat) → value (cell_at ws' r c) = VNone) ∧
  (∀ r c, ¬ ((start_row ≤ r ≤ start_row + 1)%nat ∧ (1 ≤ c ≤ cols)%nat) →
          (r, c) ≠ (start_row, 1%nat) → cell_at ws' r c = cell_at ws r c) ∧
  merged_cells ws' = merged_cells ws ++ [(start_row, 1%nat, (start_row + 1)%nat, cols)] ∧
  row_height ws' = <[(start_row + 1)%nat := 30]> (<[start_row := 45]> (row_height ws)) ∧
  column_width ws' = column_width ws ∧ column_hidden ws' = column_hidden ws ∧
  charts ws' = charts ws.
Proof.
  intros ws'. subst ws'. unfold add_commentary. rewrite !update_twice.
  match goal with
  | |- context [merge_cells start_row 1 ?r2 cols (update start_row 1 ?f ws)] =>
      destruct (titled_block_spec f start_row r2 cols ws)
        as (Ha & Hv & Hf & Hm & Hrh & Hw & Hd & Hc & _)
  end.
  cbn [set_row_height merged_cells row_height column_width column_hidden charts].
  change (cell_at (set_row_height ?a ?b ?w) ?r ?c) with (cell_at w r c).
  change (cell_at (set_row_height ?a ?b ?w) ?r ?c) with (cell_at w r c).
  split; [exact Ha|]. split; [exact Hv|]. split; [exact Hf|].
  by rewrite Hm, Hrh, Hw, Hd, Hc.
Qed.

Lemma auto_fit_columns_spec (L : Library) (min_width max_width : Z) (ws : Worksheet) :
  let ws' := SalesReport.auto_fit_columns L min_width max_width ws in
  (∀ r c, cell_at ws' r c = cell_at ws r c) ∧
  title ws' = title ws ∧ merged_cells ws' = merged_cells ws ∧
  row_height ws' = row_height ws ∧ column_hidden ws' = column_hidden ws ∧
  charts ws' = charts ws ∧
  max_row ws' = max_row ws ∧ max_column ws' = max_column ws ∧
  ∀ col, column_width ws' !! col =
           if decide (1 ≤ col ≤ max_column ws)%nat
           then Some (clamp min_width max_width (longest L ws col))
           else column_width ws !! col.
Proof.
  intros ws'. subst ws'. unfold SalesReport.auto_fit_columns, Openpyxl.auto_fit_columns.
  destruct (fit_columns_spec L min_width max_width (seq 1 (max_column ws)) ws)
    as (Hf & Hmr & Hmc & Hcell & Hw).
  - apply Forall_forall. intros x Hx%elem_of_seq. lia.
  - apply NoDup_seq.
  - injection Hf as Ht Hm Hh Hd Hc. repeat (split; [done|]).
    intros col. rewrite Hw. apply decide_ext. rewrite elem_of_seq. lia.
Qed.

(** X2: [fill_background(ws, rows, cols)] gives the background fill to the
    cells of the rows 1 to [rows - 1] and the columns 1 to [cols - 1], the
    bounds themselves excluded, keeps whatever else these cells hold, and
    changes no other cell and nothing else of the sheet. *)
Theorem fill_background_region (rows cols : nat) (ws : Worksheet) (r c : nat) :
  cell_at (fill_background rows cols ws) r c =
    (if decide ((1 ≤ r < rows)%nat ∧ (1 ≤ c < cols)%nat)
     then set_fill (data_fill theme) (cell_at ws r c)
     else cell_at ws r c) ∧
  furniture (fill_background rows cols ws) = furniture ws.
Proof. destruct (fill_background_spec rows cols ws) as [Hc Hf]. by split. Qed.





(** X5: [auto_fit_columns] gives every column from 1 to [ws.max_column] the
    width made of the printed length of the longest value of the column
    that is not false, plus 2, raised to [min_width] and then cut to
    [max_width]; it changes nothing else: every cell holds what it held,
    the other widths, the merged ranges, the row heights, the hidden
    columns and the charts are as before, and so are [ws.max_row] and
    [ws.max_column]. *)
Theorem auto_fit_columns_effect (L : Library) (min_width max_width : Z) (ws : Worksheet) :
  let ws' := SalesReport.auto_fit_columns L min_width max_width ws in
  (∀ col, (1 ≤ col ≤ max_column ws)%nat →
     column_width ws' !! col
     = Some (Z.min (Z.max (longest L ws col + 2) min_width) max_width)) ∧
  (∀ col, ¬ (1 ≤ col ≤ max_column ws)%nat → column_width ws' !! col = column_width ws !! col) ∧
  (∀ r c, cell_at ws' r c = cell_at ws r c) ∧
  title ws' = title ws ∧ merged_cells ws' = merged_cells ws ∧
  row_height ws' = row_height ws ∧ column_hidden ws' = column_hidden ws ∧
  charts ws' = charts ws ∧
  max_row ws' = max_row ws ∧ max_column ws' = max_column ws.
Proof.
  intros ws'. subst ws'.
  destruct (auto_fit_columns_spec L min_width max_width ws)
    as (Hc & Ht & Hm & Hh & Hd & Hch & Hmr & Hmc & Hw).
  split; [|split; [|by repeat split]].
  - intros col Hcol. by rewrite Hw, decide_True.
  - intros col Hcol. by rewrite Hw, decide_False.
Qed.

Lemma auto_fit_columns_effect_witness :
  column_width (SalesReport.auto_fit_columns plain 10 25
                  (add_title "SALES ANALYSIS SUMMARY" 1 8 (new_sheet "Summary"))) !! 1%nat
  = Some 24.
Proof.
  apply (auto_fit_columns_effect plain 10 25
           (add_title "SALES ANALYSIS SUMMARY" 1 8 (new_sheet "Summary"))).
  vm_compute. lia.
Defined.

End HelperFacts.

Module TableWriterFacts.
Import Pandas Openpyxl SalesReport Vocabulary Layout PyFacts PandasFacts SheetFacts PeriodFacts
  HelperFacts.

Lemma enumerate_cons {A} (s : nat) (x : A) (l : list A) :
  enumerate s (x :: l) = (s, x) :: enumerate (S s) l.
Proof. done. Qed.

Lemma enumerate_app {A} (s : nat) (l k : list A) :
  enumerate s (l ++ k) = enumerate s l ++ enumerate (s + length l) k.
Proof.
  unfold enumerate. rewrite length_app, seq_app. apply zip_with_app. by rewrite length_seq.
Qed.

Lemma col_index_NoDup df j name :
  NoDup (columns df) → columns df !! j = Some name → col_index df name = Ok j.
Proof.
  intros Hnd Hj.
  assert (name ∈ columns df) as [i Hi]%col_index_elem by (by eapply list_elem_of_lookup_2).
  rewrite Hi. f_equal. apply col_index_Ok in Hi.
  by eapply NoDup_lookup.
Qed.

(** ** The header row *)
Lemma write_headers_spec (cols : list string) (start s : nat) ws :
  let ws' :=
    foldl (λ ws (ic : nat * string),
             update start ic.1 (style_cell true false false None)
               (cell_value start ic.1 (VStr ic.2) ws))
      ws (enumerate s cols) in
  (∀ j name, cols !! j = Some name →
     cell_at ws' start (s + j)
     = style_cell true false false None (set_value (VStr name) (cell_at ws start (s + j)))) ∧
  (∀ R C, ¬ (R = start ∧ s ≤ C < s + length cols)%nat → cell_at ws' R C = cell_at ws R C) ∧
  furniture ws' = furniture ws.
Proof.
  revert s ws. induction cols as [|name0 cols IH]; intros s ws ws'; subst ws'.
  - by repeat split.
  - rewrite enumerate_cons. cbn [foldl fst snd].
    destruct (IH (S s) (update start s (style_cell true false false None)
                          (cell_value start s (VStr name0) ws))) as (Hc & Hf & Hfu).
    split; [|split].
    + intros [|j] name Hj.
      * injection Hj as <-. rewrite Nat.add_0_r, Hf by lia.
        rewrite cell_at_update, decide_True by done.
        unfold cell_value. by rewrite cell_at_update, decide_True.
      * replace (s + S j)%nat with (S s + j)%nat by lia. rewrite (Hc j name Hj).
        rewrite cell_at_update_ne by (intros [=]; lia).
        rewrite cell_at_cell_value_ne by (intros [=]; lia). done.
    + intros R C HRC. rewrite Hf by (cbn [length] in HRC; lia).
      rewrite cell_at_update_ne by (intros [= <- <-]; cbn [length] in HRC; lia).
      rewrite cell_at_cell_value_ne by (intros [= <- <-]; cbn [length] in HRC; lia). done.
    + by rewrite Hfu.
Qed.

(** ** One data row *)
Lemma write_cells_of_spec b df (cols : list string) (s : nat) ws (R : nat) (r : list Py.value) :
  Forall (λ c, c ∈ columns df) cols →
  ∃ ws',
    foldlM (λ ws (ic : nat * string),
              v ← row_get df r ic.2;
              Ok (update R ic.1 (write_data_cell_of b R ic.2 v) ws))
      ws (enumerate s cols) = Ok ws' ∧
    (∀ j name i, cols !! j = Some name → col_index df name = Ok i →
       cell_at ws' R (s + j) = write_data_cell_of b R name (cell r i) (cell_at ws R (s + j))) ∧
    (∀ R' C, ¬ (R' = R ∧ s ≤ C < s + length cols)%nat → cell_at ws' R' C = cell_at ws R' C) ∧
    furniture ws' = furniture ws.
Proof.
  intros Hcols. revert s ws. induction Hcols as [|name0 cols Hin _ IH]; intros s ws.
  - exists ws. by repeat split.
  - rewrite enumerate_cons. cbn [foldlM fst snd].
    apply col_index_elem in Hin as [i0 Hi0].
    assert (row_get df r name0 = Ok (cell r i0)) as Hrg by (unfold row_get; by rewrite Hi0).
    rewrite Hrg. cbn [mbind result_bind].
    destruct (IH (S s) (update R s (write_data_cell_of b R name0 (cell r i0)) ws))
      as (ws' & Hws' & Hc & Hf & Hfu).
    exists ws'. split; [done|]. split; [|split].
    + intros [|j] name i Hj Hi.
      * injection Hj as <-. rewrite Hi0 in Hi. injection Hi as <-.
        rewrite Nat.add_0_r, Hf by lia. by rewrite cell_at_update, decide_True.
      * replace (s + S j)%nat with (S s + j)%nat by lia. rewrite (Hc j name i Hj Hi).
        by rewrite cell_at_update_ne by (intros [=]; lia).
    + intros R' C HRC. rewrite Hf by (cbn [length] in HRC; lia).
      by rewrite cell_at_update_ne by (intros [= <- <-]; cbn [length] in HRC; lia).
    + by rewrite Hfu.
Qed.

(** ** The data rows *)
Lemma write_rows_of_spec b df (cols : list string) (rs : list (list Py.value)) ws (start : nat) :
  Forall (λ c, c ∈ columns df) cols →
  ∃ ws',
    foldlM (write_data_row_of b df cols) ws (enumerate start rs) = Ok ws' ∧
    (∀ k r j name i, rs !! k = Some r → cols !! j = Some name → col_index df name = Ok i →
       cell_at ws' (start + k) (1 + j)
       = write_data_cell_of b (start + k) name (cell r i) (cell_at ws (start + k) (1 + j))) ∧
    (∀ R C, ¬ ((start ≤ R < start + length rs)%nat ∧ (1 ≤ C ≤ length cols)%nat) →
            cell_at ws' R C = cell_at ws R C) ∧
    furniture ws' = furniture ws.
Proof.
  intros Hcols. revert start ws. induction rs as [|r0 rs IH]; intros start ws.
  - exists ws. by repeat split.
  - rewrite enumerate_cons. cbn [foldlM].
    destruct (write_cells_of_spec b df cols 1 ws start r0 Hcols) as (ws1 & H1 & Hc1 & Hf1 & Hfu1).
    assert (write_data_row_of b df cols ws (start, r0) = Ok ws1) as Hr0 by exact H1.
    rewrite Hr0. cbn [mbind result_bind].
    destruct (IH (S start) ws1) as (ws' & Hws' & Hc & Hf & Hfu).
    exists ws'. split; [done|]. split; [|split].
    + intros [|k] r j name i Hk Hj Hi.
      * injection Hk as <-. rewrite Nat.add_0_r, Hf by lia. by apply Hc1.
      * replace (start + S k)%nat with (S start + k)%nat by lia.
        rewrite (Hc k r j name i Hk Hj Hi). by rewrite Hf1 by lia.
    + intros R C HRC. rewrite Hf by (cbn [length] in HRC; lia).
      apply Hf1. cbn [length] in HRC. lia.
    + by rewrite Hfu.
Qed.

(** ** The table *)
Lemma write_data_table_of_spec b ws df (start : nat) (cols : list string) :
  Forall (λ c, c ∈ columns df) cols →
  ∃ ws',
    write_data_table_of b ws df start (Some cols) = Ok (ws', (start + len df + 1)%nat) ∧
    (∀ j name, cols !! j = Some name →
       cell_at ws' start (1 + j)
       = style_cell true false false None (set_value (VStr name) (cell_at ws start (1 + j)))) ∧
    (∀ k r j name i, rows df !! k = Some r → cols !! j = Some name →
       col_index df name = Ok i →
       cell_at ws' (start + 1 + k) (1 + j)
       = write_data_cell_of b (start + 1 + k) name (cell r i) (cell_at ws (start + 1 + k) (1 + j))) ∧
    (∀ R C, ¬ ((start ≤ R ≤ start + len df)%nat ∧ (1 ≤ C ≤ length cols)%nat) →
            cell_at ws' R C = cell_at ws R C) ∧
    furniture ws' = furniture ws.
Proof.
  intros Hcols. unfold write_data_table_of.
  change (default (columns df) (Some cols)) with cols.
  destruct (write_headers_spec cols start 1 ws) as (Hh & Hhf & Hhfu).
  match goal with
  | |- context [foldlM _ ?w0 _] =>
      destruct (write_rows_of_spec b df cols (rows df) w0 (start + 1) Hcols)
        as (ws' & Hws' & Hc & Hf & Hfu)
  end.
  rewrite Hws'. cbn [mbind result_bind]. exists ws'. split; [done|]. split; [|split; [|split]].
  - intros j name Hj. rewrite Hf by lia. by apply Hh.
  - intros k r j name i Hk Hj Hi. rewrite (Hc k r j name i Hk Hj Hi).
    rewrite Hhf by lia. done.
  - intros R C HRC. unfold len in HRC. rewrite Hf by lia. apply Hhf. lia.
  - by rewrite Hfu.
Qed.

Lemma write_cells_spec df (cols : list string) (s : nat) ws (R : nat) (r : list Py.value) :
  Forall (λ c, c ∈ columns df) cols →
  ∃ ws',
    foldlM (λ ws (ic : nat * string),
              v ← row_get df r ic.2;
              Ok (update R ic.1 (write_data_cell R ic.2 v) ws))
      ws (enumerate s cols) = Ok ws' ∧
    (∀ j name i, cols !! j = Some name → col_index df name = Ok i →
       cell_at ws' R (s + j) = write_data_cell R name (cell r i) (cell_at ws R (s + j))) ∧
    (∀ R' C, ¬ (R' = R ∧ s ≤ C < s + length cols)%nat → cell_at ws' R' C = cell_at ws R' C) ∧
    furniture ws' = furniture ws.
Proof. exact (write_cells_of_spec false df cols s ws R r). Qed.

Lemma write_rows_spec df (cols : list string) (rs : list (list Py.value)) ws (start : nat) :
  Forall (λ c, c ∈ columns df) cols →
  ∃ ws',
    foldlM (write_data_row df cols) ws (enumerate start rs) = Ok ws' ∧
    (∀ k r j name i, rs !! k = Some r → cols !! j = Some name → col_index df name = Ok i →
       cell_at ws' (start + k) (1 + j)
       = write_data_cell (start + k) name (cell r i) (cell_at ws (start + k) (1 + j))) ∧
    (∀ R C, ¬ ((start ≤ R < start + length rs)%nat ∧ (1 ≤ C ≤ length cols)%nat) →
            cell_at ws' R C = cell_at ws R C) ∧
    furniture ws' = furniture ws.
Proof. exact (write_rows_of_spec false df cols rs ws start). Qed.

Lemma write_data_table_spec ws df (start : nat) (cols : list string) :
  Forall (λ c, c ∈ columns df) cols →
  ∃ ws',
    write_data_table ws df start (Some cols) = Ok (ws', (start + len df + 1)%nat) ∧
    (∀ j name, cols !! j = Some name →
       cell_at ws' start (1 + j)
       = style_cell true false false None (set_value (VStr name) (cell_at ws start (1 + j)))) ∧
    (∀ k r j name i, rows df !! k = Some r → cols !! j = Some name →
       col_index df name = Ok i →
       cell_at ws' (start + 1 + k) (1 + j)
       = write_data_cell (start + 1 + k) name (cell r i) (cell_at ws (start + 1 + k) (1 + j))) ∧
    (∀ R C, ¬ ((start ≤ R ≤ start + len df)%nat ∧ (1 ≤ C ≤ length cols)%nat) →
            cell_at ws' R C = cell_at ws R C) ∧
    furniture ws' = furniture ws.
Proof. exact (write_data_table_of_spec false ws df start cols). Qed.



(** X7: [write_data_table] writes into the rows [start_row] to
    [start_row + len(df)] and the columns 1 to [len(columns)] only: when
    it returns, every other cell, the merged ranges, the row heights, the
    column widths, the hidden columns and the charts are as before. *)
Theorem write_data_table_frame (ws ws' : Worksheet) (df : DataFrame) (start_row end_row : nat)
    (columns : option (list string)) :
  writable ws start_row (start_row + len df) (length (default (Pandas.columns df) columns)) →
  write_data_table ws df start_row columns = Ok (ws', end_row) →
  (∀ R C, ¬ ((start_row ≤ R ≤ start_row + len df)%nat ∧
             (1 ≤ C ≤ length (default (Pandas.columns df) columns))%nat) →
          cell_at ws' R C = cell_at ws R C) ∧
  furniture ws' = furniture ws.
Proof.
  intros _. unfold write_data_table, write_data_table_of.
  intros (w1 & H1 & [= <- <-])%bind_Ok.
  set (cols := default (Pandas.columns df) columns) in *.
  destruct (write_headers_spec cols start_row 1 ws) as (_ & Hhf & Hhfu).
  match type of H1 with
  | foldlM _ ?w _ = _ => set (w0 := w) in *
  end.
  pose (P := λ w : Worksheet,
          (∀ R C, ¬ ((start_row ≤ R ≤ start_row + len df)%nat ∧ (1 ≤ C ≤ length cols)%nat) →
                  cell_at w R C = cell_at ws R C) ∧ furniture w = furniture ws).
  change (P w1). apply (foldlM_inv P _ _ _ _) in H1; [exact H1| |].
  - intros w [R r] w' Hir Hw Hrow.
    assert (start_row + 1 ≤ R ≤ start_row + len df)%nat as HR.
    { unfold enumerate in Hir. apply list_elem_of_lookup in Hir as [k Hk].
      apply lookup_zip_with_Some in Hk as (R0 & r0 & [= <- <-] & HR0 & Hr0).
      apply lookup_seq in HR0 as [-> Hlt]. unfold len. lia. }
    unfold write_data_row_of in Hrow. cbn [fst snd] in Hrow.
    apply (foldlM_inv P _ _ _ _) in Hrow; [exact Hrow| |exact Hw].
    intros a [C name] a' Hx Ha Hcell. cbn [fst snd] in Hcell.
    apply bind_Ok in Hcell as (v & _ & [= <-]).
    assert (1 ≤ C ≤ length cols)%nat as HC.
    { unfold enumerate in Hx. apply list_elem_of_lookup in Hx as [k Hk].
      apply lookup_zip_with_Some in Hk as (C0 & n0 & [= <- <-] & HC0 & Hn0).
      apply lookup_seq in HC0 as [-> Hlt]. lia. }
    destruct Ha as [Ha Hfu]. split; [|exact Hfu].
    intros R' C' HRC. rewrite cell_at_update_ne by (intros [= <- <-]; lia).
    by apply Ha.
  - split; [|exact Hhfu]. intros R C HRC. apply Hhf. lia.
Qed.

Lemma write_data_table_frame_witness :
  ∃ ws' end_row,
    write_data_table (new_sheet "7-Day Performance") sample_daily 3 None = Ok (ws', end_row) ∧
    furniture ws' = furniture (new_sheet "7-Day Performance").
Proof.
  destruct (write_data_table (new_sheet "7-Day Performance") sample_daily 3 None)
    as [[ws' end_row]|e] eqn:E.
  - exists ws', end_row. split; [done|].
    refine (proj2 (write_data_table_frame _ _ _ _ _ _ _ E)). by intros r c _ _.
  - by vm_compute in E.
Defined.



End TableWriterFacts.

Module FrameFacts.
Import Pandas SalesReport Vocabulary Notions PyFacts PandasFacts GroupFacts.

Lemma length_column df c l : column df c = Ok l → length l = len df.
Proof. intros (i & _ & [= <-])%bind_Ok. by rewrite length_fmap. Qed.

Lemma length_mapM_result {A B} (f : A → result B) (l : list A) (k : list B) :
  mapM f l = Ok k → length k = length l.
Proof. intros H%mapM_Ok. symmetry. by eapply Forall2_length. Qed.

Lemma length_numeric df c l : numeric df c = Ok l → length l = len df.
Proof.
  intros (v & Hv & H)%bind_Ok. apply length_mapM_result in H. apply length_column in Hv. lia.
Qed.

Lemma col_index_lt df c i : col_index df c = Ok i → (i < length (columns df))%nat.
Proof. intros H%col_index_Ok. by eapply lookup_lt_Some. Qed.

Lemma col_index_app_l cols name rs rs' c i :
  col_index (Frame cols rs) c = Ok i → col_index (Frame (cols ++ [name]) rs') c = Ok i.
Proof.
  unfold col_index. cbn [columns].
  destruct (list_find (λ x, x = c) cols) as [[j x]|] eqn:E; [|done].
  intros [= <-]. by rewrite (list_find_app_l _ _ _ _ _ E).
Qed.

Lemma col_index_app_new cols name rs :
  name ∉ cols → col_index (Frame (cols ++ [name]) rs) name = Ok (length cols).
Proof.
  intros Hn. unfold col_index. cbn [columns]. rewrite list_find_app_r.
  - cbn. by rewrite decide_True.
  - apply list_find_None, Forall_forall. intros x Hx ->. done.
Qed.

(** ** [df[name] = vals], then [df[c]] *)
Lemma cells_insert_eq (i : nat) (rs : list (list Py.value)) (vals : list Py.value) :
  Forall (λ r, i < length r)%nat rs → length vals = length rs →
  (λ r, cell r i) <$> zip_with (λ r v, <[i:=v]> r) rs vals = vals.
Proof.
  intros Hrs. revert vals. induction Hrs as [|r rs Hr _ IH]; intros [|v vals] Hlen; try done.
  cbn. f_equal; [|apply IH; cbn in Hlen; lia].
  unfold cell. by rewrite list_lookup_insert_eq by lia.
Qed.

Lemma cells_snoc_new (n : nat) (rs : list (list Py.value)) (vals : list Py.value) :
  Forall (λ r, length r = n) rs → length vals = length rs →
  (λ r, cell r n) <$> zip_with (λ r v, r ++ [v]) rs vals = vals.
Proof.
  intros Hrs. revert vals. induction Hrs as [|r rs Hr _ IH]; intros [|v vals] Hlen; try done.
  cbn. f_equal; [|apply IH; cbn in Hlen; lia].
  unfold cell. rewrite lookup_app_r by lia. by rewrite Hr, Nat.sub_diag.
Qed.

Lemma cells_snoc_old (n j : nat) (rs : list (list Py.value)) (vals : list Py.value) :
  Forall (λ r, length r = n) rs → (j < n)%nat → length vals = length rs →
  (λ r, cell r j) <$> zip_with (λ r v, r ++ [v]) rs vals = (λ r, cell r j) <$> rs.
Proof.
  intros Hrs Hj. revert vals. induction Hrs as [|r rs Hr _ IH]; intros [|v vals] Hlen; try done.
  cbn. f_equal; [|apply IH; cbn in Hlen; lia].
  unfold cell. by rewrite lookup_app_l by lia.
Qed.

Lemma column_set_column_eq df name vals :
  wf df → length vals = len df → column (set_column df name vals) name = Ok vals.
Proof.
  intros Hwf Hlen. unfold set_column.
  destruct (col_index df name) as [i|e] eqn:Hi.
  - unfold column. unfold col_index in *. cbn [columns rows]. rewrite Hi. cbn. f_equal.
    fold (col_index df name) in Hi. apply col_index_lt in Hi.
    apply cells_insert_eq; [|done].
    eapply Forall_impl; [exact Hwf|]. cbn. intros r ->. done.
  - assert (name ∉ columns df) as Hn.
    { intros [i Hi']%col_index_elem. congruence. }
    unfold column. rewrite col_index_app_new by done. cbn. f_equal.
    by apply cells_snoc_new.
Qed.

Lemma column_set_column_ne df name vals c :
  wf df → length vals = len df → c ≠ name →
  column (set_column df name vals) c = column df c.
Proof.
  intros Hwf Hlen Hne. unfold set_column.
  destruct (col_index df name) as [i|e] eqn:Hi.
  - unfold column, col_index. cbn [columns rows]. fold (col_index df c).
    destruct (col_index df c) as [j|e] eqn:Hj; [|done]. cbn. f_equal.
    rewrite other_cells.
    + by rewrite take_ge by (unfold len in Hlen; lia).
    + intros ->. apply col_index_Ok in Hi, Hj. congruence.
  - assert (name ∉ columns df) as Hn.
    { intros [i Hi']%col_index_elem. congruence. }
    destruct (col_index df c) as [j|e'] eqn:Hj.
    + unfold column. destruct df as [cols rs].
      rewrite (col_index_app_l cols name rs _ c j Hj). rewrite Hj. cbn. f_equal.
      apply col_index_lt in Hj. cbn in Hj.
      by apply (cells_snoc_old (length cols)).
    + assert (c ∉ columns df) as Hc.
      { intros [j Hj']%col_index_elem. congruence. }
      rewrite !column_missing; [done|done|].
      cbn. rewrite elem_of_app, list_elem_of_singleton. tauto.
Qed.

Lemma numeric_set_column_ne df name vals c :
  wf df → length vals = len df → c ≠ name →
  numeric (set_column df name vals) c = numeric df c.
Proof. intros. unfold numeric. by rewrite column_set_column_ne. Qed.

Lemma len_set_column df name vals : length vals = len df → len (set_column df name vals) = len df.
Proof.
  intros Hlen. unfold set_column, len in *.
  case_match; cbn; rewrite length_zip_with; lia.
Qed.

Lemma wf_set_column df name vals : wf df → wf (set_column df name vals).
Proof.
  intros Hwf. unfold set_column, wf in *.
  destruct (col_index df name) as [i|e]; cbn.
  - revert vals. induction Hwf as [|r rs Hr _ IH]; intros [|v vals]; cbn; try constructor.
    + by rewrite length_insert.
    + apply IH.
  - revert vals. induction Hwf as [|r rs Hr _ IH]; intros [|v vals]; cbn; try constructor.
    + rewrite !length_app. cbn. lia.
    + apply IH.
Qed.

(** ** A table without rows *)
Lemma column_no_rows df c : rows df = [] → c ∈ columns df → column df c = Ok [].
Proof.
  intros Hr [i Hi]%col_index_elem. unfold column. rewrite Hi, Hr. done.
Qed.

Lemma numeric_no_rows df c : rows df = [] → c ∈ columns df → numeric df c = Ok [].
Proof. intros Hr Hc. unfold numeric. by rewrite column_no_rows. Qed.

(** ** The number order *)
Lemma num_ltb_irrefl x : num_ltb x x = false.
Proof.
  destruct x as [q| | |]; cbn; try done.
  apply bool_decide_eq_false_2. apply Qcle_not_lt, Qcle_refl.
Qed.

Lemma num_ltb_trans x y z : num_ltb x y = true → num_ltb y z = true → num_ltb x z = true.
Proof.
  destruct x as [a| | |], y as [b| | |], z as [c| | |]; cbn; try done.
  intros H1%bool_decide_eq_true_1 H2%bool_decide_eq_true_1.
  apply bool_decide_eq_true_2. by eapply Qclt_trans.
Qed.

(** Below or equal, then below: below. *)
Lemma num_le_lt_trans x y z :
  x ≠ NaN → y ≠ NaN → num_ltb y x = false → num_ltb y z = true → num_ltb x z = true.
Proof.
  destruct x as [a| | |], y as [b| | |], z as [c| | |]; cbn; try done.
  intros _ _ H1%bool_decide_eq_false_1 H2%bool_decide_eq_true_1.
  apply bool_decide_eq_true_2. apply Qcnot_lt_le in H1. by eapply Qcle_lt_trans.
Qed.

Lemma num_lt_asym x y : num_ltb x y = true → num_ltb y x = false.
Proof.
  destruct x as [a| | |], y as [b| | |]; cbn; try done.
  intros H1%bool_decide_eq_true_1. apply bool_decide_eq_false_2.
  apply Qcle_not_lt. by apply Qclt_le_weak.
Qed.

(** ** [idxmax] *)
Lemma is_first_max_snoc_nan pre i x :
  is_first_max pre i x → is_first_max (pre ++ [NaN]) i x.
Proof.
  intros (Hi & Hx & Hall). split; [|split; [done|]].
  - by apply lookup_app_l_Some.
  - intros j y Hj Hy. apply lookup_app_Some in Hj as [Hj|[_ Hj]]; [by apply Hall|].
    apply list_lookup_singleton_Some in Hj as [_ <-]. done.
Qed.

Lemma idxmax_from_spec (l pre : list num) (best : option (nat * num)) :
  best_of pre best → best_of (pre ++ l) (idxmax_from (length pre) best l).
Proof.
  revert pre best. induction l as [|x l IH]; intros pre best Hbest.
  - by rewrite app_nil_r.
  - cbn [idxmax_from].
    replace (pre ++ x :: l) with ((pre ++ [x]) ++ l) by (by rewrite <- app_assoc).
    replace (S (length pre)) with (length (pre ++ [x])) by (rewrite length_app; cbn; lia).
    apply IH. destruct (decide (x = NaN)) as [->|Hx].
    { destruct best as [[i b]|]; cbn in *.
      - by apply is_first_max_snoc_nan.
      - apply Forall_app. split; [done|]. by constructor. }
    assert (∀ o : option (nat * num),
              match x, o with
              | NaN, _ => o
              | _, None => Some (length pre, x)
              | _, Some (_, b) => if num_ltb b x then Some (length pre, x) else o
              end
              = match o with
                | None => Some (length pre, x)
                | Some (_, b) => if num_ltb b x then Some (length pre, x) else o
                end) as E by (intros o; by destruct x).
    rewrite E. clear E. destruct best as [[i b]|]; cbn in Hbest.
    + destruct Hbest as (Hi & Hb & Hall).
      destruct (num_ltb b x) eqn:Hbx; cbn.
      * split; [|split; [done|]].
        -- rewrite lookup_app_r by lia. by rewrite Nat.sub_diag.
        -- intros j y Hj Hy. apply lookup_app_Some in Hj as [Hj|[Hge Hj]].
           ++ destruct (Hall j y Hj Hy) as [Hle _].
              assert (num_ltb y x = true) as Hyx by (by apply (num_le_lt_trans y b x)).
              split; [by apply num_lt_asym|done].
           ++ apply list_lookup_singleton_Some in Hj as [Hj <-].
              split; [apply num_ltb_irrefl|]. lia.
      * split; [by apply lookup_app_l_Some|]. split; [done|].
        intros j y Hj Hy. apply lookup_app_Some in Hj as [Hj|[Hge Hj]]; [by apply Hall|].
        apply list_lookup_singleton_Some in Hj as [Hj <-]. split; [done|].
        apply lookup_lt_Some in Hi. lia.
    + cbn. split; [|split; [done|]].
      * rewrite lookup_app_r by lia. by rewrite Nat.sub_diag.
      * intros j y Hj Hy. apply lookup_app_Some in Hj as [Hj|[Hge Hj]].
        -- rewrite Forall_forall in Hbest. destruct Hy. apply Hbest.
           by eapply list_elem_of_lookup_2.
        -- apply list_lookup_singleton_Some in Hj as [Hj <-].
           split; [apply num_ltb_irrefl|]. lia.
Qed.

Lemma idxmax_Ok l i : idxmax l = Ok i → ∃ x, is_first_max l i x.
Proof.
  unfold idxmax. pose proof (idxmax_from_spec l [] None) as H. cbn in H.
  destruct (idxmax_from 0 None l) as [[j x]|]; [|done].
  intros [= <-]. exists x. apply H. constructor.
Qed.

Lemma idxmax_Raise l e : idxmax l = Raise e → e = ValueError ∧ Forall (λ y, y = NaN) l.
Proof.
  unfold idxmax. pose proof (idxmax_from_spec l [] None) as H. cbn in H.
  destruct (idxmax_from 0 None l) as [[j x]|]; [done|].
  intros [= <-]. split; [done|]. apply H. constructor.
Qed.

Lemma nansum_all_nan l : Forall (λ y, y = NaN) l → nansum l = Fin 0.
Proof.
  unfold nansum. generalize (Fin 0). intros a Hl. revert a.
  induction Hl as [|x l -> _ IH]; intros a; [done|].
  cbn. apply IH.
Qed.

(** ** The last three characters of a string *)
Lemma substring_all (m : nat) (s : string) :
  (String.length s ≤ m)%nat → String.substring 0 m s = s.
Proof.
  revert m. induction s as [|a s IH]; intros [|m] Hm; cbn in *; try done; try lia.
  f_equal. apply IH. lia.
Qed.

Lemma substring_suffix (n : nat) (s : string) :
  (n ≤ String.length s)%nat →
  ∃ p, s = p +:+ String.substring n (String.length s - n) s ∧ String.length p = n.
Proof.
  revert n. induction s as [|a s IH]; intros [|n] Hn; cbn in Hn; try lia.
  - by exists EmptyString.
  - exists EmptyString. split; [|done]. cbn [String.append]. symmetry. apply substring_all.
    cbn. lia.
  - destruct (IH n) as (p & Hp & Hlen); [lia|].
    exists (String a p). cbn. split; [|lia].
    change (String a s = String a (p +:+ substring n (String.length s - n) s)).
    by rewrite <- Hp.
Qed.

Lemma length_append (p t : string) :
  String.length (p +:+ t) = (String.length p + String.length t)%nat.
Proof.
  induction p as [|a p IH]; [done|].
  change (S (String.length (p +:+ t)) = S (String.length p + String.length t)).
  by rewrite IH.
Qed.

Lemma last3_suffix (s : string) :
  ∃ p, s = p +:+ last3 s ∧ String.length (last3 s) = Nat.min 3 (String.length s).
Proof.
  unfold last3. destruct (decide (String.length s ≤ 3)%nat) as [Hle|Hgt].
  - exists EmptyString. replace (String.length s - 3)%nat with 0%nat by lia.
    rewrite substring_all by done. split; [done|lia].
  - destruct (substring_suffix (String.length s - 3) s) as (p & Hp & Hlen); [lia|].
    replace (String.length s - (String.length s - 3))%nat with 3%nat in Hp by lia.
    exists p. split; [done|].
    apply (f_equal String.length) in Hp. rewrite length_append in Hp. lia.
Qed.

(** ** The size column *)
Lemma add_size_spec L df df' :
  add_size L df = Ok df' →
  ∃ skus, column df "SKU" = Ok skus ∧ df' = set_column df "Size" (size_of L <$> skus).
Proof.
  unfold add_size. intros (sku & Hsku & H)%bind_Ok.
  apply bind_Ok in H as (sku' & Hs & [= <-]).
  assert (sku' = sku) as ->.
  { unfold str_accessor in Hs. case_match; [done|]. by injection Hs. }
  by exists sku.
Qed.

(** X9: the report adds one column, 'Size': reading it back gives, row by
    row, the size of the row's SKU; every other column reads as before and
    the number of rows is unchanged.  The size of a SKU is what the size
    pattern extracts from it and, when the pattern does not match, its
    last three characters (the whole SKU when it is shorter); a cell that
    is not a string has no size. *)
Theorem size_column_round_trip (L : Library) (df df' : DataFrame) :
  wf df → add_size L df = Ok df' →
  ∃ skus,
    column df "SKU" = Ok skus ∧
    column df' "Size" = Ok (size_of L <$> skus) ∧
    (∀ c, c ≠ "Size" → column df' c = column df c) ∧
    len df' = len df ∧ wf df' ∧
    (∀ s, ∃ t, size_of L (VStr s) = VStr t ∧
               (∀ m, extract_size L s = Some m → t = m) ∧
               (extract_size L s = None →
                (∃ p, s = p +:+ t) ∧ String.length t = Nat.min 3 (String.length s))) ∧
    (∀ v, (∀ s, v ≠ VStr s) → size_of L v = VNum NaN).
Proof.
  intros Hwf (skus & Hsku & ->)%add_size_spec. exists skus.
  pose proof (length_column _ _ _ Hsku) as Hlen.
  assert (length (size_of L <$> skus) = len df) as Hlen' by (by rewrite length_fmap).
  split; [done|]. split; [by apply column_set_column_eq|].
  split; [intros c Hc; by apply column_set_column_ne|].
  split; [by apply len_set_column|]. split; [by apply wf_set_column|]. split.
  - intros s. cbn [size_of]. destruct (extract_size L s) as [m|] eqn:E; cbn [default].
    + exists m. split; [done|]. split; [by intros ? [= <-]|done].
    + exists (last3 s). split; [done|]. split; [done|]. intros _.
      destruct (last3_suffix s) as (p & Hp & Hl). split; [by exists p|done].
  - intros v Hv. destruct v as [x|s|t|]; try done. by destruct (Hv s).
Qed.

Lemma size_column_round_trip_witness :
  ∃ df', add_size plain sample_sales = Ok df' ∧
         column df' "Size" = Ok [VStr "32"; VStr "34"].
Proof.
  destruct (add_size plain sample_sales) as [df'|e] eqn:E; [|by vm_compute in E].
  exists df'. split; [done|].
  assert (wf sample_sales) as Hwf by (unfold wf; compute_done).
  destruct (size_column_round_trip plain sample_sales df' Hwf E) as (skus & Hs & Hc & _).
  vm_compute in Hs. injection Hs as <-. exact Hc.
Defined.

(** X10: a SKU column that holds numbers only, or dates only, has no [.str]
    accessor: the report raises [AttributeError] and writes no file. *)
Theorem numeric_sku_column_raises (L : Library) (df : DataFrame) (skus : list Py.value) :
  column df "SKU" = Ok skus → skus ≠ [] →
  Forall (λ v, is_number v = true) skus ∨ Forall (λ v, is_Some (date_key v)) skus →
  outcome (SalesReport.main L df) = Raise AttributeError ∧
  written (SalesReport.main L df) = [].
Proof.
  intros Hsku Hne Hall.
  assert (SalesReport.report L df = Raise AttributeError) as Hr.
  { unfold report, add_size. rewrite Hsku. cbn [mbind result_bind].
    assert (str_accessor skus = Raise AttributeError) as ->; [|done].
    unfold str_accessor. rewrite bool_decide_eq_true_2 by done. cbn [andb].
    destruct Hall as [Hn|Hd].
    - assert (forallb is_number skus = true) as ->; [|done].
      apply forallb_forall. intros v Hv%list_elem_of_In. rewrite Forall_forall in Hn. by apply Hn.
    - assert (forallb (λ v, bool_decide (is_Some (date_key v))) skus = true) as ->.
      + apply forallb_forall. intros v Hv%list_elem_of_In. apply bool_decide_eq_true_2.
        rewrite Forall_forall in Hd. by apply Hd.
      + by rewrite orb_true_r. }
  unfold SalesReport.main, outcome, written, mbind, run_bind, lift. by rewrite Hr.
Qed.

Lemma numeric_sku_column_raises_witness :
  outcome (SalesReport.main plain (Frame ["SKU"] [[int 1001]; [int 1002]]))
  = Raise AttributeError ∧
  written (SalesReport.main plain (Frame ["SKU"] [[int 1001]; [int 1002]])) = [].
Proof.
  apply (numeric_sku_column_raises plain (Frame ["SKU"] [[int 1001]; [int 1002]])
           [int 1001; int 1002]).
  - done.
  - done.
  - left. by repeat constructor.
Defined.

Lemma top_seller_spec (df : DataFrame) (units : string) (u : list num)
    (sizes : list Py.value) :
  numeric df units = Ok u → column df "Size" = Ok sizes →
  (num_gtb (nansum u) (of_int 0) = false → top_seller df units (nansum u) = Ok (VStr "N/A")) ∧
  (num_gtb (nansum u) (of_int 0) = true →
   ∃ i x size, is_first_max u i x ∧ sizes !! i = Some size ∧
               top_seller df units (nansum u) = Ok size).
Proof.
  intros Hu Hs. unfold top_seller. split; [by intros ->|]. intros Hpos. rewrite Hpos, Hu, Hs.
  cbn [mbind result_bind].
  destruct (idxmax u) as [i|e] eqn:Hi.
  - destruct (idxmax_Ok u i Hi) as [x Hx]. cbn [mbind result_bind].
    assert (i < length sizes)%nat as Hlt.
    { destruct Hx as (Hx & _). apply lookup_lt_Some in Hx.
      rewrite (length_column _ _ _ Hs). by rewrite (length_numeric _ _ _ Hu) in Hx. }
    destruct (lookup_lt_is_Some_2 sizes i Hlt) as [size Hsize].
    exists i, x, size. split; [done|]. split; [done|]. unfold iloc. by rewrite Hsize.
  - apply idxmax_Raise in Hi as [_ Hnan]. rewrite (nansum_all_nan u Hnan) in Hpos.
    by vm_compute in Hpos.
Qed.



Lemma report_no_rows (L : Library) (df : DataFrame) :
  rows df = [] →
  Forall (λ c, c ∈ columns df) (Scripts.expected Scripts.SalesAnalysisExcelReport) →
  "Product Name" ∈ columns df ∨ "Category" ∈ columns df ∨ "Color" ∈ columns df →
  outcome (SalesReport.main L df) = Raise IndexError ∧ written (SalesReport.main L df) = [].
Proof.
  intros Hrows Hcols Hlabel.
  assert (SalesReport.report L df = Raise IndexError) as Hr.
  { rewrite Forall_forall in Hcols.
    assert (∀ c, c ∈ Scripts.expected Scripts.SalesAnalysisExcelReport →
                 numeric (set_column df "Size" []) c = Ok []) as Hnum.
    { intros c Hc. apply numeric_no_rows.
      - unfold set_column. case_match; cbn; by rewrite Hrows.
      - apply elem_of_columns_set_column. right. by apply Hcols. }
    assert (∀ name fallback,
              first_or (set_column df "Size" []) name fallback
              = if bool_decide (name ∈ columns df ∨ name = "Size")
                then Raise IndexError else Ok (VStr fallback)) as Hfirst.
    { intros name fallback. unfold first_or, has_column.
      destruct (decide (name ∈ columns (set_column df "Size" []))) as [Hin|Hin].
      - rewrite bool_decide_eq_true_2 by done. rewrite column_no_rows; [|..|done].
        + cbn. rewrite bool_decide_eq_true_2; [done|].
          apply elem_of_columns_set_column in Hin. tauto.
        + unfold set_column. case_match; cbn; by rewrite Hrows.
      - rewrite bool_decide_eq_false_2 by done. rewrite bool_decide_eq_false_2; [done|].
        intros H. apply Hin, elem_of_columns_set_column. tauto. }
    unfold report, add_size. rewrite column_no_rows; [|done|apply Hcols; compute_done].
    cbn [mbind result_bind str_accessor bool_decide decide_rel andb fmap list_fmap].
    assert (str_accessor [] = Ok []) as -> by done. cbn [mbind result_bind fmap list_fmap].
    unfold key_metrics. rewrite !Hnum by compute_done. cbn [mbind result_bind].
    cbn [total_7d_units total_30d_units total_90d_units].
    assert (∀ units, top_seller (set_column df "Size" []) units (nansum []) = Ok (VStr "N/A"))
      as Htop by done.
    rewrite !Htop. cbn [mbind result_bind]. rewrite !Hfirst.
    destruct Hlabel as [H|[H|H]].
    - rewrite (bool_decide_eq_true_2 ("Product Name" ∈ columns df ∨ _)) by tauto. done.
    - rewrite (bool_decide_eq_true_2 ("Category" ∈ columns df ∨ _)) by tauto.
      by destruct (bool_decide ("Product Name" ∈ columns df ∨ _)).
    - rewrite (bool_decide_eq_true_2 ("Color" ∈ columns df ∨ _)) by tauto.
      by destruct (bool_decide ("Product Name" ∈ columns df ∨ _)),
           (bool_decide ("Category" ∈ columns df ∨ _)). }
  unfold SalesReport.main, outcome, written, mbind, run_bind, lift. by rewrite Hr.
Qed.


(** X12: on a table without rows that has one of the columns
    'Product Name', 'Category' and 'Color' (and the columns the report
    reads), the report raises [IndexError], at [.iloc[0]], and writes no
    file. *)
Theorem report_on_empty_table (L : Library) (df : DataFrame) :
  rows df = [] →
  Forall (λ c, c ∈ columns df) (Scripts.expected Scripts.SalesAnalysisExcelReport) →
  "Product Name" ∈ columns df ∨ "Category" ∈ columns df ∨ "Color" ∈ columns df →
  outcome (SalesReport.main L df) = Raise IndexError ∧ written (SalesReport.main L df) = [].
Proof. apply report_no_rows. Qed.

Lemma report_on_empty_table_witness :
  outcome (SalesReport.main plain (Frame sales_columns [])) = Raise IndexError ∧
  written (SalesReport.main plain (Frame sales_columns [])) = [].
Proof.
  apply (report_on_empty_table plain (Frame sales_columns [])).
  - done.
  - compute_done.
  - left. compute_done.
Defined.

End FrameFacts.

Module ReportFacts.
Import Pandas Openpyxl SalesReport Vocabulary Layout Notions ReportNotions.
Import PyFacts PandasFacts SheetFacts SortFacts PeriodFacts HelperFacts TableWriterFacts FrameFacts.

Lemma Ok_inj {A} (a b : A) : Ok a = Ok b → a = b.
Proof. by intros [= ->]. Qed.

(** ** Inversion of the script *)
Lemma key_metrics_inv df m :
  key_metrics df = Ok m →
  ∃ u7 s7 n7 u30 s30 n30 u90 s90 n90 p7 p30 p90,
    numeric df "7D Units" = Ok u7 ∧ numeric df "7D Sales" = Ok s7 ∧
    numeric df "7D Net Sales" = Ok n7 ∧
    numeric df "30D Units" = Ok u30 ∧ numeric df "30D Sales" = Ok s30 ∧
    numeric df "30D Net Sales" = Ok n30 ∧
    numeric df "90D Units" = Ok u90 ∧ numeric df "90D Sales" = Ok s90 ∧
    numeric df "90D Net Sales" = Ok n90 ∧
    numeric df "7D Avg Price" = Ok p7 ∧ numeric df "30D Avg Price" = Ok p30 ∧
    numeric df "90D Avg Price" = Ok p90 ∧
    m = {| total_7d_units := nansum u7; total_7d_sales := nansum s7;
           total_7d_net := nansum n7;
           total_30d_units := nansum u30; total_30d_sales := nansum s30;
           total_30d_net := nansum n30;
           total_90d_units := nansum u90; total_90d_sales := nansum s90;
           total_90d_net := nansum n90;
           avg_7d_price := mean p7; avg_30d_price := mean p30; avg_90d_price := mean p90 |}.
Proof.
  unfold key_metrics. intros H.
  apply bind_Ok in H as (u7 & E1 & H). apply bind_Ok in H as (s7 & E2 & H).
  apply bind_Ok in H as (n7 & E3 & H). apply bind_Ok in H as (u30 & E4 & H).
  apply bind_Ok in H as (s30 & E5 & H). apply bind_Ok in H as (n30 & E6 & H).
  apply bind_Ok in H as (u90 & E7 & H). apply bind_Ok in H as (s90 & E8 & H).
  apply bind_Ok in H as (n90 & E9 & H). apply bind_Ok in H as (p7 & E10 & H).
  apply bind_Ok in H as (p30 & E11 & H). apply bind_Ok in H as (p90 & E12 & H).
  injection H as <-. exists u7, s7, n7, u30, s30, n30, u90, s90, n90, p7, p30, p90.
  by repeat split.
Qed.

Lemma report_inv L df wb :
  report L df = Ok wb →
  ∃ df' m t7 t30 t90 category color,
    add_size L df = Ok df' ∧ key_metrics df' = Ok m ∧
    top_seller df' "7D Units" (total_7d_units m) = Ok t7 ∧
    top_seller df' "30D Units" (total_30d_units m) = Ok t30 ∧
    top_seller df' "90D Units" (total_90d_units m) = Ok t90 ∧
    ws_summary wb = summary_sheet L df' m t7 t30 t90 category color ∧
    sheet_7d L df' m = Ok (ws_7d wb) ∧ sheet_30d L df' m = Ok (ws_30d wb) ∧
    sheet_90d L df' m = Ok (ws_90d wb) ∧ comparison_sheet L df' m = Ok (ws_compare wb).
Proof.
  unfold report. intros H.
  apply bind_Ok in H as (df' & Hs & H). apply bind_Ok in H as (m & Hm & H).
  apply bind_Ok in H as (t7 & H7 & H). apply bind_Ok in H as (t30 & H30 & H).
  apply bind_Ok in H as (t90 & H90 & H). apply bind_Ok in H as (pn & _ & H).
  apply bind_Ok in H as (cat & _ & H). apply bind_Ok in H as (col & _ & H).
  apply bind_Ok in H as (s2 & H2 & H). apply bind_Ok in H as (s3 & H3 & H).
  apply bind_Ok in H as (s4 & H4 & H). apply bind_Ok in H as (s5 & H5 & H).
  injection H as <-. exists df', m, t7, t30, t90, cat, col. by repeat split.
Qed.

Lemma period_sheet_of L df wb tag ws :
  report L df = Ok wb → (tag, ws) ∈ period_sheets wb →
  ∃ df' sheet_name heading commentary,
    add_size L df = Ok df' ∧ tag ∈ ["7D"; "30D"; "90D"] ∧
    period_sheet L df' tag sheet_name heading commentary = Ok ws.
Proof.
  intros (df' & m & t7 & t30 & t90 & cat & col & Hs & _ & _ & _ & _ & _ & H7 & H30 & H90 & _)%report_inv.
  unfold period_sheets. rewrite !elem_of_cons.
  intros [[= -> ->]|[[= -> ->]|[[= -> ->]|Hn]]]; [| | |by apply elem_of_nil in Hn].
  - exists df'. eexists _, _, _. split; [done|]. split; [compute_done|exact H7].
  - exists df'. eexists _, _, _. split; [done|]. split; [compute_done|exact H30].
  - exists df'. eexists _, _, _. split; [done|]. split; [compute_done|exact H90].
Qed.

(** ** Writing one cell *)
Lemma cell_at_cell_value r c v ws r' c' :
  cell_at (cell_value r c v ws) r' c'
  = if decide ((r, c) = (r', c')) then put v (cell_at ws r c) else cell_at ws r' c'.
Proof.
  unfold cell_value, touch, put. destruct v; rewrite cell_at_update; by case_decide.
Qed.

Lemma furniture_cell_value r c v ws : furniture (cell_value r c v ws) = furniture ws.
Proof. unfold cell_value, touch. by destruct v. Qed.

Lemma value_put v c : value (put v c) = if decide (v = VNone) then value c else v.
Proof. by destruct v. Qed.

Lemma furniture_foldl {B} (f : Worksheet → B → Worksheet) (l : list B) ws :
  (∀ w x, furniture (f w x) = furniture w) → furniture (foldl f ws l) = furniture ws.
Proof.
  intros Hf. revert ws. induction l as [|x l IH]; intros ws; [done|].
  cbn. by rewrite IH, Hf.
Qed.

Lemma furniture_foldlM {B} (f : Worksheet → B → result Worksheet) (l : list B) ws ws' :
  (∀ w x w', f w x = Ok w' → furniture w' = furniture w) →
  foldlM f ws l = Ok ws' → furniture ws' = furniture ws.
Proof.
  intros Hf. apply (foldlM_inv (λ w, furniture w = furniture ws)); [|done].
  intros a x a' _ Ha Hx. by rewrite (Hf _ _ _ Hx).
Qed.

Lemma furniture_chart_cells top chart_row cols ws ws' :
  chart_cells top chart_row cols ws = Ok ws' → furniture ws' = furniture ws.
Proof.
  unfold chart_cells. apply furniture_foldlM. intros w ir w'.
  apply furniture_foldlM. intros w1 cn w2 (v & _ & [= <-])%bind_Ok.
  apply furniture_cell_value.
Qed.

(** ** The hidden chart data *)
Lemma chart_row_spec top (R : nat) (r : list Py.value) (cols : list (nat * string)) ws :
  Forall (λ cn : nat * string, cn.2 ∈ columns top) cols → NoDup cols.*1 →
  ∃ ws',
    foldlM (λ ws (cn : nat * string), v ← row_get top r cn.2; Ok (cell_value R cn.1 v ws))
      ws cols = Ok ws' ∧
    (∀ C name, (C, name) ∈ cols →
       cell_at ws' R C = put (row_value top r name) (cell_at ws R C)) ∧
    (∀ R' C, ¬ (R' = R ∧ C ∈ cols.*1) → cell_at ws' R' C = cell_at ws R' C).
Proof.
  intros Hcols. revert ws. induction Hcols as [|[C0 name0] cols Hin _ IH]; intros ws Hnd.
  - exists ws. split; [done|]. split; [|done]. intros C name Hn. by apply elem_of_nil in Hn.
  - cbn [fmap list_fmap fst] in Hnd. apply NoDup_cons in Hnd as [Hnot Hnd].
    cbn [foldlM fst snd]. cbn [snd] in Hin. apply col_index_elem in Hin as [i0 Hi0].
    assert (row_get top r name0 = Ok (cell r i0)) as Hrg by (unfold row_get; by rewrite Hi0).
    rewrite Hrg. cbn [mbind result_bind].
    destruct (IH (cell_value R C0 (cell r i0) ws) Hnd) as (ws' & Hws' & Hc & Hf).
    exists ws'. split; [done|]. split.
    + intros C name [[= -> ->]|Hin]%elem_of_cons.
      * rewrite Hf by (intros [_ ?]; done). rewrite cell_at_cell_value, decide_True by done.
        unfold row_value. by rewrite Hi0.
      * rewrite (Hc C name Hin). rewrite cell_at_cell_value, decide_False; [done|].
        intros [= ->]. apply Hnot. apply list_elem_of_fmap. by exists (C, name).
    + intros R' C HRC. rewrite Hf.
      * rewrite cell_at_cell_value, decide_False; [done|].
        intros [= <- <-]. apply HRC. split; [done|]. cbn. by left.
      * intros [-> HC]. apply HRC. split; [done|]. cbn. by right.
Qed.

Lemma chart_cells_spec top (chart_row : nat) (cols : list (nat * string)) ws :
  Forall (λ cn : nat * string, cn.2 ∈ columns top) cols → NoDup cols.*1 →
  ∃ ws',
    chart_cells top chart_row cols ws = Ok ws' ∧
    (∀ k r C name, rows top !! k = Some r → (C, name) ∈ cols →
       cell_at ws' (chart_row + k) C = put (row_value top r name) (cell_at ws (chart_row + k) C)) ∧
    (∀ R C, ¬ ((chart_row ≤ R < chart_row + len top)%nat ∧ C ∈ cols.*1) →
            cell_at ws' R C = cell_at ws R C).
Proof.
  intros Hcols Hnd. unfold chart_cells, len.
  assert (∀ (rs : list (list Py.value)) (s : nat) ws,
            ∃ ws',
              foldlM (λ ws (ir : nat * list Py.value),
                        foldlM (λ ws (cn : nat * string),
                                  v ← row_get top ir.2 cn.2;
                                  Ok (cell_value (chart_row + ir.1) cn.1 v ws))
                          ws cols)
                ws (enumerate s rs) = Ok ws' ∧
              (∀ k r C name, rs !! k = Some r → (C, name) ∈ cols →
                 cell_at ws' (chart_row + (s + k)) C
                 = put (row_value top r name) (cell_at ws (chart_row + (s + k)) C)) ∧
              (∀ R C, ¬ ((chart_row + s ≤ R < chart_row + s + length rs)%nat ∧ C ∈ cols.*1) →
                      cell_at ws' R C = cell_at ws R C)) as Hgen.
  { induction rs as [|r0 rs IH]; intros s w.
    - exists w. split; [done|]. by split.
    - rewrite enumerate_cons. cbn [foldlM fst snd].
      destruct (chart_row_spec top (chart_row + s) r0 cols w Hcols Hnd) as (w1 & H1 & Hc1 & Hf1).
      rewrite H1. cbn [mbind result_bind].
      destruct (IH (S s) w1) as (ws' & Hws' & Hc & Hf).
      exists ws'. split; [done|]. split.
      + intros [|k] r C name Hk Hin.
        * injection Hk as <-. rewrite Nat.add_0_r. rewrite Hf by (intros [? _]; lia).
          by apply Hc1.
        * replace (s + S k)%nat with (S s + k)%nat by lia. rewrite (Hc k r C name Hk Hin).
          rewrite Hf1; [done|]. intros [? _]. lia.
      + intros R C HRC. cbn [length] in HRC. rewrite Hf.
        * apply Hf1. intros [-> HC]. apply HRC. split; [lia|done].
        * intros [? HC]. apply HRC. split; [lia|done]. }
  destruct (Hgen (rows top) 0%nat ws) as (ws' & Hws' & Hc & Hf).
  exists ws'. split; [done|]. split.
  - intros k r C name Hk Hin. by apply (Hc k r C name).
  - intros R C HRC. apply Hf. rewrite Nat.add_0_r. done.
Qed.


(** ** A period sheet, piece by piece *)
Lemma col_index_head n d c : col_index (head n d) c = col_index d c.
Proof. done. Qed.

Lemma row_value_period rows0 (r : list Py.value) :
  row_value (Frame period_columns rows0) r "Size" = cell r 0 ∧
  row_value (Frame period_columns rows0) r "Units" = cell r 1 ∧
  row_value (Frame period_columns rows0) r "Gross Sales" = cell r 2 ∧
  row_value (Frame period_columns rows0) r "Net Sales" = cell r 3.
Proof. done. Qed.

Lemma value_background rows cols ws0 R C :
  value (cell_at (fill_background rows cols ws0) R C) = value (cell_at ws0 R C).
Proof.
  destruct (fill_background_spec rows cols ws0) as [-> _]. by case_decide.
Qed.

Lemma hide_columns_spec (cols : list nat) ws :
  let ws' := foldl (λ ws col, hide_column col ws) ws cols in
  (∀ R C, cell_at ws' R C = cell_at ws R C) ∧
  (∀ c, c ∈ column_hidden ws' ↔ c ∈ cols ∨ c ∈ column_hidden ws) ∧
  title ws' = title ws ∧ merged_cells ws' = merged_cells ws ∧
  row_height ws' = row_height ws ∧ column_width ws' = column_width ws ∧
  charts ws' = charts ws.
Proof.
  revert ws. induction cols as [|c cols IH]; intros ws ws'; subst ws'.
  - cbn. split; [done|]. split; [|done]. intros c. rewrite elem_of_nil. tauto.
  - cbn [foldl]. destruct (IH (hide_column c ws)) as (Hc & Hh & Ht & Hm & Hr & Hw & Hch).
    split; [intros R C; by rewrite Hc|]. split; [|by rewrite Ht, Hm, Hr, Hw, Hch].
    intros c'. rewrite Hh. cbn [column_hidden hide_column].
    rewrite elem_of_union, elem_of_singleton, elem_of_cons. tauto.
Qed.

(** The sheet a period sheet starts from. *)
Lemma start_sheet (sheet_name heading : string) (rows cols n : nat) :
  let ws0 := add_title heading 1 n (fill_background rows cols (new_sheet sheet_name)) in
  (∀ R C, (2 ≤ R)%nat → value (cell_at ws0 R C) = VNone) ∧
  merged_cells ws0 = [(1, 1, 1, n)%nat] ∧ column_hidden ws0 = ∅ ∧ charts ws0 = [].
Proof.
  intros ws0. subst ws0.
  destruct (add_title_spec heading 1 n (fill_background rows cols (new_sheet sheet_name)))
    as (_ & _ & Hf & Hm & _ & _ & Hh & Hc).
  destruct (fill_background_spec rows cols (new_sheet sheet_name)) as [_ Hfu].
  apply furniture_eq in Hfu as (_ & Hm0 & _ & _ & Hh0 & Hc0).
  split; [|split; [|split]].
  - intros R C HR. rewrite Hf by (intros [? ?] || intros [= ? ?]; lia). by rewrite value_background.
  - by rewrite Hm, Hm0.
  - by rewrite Hh, Hh0.
  - by rewrite Hc, Hc0.
Qed.

Lemma period_sheet_anatomy L df tag sheet_name heading commentary ws :
  tag ∈ ["7D"; "30D"; "90D"] →
  period_sheet L df tag sheet_name heading commentary = Ok ws →
  ∃ d text,
    period_frame df tag = Ok d ∧ columns d = period_columns ∧
    (∀ k r j, rows d !! k = Some r → (j < 5)%nat →
       value (cell_at ws (4 + k) (1 + j)) = shown (cell r j)) ∧
    (∀ k r j, rows d !! k = Some r → (k < 10)%nat → (j < 4)%nat →
       value (cell_at ws (3 + k) (9 + j)) = cell r j) ∧
    charts ws
    = [ (create_bar_chart "Units Sold by Size (Top 10)" "Units"
           (ref 10 3 (3 + Nat.min 10 (len d) - 1)) (ref 9 3 (3 + Nat.min 10 (len d) - 1)) 14 10,
         "A" +:+ pretty (len d + 6)%nat);
        (create_line_chart "Gross vs Net Sales by Size" "Sales ($)"
           [ref 11 3 (3 + Nat.min 10 (len d) - 1); ref 12 3 (3 + Nat.min 10 (len d) - 1)]
           (ref 9 3 (3 + Nat.min 10 (len d) - 1)) (Some ["Gross Sales"; "Net Sales"]) 14 10,
         "A" +:+ pretty (len d + 19)%nat) ] ∧
    (∀ c, c ∈ column_hidden ws ↔ c ∈ [9; 10; 11; 12]%nat) ∧
    merged_cells ws = [(1, 1, 1, 7)%nat; ((len d + 32)%nat, 1%nat, (len d + 33)%nat, 7%nat)] ∧
    value (cell_at ws (len d + 32) 1) = VStr text.
Proof.
  intros Htag H. unfold period_sheet in H.
  apply bind_Ok in H as (d & Hd & H).
  destruct (period_frame_spec df tag d Htag Hd) as (sorted & Hdeq & _ & _ & _).
  assert (columns d = period_columns) as Hcols by (by rewrite Hdeq).
  apply bind_Ok in H as ([w1 te] & Hwt & H).
  change ((w1, te).1) with w1 in H. change ((w1, te).2) with te in H.
  apply bind_Ok in H as (w2 & Hcc & H).
  apply bind_Ok in H as (best_size & _ & H). apply bind_Ok in H as (best_units & _ & H).
  apply Ok_inj in H. subst ws.
  set (ws0 := add_title heading 1 7 (fill_background 60 12 (new_sheet sheet_name))) in *.
  destruct (start_sheet sheet_name heading 60 12 7) as (Hv0 & Hm0 & Hh0 & Hc0).
  fold ws0 in Hv0, Hm0, Hh0, Hc0.
  (* the table *)
  destruct (write_data_table_spec ws0 d 3 (columns d)) as (w1' & Hw1' & _ & Htab & Hframe & Hfu1).
  { by apply Forall_forall. }
  assert (write_data_table ws0 d 3 None = Ok (w1', (3 + len d + 1)%nat)) as Hw1'' by exact Hw1'.
  rewrite Hw1'' in Hwt. injection Hwt as -> <-. clear Hw1' Hw1''.
  apply furniture_eq in Hfu1 as (_ & Hm1 & _ & _ & Hh1 & Hc1).
  (* the chart data *)
  destruct (chart_cells_spec (head 10 d) 3
              [(9, "Size"); (10, "Units"); (11, "Gross Sales"); (12, "Net Sales")]%nat w1)
    as (w2' & Hw2' & Hch & Hchf).
  { rewrite Hdeq. apply Forall_forall. intros cn Hcn. revert Hcn. cbn. rewrite !elem_of_cons.
    intros [-> | [-> | [-> | [-> | Hn]]]]; [compute_done..|by apply elem_of_nil in Hn]. }
  { compute_done. }
  rewrite Hw2' in Hcc. injection Hcc as ->.
  pose proof (furniture_chart_cells _ _ _ _ _ Hw2') as Hfu2.
  apply furniture_eq in Hfu2 as (_ & Hm2 & _ & _ & Hh2 & Hc2).
  set (text := commentary best_size best_units).
  exists d, text. split; [done|]. split; [done|].
  (* what the last steps leave *)
  match goal with
  | |- context [SalesReport.auto_fit_columns L 10 25 ?inner] => set (wfin := inner)
  end.
  destruct (auto_fit_columns_spec L 10 25 wfin) as (Hfit & _ & -> & _ & Hfh & -> & _).
  subst wfin.
  match goal with
  | |- context [add_commentary ?t ?r ?c ?w] =>
      destruct (add_commentary_spec t r c w) as (Hca & _ & Hcf & -> & _ & _ & Hchd & ->);
      set (wcom := add_commentary t r c w) in *
  end.
  match goal with
  | |- context [foldl (λ ws col, hide_column col ws) ?w ?l] =>
      destruct (hide_columns_spec l w) as (Hhc & Hhh & _ & -> & _ & _ & ->)
  end.
  cbn [charts merged_cells add_chart].
  assert (∀ R C, (R < len d + 32)%nat → cell_at wcom R C = cell_at w2 R C) as Hlast.
  { intros R C HR. rewrite Hcf by (intros [? ?] || intros [= ? ?]; lia).
    by rewrite Hhc. }
  split; [|split; [|split; [|split; [|split]]]].
  - intros k r j Hk Hj. rewrite Hfit, Hlast.
    2:{ apply lookup_lt_Some in Hk. unfold len. lia. }
    rewrite Hchf.
    2:{ intros [_ HC]. revert HC. cbn. rewrite !elem_of_cons.
        intros [? | [? | [? | [? | Hn]]]]; [lia..|by apply elem_of_nil in Hn]. }
    assert (j < length (columns d))%nat as Hjl by (rewrite Hcols; cbn; lia).
    destruct (lookup_lt_is_Some_2 _ _ Hjl) as [name Hname].
    assert (col_index d name = Ok j) as Hidx.
    { apply col_index_NoDup; [|done]. rewrite Hcols. compute_done. }
    pose proof (Htab k r j name j Hk Hname Hidx) as E.
    replace (3 + 1 + k)%nat with (4 + k)%nat in E by lia. rewrite E.
    apply value_write_data_cell.
  - intros k r j Hk Hk10 Hj. rewrite Hfit, Hlast.
    2:{ apply lookup_lt_Some in Hk. unfold len. lia. }
    assert (rows (head 10 d) !! k = Some r) as Hk'.
    { cbn. by rewrite lookup_take_lt. }
    assert (∃ name, [(9, "Size"); (10, "Units"); (11, "Gross Sales"); (12, "Net Sales")]%nat !! j
                    = Some ((9 + j)%nat, name) ∧ row_value (head 10 d) r name = cell r j)
      as (name & Hname & Hrv).
    { rewrite Hdeq. destruct j as [|[|[|[|j]]]]; [eexists; split; [done|done]..|lia]. }
    apply list_elem_of_lookup_2 in Hname.
    rewrite (Hch k r _ name Hk' Hname), Hrv, value_put.
    case_decide as Hn; [|done]. rewrite Hn.
    rewrite Hframe.
    2:{ intros [_ HC]. rewrite Hcols in HC. cbn in HC. lia. }
    apply Hv0. lia.
  - rewrite Hc2, Hc1, Hc0. cbn [app]. unfold len. cbn [head rows]. rewrite length_take.
    replace (S (S (S (length (rows d) + 1))) + 2)%nat with (length (rows d) + 6)%nat by lia.
    replace (S (S (S (length (rows d) + 1))) + 15)%nat with (length (rows d) + 19)%nat by lia.
    replace (Nat.min 10 (Nat.min 10 (length (rows d)))) with (Nat.min 10 (length (rows d))) by lia.
    done.
  - intros c. rewrite Hfh, Hchd, Hhh. cbn [column_hidden add_chart].
    rewrite Hh2, Hh1, Hh0. rewrite elem_of_empty. tauto.
  - rewrite Hm2, Hm1, Hm0. cbn [app].
    replace (S (S (S (len d + 1))) + 28)%nat with (len d + 32)%nat by lia.
    by replace (len d + 32 + 1)%nat with (len d + 33)%nat by lia.
  - rewrite Hfit. replace (len d + 32)%nat with (3 + len d + 1 + 28)%nat by lia.
    etransitivity; [exact (f_equal value Hca)|done].
Qed.


(** ** Tables sorted and cut *)
Lemma sort_values_desc_perm df key d :
  sort_values_desc df key = Ok d → columns d = columns df ∧ rows d ≡ₚ rows df.
Proof.
  unfold sort_values_desc. intros (keys & Hk & [= <-])%bind_Ok. split; [done|].
  cbn [rows]. rewrite merge_sort_Permutation. rewrite snd_zip; [done|].
  apply length_numeric in Hk. unfold len in Hk. lia.
Qed.

Lemma select_spec df names d :
  select df names = Ok d →
  Forall (λ c, c ∈ columns df) names ∧
  d = Frame names ((λ r, row_value df r <$> names) <$> rows df).
Proof.
  unfold select. intros (idx & Hidx & [= <-])%bind_Ok. apply mapM_Ok in Hidx. split.
  - apply Forall_forall. intros c [j Hj]%list_elem_of_lookup.
    destruct (Forall2_lookup_l _ _ _ _ _ Hidx Hj) as (i & _ & Hi).
    apply col_index_elem. by exists i.
  - f_equal. apply list_fmap_ext. intros _ r _.
    clear -Hidx. induction Hidx as [|c i names idx Hc _ IH]; [done|].
    cbn. f_equal; [|done]. unfold row_value. by rewrite Hc.
Qed.

Lemma period_frame_rows df tag d :
  period_frame df tag = Ok d →
  rows d ≡ₚ (λ r, row_value df r <$> period_source tag) <$> rows df.
Proof.
  unfold period_frame. intros (d1 & Hsel & H)%bind_Ok.
  apply bind_Ok in H as (d2 & Hsort & H).
  apply select_spec in Hsel as [_ ->]. apply sort_values_desc_perm in Hsort as [Hc Hp].
  unfold rename in H. case_decide; [|done]. injection H as <-. cbn [rows] in *. done.
Qed.

(** ** The charts and the hidden columns *)
Lemma chart_part_update r c f ws : chart_part (update r c f ws) = chart_part ws.
Proof. done. Qed.

Lemma chart_part_cell_value r c v ws : chart_part (cell_value r c v ws) = chart_part ws.
Proof. unfold cell_value, touch. by destruct v. Qed.

Lemma chart_part_foldl {B} (f : Worksheet → B → Worksheet) (l : list B) ws :
  (∀ w x, chart_part (f w x) = chart_part w) → chart_part (foldl f ws l) = chart_part ws.
Proof.
  intros Hf. revert ws. induction l as [|x l IH]; intros ws; [done|].
  cbn. by rewrite IH, Hf.
Qed.

Lemma chart_part_furniture ws ws' : furniture ws' = furniture ws → chart_part ws' = chart_part ws.
Proof. intros (_ & _ & _ & _ & Hh & Hc)%furniture_eq. unfold chart_part. by rewrite Hh, Hc. Qed.

Lemma chart_part_add_title text row cols ws :
  chart_part (add_title text row cols ws) = chart_part ws.
Proof.
  destruct (add_title_spec text row cols ws) as (_ & _ & _ & _ & _ & _ & Hh & Hc).
  unfold chart_part. by rewrite Hh, Hc.
Qed.

Lemma chart_part_add_subtitle text row cols ws :
  chart_part (add_subtitle text row cols ws) = chart_part ws.
Proof.
  destruct (add_subtitle_spec text row cols ws) as (_ & _ & _ & _ & _ & _ & Hh & Hc).
  unfold chart_part. by rewrite Hh, Hc.
Qed.

Lemma chart_part_add_commentary text row cols ws :
  chart_part (add_commentary text row cols ws) = chart_part ws.
Proof.
  destruct (add_commentary_spec text row cols ws) as (_ & _ & _ & _ & _ & _ & Hh & Hc).
  unfold chart_part. by rewrite Hh, Hc.
Qed.

Lemma chart_part_fill_background rows cols ws :
  chart_part (fill_background rows cols ws) = chart_part ws.
Proof. apply chart_part_furniture. by destruct (fill_background_spec rows cols ws). Qed.

Lemma chart_part_auto_fit L mn mx ws :
  chart_part (SalesReport.auto_fit_columns L mn mx ws) = chart_part ws.
Proof.
  destruct (auto_fit_columns_spec L mn mx ws) as (_ & _ & _ & _ & Hh & Hc & _).
  unfold chart_part. by rewrite Hh, Hc.
Qed.

Lemma chart_part_hide (cols : list nat) ws c :
  c ∈ (chart_part (foldl (λ ws col, hide_column col ws) ws cols)).1
  ↔ c ∈ cols ∨ c ∈ (chart_part ws).1.
Proof. destruct (hide_columns_spec cols ws) as (_ & Hh & _). apply Hh. Qed.

Lemma charts_hide (cols : list nat) ws :
  charts (foldl (λ ws col, hide_column col ws) ws cols) = charts ws.
Proof. by destruct (hide_columns_spec cols ws) as (_ & _ & _ & _ & _ & _ & ->). Qed.

(** A sheet whose two charts are [bar] and [line], in this order, and
    whose hidden columns are [cols]. *)
Lemma finished_sheet L text row n (cols : list nat) bar a1 line a2 ws :
  chart_part ws = (∅, []) →
  let ws' :=
    SalesReport.auto_fit_columns L 10 25
      (add_commentary text row n
         (foldl (λ ws col, hide_column col ws) (add_chart line a2 (add_chart bar a1 ws)) cols)) in
  charts ws' = [(bar, a1); (line, a2)] ∧ ∀ c, c ∈ column_hidden ws' ↔ c ∈ cols.
Proof.
  intros Hws ws'. subst ws'.
  match goal with
  | |- context [SalesReport.auto_fit_columns L 10 25 ?w] =>
      pose proof (chart_part_auto_fit L 10 25 w) as H1; set (w1 := w) in *
  end.
  pose proof (chart_part_add_commentary text row n
                (foldl (λ ws col, hide_column col ws) (add_chart line a2 (add_chart bar a1 ws)) cols))
    as H2.
  fold w1 in H2. rewrite H2 in H1. unfold chart_part in H1, Hws.
  injection H1 as Hh Hc. injection Hws as Hh0 Hc0. split.
  - rewrite Hc, charts_hide. cbn. by rewrite Hc0.
  - intros c. rewrite Hh.
    destruct (hide_columns_spec cols (add_chart line a2 (add_chart bar a1 ws))) as (_ & Hx & _).
    rewrite Hx. cbn. rewrite Hh0, elem_of_empty. tauto.
Qed.


Lemma charts_cell_value r c v ws : charts (cell_value r c v ws) = charts ws.
Proof. unfold cell_value, touch. by destruct v. Qed.

Lemma hidden_cell_value r c v ws : column_hidden (cell_value r c v ws) = column_hidden ws.
Proof. unfold cell_value, touch. by destruct v. Qed.

Lemma cell_at_foldl_frame {B} (f : Worksheet → B → Worksheet) (l : list B) ws R C :
  (∀ w x, cell_at (f w x) R C = cell_at w R C) → cell_at (foldl f ws l) R C = cell_at ws R C.
Proof.
  intros Hf. revert ws. induction l as [|x l IH]; intros ws; [done|].
  cbn. by rewrite IH, Hf.
Qed.

Lemma cell_at_add_chart ch a ws r c : cell_at (add_chart ch a ws) r c = cell_at ws r c.
Proof. done. Qed.

(** ** The comparison sheet, piece by piece *)
Lemma comparison_sheet_anatomy L df m ws :
  comparison_sheet L df m = Ok ws →
  ∃ sorted : list (num * list Py.value),
    Sorted keyed_before sorted ∧ length sorted = len df ∧
    Forall (λ p : num * list Py.value, cell p.2 5 = VNum p.1) sorted ∧
    sorted.*2 ≡ₚ (λ r, row_value df r <$> comparison_columns) <$> rows df ∧
    (∀ k r j, sorted.*2 !! k = Some r → (j < 7)%nat →
       value (cell_at ws (4 + k) (1 + j)) = shown (cell r j)) ∧
    chart_outline ws = [(BarChart, [11; 12; 13; 14]%nat); (LineChart, [11; 12]%nat)] ∧
    (∀ c, c ∈ column_hidden ws ↔ c ∈ [11; 12; 13; 14]%nat).
Proof.
  intros H. unfold comparison_sheet in H.
  apply bind_Ok in H as (d1 & Hsel & H). apply bind_Ok in H as (d & Hsort & H).
  apply select_spec in Hsel as [_ Hd1].
  pose proof (sort_values_desc_perm _ _ _ Hsort) as [_ Hperm].
  apply sort_values_desc_spec in Hsort as (i & sorted & Hi & Hcols & Hrows & Hs & Hlen & HF).
  assert (columns d = comparison_columns) as Hcd by (by rewrite Hcols, Hd1).
  assert (i = 5%nat) as ->.
  { rewrite Hd1 in Hi. vm_compute in Hi. by injection Hi. }
  apply bind_Ok in H as ([w1 te] & Hwt & H).
  change ((w1, te).1) with w1 in H. change ((w1, te).2) with te in H.
  apply bind_Ok in H as (w2 & Hcc & H).
  apply Ok_inj in H. subst ws.
  set (ws0 := add_title "PERIOD COMPARISON ANALYSIS" 1 10
                (fill_background 60 15 (new_sheet "Period Comparison"))) in *.
  destruct (start_sheet "Period Comparison" "PERIOD COMPARISON ANALYSIS" 60 15 10)
    as (Hv0 & Hm0 & Hh0 & Hc0).
  fold ws0 in Hv0, Hm0, Hh0, Hc0.
  destruct (write_data_table_spec ws0 d 3 (columns d)) as (w1' & Hw1' & _ & Htab & Hframe & Hfu1).
  { by apply Forall_forall. }
  assert (write_data_table ws0 d 3 None = Ok (w1', (3 + len d + 1)%nat)) as Hw1'' by exact Hw1'.
  rewrite Hw1'' in Hwt. injection Hwt as -> <-. clear Hw1' Hw1''.
  apply furniture_eq in Hfu1 as (_ & Hm1 & _ & _ & Hh1 & Hc1).
  destruct (chart_cells_spec (head 8 d) 3
              [(11, "Size"); (12, "7D Units"); (13, "30D Units"); (14, "90D Units")]%nat w1)
    as (w2' & Hw2' & Hch & Hchf).
  { change (columns (head 8 d)) with (columns d). rewrite Hcd.
    apply Forall_forall. intros cn Hcn. revert Hcn. rewrite !elem_of_cons.
    intros [-> | [-> | [-> | [-> | Hn]]]]; [compute_done..|by apply elem_of_nil in Hn]. }
  { compute_done. }
  rewrite Hw2' in Hcc. injection Hcc as ->.
  pose proof (furniture_chart_cells _ _ _ _ _ Hw2') as Hfu2.
  apply furniture_eq in Hfu2 as (_ & Hm2 & _ & _ & Hh2 & Hc2).
  exists sorted. split; [done|]. split; [rewrite Hlen, Hd1; unfold len; cbn [rows]; by rewrite length_fmap|].
  split; [done|]. split; [by rewrite <- Hrows, Hperm, Hd1|].
  match goal with
  | |- context [SalesReport.auto_fit_columns L 10 25 ?inner] => set (wfin := inner)
  end.
  destruct (auto_fit_columns_spec L 10 25 wfin) as (Hfit & _ & _ & _ & Hfh & Hfc & _).
  subst wfin.
  match goal with
  | |- context [add_commentary ?t ?r ?c ?w] =>
      destruct (add_commentary_spec t r c w) as (_ & _ & Hcf & _ & _ & _ & Hchd & Hchc)
  end.
  match goal with
  | |- context [foldl (λ ws col, hide_column col ws) ?w ?l] =>
      destruct (hide_columns_spec l w) as (Hhc & Hhh & _ & _ & _ & _ & Hhch)
  end.
  split; [|split].
  - intros k r j Hk Hj. rewrite Hfit.
    assert (k < len d)%nat as Hkl.
    { apply lookup_lt_Some in Hk. rewrite <- Hrows in Hk. done. }
    rewrite Hcf by (intros [? ?] || intros [= ? ?]; lia).
    rewrite Hhc.
    rewrite cell_at_add_chart.
    do 6 (rewrite cell_at_cell_value, decide_False by (intros [= ? ?]; lia)).
    rewrite cell_at_add_chart.
    rewrite Hchf.
    2:{ intros [_ HC]. revert HC. cbn. rewrite !elem_of_cons.
        intros [? | [? | [? | [? | Hn]]]]; [lia..|by apply elem_of_nil in Hn]. }
    assert (j < length (columns d))%nat as Hjl by (rewrite Hcd; cbn; lia).
    destruct (lookup_lt_is_Some_2 _ _ Hjl) as [name Hname].
    assert (col_index d name = Ok j) as Hidx.
    { apply col_index_NoDup; [|done]. rewrite Hcd. compute_done. }
    rewrite <- Hrows in Hk.
    pose proof (Htab k r j name j Hk Hname Hidx) as E.
    replace (3 + 1 + k)%nat with (4 + k)%nat in E by lia. rewrite E.
    apply value_write_data_cell.
  - unfold chart_outline. rewrite Hfc, Hchc, Hhch. cbn [charts add_chart].
    rewrite !charts_cell_value. cbn [charts add_chart]. rewrite Hc2, Hc1, Hc0. done.
  - intros c. rewrite Hfh, Hchd, Hhh. cbn [column_hidden add_chart].
    rewrite !hidden_cell_value. cbn [column_hidden add_chart].
    rewrite Hh2, Hh1, Hh0. rewrite elem_of_empty. tauto.
Qed.


(** ** A block of cells written row by row *)
Section grid.
Context (step : nat → nat → Py.value → Worksheet → Worksheet).
Context (F : nat → nat → Py.value → Cell → Cell).
Hypothesis Hstep : ∀ r c v ws r' c',
  cell_at (step r c v ws) r' c'
  = if decide ((r, c) = (r', c')) then F r c v (cell_at ws r c) else cell_at ws r' c'.

Lemma grid_row (r : nat) (vs : list Py.value) (c0 : nat) ws :
  let ws' := foldl (λ ws (cv : nat * Py.value), step r cv.1 cv.2 ws) ws (enumerate c0 vs) in
  (∀ j v, vs !! j = Some v →
     cell_at ws' r (c0 + j) = F r (c0 + j)%nat v (cell_at ws r (c0 + j))) ∧
  (∀ R C, ¬ (R = r ∧ (c0 ≤ C < c0 + length vs)%nat) → cell_at ws' R C = cell_at ws R C).
Proof.
  revert c0 ws. induction vs as [|v0 vs IH]; intros c0 ws ws'; subst ws'.
  - split; [done|]. intros R C _. done.
  - rewrite enumerate_cons. cbn [foldl fst snd].
    destruct (IH (S c0) (step r c0 v0 ws)) as [Hc Hf]. split.
    + intros [|j] v Hj.
      * injection Hj as <-. rewrite Nat.add_0_r. rewrite Hf by (intros [_ ?]; lia).
        rewrite Hstep. by rewrite decide_True.
      * replace (c0 + S j)%nat with (S c0 + j)%nat by lia. rewrite (Hc j v Hj).
        rewrite Hstep. rewrite decide_False; [done|]. intros [= ?]. lia.
    + intros R C HRC. cbn [length] in HRC. rewrite Hf by (intros [-> ?]; apply HRC; split; [done|lia]).
      rewrite Hstep. rewrite decide_False; [done|]. intros [= <- <-]. apply HRC. split; [done|lia].
Qed.

Lemma grid_spec (data : list (list Py.value)) (r0 c0 : nat) ws :
  let ws' :=
    foldl (λ ws (rd : nat * list Py.value),
             foldl (λ ws (cv : nat * Py.value), step rd.1 cv.1 cv.2 ws) ws (enumerate c0 rd.2))
      ws (enumerate r0 data) in
  (∀ k row j v, data !! k = Some row → row !! j = Some v →
     cell_at ws' (r0 + k) (c0 + j)
     = F (r0 + k)%nat (c0 + j)%nat v (cell_at ws (r0 + k) (c0 + j))) ∧
  (∀ R C, ¬ (r0 ≤ R < r0 + length data)%nat → cell_at ws' R C = cell_at ws R C).
Proof.
  revert r0 ws. induction data as [|row0 data IH]; intros r0 ws ws'; subst ws'.
  - split; [done|]. intros R C _. done.
  - rewrite enumerate_cons. cbn [foldl fst snd].
    destruct (grid_row r0 row0 c0 ws) as [Hrc Hrf].
    match goal with
    | |- context [foldl _ ?w (enumerate (S r0) data)] => destruct (IH (S r0) w) as [Hc Hf]
    end.
    split.
    + intros [|k] row j v Hk Hj.
      * injection Hk as <-. rewrite Nat.add_0_r. rewrite Hf by lia. by apply Hrc.
      * replace (r0 + S k)%nat with (S r0 + k)%nat by lia. rewrite (Hc k row j v Hk Hj).
        rewrite Hrf; [done|]. intros [? _]. lia.
    + intros R C HR. cbn [length] in HR. rewrite Hf by lia.
      apply Hrf. intros [-> _]. lia.
Qed.

End grid.

Lemma value_style_cell h a n f c : value (SalesReport.style_cell h a n f c) = value c.
Proof.
  unfold SalesReport.style_cell, Openpyxl.style_cell.
  destruct h, f as [f|]; repeat case_bool_decide; done.
Qed.

Lemma number_format_style_cell h a n f c :
  f ≠ EmptyString →
  Openpyxl.number_format (SalesReport.style_cell h a n (Some f) c) = f.
Proof.
  intros Hf. unfold SalesReport.style_cell, Openpyxl.style_cell.
  destruct h; rewrite bool_decide_true by done; done.
Qed.

(** ** The summary sheet, piece by piece *)
Lemma summary_sheet_anatomy L df m t7 t30 t90 category color :
  let ws := summary_sheet L df m t7 t30 t90 category color in
  (∀ k row j v, metrics_rows m t7 t30 t90 !! k = Some row → row !! j = Some v →
     value (cell_at ws (8 + k) (1 + j)) = v ∧
     ∀ f, metrics_format (1 + j) = Some f →
          Openpyxl.number_format (cell_at ws (8 + k) (1 + j)) = f) ∧
  (∀ k row j v, metrics_rows m t7 t30 t90 !! k = Some row → row !! j = Some v → (j < 4)%nat →
     value (cell_at ws (15 + k) (10 + j)) = v) ∧
  chart_outline ws = [(BarChart, [10; 11]%nat); (LineChart, [10; 12; 13]%nat)] ∧
  (∀ c, c ∈ column_hidden ws ↔ c ∈ [10; 11; 12; 13]%nat).
Proof.
  intros ws. subst ws. unfold summary_sheet.
  set (w1 := fill_background 55 12 (new_sheet "Summary")).
  set (w2 := add_title "SALES ANALYSIS SUMMARY" 1 8 w1).
  set (w4 := update 2 1 _ (cell_value 2 1 _ w2)).
  set (w5 := add_subtitle _ 4 8 w4).
  set (w6 := update 6 1 _ (cell_value 6 1 _ w5)).
  set (w7 := foldl _ w6 (enumerate 1 _)).
  set (w8 := foldl _ w7 (enumerate (6 + 2) _)).
  set (w9 := foldl _ w8 (enumerate 0 _)).
  (* the cells of the table before it is written *)
  assert (∀ R C, (8 ≤ R)%nat → value (cell_at w7 R C) = VNone) as Hv7.
  { intros R C HR. subst w7. rewrite cell_at_foldl_frame.
    2:{ intros w [c h]. cbn [fst snd]. rewrite cell_at_update_ne by (intros [= ? ?]; lia).
        rewrite cell_at_cell_value, decide_False; [done|]. intros [= ? ?]. lia. }
    subst w6. rewrite cell_at_update_ne by (intros [= ? ?]; lia).
    rewrite cell_at_cell_value, decide_False by (intros [= ? ?]; lia).
    subst w5.
    destruct (add_subtitle_spec (py_str L category +:+ " - " +:+ py_str L color) 4 8 w4)
      as (_ & _ & Hf5 & _).
    rewrite Hf5 by (intros [? ?] || intros [= ? ?]; lia).
    subst w4. rewrite cell_at_update_ne by (intros [= ? ?]; lia).
    rewrite cell_at_cell_value, decide_False by (intros [= ? ?]; lia).
    subst w2.
    destruct (add_title_spec "SALES ANALYSIS SUMMARY" 1 8 w1)
      as (_ & _ & Hf2 & _).
    rewrite Hf2 by (intros [? ?] || intros [= ? ?]; lia).
    subst w1. by rewrite value_background. }
  assert (chart_part w9 = (∅, [])) as Hcp.
  { subst w9. rewrite chart_part_foldl.
    2:{ intros w [i [[[p u] sl] n]]. cbn [fst snd]. by rewrite !chart_part_cell_value. }
    subst w8. rewrite chart_part_foldl.
    2:{ intros w rd. apply chart_part_foldl. intros w' cv.
        by rewrite chart_part_update, chart_part_cell_value. }
    subst w7. rewrite chart_part_foldl.
    2:{ intros w ch. by rewrite chart_part_update, chart_part_cell_value. }
    subst w6. rewrite chart_part_update, chart_part_cell_value.
    subst w5. rewrite chart_part_add_subtitle.
    subst w4. rewrite chart_part_update, chart_part_cell_value.
    subst w2. rewrite chart_part_add_title.
    subst w1. by rewrite chart_part_fill_background. }
  assert (column_hidden w9 = ∅) as Hh9 by exact (f_equal fst Hcp).
  assert (charts w9 = []) as Hc9 by exact (f_equal snd Hcp).
  clear Hcp.
  (* the table *)
  pose (step := λ (r c : nat) (v : Py.value) (ws : Worksheet),
          update r c (SalesReport.style_cell false (Nat.even r)
                        (bool_decide (c ∈ [2; 3; 4; 5]%nat)) (metrics_format c))
            (cell_value r c v ws)).
  pose (F := λ (r c : nat) (v : Py.value) (cl : Cell),
          SalesReport.style_cell false (Nat.even r)
            (bool_decide (c ∈ [2; 3; 4; 5]%nat)) (metrics_format c) (put v cl)).
  assert (∀ r c v ws r' c',
            cell_at (step r c v ws) r' c'
            = if decide ((r, c) = (r', c')) then F r c v (cell_at ws r c) else cell_at ws r' c')
    as Hstep.
  { intros r c v w r' c'. unfold step, F. rewrite cell_at_update.
    case_decide as E.
    - injection E as <- <-. by rewrite cell_at_cell_value, decide_True.
    - by rewrite cell_at_cell_value, decide_False. }
  destruct (grid_spec step F Hstep (metrics_rows m t7 t30 t90) 8 1 w7) as [Hg _].
  assert (foldl
            (λ ws (rd : nat * list Py.value),
               foldl (λ ws (cv : nat * Py.value), step rd.1 cv.1 cv.2 ws) ws (enumerate 1 rd.2))
            w7 (enumerate 8 (metrics_rows m t7 t30 t90)) = w8) as Ew8 by reflexivity.
  rewrite Ew8 in Hg. clear Ew8. clearbody w8 w7. clear Hstep.
  assert (∀ R C, (R ≤ 14)%nat → cell_at w9 R C = cell_at w8 R C) as H9.
  { intros R C HR. subst w9. apply cell_at_foldl_frame.
    intros w [i [[[p u] sl] n]]. cbn [fst snd].
    by do 4 (rewrite cell_at_cell_value, decide_False by (intros [= ? ?]; lia)). }
  assert (∀ k row j v, metrics_rows m t7 t30 t90 !! k = Some row → row !! j = Some v →
                       (j < 4)%nat → value (cell_at w9 (15 + k) (10 + j)) = v) as H9d.
  { intros k row j v Hk Hj Hj4. subst w9.
    cbn [foldl enumerate zip_with seq length fst snd].
    destruct k as [|[|[|k]]]; [| | |done]; injection Hk as <-;
      (destruct j as [|[|[|[|j]]]]; [| | | |lia]); injection Hj as <-;
      repeat (rewrite cell_at_cell_value;
              first [rewrite decide_False by (intros [= ? ?]; lia) | rewrite decide_True by done]);
      done. }
  clearbody w9.
  match goal with
  | |- context [SalesReport.auto_fit_columns L 10 25 ?inner] => set (wfin := inner)
  end.
  destruct (auto_fit_columns_spec L 10 25 wfin) as (Hfit & _ & _ & _ & Hfh & Hfc & _).
  subst wfin.
  match goal with
  | |- context [add_commentary ?t ?r ?c ?w] =>
      destruct (add_commentary_spec t r c w) as (_ & _ & Hcf & _ & _ & _ & Hchd & Hchc)
  end.
  match goal with
  | |- context [foldl (λ ws col, hide_column col ws) ?w ?l] =>
      destruct (hide_columns_spec l w) as (Hhc & Hhh & _ & _ & _ & _ & Hhch)
  end.
  split; [|split; [|split]].
  - intros k row j v Hk Hj.
    assert (k < 3)%nat as Hk3 by (apply lookup_lt_Some in Hk; cbn in Hk; lia).
    rewrite Hfit. rewrite Hcf by (intros [? ?] || intros [= ? ?]; lia).
    rewrite Hhc, !cell_at_add_chart.
    rewrite H9 by lia. rewrite (Hg k row j v Hk Hj). subst F. cbv beta. split.
    + rewrite value_style_cell, value_put. case_decide as Hn; [|done].
      rewrite Hn. apply Hv7. lia.
    + intros f Hf. rewrite Hf. apply number_format_style_cell.
      unfold metrics_format in Hf.
      destruct (bool_decide (_ ∈ [3; 4; 5]%nat)); [by injection Hf as <-|].
      destruct (bool_decide (_ = 2%nat)); [by injection Hf as <-|done].
  - intros k row j v Hk Hj Hj4.
    assert (k < 3)%nat as Hk3 by (apply lookup_lt_Some in Hk; cbn in Hk; lia).
    rewrite Hfit. rewrite Hcf by (intros [? ?] || intros [= ? ?]; lia).
    rewrite Hhc, !cell_at_add_chart.
    by apply (H9d k row j v).
  - unfold chart_outline. rewrite Hfc, Hchc, Hhch. cbn [charts add_chart]. by rewrite Hc9.
  - intros c. rewrite Hfh, Hchd, Hhh. cbn [column_hidden add_chart].
    rewrite Hh9, elem_of_empty. tauto.
Qed.


(** ** The sheets of the workbook *)
Lemma sample_report_ok : is_ok (report plain sample_sales) = true.
Proof. by vm_compute. Qed.

Lemma sheet_rows_of ws (rs : list (list Py.value)) (start n : nat) :
  Forall (λ r, length r = n) rs →
  (∀ k r j, rs !! k = Some r → (j < n)%nat →
     value (cell_at ws (start + k) (1 + j)) = shown (cell r j)) →
  sheet_rows ws start (length rs) n = (λ r : list Py.value, shown <$> r) <$> rs.
Proof.
  intros Hlen Hcells. unfold sheet_rows. apply list_eq. intros k.
  rewrite !list_lookup_fmap. destruct (rs !! k) as [r|] eqn:Hk.
  - rewrite lookup_seq_lt by (by eapply lookup_lt_Some).
    change (Some (sheet_row ws n (start + k)) = Some (shown <$> r)). f_equal.
    unfold sheet_row. rewrite Forall_forall in Hlen.
    assert (length r = n) as Hr by (apply Hlen; by eapply list_elem_of_lookup_2).
    apply list_eq. intros j. rewrite !list_lookup_fmap.
    destruct (decide (j < n)%nat) as [Hj|Hj].
    + rewrite lookup_seq_lt by done.
      change (Some (value (cell_at ws (start + k) (1 + j))) = shown <$> r !! j).
      rewrite (Hcells k r j Hk Hj).
      unfold cell. destruct (r !! j) as [v|] eqn:Hv; [done|].
      apply lookup_ge_None in Hv. lia.
    + rewrite lookup_seq_ge by lia. rewrite lookup_ge_None_2 by lia. done.
  - rewrite lookup_seq_ge by (by apply lookup_ge_None). done.
Qed.

Lemma outline_hidden ws (o : list (chart_kind * list nat)) :
  chart_outline ws = o → (∀ c, c ∈ mjoin o.*2 → c ∈ column_hidden ws) →
  kind_of_chart <$> (charts ws).*1 = o.*1 ∧
  ∀ ch r, ch ∈ (charts ws).*1 → r ∈ chart_refs ch → min_col r ∈ column_hidden ws.
Proof.
  intros <- Hh. unfold chart_outline. split.
  - rewrite <- !list_fmap_compose. done.
  - intros ch r [[ch' a] [-> Hin]]%list_elem_of_fmap Hr. apply Hh.
    apply list_elem_of_join. exists (min_col <$> chart_refs ch'). split.
    + apply list_elem_of_fmap. by exists r.
    + unfold chart_outline. rewrite <- list_fmap_compose. apply list_elem_of_fmap.
      by exists (ch', a).
Qed.

Lemma period_outline L df tag sheet_name heading commentary ws :
  tag ∈ ["7D"; "30D"; "90D"] →
  period_sheet L df tag sheet_name heading commentary = Ok ws →
  chart_outline ws = [(BarChart, [9; 10]%nat); (LineChart, [9; 11; 12]%nat)].
Proof.
  intros Htag H.
  destruct (period_sheet_anatomy _ _ _ _ _ _ _ Htag H) as (d & text & _ & _ & _ & _ & Hc & _).
  unfold chart_outline. by rewrite Hc.
Qed.

Lemma period_len df tag d : period_frame df tag = Ok d → len d = len df.
Proof.
  intros Hp%period_frame_rows. unfold len. rewrite Hp. by rewrite length_fmap.
Qed.

(** X13: the table of a period sheet holds the rows of the input table, each
    cut down to the five columns of the period and with an empty string
    for a missing value, in some order: no row is lost, repeated or
    changed. *)
Theorem period_sheet_rows (L : Library) (df : DataFrame) (wb : Workbook)
    (tag : string) (ws : Worksheet) :
  report L df = Ok wb → (tag, ws) ∈ period_sheets wb →
  ∃ df', add_size L df = Ok df' ∧
    sheet_rows ws 4 (len df) 5
    ≡ₚ (λ r, (λ c, shown (row_value df' r c)) <$> period_source tag) <$> rows df'.
Proof.
  intros Hr Hin.
  destruct (period_sheet_of _ _ _ _ _ Hr Hin) as (df' & sn & hd & cm & Hs & Htag & Hws).
  exists df'. split; [done|].
  destruct (period_sheet_anatomy _ _ _ _ _ _ _ Htag Hws) as (d & text & Hd & _ & Hcells & _).
  pose proof (period_frame_rows _ _ _ Hd) as Hperm.
  assert (len df = length (rows d)) as ->.
  { rewrite <- (len_add_size _ _ _ Hs). symmetry. by apply (period_len df' tag). }
  rewrite (sheet_rows_of ws (rows d) 4 5).
  - rewrite Hperm. rewrite <- list_fmap_compose. apply reflexive_eq.
    apply list_fmap_ext. intros _ r _. unfold compose. by rewrite <- list_fmap_compose.
  - apply Forall_forall. intros r Hrin. rewrite Hperm in Hrin.
    apply list_elem_of_fmap in Hrin as (r0 & -> & _). by rewrite length_fmap.
  - intros k r j Hk Hj. by apply Hcells.
Qed.

Lemma period_sheet_rows_witness :
  ∃ wb, report plain sample_sales = Ok wb ∧
    ∃ df', add_size plain sample_sales = Ok df' ∧
      sheet_rows (ws_7d wb) 4 (len sample_sales) 5
      ≡ₚ (λ r, (λ c, shown (row_value df' r c)) <$> period_source "7D") <$> rows df'.
Proof.
  destruct (is_ok_Ok (report plain sample_sales) sample_report_ok) as [wb E].
  exists wb. split; [exact E|].
  apply (period_sheet_rows plain sample_sales wb "7D" (ws_7d wb) E).
  apply elem_of_cons. by left.
Defined.

(** X14: the table of the comparison sheet holds the rows of the input
    table, each cut down to the seven columns compared, in some order; and
    down its sixth column, '90D Units', the figures do not increase, with
    the empty cells of the rows without a figure last. *)
Theorem comparison_sheet_table (L : Library) (df : DataFrame) (wb : Workbook) :
  report L df = Ok wb →
  (∃ df', add_size L df = Ok df' ∧
     sheet_rows (ws_compare wb) 4 (len df) 7
     ≡ₚ (λ r, (λ c, shown (row_value df' r c)) <$> comparison_columns) <$> rows df') ∧
  ∀ i, (S i < len df)%nat →
       in_order (value (cell_at (ws_compare wb) (4 + i) 6))
                (value (cell_at (ws_compare wb) (5 + i) 6)).
Proof.
  intros Hr.
  destruct (report_inv _ _ _ Hr) as (df' & m & _ & _ & _ & _ & _ & Hs & _ & _ & _ & _ & _ & _ & _ & _ & Hc).
  destruct (comparison_sheet_anatomy _ _ _ _ Hc)
    as (sorted & Hsorted & Hlen & HF & Hperm & Hcells & _).
  rewrite (len_add_size _ _ _ Hs) in Hlen. split.
  - exists df'. split; [done|].
    assert (len df = length sorted.*2) as -> by (by rewrite length_fmap).
    rewrite (sheet_rows_of (ws_compare wb) sorted.*2 4 7).
    + rewrite Hperm. rewrite <- list_fmap_compose. apply reflexive_eq.
      apply list_fmap_ext. intros _ r _. unfold compose. by rewrite <- list_fmap_compose.
    + apply Forall_forall. intros r Hrin. rewrite Hperm in Hrin.
      apply list_elem_of_fmap in Hrin as (r0 & -> & _). by rewrite length_fmap.
    + intros k r j Hk Hj. by apply Hcells.
  - intros i Hi.
    destruct (lookup_lt_is_Some_2 sorted i) as [p Hp]; [lia|].
    destruct (lookup_lt_is_Some_2 sorted (S i)) as [q Hq]; [lia|].
    rewrite Forall_forall in HF.
    assert (value (cell_at (ws_compare wb) (4 + i) 6) = shown (cell p.2 5)) as ->.
    { apply (Hcells i p.2 5%nat); [by rewrite list_lookup_fmap, Hp|lia]. }
    assert (value (cell_at (ws_compare wb) (5 + i) 6) = shown (cell q.2 5)) as ->.
    { apply (Hcells (S i) q.2 5%nat); [by rewrite list_lookup_fmap, Hq|lia]. }
    rewrite (HF p) by (by eapply list_elem_of_lookup_2).
    rewrite (HF q) by (by eapply list_elem_of_lookup_2).
    apply shown_in_order. exact (Sorted_adjacent _ _ _ _ _ Hsorted Hp Hq).
Qed.

Lemma comparison_sheet_table_witness :
  ∃ wb, report plain sample_sales = Ok wb ∧
    (∃ df', add_size plain sample_sales = Ok df' ∧
       sheet_rows (ws_compare wb) 4 (len sample_sales) 7
       ≡ₚ (λ r, (λ c, shown (row_value df' r c)) <$> comparison_columns) <$> rows df') ∧
    ∀ i, (S i < len sample_sales)%nat →
         in_order (value (cell_at (ws_compare wb) (4 + i) 6))
                  (value (cell_at (ws_compare wb) (5 + i) 6)).
Proof.
  destruct (is_ok_Ok (report plain sample_sales) sample_report_ok) as [wb E].
  exists wb. split; [exact E|].
  exact (comparison_sheet_table plain sample_sales wb E).
Defined.

(** X15: the two charts of a period sheet read rows 3 to
    [3 + min(10, n) - 1] of the hidden columns I to L, where [n] is the
    number of rows of the input table, and these cells repeat the first
    ten rows of the first four columns of the table of the sheet (a
    missing value is left as it is there, and shown as an empty string in
    the table). *)
Theorem period_sheet_chart_data (L : Library) (df : DataFrame) (wb : Workbook)
    (tag : string) (ws : Worksheet) :
  report L df = Ok wb → (tag, ws) ∈ period_sheets wb →
  (∀ ch r, ch ∈ (charts ws).*1 → r ∈ chart_refs ch →
     min_col r ∈ [9; 10; 11; 12]%nat ∧ min_row r = 3%nat ∧
     max_row_ref r = (3 + Nat.min 10 (len df) - 1)%nat) ∧
  (∀ k j, (k < Nat.min 10 (len df))%nat → (j < 4)%nat →
     shown (value (cell_at ws (3 + k) (9 + j))) = value (cell_at ws (4 + k) (1 + j))).
Proof.
  intros Hr Hin.
  destruct (period_sheet_of _ _ _ _ _ Hr Hin) as (df' & sn & hd & cm & Hs & Htag & Hws).
  destruct (period_sheet_anatomy _ _ _ _ _ _ _ Htag Hws)
    as (d & text & Hd & _ & Hcells & Hdata & Hc & _).
  assert (len d = len df) as Hlen.
  { rewrite <- (len_add_size _ _ _ Hs). by apply (period_len df' tag). }
  rewrite Hlen in Hc. split.
  - intros ch r Hch Hrf. rewrite Hc in Hch. cbn in Hch.
    rewrite !elem_of_cons in Hch. destruct Hch as [->|[->|Hn]]; [| |by apply elem_of_nil in Hn].
    + cbn in Hrf. rewrite !elem_of_cons in Hrf.
      destruct Hrf as [->|[->|Hn]]; [| |by apply elem_of_nil in Hn];
        (split; [compute_done|by split]).
    + cbn in Hrf. rewrite !elem_of_cons in Hrf.
      destruct Hrf as [->|[->|[->|Hn]]]; [| | |by apply elem_of_nil in Hn];
        (split; [compute_done|by split]).
  - intros k j Hk Hj.
    destruct (lookup_lt_is_Some_2 (rows d) k) as [r Hrk]; [unfold len in *; lia|].
    rewrite (Hdata k r j Hrk) by lia. rewrite (Hcells k r j Hrk) by lia. done.
Qed.

Lemma period_sheet_chart_data_witness :
  ∃ wb, report plain sample_sales = Ok wb ∧
    (∀ ch r, ch ∈ (charts (ws_30d wb)).*1 → r ∈ chart_refs ch →
       min_col r ∈ [9; 10; 11; 12]%nat ∧ min_row r = 3%nat ∧
       max_row_ref r = (3 + Nat.min 10 (len sample_sales) - 1)%nat) ∧
    (∀ k j, (k < Nat.min 10 (len sample_sales))%nat → (j < 4)%nat →
       shown (value (cell_at (ws_30d wb) (3 + k) (9 + j)))
       = value (cell_at (ws_30d wb) (4 + k) (1 + j))).
Proof.
  destruct (is_ok_Ok (report plain sample_sales) sample_report_ok) as [wb E].
  exists wb. split; [exact E|].
  apply (period_sheet_chart_data plain sample_sales wb "30D" (ws_30d wb) E).
  apply elem_of_cons. right. apply elem_of_cons. by left.
Defined.

(** X16: on a period sheet the place of everything under the table follows
    the number [n] of rows of the input table: the bar chart is anchored
    at A(n+6), the line chart at A(n+19), and the commentary is a text in
    the first cell of rows n+32 and n+33, merged over columns A to G; the
    only other merged range is the title's. *)
Theorem period_sheet_layout (L : Library) (df : DataFrame) (wb : Workbook)
    (tag : string) (ws : Worksheet) :
  report L df = Ok wb → (tag, ws) ∈ period_sheets wb →
  (charts ws).*2 = ["A" +:+ pretty (len df + 6)%nat; "A" +:+ pretty (len df + 19)%nat] ∧
  merged_cells ws = [(1, 1, 1, 7)%nat; ((len df + 32)%nat, 1%nat, (len df + 33)%nat, 7%nat)] ∧
  ∃ text, value (cell_at ws (len df + 32) 1) = VStr text.
Proof.
  intros Hr Hin.
  destruct (period_sheet_of _ _ _ _ _ Hr Hin) as (df' & sn & hd & cm & Hs & Htag & Hws).
  destruct (period_sheet_anatomy _ _ _ _ _ _ _ Htag Hws)
    as (d & text & Hd & _ & _ & _ & Hc & _ & Hm & Ht).
  assert (len d = len df) as Hlen.
  { rewrite <- (len_add_size _ _ _ Hs). by apply (period_len df' tag). }
  rewrite Hlen in Hc, Hm, Ht. split; [by rewrite Hc|]. split; [done|]. by exists text.
Qed.

Lemma period_sheet_layout_witness :
  ∃ wb, report plain sample_sales = Ok wb ∧
    (charts (ws_90d wb)).*2 = ["A8"; "A21"] ∧
    merged_cells (ws_90d wb) = [(1, 1, 1, 7)%nat; (34, 1, 35, 7)%nat] ∧
    ∃ text, value (cell_at (ws_90d wb) 34 1) = VStr text.
Proof.
  destruct (is_ok_Ok (report plain sample_sales) sample_report_ok) as [wb E].
  exists wb. split; [exact E|].
  apply (period_sheet_layout plain sample_sales wb "90D" (ws_90d wb) E).
  apply elem_of_cons. right. apply elem_of_cons. right. apply elem_of_cons. by left.
Defined.

(** X17: every sheet of the workbook carries exactly two charts, a bar chart
    and then a line chart, and every reference of a chart, for its
    categories or for its data, reads a column that the sheet hides. *)
Theorem charts_read_hidden_columns (L : Library) (df : DataFrame) (wb : Workbook)
    (ws : Worksheet) :
  report L df = Ok wb → ws ∈ sheets wb →
  kind_of_chart <$> (charts ws).*1 = [BarChart; LineChart] ∧
  ∀ ch r, ch ∈ (charts ws).*1 → r ∈ chart_refs ch → min_col r ∈ column_hidden ws.
Proof.
  intros Hr Hin.
  assert (∀ tag sn hd cm df', tag ∈ ["7D"; "30D"; "90D"] →
            period_sheet L df' tag sn hd cm = Ok ws →
            kind_of_chart <$> (charts ws).*1 = [BarChart; LineChart] ∧
            ∀ ch r, ch ∈ (charts ws).*1 → r ∈ chart_refs ch → min_col r ∈ column_hidden ws)
    as Hperiod.
  { intros tag sn hd cm df' Htag Hws.
    apply (outline_hidden ws _ (period_outline _ _ _ _ _ _ _ Htag Hws)).
    destruct (period_sheet_anatomy _ _ _ _ _ _ _ Htag Hws) as (d & text & _ & _ & _ & _ & _ & Hh & _).
    intros c Hc. apply Hh. cbn in Hc. revert Hc. rewrite !elem_of_cons, elem_of_nil. tauto. }
  destruct (report_inv _ _ _ Hr)
    as (df' & m & t7 & t30 & t90 & cat & col & _ & _ & _ & _ & _ & H1 & H2 & H3 & H4 & H5).
  unfold sheets in Hin. rewrite !elem_of_cons in Hin.
  destruct Hin as [->|[->|[->|[->|[->|Hn]]]]]; [| | | | |by apply elem_of_nil in Hn].
  - rewrite H1.
    destruct (summary_sheet_anatomy L df' m t7 t30 t90 cat col) as (_ & _ & Ho & Hh).
    apply (outline_hidden _ _ Ho). intros c Hc. apply Hh. cbn in Hc. revert Hc.
    rewrite !elem_of_cons, elem_of_nil. tauto.
  - eapply Hperiod; [|exact H2]. compute_done.
  - eapply Hperiod; [|exact H3]. compute_done.
  - eapply Hperiod; [|exact H4]. compute_done.
  - destruct (comparison_sheet_anatomy _ _ _ _ H5) as (_ & _ & _ & _ & _ & _ & Ho & Hh).
    apply (outline_hidden _ _ Ho). intros c Hc. apply Hh. cbn in Hc. revert Hc.
    rewrite !elem_of_cons, elem_of_nil. tauto.
Qed.

Lemma charts_read_hidden_columns_witness :
  ∃ wb, report plain sample_sales = Ok wb ∧
    kind_of_chart <$> (charts (ws_compare wb)).*1 = [BarChart; LineChart] ∧
    ∀ ch r, ch ∈ (charts (ws_compare wb)).*1 → r ∈ chart_refs ch →
            min_col r ∈ column_hidden (ws_compare wb).
Proof.
  destruct (is_ok_Ok (report plain sample_sales) sample_report_ok) as [wb E].
  exists wb. split; [exact E|].
  apply (charts_read_hidden_columns plain sample_sales wb (ws_compare wb) E).
  unfold sheets. do 4 (apply elem_of_cons; right). apply elem_of_cons. by left.
Defined.

Ltac metrics_cell Hcells k j xs :=
  let Hv := fresh "Hv" in
  let Hfm := fresh "Hfm" in
  exists xs; split; [assumption|];
  destruct (Hcells k _ j _ eq_refl eq_refl) as [Hv Hfm];
  split; [exact Hv|exact (Hfm _ eq_refl)].



(** X19: the hidden chart data of the summary sheet, rows 15 to 17 of
    columns J to M, repeat the period labels and the totals of units,
    sales and net sales that the key metrics table shows in rows 8 to 10
    of columns A to D: the charts plot the figures of the table. *)
Theorem summary_chart_data (L : Library) (df : DataFrame) (wb : Workbook) (k j : nat) :
  report L df = Ok wb → (k < 3)%nat → (j < 4)%nat →
  value (cell_at (ws_summary wb) (15 + k) (10 + j))
  = value (cell_at (ws_summary wb) (8 + k) (1 + j)).
Proof.
  intros Hr Hk Hj.
  destruct (report_inv _ _ _ Hr)
    as (df' & m & t7 & t30 & t90 & cat & col & _ & _ & _ & _ & _ & H1 & _).
  rewrite H1.
  destruct (summary_sheet_anatomy L df' m t7 t30 t90 cat col) as (Hcells & Hdata & _).
  destruct (lookup_lt_is_Some_2 (metrics_rows m t7 t30 t90) k) as [row Hrow]; [cbn; lia|].
  assert (length row = 6%nat) as Hlen.
  { destruct k as [|[|[|k]]]; [| | |lia]; by injection Hrow as <-. }
  destruct (lookup_lt_is_Some_2 row j) as [v Hv]; [lia|].
  rewrite (Hdata k row j v Hrow Hv Hj).
  by destruct (Hcells k row j v Hrow Hv) as [-> _].
Qed.

Lemma summary_chart_data_witness :
  ∃ wb, report plain sample_sales = Ok wb ∧
    value (cell_at (ws_summary wb) 16 11) = value (cell_at (ws_summary wb) 9 2).
Proof.
  destruct (is_ok_Ok (report plain sample_sales) sample_report_ok) as [wb E].
  exists wb. split; [exact E|].
  apply (summary_chart_data plain sample_sales wb 1 1 E); lia.
Defined.

End ReportFacts.

Module ColourFacts.
Import PdfReport PyFacts.

Lemma hex_digits_raises acc s e : hex_digits acc s = Raise e → e = ValueError.
Proof.
  revert acc. induction s as [|c s IH]; intros acc; cbn; [done|].
  destruct (hex_digit c); [apply IH|by intros [= <-]].
Qed.

Lemma int16_raises s e : int16 s = Raise e → e = ValueError.
Proof. destruct s; [by intros [= <-]|apply hex_digits_raises]. Qed.

Lemma component_raises s i e : component s i = Raise e → e = ValueError.
Proof.
  unfold component. destruct (int16 (slice s i (i + 2))) as [v|e'] eqn:E; [done|].
  intros [= <-]. by apply int16_raises in E.
Qed.

Lemma substring_short (s : string) (i n : nat) :
  (String.length s ≤ i)%nat → String.substring i n s = EmptyString.
Proof.
  revert i n. induction s as [|c s IH]; intros i n Hi.
  - by destruct i, n.
  - destruct i as [|i]; [cbn in Hi; lia|]. cbn. apply IH. cbn in Hi. lia.
Qed.

Lemma substring_prefix (s : string) (i n m : nat) :
  (i + n ≤ m)%nat →
  String.substring i n (String.substring 0 m s) = String.substring i n s.
Proof.
  revert i n m. induction s as [|c s IH]; intros i n m Hm.
  - by destruct m.
  - destruct m as [|m].
    + assert (i = 0%nat) as -> by lia. assert (n = 0%nat) as -> by lia. done.
    + cbn [String.substring]. destruct i as [|i].
      * destruct n as [|n]; [done|]. cbn [String.substring]. f_equal. apply IH. lia.
      * cbn [String.substring]. apply IH. lia.
Qed.

Lemma lstrip_idem c s : lstrip c (lstrip c s) = lstrip c s.
Proof.
  induction s as [|a s IH]; [done|]. cbn.
  destruct (Ascii.eqb a c) eqn:E; [done|]. cbn. by rewrite E.
Qed.

Lemma lstrip_prefix c s m :
  lstrip c (String.substring 0 m (lstrip c s)) = String.substring 0 m (lstrip c s).
Proof.
  induction s as [|a s IH]; [by destruct m|]. cbn [lstrip].
  destruct (Ascii.eqb a c) eqn:E; [done|].
  destruct m as [|m]; [done|]. cbn. by rewrite E.
Qed.

(** X20: a colour with fewer than five characters after its leading '#'
    signs is refused with [ValueError], whatever its characters are: its
    third pair is the empty string. *)
Theorem hex_to_rgb_too_short (hex_color : string) :
  (String.length (lstrip "#" hex_color) ≤ 4)%nat → hex_to_rgb hex_color = Raise ValueError.
Proof.
  intros Hlen. unfold hex_to_rgb. cbv zeta.
  destruct (component (lstrip "#" hex_color) 0) as [r|e] eqn:Er.
  2:{ apply component_raises in Er. by subst e. }
  destruct (component (lstrip "#" hex_color) 2) as [g|e] eqn:Eg.
  2:{ apply component_raises in Eg. by subst e. }
  cbn. unfold component, slice. by rewrite substring_short.
Qed.

Lemma hex_to_rgb_too_short_witness : hex_to_rgb "#FFF" = Raise ValueError.
Proof. apply (hex_to_rgb_too_short "#FFF"). vm_compute. lia. Defined.

(** X21: [hex_to_rgb] strips every leading '#' and then reads six
    characters only: what follows them, an alpha channel for instance, is
    never looked at, and the result on a colour is the result on its
    first six characters. *)
Theorem hex_to_rgb_reads_six (hex_color : string) :
  hex_to_rgb (String "#" hex_color) = hex_to_rgb hex_color ∧
  hex_to_rgb hex_color = hex_to_rgb (slice (lstrip "#" hex_color) 0 6).
Proof.
  split; [done|]. unfold hex_to_rgb, slice. cbv zeta.
  rewrite lstrip_prefix. unfold component, slice.
  by rewrite !substring_prefix by lia.
Qed.

End ColourFacts.

Module DerivedFacts.
Import Pandas Scripts Vocabulary DailyNotions PyFacts PandasFacts GroupFacts SumFacts DailyFacts.

(** ** The per-day tables, column by column *)
Lemma charts_daily_tabulate L df dd :
  ChartsExample.prepare L df = Ok dd →
  convert_dates L df "Day" = Ok dd.1 ∧
  dd.2 = tabulate ((("Day" :: ChartsExample.measures) ++ ["AOV"]) ++ ["Discount_Rate"])
           (days_of L df)
           (λ c d, if decide (c = "Discount_Rate")
                   then VNum (num_mul (discount_of L df d) (of_int 100))
                   else if decide (c = "AOV") then VNum (aov_of L df d)
                   else per_day L df c d).
Proof.
  unfold ChartsExample.prepare. intros ([df1 d0] & Hd & Hp)%bind_Ok.
  assert (convert_dates L df "Day" = Ok df1) as Hconv.
  { unfold Daily.daily_sums in Hd. apply bind_Ok in Hd as (x & Hx & Hd).
    apply bind_Ok in Hd as (y & _ & Hd). by injection Hd as -> _. }
  apply daily_sums_spec in Hd as ->; [|compute_done]. cbn [fst snd] in Hp.
  unfold Daily.with_aov in Hp.
  rewrite (derive_tabulate _ _ _ _ _ _ _ (day_sum L df "Gross sales")
             (day_sum L df "Orders")) in Hp;
    [|compute_done|compute_done|compute_done|intros; by apply per_day_measure..].
  cbn [mbind result_bind] in Hp.
  rewrite (derive_tabulate _ _ _ _ _ _ _ (day_sum L df "Discounts")
             (day_sum L df "Gross sales")) in Hp;
    [|compute_done|compute_done|compute_done|
     intros; rewrite decide_False by done; by apply per_day_measure..].
  cbn [mbind result_bind] in Hp. injection Hp as <-. cbn [fst snd]. done.
Qed.

Lemma excel_daily_tabulate L df dd :
  ExcelExport.prepare_daily L df = Ok dd →
  convert_dates L df "Day" = Ok dd.1 ∧
  dd.2 = tabulate (((("Day" :: ExcelExport.measures) ++ ["AOV"]) ++ ["Gross Margin %"])
                     ++ ["Discount Rate %"])
           (days_of L df)
           (λ c d, if decide (c = "Discount Rate %") then VNum (discount_of L df d)
                   else if decide (c = "Gross Margin %") then VNum (margin_of L df d)
                   else if decide (c = "AOV") then VNum (aov_of L df d)
                   else per_day L df c d).
Proof.
  unfold ExcelExport.prepare_daily. intros ([df1 d0] & Hd & Hp)%bind_Ok.
  assert (convert_dates L df "Day" = Ok df1) as Hconv.
  { unfold Daily.daily_sums in Hd. apply bind_Ok in Hd as (x & Hx & Hd).
    apply bind_Ok in Hd as (y & _ & Hd). by injection Hd as -> _. }
  apply daily_sums_spec in Hd as ->; [|compute_done]. cbn [fst snd] in Hp.
  unfold Daily.with_aov in Hp.
  rewrite (derive_tabulate _ _ _ _ _ _ _ (day_sum L df "Gross sales")
             (day_sum L df "Orders")) in Hp;
    [|compute_done|compute_done|compute_done|intros; by apply per_day_measure..].
  cbn [mbind result_bind] in Hp.
  rewrite (derive_tabulate _ _ _ _ _ _ _ (day_sum L df "Gross profit")
             (day_sum L df "Net sales")) in Hp;
    [|compute_done|compute_done|compute_done|
     intros; rewrite decide_False by done; by apply per_day_measure..].
  cbn [mbind result_bind] in Hp.
  rewrite (derive_tabulate _ _ _ _ _ _ _ (day_sum L df "Discounts")
             (day_sum L df "Gross sales")) in Hp;
    [|compute_done|compute_done|compute_done|
     intros; rewrite !decide_False by done; by apply per_day_measure..].
  cbn [mbind result_bind] in Hp. injection Hp as <-. cbn [fst snd]. done.
Qed.

Lemma pdf_prepare_spec L df daily k :
  PdfReport.prepare L df = Ok (daily, k) →
  daily = tabulate (("Day" :: PdfReport.measures) ++ ["AOV"]) (days_of L df)
            (λ c d, if decide (c = "AOV") then VNum (aov_of L df d) else per_day L df c d) ∧
  k = {| PdfReport.total_orders := days_total L df "Orders";
         PdfReport.total_gross_sales := days_total L df "Gross sales";
         PdfReport.total_net_sales := days_total L df "Net sales";
         PdfReport.total_gross_profit := days_total L df "Gross profit";
         PdfReport.avg_aov :=
           num_div (days_total L df "Gross sales") (days_total L df "Orders");
         PdfReport.gross_margin :=
           num_mul (num_div (days_total L df "Gross profit") (days_total L df "Net sales"))
             (of_int 100) |}.
Proof.
  unfold PdfReport.prepare. intros ([df1 d0] & Hd & Hp)%bind_Ok.
  apply daily_sums_spec in Hd as ->; [|compute_done]. cbn [fst snd] in Hp.
  unfold Daily.with_aov in Hp.
  rewrite (derive_tabulate _ _ _ _ _ _ _ (day_sum L df "Gross sales")
             (day_sum L df "Orders")) in Hp;
    [|compute_done|compute_done|compute_done|intros; by apply per_day_measure..].
  cbn [mbind result_bind] in Hp.
  rewrite (numeric_tabulate _ _ _ "Orders" (day_sum L df "Orders")),
    (numeric_tabulate _ _ _ "Gross sales" (day_sum L df "Gross sales")),
    (numeric_tabulate _ _ _ "Net sales" (day_sum L df "Net sales")),
    (numeric_tabulate _ _ _ "Gross profit" (day_sum L df "Gross profit")) in Hp;
    [|compute_done || (intros; rewrite decide_False by done; by apply per_day_measure)..].
  cbn [mbind result_bind] in Hp. unfold sum_div in Hp.
  destruct (bool_decide (rows df = [])); [done|].
  cbn [mbind result_bind] in Hp. by injection Hp as <- <-.
Qed.



Lemma pdf_prepare_rows L df r : PdfReport.prepare L df = Ok r → rows df ≠ [].
Proof.
  intros E Hr. unfold PdfReport.prepare in E. do 6 (apply bind_Ok in E as (? & _ & E)).
  apply bind_Ok in E as (? & E & _). unfold sum_div in E.
  by rewrite bool_decide_eq_true_2 in E.
Qed.




(** ** The run of charts_example *)
Lemma omap_id_fmap {A B} (f : A → option B) (l : list A) : omap id (f <$> l) = omap f l.
Proof. induction l as [|a l IH]; [done|]. cbn. rewrite IH. by destruct (f a). Qed.

Lemma groupby_label_len df key ms out kcol :
  groupby_label df key ms = Ok out → column df key = Ok kcol →
  len out = length (labels_of kcol).
Proof.
  unfold groupby_label, groupby_sum. intros H Hk. rewrite Hk in H.
  cbn [mbind result_bind] in H.
  apply bind_Ok in H as (x & _ & H). apply bind_Ok in H as (cols & _ & H).
  injection H as <-. unfold len, labels_of, group_keys. cbn [rows].
  rewrite length_fmap, merge_sort_Permutation. by rewrite omap_id_fmap.
Qed.

Lemma column_converted L df df1 c :
  convert_dates L df "Day" = Ok df1 → c ≠ "Day" → column df1 c = column df c.
Proof.
  intros (i & dl & Hi & HF & ->)%(convert_dates_spec L) Hc.
  pose proof (Forall2_length _ _ _ HF) as Hlen.
  unfold column, col_index. cbn [columns rows]. fold (col_index df c).
  destruct (col_index df c) as [j|e] eqn:Hj; [|done]. cbn. f_equal.
  rewrite other_cells.
  - by rewrite take_ge by lia.
  - intros ->. apply col_index_Ok in Hi, Hj. congruence.
Qed.

(** X24: charts_example draws its two pie charts with two exploded wedges:
    when the customer column, a column of texts and empty cells, does not
    hold exactly two distinct labels, the run stops with an exception and
    writes at most its first three figures, never the pie charts or what
    follows them. *)
Theorem pie_charts_need_two_customer_types (L : Library) (df : DataFrame)
    (labels : list Py.value) :
  column df "New or returning customer" = Ok labels →
  Forall is_label labels →
  length (labels_of labels) ≠ 2%nat →
  ∃ e, outcome (ChartsExample.main L df) = Raise e ∧
       written (ChartsExample.main L df) `prefix_of` take 3 (outputs ChartsExample).
Proof.
  intros Hlab _ Hn. unfold ChartsExample.main, outcome, written.
  unfold mbind, run_bind, lift, write, raise, mret, run_ret.
  destruct (ChartsExample.prepare L df) as [dd|e] eqn:Hp; cbn [fst snd].
  2:{ exists e. split; [done|apply prefix_nil]. }
  destruct (bool_decide (rows df = [])); cbn [fst snd app].
  { exists TypeError. split; [done|apply prefix_nil]. }
  destruct (column dd.2 "Day") as [days|e]; cbn [fst snd].
  2:{ exists e. split; [done|apply prefix_nil]. }
  destruct (iloc_last days) as [d|e]; cbn [fst snd app].
  2:{ exists e. split; [done|apply prefix_nil]. }
  destruct (numeric dd.2 "Orders") as [orders|e]; cbn [fst snd app].
  2:{ exists e. split; [done|by apply prefix_cons, prefix_nil]. }
  destruct (idxmax orders) as [i|e]; cbn [fst snd app].
  2:{ exists e. split; [done|by apply prefix_cons, prefix_nil]. }
  destruct (groupby_label dd.1 "New or returning customer" ["Orders"; "Gross sales"])
    as [customers|e] eqn:Hg; cbn [fst snd app].
  2:{ by exists e. }
  destruct (decide (len customers = 2%nat)) as [Hlen|Hlen]; cbn [fst snd app].
  - exfalso. apply Hn. rewrite <- Hlen. symmetry.
    apply (groupby_label_len dd.1 _ _ _ _ Hg).
    apply charts_daily_tabulate in Hp as [Hconv _].
    by rewrite (column_converted L df dd.1 _ Hconv).
  - by exists ValueError.
Qed.

Lemma pie_charts_need_two_customer_types_witness :
  ∃ e, outcome (ChartsExample.main plain (Frame (columns sample_daily) (take 1 (rows sample_daily))))
       = Raise e ∧
       written (ChartsExample.main plain
                  (Frame (columns sample_daily) (take 1 (rows sample_daily))))
       `prefix_of` take 3 (outputs ChartsExample).
Proof.
  apply (pie_charts_need_two_customer_types plain
           (Frame (columns sample_daily) (take 1 (rows sample_daily))) [VStr "New"]).
  - by vm_compute.
  - apply Forall_singleton. by vm_compute.
  - vm_compute. lia.
Defined.

(** X25: on a table none of whose rows has a day, charts_example stops at
    its first chart and writes nothing: with [TypeError] on a table
    without rows, whose per-day table has object columns that
    fill_between refuses, and otherwise with [IndexError], where it reads
    the last day of the empty per-day table. *)
Theorem charts_without_days (L : Library) (df : DataFrame) (dd : DataFrame * DataFrame) :
  ChartsExample.prepare L df = Ok dd → days_of L df = [] →
  len dd.2 = 0%nat ∧
  outcome (ChartsExample.main L df)
  = Raise (if bool_decide (rows df = []) then TypeError else IndexError) ∧
  written (ChartsExample.main L df) = [].
Proof.
  intros Hp Hd. unfold ChartsExample.main, outcome, written.
  unfold mbind, run_bind, lift. rewrite Hp. cbn [fst snd].
  apply charts_daily_tabulate in Hp as [_ ->]. rewrite Hd.
  destruct (bool_decide (rows df = [])); [done|]. cbn [mret run_ret fst snd app].
  rewrite column_tabulate by compute_done. done.
Qed.

Lemma charts_without_days_witness :
  (∃ dd, ChartsExample.prepare plain (Frame (columns sample_daily) []) = Ok dd ∧
     len dd.2 = 0%nat ∧
     outcome (ChartsExample.main plain (Frame (columns sample_daily) [])) = Raise TypeError ∧
     written (ChartsExample.main plain (Frame (columns sample_daily) [])) = []) ∧
  (∃ dd, ChartsExample.prepare plain sample_undated = Ok dd ∧
     len dd.2 = 0%nat ∧
     outcome (ChartsExample.main plain sample_undated) = Raise IndexError ∧
     written (ChartsExample.main plain sample_undated) = []).
Proof.
  split.
  - destruct (is_ok_Ok (ChartsExample.prepare plain (Frame (columns sample_daily) [])))
      as [dd E]; [by vm_compute|].
    exists dd. split; [exact E|].
    apply (charts_without_days plain (Frame (columns sample_daily) []) dd E).
    by vm_compute.
  - destruct (is_ok_Ok (ChartsExample.prepare plain sample_undated)) as [dd E]; [by vm_compute|].
    exists dd. split; [exact E|].
    apply (charts_without_days plain sample_undated dd E).
    by vm_compute.
Defined.

(** ** The customer table of excel_export_example *)
Lemma label_sums_spec df ms cs0 :
  "New or returning customer" ∉ ms →
  groupby_label df "New or returning customer" ms = Ok cs0 →
  cs0 = tabulate ("New or returning customer" :: ms) (labels df) (per_label df).
Proof.
  intros Hms. unfold groupby_label, groupby_sum. intros (kcol & Hk & Hg)%bind_Ok.
  apply bind_Ok in Hg as (? & _ & Hg).
  apply bind_Ok in Hg as (cols & Hcols & Hg). injection Hg as <-.
  apply bind_Ok in Hk as (i & Hi & [= <-]).
  assert (str_key <$> ((λ r, cell r i) <$> rows df) = label_of df <$> rows df) as ->.
  { rewrite <- list_fmap_compose. apply list_fmap_ext. intros _ r _.
    unfold label_of, compose. by rewrite Hi. }
  unfold tabulate, labels. f_equal.
  apply Forall_fmap_ext_1, Forall_forall. intros k Hk'.
  apply elem_of_group_keys in Hk'.
  cbn [fmap list_fmap]. unfold per_label at 1. rewrite decide_True by done. f_equal.
  apply mapM_Ok in Hcols.
  induction Hcols as [|c xs ms cols Hc _ IH]; [done|].
  apply not_elem_of_cons in Hms as [Hne Hms].
  rewrite !fmap_cons. f_equal; [|by apply IH].
  apply numeric_measure_of in Hc as ->.
  unfold per_label. rewrite decide_False by done. f_equal.
  rewrite group_sums_lookup; [|by rewrite !length_fmap|done].
  simpl. unfold label_sum. by rewrite selected_zip_fmap.
Qed.

Lemma customers_aov df cs :
  ExcelExport.prepare_customers df = Ok cs →
  column cs "New or returning customer" = Ok (VStr <$> labels df) ∧
  column cs "AOV" = Ok ((λ l, VNum (customer_aov df l)) <$> labels df).
Proof.
  unfold ExcelExport.prepare_customers. intros (c0 & H0 & H)%bind_Ok.
  apply label_sums_spec in H0 as ->; [|compute_done].
  unfold Daily.with_aov in H.
  rewrite (derive_tabulate _ _ _ _ _ _ _ (label_sum df "Gross sales")
             (label_sum df "Orders")) in H;
    [|compute_done|compute_done|compute_done|done|done].
  cbn [mbind result_bind] in H.
  rewrite (numeric_tabulate _ _ _ "Orders" (label_sum df "Orders")) in H;
    [|compute_done|done].
  cbn [mbind result_bind] in H.
  rewrite (derive_tabulate _ _ _ _ _ _ _ (label_sum df "Orders")
             (label_sum df "Orders")) in H;
    [|compute_done|compute_done|compute_done|done|done].
  cbn [mbind result_bind] in H.
  rewrite (numeric_tabulate _ _ _ "Gross sales" (label_sum df "Gross sales")) in H;
    [|compute_done|done].
  cbn [mbind result_bind] in H.
  rewrite (derive_tabulate _ _ _ _ _ _ _ (label_sum df "Gross sales")
             (label_sum df "Gross sales")) in H;
    [|compute_done|compute_done|compute_done|done|done].
  injection H as <-. split; rewrite column_tabulate by compute_done; done.
Qed.



End DerivedFacts.

Module ExcelSheetFacts.
Import Pandas Openpyxl ExcelSheets SheetNotions Vocabulary Layout Notions ReportNotions DailyNotions.
Import PyFacts PandasFacts GroupFacts SheetFacts PeriodFacts HelperFacts TableWriterFacts.
Import FrameFacts ReportFacts DerivedFacts.

(** ** Loops over the rows of a sheet *)
Section rows_loop.
Context {B : Type} (step : Worksheet → nat * B → result Worksheet).
Context (G : nat → B → nat → Cell → Cell) (ncols : nat) (good : B → Prop).
Hypothesis Hstep : ∀ ws R b, good b →
  ∃ ws', step ws (R, b) = Ok ws' ∧
    (∀ C, (1 ≤ C ≤ ncols)%nat → cell_at ws' R C = G R b C (cell_at ws R C)) ∧
    (∀ R' C, ¬ (R' = R ∧ (1 ≤ C ≤ ncols)%nat) → cell_at ws' R' C = cell_at ws R' C) ∧
    furniture ws' = furniture ws.

Lemma rows_loop_spec (bs : list B) (start : nat) ws :
  Forall good bs →
  ∃ ws', foldlM step ws (enumerate start bs) = Ok ws' ∧
    (∀ k b C, bs !! k = Some b → (1 ≤ C ≤ ncols)%nat →
       cell_at ws' (start + k) C = G (start + k)%nat b C (cell_at ws (start + k) C)) ∧
    (∀ R C, ¬ ((start ≤ R < start + length bs)%nat ∧ (1 ≤ C ≤ ncols)%nat) →
       cell_at ws' R C = cell_at ws R C) ∧
    furniture ws' = furniture ws.
Proof.
  intros Hgood. revert start ws. induction Hgood as [|b0 bs Hb _ IH]; intros start ws.
  - exists ws. split; [done|]. split; [done|]. by split.
  - rewrite enumerate_cons. cbn [foldlM].
    destruct (Hstep ws start b0 Hb) as (w1 & H1 & Hc1 & Hf1 & Hfu1). rewrite H1.
    cbn [mbind result_bind].
    destruct (IH (S start) w1) as (ws' & Hws' & Hc & Hf & Hfu).
    exists ws'. split; [done|]. split; [|split].
    + intros [|k] b C Hk HC.
      * injection Hk as <-. rewrite Nat.add_0_r. rewrite Hf by lia. by apply Hc1.
      * replace (start + S k)%nat with (S start + k)%nat by lia. rewrite (Hc k b C Hk HC).
        rewrite Hf1; [done|]. intros [? _]. lia.
    + intros R C HRC. cbn [length] in HRC. rewrite Hf by lia. apply Hf1. lia.
    + by rewrite Hfu, Hfu1.
Qed.
End rows_loop.

Lemma cell_value_put r c v ws : cell_value r c v ws = update r c (put v) ws.
Proof. by destruct v. Qed.

Lemma furniture_update r c f ws : furniture (update r c f ws) = furniture ws.
Proof. done. Qed.

(** ** The fields written one after the other *)
Lemma write_fields_spec df t (R : nat) (fs : list (nat * string * string)) ws :
  NoDup fs.*1.*1 →
  Forall (λ cf : nat * string * string, is_ok (getattr df t cf.1.2) = true) fs →
  ∃ ws', foldlM (write_field df t R) ws fs = Ok ws' ∧
    (∀ c f fmt v, (c, f, fmt) ∈ fs → getattr df t f = Ok v →
       cell_at ws' R c = set_number_format fmt (put v (cell_at ws R c))) ∧
    (∀ R' C, ¬ (R' = R ∧ C ∈ fs.*1.*1) → cell_at ws' R' C = cell_at ws R' C) ∧
    furniture ws' = furniture ws.
Proof.
  intros Hnd Hok. revert ws Hnd.
  induction Hok as [|[[c0 f0] fmt0] fs Hok0 _ IH]; intros ws Hnd.
  - exists ws. split; [done|]. split; [|by split].
    intros c f fmt v Hin. by apply elem_of_nil in Hin.
  - cbn [fmap list_fmap fst] in Hnd. apply NoDup_cons in Hnd as [Hnot Hnd].
    cbn [fst snd] in Hok0. apply is_ok_Ok in Hok0 as [v0 Hv0].
    cbn [foldlM].
    assert (write_field df t R ws (c0, f0, fmt0)
            = Ok (update R c0 (set_number_format fmt0) (cell_value R c0 v0 ws))) as Hw
      by (unfold write_field; cbn [fst snd]; by rewrite Hv0).
    rewrite Hw. cbn [mbind result_bind].
    destruct (IH (update R c0 (set_number_format fmt0) (cell_value R c0 v0 ws)) Hnd)
      as (ws' & Hws' & Hc & Hf & Hfu).
    exists ws'. split; [done|]. split; [|split].
    + intros c f fmt v [[= -> -> ->]|Hin]%elem_of_cons Hv.
      * rewrite Hf by (intros [_ ?]; done).
        rewrite cell_at_update, decide_True by done.
        rewrite cell_at_cell_value, decide_True by done. congruence.
      * rewrite (Hc c f fmt v Hin Hv).
        assert (c ≠ c0) as Hne.
        { intros ->. apply Hnot. apply list_elem_of_fmap. exists (c0, f).
          split; [done|]. apply list_elem_of_fmap. by exists (c0, f, fmt). }
        rewrite cell_at_update, decide_False by (intros [= ?]; done).
        by rewrite cell_at_cell_value, decide_False by (intros [= ?]; done).
    + intros R' C HRC. rewrite Hf.
      * rewrite cell_at_update, decide_False.
        -- rewrite cell_at_cell_value, decide_False; [done|].
           intros [= <- <-]. apply HRC. split; [done|]. cbn. by left.
        -- intros [= <- <-]. apply HRC. split; [done|]. cbn. by left.
      * intros [-> HC]. apply HRC. split; [done|]. cbn. by right.
    + rewrite Hfu. rewrite furniture_update. apply furniture_cell_value.
Qed.

(** ** The borders and fills of a row *)
Lemma row_updates_spec (step : Worksheet → nat → Worksheet) (f : Cell → Cell) (R : nat)
    (cols : list nat) ws :
  (∀ w c R' C, cell_at (step w c) R' C
               = if decide ((R, c) = (R', C)) then f (cell_at w R c) else cell_at w R' C) →
  (∀ w c, furniture (step w c) = furniture w) →
  NoDup cols →
  let ws' := foldl step ws cols in
  (∀ C, C ∈ cols → cell_at ws' R C = f (cell_at ws R C)) ∧
  (∀ R' C, ¬ (R' = R ∧ C ∈ cols) → cell_at ws' R' C = cell_at ws R' C) ∧
  furniture ws' = furniture ws.
Proof.
  intros Hstep Hfus Hnd. revert ws.
  induction Hnd as [|c0 cols Hnot Hnd IH]; intros ws ws'; subst ws'.
  - split; [|by split]. intros C HC. by apply elem_of_nil in HC.
  - cbn [foldl]. destruct (IH (step ws c0)) as (Hc & Hf & Hfu). split; [|split].
    + intros C [->|HC]%elem_of_cons.
      * rewrite Hf by (intros [_ ?]; done). by rewrite Hstep, decide_True.
      * rewrite (Hc C HC). rewrite Hstep, decide_False; [done|]. intros [= ->]. done.
    + intros R' C HRC. rewrite Hf by (intros [-> ?]; apply HRC; split; [done|by right]).
      rewrite Hstep, decide_False; [done|]. intros [= <- <-]. apply HRC. split; [done|by left].
    + by rewrite Hfu, Hfus.
Qed.

Lemma banding_spec (R : nat) (cols : list nat) ws :
  NoDup cols →
  let ws' :=
    foldl (λ ws col,
             let ws := update R col (set_border thin) ws in
             if Nat.even R then update R col (set_fill alt_fill) ws else ws)
      ws cols in
  (∀ C, C ∈ cols → cell_at ws' R C = banded R (cell_at ws R C)) ∧
  (∀ R' C, ¬ (R' = R ∧ C ∈ cols) → cell_at ws' R' C = cell_at ws R' C) ∧
  furniture ws' = furniture ws.
Proof.
  apply row_updates_spec.
  - intros w c R' C. cbv zeta. unfold banded. destruct (Nat.even R).
    + rewrite !cell_at_update. case_decide; [|done]. by rewrite decide_True.
    + by rewrite cell_at_update.
  - intros w c. cbv zeta. by destruct (Nat.even R).
Qed.

Lemma borders_spec (R : nat) (cols : list nat) ws :
  NoDup cols →
  let ws' := foldl (λ ws col, update R col (set_border thin) ws) ws cols in
  (∀ C, C ∈ cols → cell_at ws' R C = set_border thin (cell_at ws R C)) ∧
  (∀ R' C, ¬ (R' = R ∧ C ∈ cols) → cell_at ws' R' C = cell_at ws R' C) ∧
  furniture ws' = furniture ws.
Proof.
  apply row_updates_spec; [|done]. intros w c R' C. by rewrite cell_at_update.
Qed.

(** ** The header rows *)
Lemma header_loop_spec (row : nat) (hs : list string) (s : nat) ws :
  let ws' :=
    foldl (λ ws (ch : nat * string),
             let ws := cell_value row ch.1 (VStr ch.2) ws in
             let ws := update row ch.1 (set_fill header_fill) ws in
             let ws := update row ch.1 (set_alignment header_alignment) ws in
             update row ch.1 (set_border thin) ws) ws (enumerate s hs) in
  (∀ j h, hs !! j = Some h →
     cell_at ws' row (s + j)
     = set_border thin
         (set_alignment header_alignment
            (set_fill header_fill (set_value (VStr h) (cell_at ws row (s + j)))))) ∧
  (∀ R C, ¬ (R = row ∧ (s ≤ C < s + length hs)%nat) → cell_at ws' R C = cell_at ws R C) ∧
  furniture ws' = furniture ws.
Proof.
  revert s ws. induction hs as [|h0 hs IH]; intros s ws ws'; subst ws'.
  - split; [done|]. by split.
  - rewrite enumerate_cons.
    change (foldl ?f ws ((s, h0) :: ?l)) with (foldl f (f ws (s, h0)) l).
    match goal with
    | |- context [foldl ?f (?f' ws (s, h0)) _] => set (w1 := f' ws (s, h0))
    end.
    assert (∀ R C, cell_at w1 R C
                   = if decide ((row, s) = (R, C))
                     then set_border thin
                            (set_alignment header_alignment
                               (set_fill header_fill (set_value (VStr h0) (cell_at ws row s))))
                     else cell_at ws R C) as Hw1.
    { intros R C. subst w1. cbv beta zeta. cbn [fst snd].
      rewrite !cell_at_update, !cell_at_cell_value.
      case_decide as E; [rewrite !decide_True by done|]; done. }
    assert (furniture w1 = furniture ws) as Hfu1 by done.
    clearbody w1. destruct (IH (S s) w1) as (Hc & Hf & Hfu). split; [|split].
    + intros [|j] h Hj.
      * injection Hj as <-. rewrite Nat.add_0_r. rewrite Hf by (intros [_ ?]; lia).
        by rewrite Hw1, decide_True.
      * replace (s + S j)%nat with (S s + j)%nat by lia. rewrite (Hc j h Hj).
        rewrite Hw1, decide_False; [done|]. intros [= ?]. lia.
    + intros R C HRC. cbn [length] in HRC.
      rewrite Hf by (intros [-> ?]; apply HRC; split; [done|lia]).
      rewrite Hw1, decide_False; [done|]. intros [= <- <-]. apply HRC. split; [done|lia].
    + by rewrite Hfu.
Qed.

Lemma header_row_spec (row : nat) (headers : list string) ws :
  let ws' := header_row row headers ws in
  (∀ j h, headers !! j = Some h →
     cell_at ws' row (1 + j)
     = set_border thin
         (set_alignment header_alignment
            (set_fill header_fill (set_value (VStr h) (cell_at ws row (1 + j)))))) ∧
  (∀ R C, ¬ (R = row ∧ (1 ≤ C ≤ length headers)%nat) → cell_at ws' R C = cell_at ws R C) ∧
  furniture ws' = furniture ws.
Proof.
  intros ws'. subst ws'. unfold header_row.
  destruct (header_loop_spec row headers 1 ws) as (Hc & Hf & Hfu).
  split; [exact Hc|]. split; [|exact Hfu]. intros R C HRC. apply Hf. lia.
Qed.

(** ** The fields of the tuples of the two tables *)
Lemma getattr_daily rows0 t :
  let daily := Frame daily_columns rows0 in
  getattr daily t "Day" = Ok (cell t.2 0) ∧
  getattr daily t "Orders" = Ok (row_value daily t.2 "Orders") ∧
  getattr daily t "_3" = Ok (row_value daily t.2 "Gross sales") ∧
  Forall2 (λ (cf cl : nat * string * string),
             cf.1.1 = cl.1.1 ∧ cf.2 = cl.2 ∧
             getattr daily t cf.1.2 = Ok (row_value daily t.2 cl.1.2))
    daily_fields daily_layout.
Proof.
  intros daily. split; [reflexivity|]. split; [reflexivity|]. split; [reflexivity|].
  unfold daily_fields, daily_layout.
  repeat (constructor; [split; [reflexivity|split; reflexivity]|]). constructor.
Qed.

Lemma getattr_customers rows0 t :
  let cs := Frame customer_columns rows0 in
  getattr cs t "_1" = Ok (cell t.2 0) ∧
  Forall2 (λ (cf cl : nat * string * string),
             cf.1.1 = cl.1.1 ∧ cf.2 = cl.2 ∧
             getattr cs t cf.1.2 = Ok (row_value cs t.2 cl.1.2))
    customer_fields customer_layout.
Proof.
  intros cs. split; [reflexivity|].
  unfold customer_fields, customer_layout.
  repeat (constructor; [split; [reflexivity|split; reflexivity]|]). constructor.
Qed.


(** ** One row of each sheet *)
Ltac field_cell Hc1 :=
  erewrite Hc1;
  [|repeat first [apply list_elem_of_here|apply list_elem_of_further]|reflexivity];
  rewrite cell_at_cell_value, decide_False by done; reflexivity.

Lemma fields_ok df t (fs ls : list (nat * string * string)) :
  Forall2 (λ (cf cl : nat * string * string),
             cf.1.1 = cl.1.1 ∧ cf.2 = cl.2 ∧ getattr df t cf.1.2 = Ok (row_value df t.2 cl.1.2))
    fs ls →
  Forall (λ cf : nat * string * string, is_ok (getattr df t cf.1.2) = true) fs.
Proof.
  induction 1 as [|cf cl fs ls (_ & _ & Hg) _ IH]; constructor; [|done]. by rewrite Hg.
Qed.

Lemma daily_row_spec date_text rows0 ws (R : nat) (t : nat * list Py.value) :
  is_date (cell t.2 0) →
  let daily := Frame daily_columns rows0 in
  ∃ ws', daily_row date_text daily ws (R, t) = Ok ws' ∧
    (∀ C, (1 ≤ C ≤ 10)%nat →
       cell_at ws' R C = daily_cell date_text daily R t C (cell_at ws R C)) ∧
    (∀ R' C, ¬ (R' = R ∧ (1 ≤ C ≤ 10)%nat) → cell_at ws' R' C = cell_at ws R' C) ∧
    furniture ws' = furniture ws.
Proof.
  intros Hdate daily. destruct (cell t.2 0) as [| |d|] eqn:Hd; try done.
  destruct (getattr_daily rows0 t) as (Hday & _ & _ & Hfields). fold daily in Hday, Hfields.
  unfold daily_row. cbn [fst snd]. rewrite Hday, Hd. cbn [mbind result_bind strftime].
  destruct (write_fields_spec daily t R daily_fields
              (cell_value R 1 (VStr (date_text "%Y-%m-%d" d)) ws))
    as (w1 & Hw1 & Hc1 & Hf1 & Hfu1); [compute_done|by eapply fields_ok|].
  rewrite Hw1. cbn [mbind result_bind]. eexists. split; [reflexivity|].
  destruct (banding_spec R (seq 1 10) w1 (NoDup_seq 1 10)) as (Hb & Hbf & Hbfu).
  split; [|split].
  - intros C HC. rewrite Hb by (apply elem_of_seq; lia). unfold daily_cell. f_equal.
    rewrite Hd.
    assert (C ∈ seq 1 10) as Hin by (apply elem_of_seq; lia).
    cbn [seq] in Hin. rewrite !elem_of_cons in Hin.
    destruct Hin as [->|[->|[->|[->|[->|[->|[->|[->|[->|[->|Hn]]]]]]]]]];
      [|field_cell Hc1..|by apply elem_of_nil in Hn].
    rewrite Hf1 by (intros [_ Hx]; revert Hx; compute_done).
    by rewrite cell_at_cell_value, decide_True.
  - intros R' C HRC. rewrite Hbf by (intros [-> ?%elem_of_seq]; apply HRC; split; [done|lia]).
    rewrite Hf1.
    + rewrite cell_at_cell_value, decide_False; [done|]. intros [= <- <-]. apply HRC. split; [done|lia].
    + intros [-> HC]. apply HRC. split; [done|]. revert HC. cbn. rewrite !elem_of_cons, elem_of_nil.
      lia.
  - etransitivity; [exact Hbfu|]. rewrite Hfu1. apply furniture_cell_value.
Qed.


Lemma customer_row_spec rows0 ws (R : nat) (t : nat * list Py.value) :
  let cs := Frame customer_columns rows0 in
  ∃ ws', customer_row cs ws (R, t) = Ok ws' ∧
    (∀ C, (1 ≤ C ≤ 8)%nat → cell_at ws' R C = customer_cell cs R t C (cell_at ws R C)) ∧
    (∀ R' C, ¬ (R' = R ∧ (1 ≤ C ≤ 8)%nat) → cell_at ws' R' C = cell_at ws R' C) ∧
    furniture ws' = furniture ws.
Proof.
  intros cs.
  destruct (getattr_customers rows0 t) as (Hfirst & Hfields). fold cs in Hfirst, Hfields.
  unfold customer_row. cbn [fst snd]. rewrite Hfirst. cbn [mbind result_bind].
  destruct (write_fields_spec cs t R customer_fields (cell_value R 1 (cell t.2 0) ws))
    as (w1 & Hw1 & Hc1 & Hf1 & Hfu1); [compute_done|by eapply fields_ok|].
  rewrite Hw1. cbn [mbind result_bind]. eexists. split; [reflexivity|].
  destruct (borders_spec R (seq 1 8) w1 (NoDup_seq 1 8)) as (Hb & Hbf & Hbfu).
  split; [|split].
  - intros C HC. rewrite Hb by (apply elem_of_seq; lia). unfold customer_cell. f_equal.
    assert (C ∈ seq 1 8) as Hin by (apply elem_of_seq; lia).
    cbn [seq] in Hin. rewrite !elem_of_cons in Hin.
    destruct Hin as [->|[->|[->|[->|[->|[->|[->|[->|Hn]]]]]]]];
      [|field_cell Hc1..|by apply elem_of_nil in Hn].
    rewrite Hf1 by (intros [_ Hx]; revert Hx; compute_done).
    by rewrite cell_at_cell_value, decide_True.
  - intros R' C HRC. rewrite Hbf by (intros [-> ?%elem_of_seq]; apply HRC; split; [done|lia]).
    rewrite Hf1.
    + rewrite cell_at_cell_value, decide_False; [done|]. intros [= <- <-]. apply HRC. split; [done|lia].
    + intros [-> HC]. apply HRC. split; [done|]. revert HC. cbn. rewrite !elem_of_cons, elem_of_nil.
      lia.
  - etransitivity; [exact Hbfu|]. rewrite Hfu1. apply furniture_cell_value.
Qed.

Lemma chart_data_row_spec date_text rows0 ws (R : nat) (t : nat * list Py.value) :
  is_date (cell t.2 0) →
  let daily := Frame daily_columns rows0 in
  ∃ ws', chart_data_row date_text daily ws (R, t) = Ok ws' ∧
    (∀ C, (1 ≤ C ≤ 3)%nat →
       cell_at ws' R C = chart_data_cell date_text daily t C (cell_at ws R C)) ∧
    (∀ R' C, ¬ (R' = R ∧ (1 ≤ C ≤ 3)%nat) → cell_at ws' R' C = cell_at ws R' C) ∧
    furniture ws' = furniture ws.
Proof.
  intros Hdate daily. destruct (cell t.2 0) as [| |d|] eqn:Hd; try done.
  destruct (getattr_daily rows0 t) as (Hday & Horders & Hgross & _).
  fold daily in Hday, Horders, Hgross.
  unfold chart_data_row. cbn [fst snd]. rewrite Hday, Hd. cbn [mbind result_bind strftime].
  rewrite Horders. cbn [mbind result_bind]. rewrite Hgross. cbn [mbind result_bind].
  eexists. split; [reflexivity|]. split; [|split].
  - intros C HC. unfold chart_data_cell. rewrite Hd.
    destruct C as [|[|[|[|C]]]]; [lia| | | |lia];
      repeat (rewrite cell_at_cell_value;
              first [rewrite decide_True by done|rewrite decide_False by (intros [= ?]; lia)]);
      reflexivity.
  - intros R' C HRC. rewrite !cell_at_cell_value.
    by rewrite !decide_False by (intros [= <- <-]; apply HRC; split; [done|lia]).
  - by rewrite !furniture_cell_value.
Qed.

(** ** The tuples of a table *)
Lemma lookup_enumerate {A} (s : nat) (l : list A) (k : nat) :
  enumerate s l !! k = (λ x, ((s + k)%nat, x)) <$> l !! k.
Proof.
  unfold enumerate. rewrite lookup_zip_with.
  destruct (l !! k) as [x|] eqn:Hk.
  - rewrite lookup_seq_lt by (by eapply lookup_lt_Some). done.
  - destruct (seq s (length l) !! k); done.
Qed.

Lemma length_enumerate {A} (s : nat) (l : list A) : length (enumerate s l) = length l.
Proof. unfold enumerate. rewrite length_zip_with, length_seq. lia. Qed.

Lemma Forall_enumerate {A} (P : A → Prop) (s : nat) (l : list A) :
  Forall P l → Forall (λ t : nat * A, P t.2) (enumerate s l).
Proof.
  intros Hl. apply Forall_forall. intros [i x] [k Hk]%list_elem_of_lookup.
  rewrite lookup_enumerate in Hk. destruct (l !! k) as [y|] eqn:Hy; [|done].
  injection Hk as <- <-. rewrite Forall_forall in Hl. apply Hl. by eapply list_elem_of_lookup_2.
Qed.

Lemma cell_at_set_widths widths ws R C : cell_at (set_widths widths ws) R C = cell_at ws R C.
Proof. unfold set_widths. by apply cell_at_foldl_frame. Qed.

Lemma chart_part_set_widths widths ws : chart_part (set_widths widths ws) = chart_part ws.
Proof. unfold set_widths. by apply chart_part_foldl. Qed.

Lemma merged_set_widths widths ws : merged_cells (set_widths widths ws) = merged_cells ws.
Proof.
  unfold set_widths. generalize (enumerate 1 widths). intros l. revert ws.
  induction l as [|x l IH]; intros ws; [done|]. cbn. by rewrite IH.
Qed.

(** ** The sheets *)
Lemma daily_sheet_spec date_text rows0 :
  Forall (λ r, is_date (cell r 0)) rows0 → rows0 ≠ [] →
  let daily := Frame daily_columns rows0 in
  ∃ ws, daily_sheet date_text daily = Ok ws ∧
    (∀ j h, daily_headers !! j = Some h →
       cell_at ws 1 (1 + j)
       = set_border thin
           (set_alignment header_alignment
              (set_fill header_fill (set_value (VStr h) blank)))) ∧
    (∀ k r C, rows0 !! k = Some r → (1 ≤ C ≤ 10)%nat →
       cell_at ws (2 + k) C = daily_cell date_text daily (2 + k) (k, r) C blank) ∧
    (∀ R C, ¬ ((1 ≤ R ≤ 1 + length rows0)%nat ∧ (1 ≤ C ≤ 10)%nat) → cell_at ws R C = blank) ∧
    merged_cells ws = [] ∧ chart_part ws = (∅, []).
Proof.
  intros Hdates Hne daily. unfold daily_sheet, conditional_formatting_add. cbv zeta.
  change (rows daily) with rows0. change (len daily) with (length rows0).
  destruct (header_row_spec 1 daily_headers (new_sheet "Daily Data")) as (Hh & Hhf & Hhfu).
  set (w0 := header_row 1 daily_headers (new_sheet "Daily Data")) in *.
  destruct (rows_loop_spec (daily_row date_text daily) (daily_cell date_text daily) 10
              (λ t, is_date (cell t.2 0))
              (λ ws R b Hb, daily_row_spec date_text rows0 ws R b Hb)
              (enumerate 0 rows0) 2 w0 (Forall_enumerate _ 0 rows0 Hdates))
    as (w1 & Hw1 & Hc & Hf & Hfu).
  rewrite Hw1. cbn [mbind result_bind].
  rewrite decide_False by (destruct rows0; [done|cbn [length]; lia]).
  eexists. split; [reflexivity|].
  rewrite length_enumerate in Hf.
  apply furniture_eq in Hhfu as (_ & Hm0 & _ & _ & Hh0 & Hc0).
  apply furniture_eq in Hfu as (_ & Hm1 & _ & _ & Hh1 & Hc1).
  split; [|split; [|split; [|split]]].
  - intros j h Hj. rewrite cell_at_set_widths. rewrite Hf by lia. by rewrite (Hh j h Hj).
  - intros k r C Hk HC. rewrite cell_at_set_widths.
    rewrite (Hc k (k, r) C) by (by rewrite lookup_enumerate, Hk || done).
    f_equal. apply Hhf. lia.
  - intros R C HRC. rewrite cell_at_set_widths. rewrite Hf by lia. rewrite Hhf; [done|].
    intros [-> ?]. apply HRC. cbn in *. lia.
  - by rewrite merged_set_widths, Hm1, Hm0.
  - rewrite chart_part_set_widths. unfold chart_part. by rewrite Hh1, Hc1, Hh0, Hc0.
Qed.


Lemma customer_sheet_spec rows0 :
  let cs := Frame customer_columns rows0 in
  ∃ ws, customer_sheet cs = Ok ws ∧
    (∀ j h, cust_headers !! j = Some h →
       cell_at ws 3 (1 + j)
       = set_border thin
           (set_alignment header_alignment
              (set_fill header_fill (set_value (VStr h) blank)))) ∧
    (∀ k r C, rows0 !! k = Some r → (1 ≤ C ≤ 8)%nat →
       cell_at ws (4 + k) C = customer_cell cs (4 + k) (k, r) C blank) ∧
    cell_at ws 1 1 = set_value (VStr "Customer Segment Analysis") blank ∧
    merged_cells ws = [] ∧ chart_part ws = (∅, []).
Proof.
  intros cs. unfold customer_sheet. cbv zeta. change (rows cs) with rows0.
  set (wt := update 1 1 (set_value (VStr "Customer Segment Analysis"))
               (new_sheet "Customer Analysis")).
  assert (∀ R C, cell_at wt R C
                 = if decide ((1, 1)%nat = (R, C))
                   then set_value (VStr "Customer Segment Analysis") blank else blank) as Hwt.
  { intros R C. subst wt. rewrite cell_at_update. by case_decide. }
  assert (furniture wt = furniture (new_sheet "Customer Analysis")) as Hfut by done.
  clearbody wt.
  destruct (header_row_spec 3 cust_headers wt) as (Hh & Hhf & Hhfu).
  set (w0 := header_row 3 cust_headers wt) in *.
  destruct (rows_loop_spec (customer_row cs) (customer_cell cs) 8 (λ _, True)
              (λ ws R b _, customer_row_spec rows0 ws R b)
              (enumerate 0 rows0) 4 w0) as (w1 & Hw1 & Hc & Hf & Hfu).
  { by apply Forall_true. }
  rewrite Hw1. cbn [mbind result_bind]. eexists. split; [reflexivity|].
  rewrite length_enumerate in Hf.
  apply furniture_eq in Hhfu as (_ & Hm0 & _ & _ & Hh0 & Hc0).
  apply furniture_eq in Hfu as (_ & Hm1 & _ & _ & Hh1 & Hc1).
  apply furniture_eq in Hfut as (_ & Hmt & _ & _ & Hht & Hct).
  split; [|split; [|split; [|split]]].
  - intros j h Hj. rewrite cell_at_set_widths. rewrite Hf by lia. rewrite (Hh j h Hj).
    by rewrite Hwt, decide_False by (intros [= ? ?]; lia).
  - intros k r C Hk HC. rewrite cell_at_set_widths.
    rewrite (Hc k (k, r) C) by (by rewrite lookup_enumerate, Hk || done).
    f_equal. rewrite Hhf by lia. by rewrite Hwt, decide_False by (intros [= ? ?]; lia).
  - rewrite cell_at_set_widths. rewrite Hf by lia. rewrite Hhf by lia.
    by rewrite Hwt, decide_True.
  - by rewrite merged_set_widths, Hm1, Hm0, Hmt.
  - rewrite chart_part_set_widths. unfold chart_part. by rewrite Hh1, Hc1, Hh0, Hc0, Hht, Hct.
Qed.

Lemma charts_sheet_spec date_text rows0 :
  Forall (λ r, is_date (cell r 0)) rows0 →
  let daily := Frame daily_columns rows0 in
  ∃ ws, charts_sheet date_text daily = Ok ws ∧
    (∀ k r C, rows0 !! k = Some r → (1 ≤ C ≤ 3)%nat →
       cell_at ws (1 + k) C = chart_data_cell date_text daily (k, r) C blank) ∧
    chart_outline ws = [(BarChart, [1; 2]%nat); (LineChart, [1; 3]%nat)] ∧
    (∀ ch r, ch ∈ (charts ws).*1 → r ∈ chart_refs ch →
       min_row r = 1%nat ∧ max_row_ref r = length rows0) ∧
    (charts ws).*2 = ["E1"; "E22"] ∧
    (∀ c, c ∈ column_hidden ws ↔ c ∈ [1; 2; 3]%nat) ∧
    merged_cells ws = [].
Proof.
  intros Hdates daily. unfold charts_sheet. cbv zeta. change (rows daily) with rows0.
  change (len daily) with (length rows0).
  destruct (rows_loop_spec (chart_data_row date_text daily) (λ _, chart_data_cell date_text daily)
              3 (λ t, is_date (cell t.2 0))
              (λ ws R b Hb, chart_data_row_spec date_text rows0 ws R b Hb)
              (enumerate 0 rows0) 1 (new_sheet "Charts") (Forall_enumerate _ 0 rows0 Hdates))
    as (w1 & Hw1 & Hc & Hf & Hfu).
  rewrite Hw1. cbn [mbind result_bind]. eexists. split; [reflexivity|].
  apply furniture_eq in Hfu as (_ & Hm1 & _ & _ & Hh1 & Hc1).
  split; [|split; [|split; [|split; [|split]]]].
  - intros k r C Hk HC.
    change (cell_at w1 (1 + k) C = chart_data_cell date_text daily (k, r) C blank).
    by rewrite (Hc k (k, r) C) by (by rewrite lookup_enumerate, Hk || done).
  - unfold chart_outline. cbn [charts hide_column add_chart]. by rewrite Hc1.
  - intros ch r Hch Hr. cbn [charts hide_column add_chart] in Hch. rewrite Hc1 in Hch.
    cbn in Hch. rewrite !elem_of_cons, elem_of_nil in Hch.
    destruct Hch as [->|[->|[]]]; cbn in Hr; rewrite !elem_of_cons, elem_of_nil in Hr;
      destruct Hr as [->|[->|[]]]; done.
  - cbn [charts hide_column add_chart]. by rewrite Hc1.
  - intros c. cbn [column_hidden hide_column add_chart]. rewrite Hh1.
    cbn [column_hidden new_sheet].
    rewrite !elem_of_union, !elem_of_singleton, !elem_of_cons, elem_of_nil, elem_of_empty.
    tauto.
  - cbn [merged_cells hide_column add_chart]. by rewrite Hm1.
Qed.


Lemma kpi_loop_spec (ks : list (string * num * string)) (s : nat) ws :
  let ws' :=
    foldl (λ ws (ik : nat * (string * num * string)),
             let ws := update ik.1 1 (set_value (VStr ik.2.1.1)) ws in
             let ws := update ik.1 2 (set_value (VNum ik.2.1.2)) ws in
             let ws := update ik.1 2 (set_number_format ik.2.2) ws in
             update ik.1 2 (set_alignment number_alignment) ws)
      ws (enumerate s ks) in
  (∀ j l v f, ks !! j = Some (l, v, f) →
     cell_at ws' (s + j) 1 = set_value (VStr l) (cell_at ws (s + j) 1) ∧
     cell_at ws' (s + j) 2
     = set_alignment number_alignment
         (set_number_format f (set_value (VNum v) (cell_at ws (s + j) 2)))) ∧
  (∀ R C, ¬ ((s ≤ R < s + length ks)%nat ∧ (1 ≤ C ≤ 2)%nat) → cell_at ws' R C = cell_at ws R C) ∧
  furniture ws' = furniture ws.
Proof.
  revert s ws. induction ks as [|[[l0 v0] f0] ks IH]; intros s ws ws'; subst ws'.
  - split; [done|]. by split.
  - rewrite enumerate_cons.
    change (foldl ?f ws ((s, (l0, v0, f0)) :: ?l)) with (foldl f (f ws (s, (l0, v0, f0))) l).
    match goal with
    | |- context [foldl ?f (?f' ws (s, (l0, v0, f0))) _] => set (w1 := f' ws (s, (l0, v0, f0)))
    end.
    assert (∀ R C, cell_at w1 R C
                   = if decide ((s, 1%nat) = (R, C)) then set_value (VStr l0) (cell_at ws s 1)
                     else if decide ((s, 2%nat) = (R, C))
                          then set_alignment number_alignment
                                 (set_number_format f0 (set_value (VNum v0) (cell_at ws s 2)))
                          else cell_at ws R C) as Hw1.
    { intros R C. subst w1. cbv beta zeta. cbn [fst snd]. rewrite !cell_at_update.
      repeat case_decide; by simplify_eq. }
    assert (furniture w1 = furniture ws) as Hfu1 by done.
    clearbody w1. destruct (IH (S s) w1) as (Hc & Hf & Hfu). split; [|split].
    + intros [|j] l v f Hj.
      * injection Hj as <- <- <-. rewrite Nat.add_0_r. rewrite !Hf by lia.
        rewrite !Hw1. repeat case_decide; by simplify_eq.
      * replace (s + S j)%nat with (S s + j)%nat by lia.
        destruct (Hc j l v f Hj) as [-> ->]. rewrite !Hw1.
        by rewrite !decide_False by (intros [= ?]; lia).
    + intros R C HRC. cbn [length] in HRC. rewrite Hf by lia.
      rewrite Hw1. by rewrite !decide_False by (intros [= <- <-]; lia).
    + by rewrite Hfu.
Qed.

Lemma kpis_daily L df dd :
  ExcelExport.prepare_daily L df = Ok dd →
  kpis df dd.2 = if bool_decide (rows df = []) then Raise ZeroDivisionError
                 else Ok (kpi_table L df).
Proof.
  intros [_ ->]%excel_daily_tabulate. unfold kpis, sum_div.
  rewrite (numeric_tabulate _ _ _ "Orders" (day_sum L df "Orders")),
    (numeric_tabulate _ _ _ "Gross sales" (day_sum L df "Gross sales")),
    (numeric_tabulate _ _ _ "Net sales" (day_sum L df "Net sales")),
    (numeric_tabulate _ _ _ "Gross profit" (day_sum L df "Gross profit")),
    (numeric_tabulate _ _ _ "Quantity ordered" (day_sum L df "Quantity ordered"));
    [|compute_done || (intros; rewrite !decide_False by done; by apply per_day_measure)..].
  cbn [mbind result_bind]. by destruct (bool_decide (rows df = [])).
Qed.

Lemma days_of_rows L df : days_of L df ≠ [] → rows df ≠ [].
Proof. intros Hd Hr. apply Hd. unfold days_of. by rewrite Hr. Qed.

Lemma daily_frame L df dd :
  ExcelExport.prepare_daily L df = Ok dd →
  ∃ rows0, dd.2 = Frame daily_columns rows0 ∧ length rows0 = length (days_of L df) ∧
    (∀ k d, days_of L df !! k = Some d →
       ∃ r, rows0 !! k = Some r ∧ cell r 0 = VDate d ∧
            row_value dd.2 r "Orders" = VNum (day_sum L df "Orders" d) ∧
            row_value dd.2 r "Gross sales" = VNum (day_sum L df "Gross sales" d)) ∧
    Forall (λ r, is_date (cell r 0)) rows0.
Proof.
  intros [_ ->]%excel_daily_tabulate. eexists. split; [reflexivity|].
  split; [by rewrite length_fmap|]. split.
  - intros k d Hk. eexists. split; [by rewrite list_lookup_fmap, Hk|]. by repeat split.
  - apply Forall_fmap. by apply Forall_true.
Qed.


Lemma cell_at_set_column_width c w ws R C :
  cell_at (set_column_width c w ws) R C = cell_at ws R C.
Proof. done. Qed.

Lemma summary_sheet_spec L df daily (ks : list (string * num * string)) :
  kpis df daily = Ok ks →
  ∃ ws, summary_sheet L df daily = Ok ws ∧
    (∀ j l v f, ks !! j = Some (l, v, f) →
       cell_at ws (5 + j) 1 = set_value (VStr l) blank ∧
       cell_at ws (5 + j) 2
       = set_alignment number_alignment (set_number_format f (set_value (VNum v) blank))) ∧
    value (cell_at ws 1 1) = VStr "BUILT DIFFERENT - November 2025 Report" ∧
    value (cell_at ws 2 1) = VStr ("Generated: " +:+ today L) ∧
    value (cell_at ws 4 1) = VStr "Key Performance Indicators" ∧
    merged_cells ws = [(1, 1, 1, 5)%nat] ∧
    column_width ws !! 1%nat = Some 25 ∧ column_width ws !! 2%nat = Some 18 ∧
    chart_part ws = (∅, []).
Proof.
  intros Hk. unfold summary_sheet. cbv zeta. rewrite Hk. cbn [mbind result_bind].
  eexists. split; [reflexivity|].
  set (wa := update 4 1 _ (update 2 1 _ (merge_cells 1 1 1 5 (update 1 1 _ (new_sheet _))))).
  assert (∀ R C, (5 ≤ R)%nat → cell_at wa R C = blank) as Hblank.
  { intros R C HR. subst wa. rewrite !cell_at_update.
    rewrite !decide_False by (intros [= ? ?]; lia).
    rewrite cell_at_merge_cells. rewrite decide_False by (intros [[? ?] _]; lia).
    by rewrite cell_at_update, decide_False by (intros [= ? ?]; lia). }
  assert (value (cell_at wa 1 1) = VStr "BUILT DIFFERENT - November 2025 Report" ∧
          value (cell_at wa 2 1) = VStr ("Generated: " +:+ today L) ∧
          value (cell_at wa 4 1) = VStr "Key Performance Indicators") as (H1 & H2 & H4).
  { subst wa. split; [|split];
      repeat (rewrite cell_at_update;
              first [rewrite decide_True by done|rewrite decide_False by (intros [= ? ?]; lia)]);
      [|done..].
    rewrite cell_at_merge_cells. rewrite decide_False by (intros [_ ?]; done).
    by rewrite cell_at_update, decide_True. }
  assert (merged_cells wa = [(1, 1, 1, 5)%nat] ∧ chart_part wa = (∅, []) ) as (Hm & Hcp).
  { subst wa. cbn [merged_cells update with_cells].
    destruct (merge_cells_rest 1 1 1 5
                (update 1 1 (set_value (VStr "BUILT DIFFERENT - November 2025 Report"))
                   (new_sheet "Executive Summary"))) as (Hmm & _ & _ & Hhh & Hcc & _).
    unfold chart_part. cbn [column_hidden charts update with_cells]. by rewrite Hmm, Hhh, Hcc. }
  clearbody wa.
  destruct (kpi_loop_spec ks 5 wa) as (Hc & Hf & Hfu).
  apply furniture_eq in Hfu as (_ & Hm1 & _ & _ & Hh1 & Hc1).
  cbv zeta in Hc, Hf, Hm1, Hh1, Hc1.
  unfold chart_part in Hcp. injection Hcp as Hha Hca.
  cbn [merged_cells set_column_width column_width].
  split; [|split; [|split; [|split; [|split; [|split; [|split]]]]]].
  - intros j l v f Hj. rewrite !cell_at_set_column_width.
    destruct (Hc j l v f Hj) as [-> ->]. by rewrite !Hblank by lia.
  - rewrite !cell_at_set_column_width. by rewrite Hf by lia.
  - rewrite !cell_at_set_column_width. by rewrite Hf by lia.
  - rewrite !cell_at_set_column_width. by rewrite Hf by lia.
  - by rewrite Hm1.
  - by rewrite lookup_insert_ne, lookup_insert_eq.
  - by rewrite lookup_insert_eq.
  - unfold chart_part. cbn [column_hidden charts set_column_width]. by rewrite Hh1, Hc1, Hha, Hca.
Qed.


(** ** What a cell of a data row holds *)
Lemma laid_spec layout df r (c : nat) (column fmt : string) old :
  NoDup layout.*1.*1 → (c, column, fmt) ∈ layout →
  laid layout df r c old = set_number_format fmt (put (row_value df r column) old).
Proof.
  unfold laid. induction layout as [|[[c0 col0] fmt0] layout IH]; intros Hnd Hin.
  - by apply elem_of_nil in Hin.
  - cbn [fmap list_fmap fst] in Hnd. apply NoDup_cons in Hnd as [Hnot Hnd].
    cbn [list_find fst]. apply elem_of_cons in Hin as [[= -> -> ->]|Hin].
    + by rewrite decide_True.
    + rewrite decide_False.
      * specialize (IH Hnd Hin).
        destruct (list_find (λ e : nat * string * string, e.1.1 = c) layout)
          as [[i [[c1 col1] fmt1]]|]; exact IH.
      * intros ->. apply Hnot. apply list_elem_of_fmap. exists (c, column).
        split; [done|]. apply list_elem_of_fmap. by exists (c, column, fmt).
Qed.

Lemma value_put_blank v : value (put v blank) = v.
Proof. by destruct v. Qed.

Lemma derive_columns name a b f df df' :
  Daily.derive name a b f df = Ok df' →
  columns df' = if decide (name ∈ columns df) then columns df else columns df ++ [name].
Proof.
  unfold Daily.derive. intros (x & _ & H)%bind_Ok. apply bind_Ok in H as (y & _ & [= <-]).
  apply columns_set_column.
Qed.

Lemma prepare_customers_columns df cs :
  ExcelExport.prepare_customers df = Ok cs → columns cs = customer_columns.
Proof.
  unfold ExcelExport.prepare_customers. intros (c0 & H0 & H)%bind_Ok.
  apply bind_Ok in H as (c1 & H1 & H). apply bind_Ok in H as (orders & _ & H).
  apply bind_Ok in H as (c2 & H2 & H). apply bind_Ok in H as (gross & _ & H).
  assert (columns c0 = ["New or returning customer"; "Orders"; "Gross sales"; "Net sales";
                        "Gross profit"]) as E0.
  { unfold groupby_label, groupby_sum in H0. apply bind_Ok in H0 as (k & _ & H0).
    apply bind_Ok in H0 as (x & _ & H0). apply bind_Ok in H0 as (y & _ & H0).
    by injection H0 as <-. }
  apply derive_columns in H1. rewrite E0 in H1.
  apply derive_columns in H2. rewrite H1 in H2.
  apply derive_columns in H. rewrite H2 in H. exact H.
Qed.

(** X26: for the per-day table of the script, the 'Daily Data' sheet stops
    with [TypeError] at its conditional formatting when the table has no
    day, the range I2:I1 being refused, and is written without a failure
    when it has one; under each header it then holds, for every day,
    the column of the per-day table that the header names, with the number
    format of the column, the date printed as year, month and day: the
    positional fields [_3], [_5], [_6], [_7], [_9] and [_10] of the tuples
    are the columns 'Gross sales', 'Net sales', 'Gross profit', 'Quantity
    ordered', 'Gross Margin %' and 'Discount Rate %'. *)
Theorem daily_sheet_cells (L : Library) (date_text : string → Z → string)
    (df : DataFrame) (dd : DataFrame * DataFrame) :
  ExcelExport.prepare_daily L df = Ok dd →
  (days_of L df = [] → daily_sheet date_text dd.2 = Raise TypeError) ∧
  (days_of L df ≠ [] →
   ∃ ws, daily_sheet date_text dd.2 = Ok ws ∧
     (∀ j h, daily_headers !! j = Some h → value (cell_at ws 1 (1 + j)) = VStr h) ∧
     (∀ k d, days_of L df !! k = Some d →
        value (cell_at ws (2 + k) 1) = VStr (date_text "%Y-%m-%d" d)) ∧
     (∀ k r c column fmt, rows dd.2 !! k = Some r → (c, column, fmt) ∈ daily_layout →
        value (cell_at ws (2 + k) c) = row_value dd.2 r column ∧
        Openpyxl.number_format (cell_at ws (2 + k) c) = fmt)).
Proof.
  intros Hp. destruct (daily_frame L df dd Hp) as (rows0 & Hdd & Hlen & Hdays & Hdates).
  rewrite Hdd. split.
  { intros Hd. rewrite Hd in Hlen. destruct rows0; [|done]. reflexivity. }
  intros Hd.
  assert (rows0 ≠ []) as Hne.
  { intros ->. apply Hd. by destruct (days_of L df). }
  destruct (daily_sheet_spec date_text rows0 Hdates Hne) as (ws & Hws & Hh & Hc & _).
  exists ws. split; [exact Hws|]. split; [|split].
  - intros j h Hj. by rewrite (Hh j h Hj).
  - intros k d Hk. destruct (Hdays k d Hk) as (r & Hr & Hcell & _).
    rewrite (Hc k r 1%nat Hr) by lia. unfold daily_cell, banded. rewrite decide_True by done.
    cbn [snd]. rewrite Hcell. by destruct (Nat.even (2 + k)).
  - intros k r c column fmt Hr Hin. cbn [rows] in Hr.
    assert ((2 ≤ c ≤ 10)%nat) as Hc10.
    { revert Hin. unfold daily_layout. rewrite !elem_of_cons, elem_of_nil.
      intros [E|[E|[E|[E|[E|[E|[E|[E|[E|[]]]]]]]]]]; injection E as -> _ _; lia. }
    rewrite (Hc k r c Hr) by lia. unfold daily_cell, banded.
    rewrite decide_False by lia. cbn [snd].
    rewrite (laid_spec daily_layout _ r c column fmt blank) by (compute_done || done).
    destruct (Nat.even (2 + k)); cbn; by rewrite value_put_blank.
Qed.

Lemma daily_sheet_cells_witness :
  (∃ dd, ExcelExport.prepare_daily plain sample_undated = Ok dd ∧
     daily_sheet sample_date_text dd.2 = Raise TypeError) ∧
  (∃ dd, ExcelExport.prepare_daily plain sample_daily = Ok dd ∧
     ∃ ws, daily_sheet sample_date_text dd.2 = Ok ws ∧
       (∀ j h, daily_headers !! j = Some h → value (cell_at ws 1 (1 + j)) = VStr h) ∧
       (∀ k d, days_of plain sample_daily !! k = Some d →
          value (cell_at ws (2 + k) 1) = VStr (sample_date_text "%Y-%m-%d" d)) ∧
       (∀ k r c column fmt, rows dd.2 !! k = Some r → (c, column, fmt) ∈ daily_layout →
          value (cell_at ws (2 + k) c) = row_value dd.2 r column ∧
          Openpyxl.number_format (cell_at ws (2 + k) c) = fmt)).
Proof.
  split.
  - destruct (is_ok_Ok (ExcelExport.prepare_daily plain sample_undated)) as [dd E];
      [by vm_compute|].
    exists dd. split; [exact E|].
    apply (proj1 (daily_sheet_cells plain sample_date_text sample_undated dd E)).
    by vm_compute.
  - destruct (is_ok_Ok (ExcelExport.prepare_daily plain sample_daily)) as [dd E];
      [by vm_compute|].
    exists dd. split; [exact E|].
    apply (proj2 (daily_sheet_cells plain sample_date_text sample_daily dd E)).
    by vm_compute.
Defined.

(** X27: in the 'Daily Data' sheet every cell of a data row has the thin
    border, the cells of the even rows of the sheet, and only they, have
    the alternating fill, the header cells have the header fill, the
    centred wrapping alignment and the border, and no cell outside the
    header row and the data rows, columns A to J, is touched; the sheet
    has no merged range, no chart and no hidden column. *)
Theorem daily_sheet_style (L : Library) (date_text : string → Z → string)
    (df : DataFrame) (dd : DataFrame * DataFrame) (ws : Worksheet) :
  ExcelExport.prepare_daily L df = Ok dd → daily_sheet date_text dd.2 = Ok ws →
  (∀ k C, (k < len dd.2)%nat → (1 ≤ C ≤ 10)%nat →
     border (cell_at ws (2 + k) C) = Some thin ∧
     fill (cell_at ws (2 + k) C) = (if Nat.even k then Some alt_fill else None)) ∧
  (∀ C, (1 ≤ C ≤ 10)%nat →
     fill (cell_at ws 1 C) = Some header_fill ∧
     alignment (cell_at ws 1 C) = Some header_alignment ∧
     border (cell_at ws 1 C) = Some thin) ∧
  (∀ R C, ¬ ((1 ≤ R ≤ 1 + len dd.2)%nat ∧ (1 ≤ C ≤ 10)%nat) → cell_at ws R C = blank) ∧
  merged_cells ws = [] ∧ charts ws = [] ∧ column_hidden ws = ∅.
Proof.
  intros Hp Hws. destruct (daily_frame L df dd Hp) as (rows0 & Hdd & Hlen & Hdays & Hdates).
  rewrite Hdd in Hws |- *.
  assert (rows0 ≠ []) as Hne by (by intros ->).
  destruct (daily_sheet_spec date_text rows0 Hdates Hne)
    as (ws' & Hws' & Hh & Hc & Hf & Hm & Hcp).
  rewrite Hws' in Hws. injection Hws as ->. unfold len. cbn [rows].
  split; [|split; [|split; [|split; [|split]]]].
  - intros k C Hk HC. destruct (lookup_lt_is_Some_2 rows0 k Hk) as [r Hr].
    rewrite (Hc k r C Hr HC). unfold daily_cell, banded.
    change (Nat.even (2 + k)) with (Nat.even k).
    destruct (decide (C = 1%nat)) as [->|HC1].
    + destruct (Nat.even k); by destruct (date_cell date_text "%Y-%m-%d" (cell (k, r).2 0)).
    + unfold laid.
      destruct (list_find (λ e : nat * string * string, e.1.1 = C) daily_layout)
        as [[i [[c1 col1] fmt1]]|]; [|by destruct (Nat.even k)].
      destruct (Nat.even k); by destruct (row_value (Frame daily_columns rows0) (k, r).2 col1).
  - intros C HC. destruct (lookup_lt_is_Some_2 daily_headers (C - 1)) as [h Hj]; [cbn; lia|].
    pose proof (Hh (C - 1)%nat h Hj) as E.
    replace (1 + (C - 1))%nat with C in E by lia. by rewrite E.
  - exact Hf.
  - exact Hm.
  - exact (f_equal snd Hcp).
  - exact (f_equal fst Hcp).
Qed.

Lemma daily_sheet_style_witness :
  ∃ dd ws, ExcelExport.prepare_daily plain sample_daily = Ok dd ∧
    daily_sheet sample_date_text dd.2 = Ok ws ∧
    (∀ k C, (k < len dd.2)%nat → (1 ≤ C ≤ 10)%nat →
       border (cell_at ws (2 + k) C) = Some thin ∧
       fill (cell_at ws (2 + k) C) = (if Nat.even k then Some alt_fill else None)).
Proof.
  destruct (is_ok_Ok (ExcelExport.prepare_daily plain sample_daily)) as [dd E]; [by vm_compute|].
  destruct (is_ok_Ok (daily_sheet sample_date_text dd.2)) as [ws Hws].
  { vm_compute in E. injection E as <-. by vm_compute. }
  exists dd, ws. split; [exact E|]. split; [exact Hws|].
  exact (proj1 (daily_sheet_style plain sample_date_text sample_daily dd ws E Hws)).
Defined.








End ExcelSheetFacts.

Module RunFacts.
Import Py Pandas Openpyxl SalesReport Scripts Vocabulary Notions ReportNotions.
Import PyFacts PandasFacts SheetFacts PeriodFacts HelperFacts TableWriterFacts FrameFacts
  ReportFacts ScriptFacts DerivedFacts.

(** ** Reading a selection of columns *)
Lemma select_Ok df names :
  Forall (λ c, c ∈ columns df) names →
  select df names = Ok (Frame names ((λ r, row_value df r <$> names) <$> rows df)).
Proof.
  intros Hn.
  assert (∃ idx, mapM (col_index df) names = Ok idx) as [idx Hidx].
  { induction Hn as [|c names Hc _ [idx IH]]; [by exists []|].
    apply col_index_elem in Hc as [i Hi]. exists (i :: idx). cbn. by rewrite Hi, IH. }
  assert (select df names = Ok (Frame names ((λ r, cell r <$> idx) <$> rows df))) as Hs
    by (unfold select; by rewrite Hidx).
  rewrite Hs. f_equal. by apply select_spec in Hs as [_ ?].
Qed.

Lemma column_row_value df key :
  key ∈ columns df → column df key = Ok ((λ r, row_value df r key) <$> rows df).
Proof.
  intros [i Hi]%col_index_elem. unfold column, row_value. by rewrite Hi.
Qed.

Lemma column_selected df names key :
  NoDup names → key ∈ names →
  column (Frame names ((λ r, row_value df r <$> names) <$> rows df)) key
  = Ok ((λ r, row_value df r key) <$> rows df).
Proof.
  intros Hnd [j Hj]%list_elem_of_lookup. unfold column.
  rewrite (col_index_NoDup (Frame names _) j key Hnd Hj). cbn [mbind result_bind rows].
  f_equal. rewrite <- list_fmap_compose. apply list_fmap_ext. intros _ r _.
  unfold compose, cell. by rewrite list_lookup_fmap, Hj.
Qed.

Lemma numeric_selected df names key :
  NoDup names → key ∈ names → key ∈ columns df →
  numeric (Frame names ((λ r, row_value df r <$> names) <$> rows df)) key = numeric df key.
Proof.
  intros Hnd Hk Hc. unfold numeric.
  by rewrite column_selected, column_row_value.
Qed.

(** ** The sheets of the sales report are written without a failure *)
Lemma best_Ok d name fallback :
  name ∈ columns d → ∃ v, best d name fallback = Ok v.
Proof.
  intros [i Hi]%col_index_elem. unfold best, row_get. rewrite Hi.
  destruct (rows d); by eexists.
Qed.

Lemma table_and_charts_Ok ws d (start : nat) (chart_row : nat) (n : nat)
    (cols : list (nat * string)) :
  Forall (λ cn : nat * string, cn.2 ∈ columns d) cols → NoDup cols.*1 →
  ∃ ws1 ws2,
    write_data_table ws d start None = Ok (ws1, (start + len d + 1)%nat) ∧
    chart_cells (head n d) chart_row cols ws1 = Ok ws2.
Proof.
  intros Hcols Hnd.
  destruct (write_data_table_spec ws d start (columns d)) as (ws1 & H1 & _).
  { by apply Forall_forall. }
  destruct (chart_cells_spec (head n d) chart_row cols ws1 Hcols Hnd) as (ws2 & H2 & _).
  by exists ws1, ws2.
Qed.

Lemma period_sheet_Ok L df tag sheet_name heading commentary :
  NoDup (period_source tag) →
  Forall (λ c, c ∈ columns df) (period_source tag) →
  is_ok (numeric df (tag +:+ " Units")) = true →
  ∃ ws, period_sheet L df tag sheet_name heading commentary = Ok ws.
Proof.
  intros Hnd Hcols [keys Hkeys]%is_ok_Ok.
  unfold period_sheet. cbv zeta.
  generalize (add_title heading 1 7 (fill_background 60 12 (new_sheet sheet_name))).
  intros ws0. unfold period_frame. fold (period_source tag).
  rewrite (select_Ok df (period_source tag) Hcols). cbn [mbind result_bind].
  unfold sort_values_desc.
  rewrite numeric_selected, Hkeys;
    [|done|unfold period_source; set_solver|
     rewrite Forall_forall in Hcols; apply Hcols; unfold period_source; set_solver].
  cbn [mbind result_bind columns rows]. unfold rename. cbn [columns].
  rewrite decide_True by done. cbn [mbind result_bind].
  match goal with
  | |- context [write_data_table ws0 ?d0 3 None] => set (d := d0)
  end.
  destruct (table_and_charts_Ok ws0 d 3 3 10
              [(9, "Size"); (10, "Units"); (11, "Gross Sales"); (12, "Net Sales")]%nat)
    as (ws1 & ws2 & H1 & H2); [by compute_done|by compute_done|].
  rewrite H1. cbn [mbind result_bind fst snd]. rewrite H2. cbn [mbind result_bind].
  destruct (best_Ok d "Size" (VStr "N/A")) as [v1 Hv1]; [compute_done|].
  destruct (best_Ok d "Units" (VNum (of_int 0))) as [v2 Hv2]; [compute_done|].
  rewrite Hv1. cbn [mbind result_bind]. rewrite Hv2. cbn [mbind result_bind].
  by eexists.
Qed.

Definition comparison_source : list string :=
  ["Size"; "7D Units"; "7D Sales"; "30D Units"; "30D Sales"; "90D Units"; "90D Sales"].

Lemma comparison_sheet_Ok L df m :
  Forall (λ c, c ∈ columns df) comparison_source →
  is_ok (numeric df "90D Units") = true →
  ∃ ws, comparison_sheet L df m = Ok ws.
Proof.
  intros Hcols [keys Hkeys]%is_ok_Ok.
  unfold comparison_sheet. cbv zeta.
  generalize (add_title "PERIOD COMPARISON ANALYSIS" 1 10
                (fill_background 60 15 (new_sheet "Period Comparison"))).
  intros ws0. fold comparison_source.
  rewrite (select_Ok df comparison_source Hcols). cbn [mbind result_bind].
  unfold sort_values_desc.
  rewrite numeric_selected, Hkeys;
    [|compute_done|compute_done|rewrite Forall_forall in Hcols; apply Hcols; compute_done].
  cbn [mbind result_bind columns rows].
  match goal with
  | |- context [write_data_table ws0 ?d0 3 None] => set (d := d0)
  end.
  destruct (table_and_charts_Ok ws0 d 3 3 8
              [(11, "Size"); (12, "7D Units"); (13, "30D Units"); (14, "90D Units")]%nat)
    as (ws1 & ws2 & H1 & H2); [by compute_done|by compute_done|].
  rewrite H1. cbn [mbind result_bind fst snd]. rewrite H2. cbn [mbind result_bind].
  by eexists.
Qed.

(** ** A table of sales figures *)
Lemma sales_table_inv df :
  sales_table df = true →
  wf df ∧ rows df ≠ [] ∧
  (∃ skus, column df "SKU" = Ok skus ∧ Forall (λ v, is_text v = true) skus) ∧
  ∀ c, c ∈ figures → ∃ xs, numeric df c = Ok xs.
Proof.
  unfold sales_table. rewrite !andb_true_iff.
  intros [[[[[_ Hwf] Hne] _] Hsku] Hfig].
  split; [|split; [|split]].
  - unfold wf. apply Forall_forall. intros r Hr.
    rewrite forallb_forall in Hwf. apply Nat.eqb_eq, Hwf. by apply list_elem_of_In.
  - by apply bool_decide_eq_true in Hne.
  - destruct (column df "SKU") as [skus|] eqn:E; [|done]. exists skus. split; [done|].
    apply Forall_forall. intros v Hv. rewrite forallb_forall in Hsku.
    by apply Hsku, list_elem_of_In.
  - intros c Hc. rewrite forallb_forall in Hfig.
    specialize (Hfig c (proj1 (list_elem_of_In _ _) Hc)).
    unfold numeric. destruct (column df c) as [cells|] eqn:E; [|done].
    cbn [mbind result_bind]. clear E.
    induction cells as [|v cells IH]; [by exists []|].
    cbn [forallb] in Hfig. apply andb_true_iff in Hfig as [Hv Hrest].
    destruct (IH Hrest) as [xs Hxs]. destruct v as [x| | |]; try done.
    exists (x :: xs). cbn. by rewrite Hxs.
Qed.

Lemma str_accessor_texts skus :
  skus ≠ [] → Forall (λ v, is_text v = true) skus → str_accessor skus = Ok skus.
Proof.
  intros Hne Ht. unfold str_accessor. destruct Ht as [|v skus Hv _]; [done|].
  destruct v; try done.
Qed.

Lemma top_seller_Ok df units u sizes :
  numeric df units = Ok u → column df "Size" = Ok sizes →
  ∃ v, top_seller df units (nansum u) = Ok v.
Proof.
  intros Hu Hs. unfold top_seller.
  destruct (num_gtb (nansum u) (of_int 0)) eqn:Hpos; [|by eexists].
  rewrite Hu, Hs. cbn [mbind result_bind].
  destruct (idxmax u) as [i|e] eqn:Hi.
  - destruct (idxmax_Ok u i Hi) as [x (Hx & _)]. cbn [mbind result_bind].
    apply lookup_lt_Some in Hx.
    rewrite (length_numeric _ _ _ Hu), <- (length_column _ _ _ Hs) in Hx.
    destruct (lookup_lt_is_Some_2 sizes i Hx) as [size Hsize].
    exists size. unfold iloc. by rewrite Hsize.
  - apply idxmax_Raise in Hi as [_ Hnan]. rewrite (nansum_all_nan u Hnan) in Hpos.
    by vm_compute in Hpos.
Qed.

Lemma first_or_Ok df name fallback :
  rows df ≠ [] → ∃ v, first_or df name fallback = Ok v.
Proof.
  intros Hne. unfold first_or, has_column. case_bool_decide as Hin; [|by eexists].
  rewrite (column_row_value df name Hin). cbn [mbind result_bind].
  destruct (rows df) as [|r rs]; [done|]. by eexists.
Qed.

(** On a table of sales figures the report is built without a failure. *)
Lemma report_Ok L df : sales_table df = true → ∃ wb, report L df = Ok wb.
Proof.
  intros (Hwf & Hne & (skus & Hsku & Htext) & Hfig)%sales_table_inv.
  assert (length skus = len df) as Hlen by (by eapply length_column).
  assert (skus ≠ []) as Hskus.
  { intros ->. apply Hne. unfold len in Hlen. by destruct (rows df). }
  unfold report, add_size. rewrite Hsku. cbn [mbind result_bind].
  rewrite (str_accessor_texts skus Hskus Htext). cbn [mbind result_bind].
  set (df' := set_column df "Size" (size_of L <$> skus)).
  assert (length (size_of L <$> skus) = len df) as Hlen' by (by rewrite length_fmap).
  assert (∀ c, c ∈ figures → ∃ xs, numeric df' c = Ok xs ∧ c ∈ columns df') as Hnum.
  { intros c Hc. destruct (Hfig c Hc) as [xs Hxs]. exists xs. split.
    - subst df'. rewrite numeric_set_column_ne; [done..|].
      intros ->. revert Hc. compute_done.
    - apply elem_of_columns_set_column. right. by eapply numeric_elem. }
  assert (column df' "Size" = Ok (size_of L <$> skus)) as Hsize
    by (by apply column_set_column_eq).
  assert ("Size" ∈ columns df') as Hsz by (apply elem_of_columns_set_column; by left).
  assert (rows df' ≠ []) as Hne'.
  { assert (len df' = len df) as E by (by apply len_set_column).
    unfold len in E. intros E'. rewrite E' in E. by destruct (rows df). }
  clearbody df'.
  unfold key_metrics.
  repeat match goal with
         | |- context [numeric df' ?c] =>
             let xs := fresh "xs" in let H := fresh "Hx" in let Hc := fresh "Hc" in
             destruct (Hnum c) as (xs & H & Hc); [compute_done|];
             rewrite H; cbn [mbind result_bind]
         end.
  cbn [total_7d_units total_30d_units total_90d_units].
  match goal with
  | H : numeric df' "7D Units" = Ok ?u |- _ =>
      destruct (top_seller_Ok df' "7D Units" u _ H Hsize) as [t7 ->]
  end.
  cbn [mbind result_bind].
  match goal with
  | H : numeric df' "30D Units" = Ok ?u |- _ =>
      destruct (top_seller_Ok df' "30D Units" u _ H Hsize) as [t30 ->]
  end.
  cbn [mbind result_bind].
  match goal with
  | H : numeric df' "90D Units" = Ok ?u |- _ =>
      destruct (top_seller_Ok df' "90D Units" u _ H Hsize) as [t90 ->]
  end.
  cbn [mbind result_bind].
  destruct (first_or_Ok df' "Product Name" "Product" Hne') as [pn ->].
  cbn [mbind result_bind].
  destruct (first_or_Ok df' "Category" "Category" Hne') as [cat ->].
  cbn [mbind result_bind].
  destruct (first_or_Ok df' "Color" "Color" Hne') as [col ->].
  cbn [mbind result_bind].
  match goal with
  | |- context [sheet_7d L df' ?m0] => generalize m0
  end.
  intros m.
  assert (∀ c, c ∈ "Size" :: figures → c ∈ columns df') as Hin.
  { intros c [->|Hc']%elem_of_cons; [done|]. by destruct (Hnum c Hc') as (? & _ & ?). }
  assert (∀ names, Forall (λ c, c ∈ "Size" :: figures) names →
                   Forall (λ c, c ∈ columns df') names) as Hall.
  { intros names Hn. eapply Forall_impl; [exact Hn|exact Hin]. }
  assert (∀ c, c ∈ figures → is_ok (numeric df' c) = true) as Hok.
  { intros c Hc'. by destruct (Hnum c Hc') as (? & -> & _). }
  destruct (period_sheet_Ok L df' "7D" "7-Day Performance" "7-DAY PERFORMANCE ANALYSIS"
              (commentary_7d L m)) as [s2 H2];
    [compute_done|apply Hall; compute_done|
     apply Hok; compute_done|].
  destruct (period_sheet_Ok L df' "30D" "30-Day Performance" "30-DAY PERFORMANCE ANALYSIS"
              (commentary_30d L m)) as [s3 H3];
    [compute_done|apply Hall; compute_done|
     apply Hok; compute_done|].
  destruct (period_sheet_Ok L df' "90D" "90-Day Performance" "90-DAY PERFORMANCE ANALYSIS"
              (commentary_90d L m)) as [s4 H4];
    [compute_done|apply Hall; compute_done|
     apply Hok; compute_done|].
  destruct (comparison_sheet_Ok L df' m) as [s5 H5];
    [apply Hall; compute_done|
     apply Hok; compute_done|].
  unfold sheet_7d, sheet_30d, sheet_90d. rewrite H2, H3, H4, H5. cbn [mbind result_bind].
  by eexists.
Qed.


(** ** Tables without rows *)
Lemma filter_none {A} (f : A → bool) (l : list A) : (∀ x, f x = false) → List.filter f l = [].
Proof. intros Hf. induction l as [|x l IH]; [done|]. cbn. by rewrite Hf. Qed.

Lemma numeric_cols_no_rows df : rows df = [] → StyledAnalysis.numeric_cols df = [].
Proof.
  intros Hr. unfold StyledAnalysis.numeric_cols. apply filter_none. intros name.
  unfold column. destruct (col_index df name); [|done]. cbn. by rewrite Hr.
Qed.

Lemma no_rows_raises s L df :
  rows df = [] → s ≠ SalesAnalysisExcelReport →
  ∃ e, outcome (run s L df) = Raise e ∧ written (run s L df) = [].
Proof.
  intros Hr Hs. destruct s; [| | | |done]; unfold run.
  - unfold ChartsExample.main, outcome, written, mbind, run_bind, lift.
    destruct (ChartsExample.prepare L df) as [dd|e]; cbn [fst snd]; [|by exists e].
    rewrite bool_decide_eq_true_2 by done. by exists TypeError.
  - unfold PdfReport.main, outcome, written, mbind, run_bind, lift.
    destruct (PdfReport.prepare L df) as [r|e] eqn:E; cbn [fst snd]; [|by exists e].
    by apply pdf_prepare_rows in E.
  - unfold ExcelExport.main, outcome, written, mbind, run_bind, lift.
    destruct (ExcelExport.prepare_daily L df) as [dd|e]; cbn [fst snd]; [|by exists e].
    destruct (ExcelExport.prepare_customers dd.1) as [cs|e]; cbn [fst snd app];
      [|by exists e].
    destruct (ExcelExport.kpi_aov df dd.2) as [a|e] eqn:E; cbn [fst snd app];
      [exfalso|by exists e].
    unfold ExcelExport.kpi_aov in E. do 2 (apply bind_Ok in E as (? & _ & E)).
    unfold sum_div in E. by rewrite bool_decide_eq_true_2 in E.
  - unfold StyledAnalysis.main, outcome, written, mbind, run_bind, raise.
    rewrite numeric_cols_no_rows by done. by exists ValueError.
Qed.



End RunFacts.
